(** * GEOMqm9: the dataset adapter of datasets/geom_qm9_dataset.py

    A shallow embedding of the [GEOMqm9] class: the one-time ETL pass
    [process], the constructor [__init__], the memoised [get_pairwise],
    and the per-item assembly [__getitem__] / [data_by_type].

    Python values are modelled as the code uses them: integers as [Z],
    tensors as (nested) lists of scalars, dictionaries as [gmap]s,
    exceptions as an explicit result type. *)

From stdpp Require Import gmap strings list fin_maps sorting.
From Stdlib Require Import ZArith Lia.

Open Scope string_scope.
Open Scope list_scope.
Open Scope Z_scope.

(** ** Exceptions and the result type *)

Inductive exn :=
  | KeyError (key : string)
  | TypeError
  | AttributeError (name : string)
  | IndexError
  | ZeroDivisionError
  | RuntimeError
  | ValueError
  | FileNotFoundError
  | DGLError
  | Exception (msg : string) (arg : string).

Inductive res (A : Type) :=
  | Ok (a : A)
  | Raise (e : exn).
Arguments Ok {A} a.
Arguments Raise {A} e.

Definition is_Ok {A} (r : res A) : Prop := ∃ a, r = Ok a.
Definition is_Raise {A} (r : res A) : Prop := ∃ e, r = Raise e.

#[global] Instance res_ret : MRet res := λ A a, Ok a.
#[global] Instance res_bind : MBind res := λ A B f m,
  match m with Ok a => f a | Raise e => Raise e end.
#[global] Instance res_fmap : FMap res := λ A B f m,
  match m with Ok a => Ok (f a) | Raise e => Raise e end.

(** ** Python sequences: indexing and slicing *)

Module Py.

(** [range(n)]: empty for [n <= 0]. *)
Definition range (n : Z) : list Z := seqZ 0 n.

(** A slice bound clamped to [0 .. len], negative bounds counting from
    the end. *)
Definition bound (len : nat) (i : Z) : nat :=
  Z.to_nat (if decide (i < 0) then Z.max 0 (i + Z.of_nat len)
            else Z.min i (Z.of_nat len)).

(** [l[a:b]], either bound optional. *)
Definition slice {A} (l : list A) (a b : option Z) : list A :=
  let lo := from_option (bound (length l)) 0%nat a in
  let hi := from_option (bound (length l)) (length l) b in
  take (hi - lo) (drop lo l).
#[global] Arguments slice : simpl never.

(** [l[i]]: negative indices count from the end, anything outside
    raises [IndexError]. *)
Definition index {A} (l : list A) (i : Z) : res A :=
  let j := if decide (i < 0) then i + Z.of_nat (length l) else i in
  if decide (j < 0) then Raise IndexError
  else match l !! Z.to_nat j with
       | Some x => Ok x
       | None => Raise IndexError
       end.

(** [l[i] = x]. *)
Definition set_item {A} (l : list A) (i : Z) (x : A) : res (list A) :=
  let j := if decide (i < 0) then i + Z.of_nat (length l) else i in
  if decide (0 ≤ j < Z.of_nat (length l))
  then Ok (<[Z.to_nat j := x]> l) else Raise IndexError.

(** [d[key]] for a dictionary with string keys. *)
Definition subscript {A} (d : gmap string A) (key : string) : res A :=
  match d !! key with Some x => Ok x | None => Raise (KeyError key) end.

(** [x in l] for a list of strings. *)
Definition contains (x : string) (l : list string) : bool :=
  bool_decide (x ∈ l).

End Py.

(** ** The integer-tensor primitives used by [get_pairwise] *)

Module Torch.

(** [torch.arange(n)]: [0, 1, ..., n-1]; a negative upper bound is
    rejected. *)
Definition arange (n : Z) : res (list Z) :=
  if decide (n < 0) then Raise RuntimeError else Ok (seqZ 0 n).

(** [torch.repeat_interleave(xs, r)]: every element repeated [r] times
    in place; a negative count on a non-empty input is rejected. *)
Definition repeat_interleave (xs : list Z) (r : Z) : res (list Z) :=
  match xs with
  | [] => Ok []
  | _ => if decide (r < 0) then Raise RuntimeError
         else Ok (xs ≫= replicate (Z.to_nat r))
  end.

(** [torch.cat(ts)] of one-dimensional tensors; an empty list of
    tensors is rejected. *)
Definition cat {A} (ts : list (list A)) : res (list A) :=
  match ts with
  | [] => Raise RuntimeError
  | _ => Ok (concat ts)
  end.

End Torch.

(** ** [get_pairwise] and its memo dictionary *)

(** The argument [n_atoms] is a Python [int] or, as in [__getitem__] and
    the constructor, a zero-dimensional tensor.  A tensor hashes by
    object identity, so as a dictionary key it is told apart by its
    object id; an [int] is told apart by its value. *)
Inductive pyint :=
  | PyInt (z : Z)
  | Tensor0 (oid : positive) (z : Z).

Definition pyint_val (n : pyint) : Z :=
  match n with PyInt z => z | Tensor0 _ z => z end.

#[global] Instance pyint_eq_dec : EqDecision pyint.
Proof. solve_decision. Defined.

#[global] Instance pyint_countable : Countable pyint.
Proof.
  refine (inj_countable'
            (λ n, match n with PyInt z => inl z | Tensor0 o z => inr (o, z) end)
            (λ s, match s with inl z => PyInt z | inr (o, z) => Tensor0 o z end) _).
  by intros [].
Defined.

(** The pair [(src, dst)] of index tensors. *)
Definition pairs : Type := list Z * list Z.

(** [self.pairwise], the memo dictionary, is a [gmap pyint pairs]. *)

(** The [else] branch of [get_pairwise]: the computation of [src] and
    [dst] from [n_atoms]. *)
Definition pairwise_compute (n : Z) : res pairs :=
  a ← Torch.arange n;
  src ← Torch.repeat_interleave a (n - 1);
  rows ← mapM (λ idx,
                 a1 ← Torch.arange n;
                 a2 ← Torch.arange n;
                 Torch.cat [Py.slice a1 None (Some idx);
                            Py.slice a2 (Some (idx + 1)) None])
              (Py.range n);
  dst ← Torch.cat rows;
  Ok (src, dst).

(** [get_pairwise(self, n_atoms)]: the result and the memo afterwards. *)
Definition get_pairwise (n : pyint) (m : gmap pyint pairs) : res pairs * gmap pyint pairs :=
  match m !! n with
  | Some p => (Ok p, m)
  | None =>
      match pairwise_compute (pyint_val n) with
      | Ok p => (Ok p, <[n := p]> m)
      | Raise e => (Raise e, m)
      end
  end.

(** A run of calls on the same object, threading the memo. *)
Fixpoint get_pairwise_calls (ns : list pyint) (m : gmap pyint pairs)
  : list (res pairs) * gmap pyint pairs :=
  match ns with
  | [] => ([], m)
  | n :: ns' =>
      let '(r, m1) := get_pairwise n m in
      let '(rs, m2) := get_pairwise_calls ns' m1 in
      (r :: rs, m2)
  end.

(** What the memo holds at any time: results of [pairwise_compute]. *)
Definition memo_inv (m : gmap pyint pairs) : Prop :=
  ∀ k p, m !! k = Some p → pairwise_compute (pyint_val k) = Ok p.

(** The complete directed graph without self loops, as the two index
    sequences read off its definition. *)
Definition complete_src (n : Z) : list Z :=
  seqZ 0 n ≫= λ i, replicate (Z.to_nat (n - 1)) i.
Definition complete_dst (n : Z) : list Z :=
  seqZ 0 n ≫= λ i, filter (λ j, j ≠ i) (seqZ 0 n).

(** ** Tensors

    A tensor is a rectangular array of scalars; the code uses them with
    zero to three dimensions.  A scalar is a [long] or a floating-point
    number; floating-point numbers are kept abstract. *)

Inductive scalar (F : Type) :=
  | SInt (z : Z)
  | SFlt (x : F).
Arguments SInt {F} z.
Arguments SFlt {F} x.

Inductive tensor (F : Type) :=
  | T0 (x : scalar F)
  | T1 (v : list (scalar F))
  | T2 (m : list (list (scalar F)))
  | T3 (c : list (list (list (scalar F)))).
Arguments T0 {F} x.
Arguments T1 {F} v.
Arguments T2 {F} m.
Arguments T3 {F} c.

Module Tensor.
Section ops.
Context {F : Type}.

(** A scalar used as an index or a length. *)
Definition as_int (s : scalar F) : res Z :=
  match s with SInt z => Ok z | SFlt _ => Raise TypeError end.

(** A zero-dimensional [long] tensor used as an index. *)
Definition item (t : tensor F) : res Z :=
  match t with T0 s => as_int s | _ => Raise TypeError end.

(** [len(t)]. *)
Definition len (t : tensor F) : res Z :=
  match t with
  | T0 _ => Raise TypeError
  | T1 v => Ok (Z.of_nat (length v))
  | T2 m => Ok (Z.of_nat (length m))
  | T3 c => Ok (Z.of_nat (length c))
  end.

(** [t[i]]. *)
Definition index (t : tensor F) (i : Z) : res (tensor F) :=
  match t with
  | T0 _ => Raise IndexError
  | T1 v => T0 <$> Py.index v i
  | T2 m => T1 <$> Py.index m i
  | T3 c => T2 <$> Py.index c i
  end.

(** [t[a:b]]. *)
Definition slice (t : tensor F) (a b : option Z) : res (tensor F) :=
  match t with
  | T0 _ => Raise IndexError
  | T1 v => Ok (T1 (Py.slice v a b))
  | T2 m => Ok (T2 (Py.slice m a b))
  | T3 c => Ok (T3 (Py.slice c a b))
  end.

(** [t[:, a:b]]. *)
Definition slice_cols (t : tensor F) (a b : option Z) : res (tensor F) :=
  match t with
  | T0 _ | T1 _ => Raise IndexError
  | T2 m => Ok (T2 ((λ r, Py.slice r a b) <$> m))
  | T3 c => Ok (T3 ((λ r, Py.slice r a b) <$> c))
  end.

(** [v[:, None]] of a one-dimensional tensor given by its elements. *)
Definition column (v : list (scalar F)) : list (list (scalar F)) :=
  (λ x, [x]) <$> v.

(** [torch.cat(ms)] along dimension 0 of two-dimensional tensors: the
    list must not be empty and all rows must have one width. *)
Definition cat0 (ms : list (list (list (scalar F))))
  : res (list (list (scalar F))) :=
  match ms with
  | [] => Raise RuntimeError
  | _ =>
      match concat ms with
      | [] => Ok []
      | r :: rs =>
          if forallb (λ r', bool_decide (length r' = length r)) rs
          then Ok (r :: rs) else Raise RuntimeError
      end
  end.

(** [torch.cat(ms, dim=1)] (for two-dimensional tensors also
    [dim=-1]): the list must not be empty and all tensors must have
    the same number of rows; rows are joined side by side. *)
Definition cat1 (ms : list (list (list (scalar F))))
  : res (list (list (scalar F))) :=
  match ms with
  | [] => Raise RuntimeError
  | m :: ms' =>
      if forallb (λ m', bool_decide (length m' = length m)) ms'
      then Ok (foldl (zip_with app) m ms') else Raise RuntimeError
  end.

(** [torch.cat(ts, dim=-1)] of tensors of any one rank. *)
Definition as_T1 (t : tensor F) : option (list (scalar F)) :=
  match t with T1 v => Some v | _ => None end.
Definition as_T2 (t : tensor F) : option (list (list (scalar F))) :=
  match t with T2 m => Some m | _ => None end.

Definition cat_last (ts : list (tensor F)) : res (tensor F) :=
  match ts with
  | [] => Raise RuntimeError
  | T1 _ :: _ =>
      match mapM as_T1 ts with
      | Some vs => Ok (T1 (concat vs))
      | None => Raise RuntimeError
      end
  | T2 _ :: _ =>
      match mapM as_T2 ts with
      | Some ms => T2 <$> cat1 ms
      | None => Raise RuntimeError
      end
  | _ => Raise RuntimeError
  end.

(** [t.float()], given the cast of one scalar. *)
Definition map_scalars (f : scalar F → scalar F) (t : tensor F) : tensor F :=
  match t with
  | T0 x => T0 (f x)
  | T1 v => T1 (fmap (M:=list) f v)
  | T2 m => T2 (fmap (M:=list) (fmap (M:=list) f) m)
  | T3 c => T3 (fmap (M:=list) (fmap (M:=list) (fmap (M:=list) f)) c)
  end.

(** [t[..., None]] and [t.unsqueeze(-1)]: every scalar becomes a row
    of its own.  Tensors of four dimensions are outside this model. *)
Definition unsqueeze_last (t : tensor F) : res (tensor F) :=
  match t with
  | T0 x => Ok (T1 [x])
  | T1 v => Ok (T2 (column v))
  | T2 m => Ok (T3 (fmap (M:=list) column m))
  | T3 _ => Raise RuntimeError
  end.

(** [t[:, None]]: a new axis after the first one. *)
Definition unsqueeze_1 (t : tensor F) : res (tensor F) :=
  match t with
  | T0 _ => Raise IndexError
  | T1 v => Ok (T2 (column v))
  | T2 m => Ok (T3 (fmap (M:=list) (λ r, [r]) m))
  | T3 _ => Raise RuntimeError
  end.

(** The value of a tensor with a single integer element, as Python
    takes it where an index is expected ([__index__]). *)
Definition as_index (t : tensor F) : res Z :=
  match t with
  | T0 (SInt z) | T1 [SInt z] | T2 [[SInt z]] | T3 [[[SInt z]]] => Ok z
  | _ => Raise TypeError
  end.

(** The elements of a one-dimensional [long] tensor. *)
Definition as_ints (t : tensor F) : res (list Z) :=
  match t with
  | T1 v => mapM as_int v
  | _ => Raise TypeError
  end.

(** The rows of a two-dimensional tensor. *)
Definition rows (t : tensor F) : res (list (list (scalar F))) :=
  match t with
  | T2 m => Ok m
  | _ => Raise IndexError
  end.

(** [x[idx]] for a [long] index tensor [idx]: the rows picked in the
    order of [idx]. *)
Definition gather {A} (l : list A) (idx : list Z) : res (list A) :=
  mapM (Py.index l) idx.

End ops.
End Tensor.

(** [keys.argsort()]: the positions of [keys] in increasing order of
    key (equal keys are kept in their order here; the results below use
    nothing about ties). *)
Fixpoint insert_key (x : Z * Z) (l : list (Z * Z)) : list (Z * Z) :=
  match l with
  | [] => [x]
  | y :: l' => if decide (x.1 ≤ y.1) then x :: l else y :: insert_key x l'
  end.

Definition argsort (keys : list Z) : list Z :=
  (foldr insert_key [] (zip keys (seqZ 0 (Z.of_nat (length keys))))).*2.

(** ** The external collaborators

    The floating-point arithmetic of the tensor library, the chemistry
    feature extractor and the random number generator are not part of
    this module; they are taken as given. *)

Record externals := {
  flt : Type;
  (** [x.float()] and [torch.tensor(x, dtype=torch.float)] on one scalar *)
  to_float : scalar flt → scalar flt;
  (** float constants and arithmetic *)
  f_of_Z : Z → flt;
  f_add : flt → flt → flt;
  f_div : flt → flt → flt;
  (** [(a - b).norm(p=2)] of two coordinate rows *)
  dist : list (scalar flt) → list (scalar flt) → scalar flt;
  (** [t.mean(dim=0)], [t.std(dim=0)], [(t - mean) / std] *)
  t_mean : tensor flt → tensor flt;
  t_std : tensor flt → tensor flt;
  t_normalize : tensor flt → tensor flt → tensor flt → tensor flt;
  (** [torch.normal(mean=zeros_like(t), std=ones_like(t))] *)
  normal_like : tensor flt → tensor flt;
  (** [torch.rand(k)] with the entries [>= 0.5] set to [1.0] and the
      others to [-1.0], and the product of a scalar with such a sign *)
  rand_signs : nat → list (scalar flt);
  s_mul : scalar flt → scalar flt → scalar flt;
  (** whether a device can be used *)
  device_available : string → bool;
}.

(** ** The raw records *)

Section raw.
Context {F : Type}.

(** An RDKit atom with its position in the molecule's conformer. *)
Record atom := {
  atom_symbol : string;
  atom_pos : F * F * F;
}.

(** An RDKit molecule: atoms, and bonds as (begin, end) atom indices. *)
Record rd_mol := {
  mol_atoms : list atom;
  mol_bonds : list (Z * Z);
}.

(** One entry of [mol_dict['conformers']]. *)
Record conformer := {
  conf_rd_mol : rd_mol;
}.

(** A per-molecule pickle: the conformers and the remaining keys
    (ensemble properties). *)
Record mol_dict := {
  md_conformers : list conformer;
  md_props : gmap string (scalar F);
}.

(** [rd_mol.GetConformer().GetPositions()]: one row of three
    coordinates per atom. *)
Definition GetPositions (m : rd_mol) : list (list (scalar F)) :=
  (λ a, let '(x, y, z) := atom_pos a in [SFlt x; SFlt y; SFlt z])
    <$> mol_atoms m.

End raw.
Arguments atom : clear implicits.
Arguments rd_mol : clear implicits.
Arguments conformer : clear implicits.
Arguments mol_dict : clear implicits.

(** What is cached under one key of the data dictionary. *)
Inductive value (F : Type) :=
  | VTensor (t : tensor F)
  | VStrs (l : list string)
  | VDict (d : gmap string (tensor F))
  | VFloat (x : F).
Arguments VTensor {F} t.
Arguments VStrs {F} l.
Arguments VDict {F} d.
Arguments VFloat {F} x.

(** The files the class touches, under [dataset/GEOM]:
    [summary_qm9.json] as the ordered items (smiles, optional
    [pickle_path]), the pickles by path, and
    [processed/geom_qm9_processed.pt]. *)
Record fs (F : Type) := {
  fs_summary : option (list (string * option string));
  fs_pickles : gmap string (mol_dict F);
  fs_processed : option (gmap string (value F));
}.
Arguments fs_summary {F} f.
Arguments fs_pickles {F} f.
Arguments fs_processed {F} f.

(** What an execution does to the outside, in order. *)
Inductive event :=
  | EvProcess                 (* process() is entered *)
  | EvReadSummary             (* summary_qm9.json is parsed *)
  | EvReadPickle (path : string)   (* one per-molecule record is parsed *)
  | EvSave                    (* the cache file is written *)
  | EvLoad.                   (* the cache file is loaded *)

#[global] Instance event_eq_dec : EqDecision event.
Proof. solve_decision. Defined.

Record world (F : Type) := {
  w_fs : fs F;
  w_trace : list event;
}.
Arguments w_fs {F} w.
Arguments w_trace {F} w.
Arguments Build_world {F} w_fs w_trace.

(** Computations that may raise and that act on the world. *)
Definition io (F : Type) (A : Type) : Type := world F → res A * world F.

#[global] Instance io_ret {F} : MRet (io F) := λ A a w, (Ok a, w).
#[global] Instance io_bind {F} : MBind (io F) := λ A B f m w,
  match m w with
  | (Ok a, w') => f a w'
  | (Raise e, w') => (Raise e, w')
  end.

Definition emit {F} (e : event) : io F () :=
  λ w, (Ok (), Build_world (w_fs w) (w_trace w ++ [e])).
Definition lift {F A} (r : res A) : io F A := λ w, (r, w).
Definition get_fs {F} : io F (fs F) := λ w, (Ok (w_fs w), w).
Definition put_fs {F} (f : fs F) : io F () :=
  λ w, (Ok (), Build_world f (w_trace w)).

(** ** The one-time ETL pass: [GEOMqm9.process] *)

Module Process.
Section process.
Context (X : externals).
Let F := flt X.

(** The chemistry feature extractor [goli.features]: for a molecule
    and the requested property names, the items of the returned
    dictionary in order.  Atomic properties are one number per entry,
    bond properties one row per entry. *)
Context (get_mol_atomic_features_float :
           rd_mol F → list string → list (string * list (scalar F))).
Context (get_mol_edge_features :
           rd_mol F → list string → list (string * list (list (scalar F)))).

(** [self.atom_types] and [self.symbols]. *)
Definition atom_types : gmap string Z :=
  list_to_map [("H", 0); ("C", 1); ("N", 2); ("O", 3); ("F", 4)].
Definition symbols : gmap string Z :=
  list_to_map [("H", 1); ("C", 6); ("N", 7); ("O", 8); ("F", 9)].

(** The key lists of the three literal dictionaries, in order. *)
Definition e_features_keys : list string :=
  ["bond-type-onehot"; "stereo"; "conjugated"; "in-ring"].
Definition atom_float_keys : list string :=
  ["implicit-valence"; "degree"; "hybridization"; "chirality"; "mass";
   "electronegativity"; "aromatic-bond"; "formal-charge";
   "radical-electron"; "in-ring"].
Definition targets_keys : list string :=
  ["ensembleenergy"; "ensembleentropy"; "ensemblefreeenergy";
   "lowestenergy"; "poplowestpct"; "temperature"; "uniqueconfs"].

(** The local variables of [process] that the loop updates. *)
Record acc := {
  atom_slices : list Z;
  edge_slices : list Z;
  atom_one_hot : list (list (list (scalar F)));
  atomic_numbers_long : list Z;
  n_atoms_list : list Z;
  e_features : gmap string (list (list (list (scalar F))));
  atom_float : gmap string (list (list (list (scalar F))));
  targets : gmap string (list (scalar F));
  edge_indices : list (list (list (scalar F)));
  coordinates : list (list (list (scalar F)));
  smiles_list : list string;
  total_atoms : Z;
  total_edges : Z;
  avg_degree : F;
}.

Definition init_acc : acc := {|
  atom_slices := [0];
  edge_slices := [0];
  atom_one_hot := [];
  atomic_numbers_long := [];
  n_atoms_list := [];
  e_features := list_to_map ((λ k, (k, [])) <$> e_features_keys);
  atom_float := list_to_map ((λ k, (k, [])) <$> atom_float_keys);
  targets := list_to_map ((λ k, (k, [])) <$> targets_keys);
  edge_indices := [];
  coordinates := [];
  smiles_list := [];
  total_atoms := 0;
  total_edges := 0;
  avg_degree := f_of_Z X 0;
|}.

(** [d[key].append(x)], where computing [x] may raise. *)
Definition dict_append {A} (d : gmap string (list A)) (key : string)
    (x : res A) : res (gmap string (list A)) :=
  l ← Py.subscript d key;
  x' ← x;
  Ok (<[key := l ++ [x']]> d).

(** [for key, item in items: d[key].append(f(item))]. *)
Fixpoint append_items {A B} (f : B → res A) (d : gmap string (list A))
    (items : list (string * B)) : res (gmap string (list A)) :=
  match items with
  | [] => Ok d
  | (key, item) :: rest =>
      d' ← dict_append d key (f item);
      append_items f d' rest
  end.

(** [F.one_hot(torch.tensor(type_idx), num_classes)]. *)
Definition one_hot (type_idx : list Z) (num_classes : Z)
  : list (list (scalar F)) :=
  (λ t, (λ j, SInt (if decide (j = t) then 1 else 0))
          <$> seqZ 0 num_classes) <$> type_idx.

(** The rows [row] and [col] built from the bonds. *)
Definition bond_rows (bonds : list (Z * Z)) : list Z * list Z :=
  (bonds ≫= (λ '(s, e), [s; e]), bonds ≫= (λ '(s, e), [e; s])).

(** The position tensors of the first ten conformers, the first one
    repeated when there are fewer than ten. *)
Definition pad_conformers (conformers : list (conformer F))
  : res (list (list (list (scalar F)))) :=
  let confs :=
    (λ c, fmap (M:=list) (to_float X) <$> GetPositions (conf_rd_mol c))
      <$> Py.slice conformers None (Some 10) in
  if decide (length confs < 10)%nat
  then c0 ← Py.index confs 0;
       Ok (confs ++ replicate (10 - length confs) c0)
  else Ok confs.

(** The loop body for one molecule that passed both tests. *)
Definition process_mol (a : acc) (smiles : string) (md : mol_dict F)
  : res acc :=
  let conformers := md_conformers md in
  c0 ← Py.index conformers 0;
  let mol := conf_rd_mol c0 in
  let n_atoms := Z.of_nat (length (mol_atoms mol)) in
  atom_float' ←
    append_items (λ item, Ok (Tensor.column item)) (atom_float a)
      (get_mol_atomic_features_float mol atom_float_keys);
  type_idx ← mapM (λ at_, Py.subscript atom_types (atom_symbol at_)) (mol_atoms mol);
  numbers ← mapM (λ at_, Py.subscript symbols (atom_symbol at_)) (mol_atoms mol);
  let '(row, col) := bond_rows (mol_bonds mol) in
  avg_degree' ←
    (if decide (n_atoms = 0) then Raise ZeroDivisionError
     else Ok (f_add X (avg_degree a)
                (f_div X (f_div X (f_of_Z X (Z.of_nat (length row)))
                                  (f_of_Z X 2))
                   (f_of_Z X n_atoms))));
  let perm := argsort (zip_with (λ r c, r * n_atoms + c) row col) in
  row' ← Tensor.gather row perm;
  col' ← Tensor.gather col perm;
  let edge_index : list (list (scalar F)) := [SInt <$> row'; SInt <$> col'] in
  e_features' ←
    append_items (λ item, Tensor.gather (item ≫= λ r, [r; r]) perm)
      (e_features a) (get_mol_edge_features mol e_features_keys);
  targets' ←
    foldl (λ t key, t' ← t; dict_append t' key (Py.subscript (md_props md) key))
      (Ok (targets a)) targets_keys;
  confs ← pad_conformers conformers;
  block ← Tensor.cat1 confs;
  let total_edges' := total_edges a + Z.of_nat (length row) in
  let total_atoms' := total_atoms a + n_atoms in
  Ok {|
    atom_slices := atom_slices a ++ [total_atoms'];
    edge_slices := edge_slices a ++ [total_edges'];
    atom_one_hot :=
      atom_one_hot a ++ [one_hot type_idx (Z.of_nat (size atom_types))];
    atomic_numbers_long := atomic_numbers_long a ++ numbers;
    n_atoms_list := n_atoms_list a ++ [n_atoms];
    e_features := e_features';
    atom_float := atom_float';
    targets := targets';
    edge_indices := edge_indices a ++ [edge_index];
    coordinates := coordinates a ++ [block];
    smiles_list := smiles_list a ++ [smiles];
    total_atoms := total_atoms';
    total_edges := total_edges';
    avg_degree := avg_degree';
  |}.

(** [for smiles, sub_dic in summary.items(): ...]. *)
Fixpoint process_loop (items : list (string * option string)) (a : acc)
  : io F acc :=
  match items with
  | [] => mret a
  | (smiles, pickle_path) :: rest =>
      f ← get_fs;
      a' ← match pickle_path ≫= λ p, (λ md, (p, md)) <$> fs_pickles f !! p with
           | Some (p, md) =>
               emit (EvReadPickle p);;
               if decide (is_Some (md_props md !! "ensembleenergy"))
               then lift (process_mol a smiles md)
               else mret a
           | None => mret a
           end;
      process_loop rest a'
  end.

(** The statements after the loop: the data dictionary that is
    saved. *)
Definition cat_keys : list string :=
  e_features_keys ++ filter (λ k, k ∉ e_features_keys) atom_float_keys.

Definition build_data_dict (a : acc) : res (gmap string (value F)) :=
  let merged := atom_float a ∪ e_features a in
  d1 ← foldl (λ d key,
                d' ← d;
                l ← Py.subscript merged key;
                m ← Tensor.cat0 l;
                Ok (<[key := VTensor (T2 m)]> d'))
             (Ok ∅) cat_keys;
  let targets' : gmap string (tensor F) :=
    (λ v, T2 (Tensor.column v)) <$> targets a in
  let d2 := (VTensor <$> targets') ∪ d1 in
  in_ring ← Py.subscript (e_features a) "in-ring";
  in_ring_edges ← Tensor.cat0 in_ring;
  atomic_number ← Tensor.cat0 (atom_one_hot a);
  edge_indices' ← Tensor.cat1 (edge_indices a);
  coordinates' ← Tensor.cat0 (coordinates a);
  avg ← (if decide (length (n_atoms_list a) = 0%nat)
         then Raise ZeroDivisionError
         else Ok (f_div X (avg_degree a)
                    (f_of_Z X (Z.of_nat (length (n_atoms_list a))))));
  Ok (<["smiles" := VStrs (smiles_list a)]>
      (<["n_atoms" := VTensor (T1 (SInt <$> n_atoms_list a))]>
      (<["atom_slices" := VTensor (T1 (SInt <$> atom_slices a))]>
      (<["edge_slices" := VTensor (T1 (SInt <$> edge_slices a))]>
      (<["in-ring-edges" := VTensor (T2 in_ring_edges)]>
      (<["atomic-number" :=
           VTensor (T2 (fmap (M:=list) (to_float X) <$> atomic_number))]>
      (<["atomic_numbers_long" :=
           VTensor (T1 (SInt <$> atomic_numbers_long a))]>
      (<["edge_indices" := VTensor (T2 edge_indices')]>
      (<["coordinates" :=
           VTensor (T2 (fmap (M:=list) (to_float X) <$> coordinates'))]>
      (<["targets" := VDict targets']>
      (<["avg_degree" := VFloat avg]> d2))))))))))).

(** [process(self)]. *)
Definition process : io F () :=
  emit EvProcess;;
  f ← get_fs;
  summary ← lift (match fs_summary f with
                  | Some s => Ok s
                  | None => Raise FileNotFoundError
                  end);
  emit EvReadSummary;;
  a ← process_loop summary init_acc;
  data_dict ← lift (build_data_dict a);
  emit EvSave;;
  put_fs {| fs_summary := fs_summary f;
            fs_pickles := fs_pickles f;
            fs_processed := Some data_dict |}.

End process.
End Process.

(** ** The retained molecules and their coordinate blocks, as
       specified *)

Section retained.
Context {F : Type}.

(** The molecules [process] keeps, in the order of the summary: those
    whose pickle file exists and holds the key [ensembleenergy]. *)
Definition retained_items (f : fs F) (items : list (string * option string))
  : list (string * mol_dict F) :=
  items ≫= λ '(smiles, pickle_path),
    match pickle_path ≫= λ p, fs_pickles f !! p with
    | Some md =>
        if decide (is_Some (md_props md !! "ensembleenergy"))
        then [(smiles, md)] else []
    | None => []
    end.

Definition retained (f : fs F) : list (string * mol_dict F) :=
  retained_items f (default [] (fs_summary f)).

(** The molecule of the first conformer, its number of atoms and
    bonds. *)
Definition md_atoms (md : mol_dict F) : list (atom F) :=
  match md_conformers md with
  | c :: _ => mol_atoms (conf_rd_mol c)
  | [] => []
  end.
Definition md_n_atoms (md : mol_dict F) : Z := Z.of_nat (length (md_atoms md)).
Definition md_n_bonds (md : mol_dict F) : Z :=
  match md_conformers md with
  | c :: _ => Z.of_nat (length (mol_bonds (conf_rd_mol c)))
  | [] => 0
  end.

(** Exactly ten conformers: the first at most ten, then the first one
    repeated. *)
Definition ten_conformers (md : mol_dict F) : list (conformer F) :=
  match md_conformers md with
  | c :: _ =>
      let cs := take 10 (md_conformers md) in
      cs ++ replicate (10 - length cs) c
  | [] => []
  end.

(** The coordinate block of a molecule: for each atom, the positions
    of that atom in the ten conformers side by side, each scalar cast
    by [cast]. *)
Definition coordinate_block (cast : scalar F → scalar F) (md : mol_dict F)
  : list (list (scalar F)) :=
  (λ r : nat,
     concat ((λ c, cast <$> default [] (GetPositions (conf_rd_mol c) !! r))
               <$> ten_conformers md))
    <$> seq 0 (length (md_atoms md)).

(** The running totals [t + x1], [t + x1 + x2], ... *)
Fixpoint sums_from (t : Z) (l : list Z) : list Z :=
  match l with
  | [] => []
  | x :: l' => (t + x) :: sums_from (t + x) l'
  end.

End retained.

(** The loop of [process] over the retained molecules alone. *)
Fixpoint fold_mols {F A} (step : A → string → mol_dict F → res A)
    (ms : list (string * mol_dict F)) (a : A) : res A :=
  match ms with
  | [] => Ok a
  | (smiles, md) :: rest => a' ← step a smiles md; fold_mols step rest a'
  end.

(** The positions of the atoms of a molecule in its first conformer,
    one row of three coordinates per atom, each scalar cast by
    [cast]. *)
Definition first_conformer_positions {F} (cast : scalar F → scalar F)
    (md : mol_dict F) : list (list (scalar F)) :=
  (λ a, let '(x, y, z) := atom_pos a in cast <$> [SFlt x; SFlt y; SFlt z])
    <$> md_atoms md.

(** ** The graph library, as far as the class uses it

    A graph is its edge list, its number of nodes, and the node and edge
    feature dictionaries.  Assigning a feature checks that it has one
    row per node (or per edge).  [g.to(device)] is taken to return a
    graph of its own: the graph library copies a graph unless it already
    lives on an equal device object, so graphs are modelled as values. *)

Module Dgl.
Section dgl.
Context {F : Type}.

Record graph := {
  g_src : list Z;
  g_dst : list Z;
  g_num_nodes : Z;
  ndata : gmap string (tensor F);
  edata : gmap string (tensor F);
}.

(** A graph with node type [atom] and the two edge types [bond] and
    [complete]. *)
Record heterograph := {
  h_bond : list Z * list Z;
  h_complete : list Z * list Z;
  h_num_nodes : Z;
  h_ndata : gmap string (tensor F);
  h_bond_edata : gmap string (tensor F);
}.

Definition max_id (ids : list Z) : Z := foldr Z.max (-1) ids.

(** [dgl.graph((src, dst), num_nodes=n)]; without [num_nodes] the
    number of nodes is the largest id plus one. *)
Definition make (src dst : list Z) (num_nodes : option Z) : res graph :=
  if decide (length src ≠ length dst) then Raise DGLError
  else if decide (Exists (λ i, i < 0) (src ++ dst)) then Raise DGLError
  else
    let inferred := max_id (src ++ dst) + 1 in
    match num_nodes with
    | Some n =>
        if decide (n < inferred) then Raise DGLError
        else Ok {| g_src := src; g_dst := dst; g_num_nodes := n;
                   ndata := ∅; edata := ∅ |}
    | None =>
        Ok {| g_src := src; g_dst := dst; g_num_nodes := inferred;
              ndata := ∅; edata := ∅ |}
    end.

(** [dgl.heterograph({('atom','bond','atom'): bond,
                      ('atom','complete','atom'): complete})]. *)
Definition make_hetero (bond complete : list Z * list Z) : res heterograph :=
  if decide (length bond.1 ≠ length bond.2
             ∨ length complete.1 ≠ length complete.2)
  then Raise DGLError
  else if decide (Exists (λ i, i < 0)
                    (bond.1 ++ bond.2 ++ complete.1 ++ complete.2))
  then Raise DGLError
  else Ok {| h_bond := bond; h_complete := complete;
             h_num_nodes :=
               max_id (bond.1 ++ bond.2 ++ complete.1 ++ complete.2) + 1;
             h_ndata := ∅; h_bond_edata := ∅ |}.

(** [g.ndata[key] = t]. *)
Definition set_ndata (g : graph) (key : string) (t : tensor F) : res graph :=
  n ← Tensor.len t;
  if decide (n = g_num_nodes g)
  then Ok {| g_src := g_src g; g_dst := g_dst g;
             g_num_nodes := g_num_nodes g;
             ndata := <[key := t]> (ndata g); edata := edata g |}
  else Raise DGLError.

(** [g.edata[key] = t]. *)
Definition set_edata (g : graph) (key : string) (t : tensor F) : res graph :=
  n ← Tensor.len t;
  if decide (n = Z.of_nat (length (g_src g)))
  then Ok {| g_src := g_src g; g_dst := g_dst g;
             g_num_nodes := g_num_nodes g;
             ndata := ndata g; edata := <[key := t]> (edata g) |}
  else Raise DGLError.

Definition set_h_ndata (h : heterograph) (key : string) (t : tensor F)
  : res heterograph :=
  n ← Tensor.len t;
  if decide (n = h_num_nodes h)
  then Ok {| h_bond := h_bond h; h_complete := h_complete h;
             h_num_nodes := h_num_nodes h;
             h_ndata := <[key := t]> (h_ndata h);
             h_bond_edata := h_bond_edata h |}
  else Raise DGLError.

(** [g.edges['bond'].data[key] = t]. *)
Definition set_h_bond_edata (h : heterograph) (key : string) (t : tensor F)
  : res heterograph :=
  n ← Tensor.len t;
  if decide (n = Z.of_nat (length (h_bond h).1))
  then Ok {| h_bond := h_bond h; h_complete := h_complete h;
             h_num_nodes := h_num_nodes h;
             h_ndata := h_ndata h;
             h_bond_edata := <[key := t]> (h_bond_edata h) |}
  else Raise DGLError.

(** The id of the edge from [u] to [v]. *)
Definition edge_id (g : graph) (u v : Z) : res nat :=
  match list_find (λ e, e = (u, v)) (zip (g_src g) (g_dst g)) with
  | Some (i, _) => Ok i
  | None => Raise DGLError
  end.

(** [xs[ids] = new]: the entries at [ids] are replaced in order. *)
Definition put_at {A} (xs : list A) (ids : list nat) (new : list A)
  : res (list A) :=
  if decide (length new ≠ length ids) then Raise DGLError
  else Ok (foldl (λ m ix, <[ix.1 := ix.2]> m) xs (zip ids new)).

(** [g.edges[us, vs].data[key] = new]: the entries of the edge feature
    [key] at the edges [(us[i], vs[i])] are replaced. *)
Definition set_edges_data (g : graph) (key : string) (us vs : list Z)
    (new : tensor F) : res graph :=
  ids ← mapM (λ uv, edge_id g uv.1 uv.2) (zip us vs);
  old ← match edata g !! key with
        | Some t => Ok t
        | None => Raise (KeyError key)
        end;
  t ← match old, new with
      | T1 o, T1 n => T1 <$> put_at o ids n
      | T2 o, T2 n => T2 <$> put_at o ids n
      | T3 o, T3 n => T3 <$> put_at o ids n
      | _, _ => Raise DGLError
      end;
  Ok {| g_src := g_src g; g_dst := g_dst g;
        g_num_nodes := g_num_nodes g;
        ndata := ndata g; edata := <[key := t]> (edata g) |}.

End dgl.
Arguments graph : clear implicits.
Arguments heterograph : clear implicits.
End Dgl.

(** ** The class [GEOMqm9] *)

Module GEOMqm9.
Section class.
Context (X : externals).
Let F := flt X.
Context (get_mol_atomic_features_float :
           rd_mol F → list string → list (string * list (scalar F))).
Context (get_mol_edge_features :
           rd_mol F → list string → list (string * list (list (scalar F)))).

Definition return_type_options : list string :=
  ["mol_graph"; "complete_graph"; "mol_graph3d"; "complete_graph3d";
   "san_graph"; "mol_complete_graph";
   "se3Transformer_graph"; "se3Transformer_graph3d";
   "pairwise_distances"; "pairwise_distances_squared";
   "pairwise_indices";
   "raw_features"; "coordinates";
   "dist_embedding";
   "mol_id"; "targets";
   "one_hot_bond_types"; "edge_indices"; "smiles"; "atomic_number_long";
   "conformations"; "uniqueconfs"].

(** The arguments of the constructor. *)
Record args := {
  a_return_types : option (list string);
  a_features : list string;
  a_features3d : list string;
  a_e_features : list string;
  a_e_features3d : list string;
  a_pos_dir : bool;
  a_target_tasks : option (list string);
  a_normalize : bool;
  a_device : string;
  a_dist_embedding : bool;
  a_num_radial : Z;
  a_prefetch_graphs : bool;
  a_transform : option (tensor F → res (tensor F));
}.

(** [GEOMqm9()]: every argument at its default. *)
Definition default_args : args := {|
  a_return_types := None;
  a_features := [];
  a_features3d := [];
  a_e_features := [];
  a_e_features3d := [];
  a_pos_dir := false;
  a_target_tasks := None;
  a_normalize := true;
  a_device := "cuda:0";
  a_dist_embedding := false;
  a_num_radial := 6;
  a_prefetch_graphs := true;
  a_transform := None;
|}.

(** The attributes of an instance.  An attribute that the constructor
    sets only on some paths is an [option]; reading it when unset
    raises [AttributeError]. *)
Record obj := {
  return_types : list string;
  normalize : bool;
  device : string;
  transform : option (tensor F → res (tensor F));
  pos_dir : bool;
  num_radial : Z;
  features_tensor : option (tensor F);
  features3d_tensor : option (tensor F);
  e_features_tensor : option (tensor F);
  e_features3d_tensor : option (tensor F);
  coordinates : tensor F;
  conformations : option (tensor F);
  edge_indices : value F;
  meta_dict : gmap string (value F);
  eig_vals : option (value F);
  eig_vecs : option (value F);
  prefetch_graphs : bool;
  mol_graphs : option (list (Dgl.graph F));
  complete_graphs : option (list (Dgl.graph F));
  mol_complete_graphs : option (list (Dgl.heterograph F));
  avg_degree : value F;
  targets : option (tensor F);
  targets_mean : option (tensor F);
  targets_std : option (tensor F);
}.

(** What indexing a cached value gives. *)
Inductive pyval :=
  | PTensor (t : tensor F)
  | PStr (s : string).

(** What [data_by_type] returns. *)
Inductive view :=
  | Graph (g : Dgl.graph F)
  | Heterograph (h : Dgl.heterograph F)
  | Item (p : pyval).

Definition getattr {A} (name : string) (a : option A) : res A :=
  match a with Some x => Ok x | None => Raise (AttributeError name) end.

Definition as_tensor (v : value F) : res (tensor F) :=
  match v with VTensor t => Ok t | _ => Raise TypeError end.

(** [v[i]] and [len(v)] for a cached value. *)
Definition value_index (v : value F) (i : Z) : res pyval :=
  match v with
  | VTensor t => PTensor <$> Tensor.index t i
  | VStrs l => PStr <$> Py.index l i
  | VDict _ => Raise (KeyError "")
  | VFloat _ => Raise TypeError
  end.

Definition value_len (v : value F) : res Z :=
  match v with
  | VTensor t => Tensor.len t
  | VStrs l => Ok (Z.of_nat (length l))
  | VDict d => Ok (Z.of_nat (size d))
  | VFloat _ => Raise TypeError
  end.

(** A value used as a slice bound or a count. *)
Definition pyval_index (p : pyval) : res Z :=
  match p with
  | PTensor t => Tensor.as_index t
  | PStr _ => Raise TypeError
  end.

(** [t.to(device)]. *)
Definition to_device {A} (dev : string) (x : A) : res A :=
  if device_available X dev then Ok x else Raise RuntimeError.

(** [t[start: start + n_atoms]] for an attribute [t] that may be
    [None]. *)
Definition atom_rows (t : option (tensor F)) (start n_atoms : pyval)
  : res (tensor F) :=
  s ← pyval_index start;
  n ← pyval_index n_atoms;
  match t with
  | Some t' => Tensor.slice t' (Some s) (Some (s + n))
  | None => Raise TypeError
  end.

(** [t[e_start: e_end]]. *)
Definition edge_rows (t : option (tensor F)) (e_start e_end : pyval)
  : res (tensor F) :=
  a ← pyval_index e_start;
  b ← pyval_index e_end;
  match t with
  | Some t' => Tensor.slice t' (Some a) (Some b)
  | None => Raise TypeError
  end.

(** [self.edge_indices[:, e_start: e_end]] as the two index rows
    [edge_indices[0]] and [edge_indices[1]]. *)
Definition edge_index_rows (edge_indices : value F) (e_start e_end : pyval)
  : res (list Z * list Z) :=
  t ← as_tensor edge_indices;
  a ← pyval_index e_start;
  b ← pyval_index e_end;
  ei ← Tensor.slice_cols t (Some a) (Some b);
  r0 ← Tensor.index ei 0;
  r1 ← Tensor.index ei 1;
  src ← Tensor.as_ints r0;
  dst ← Tensor.as_ints r1;
  Ok (src, dst).

(** [dgl.graph((edge_indices[0], edge_indices[1]), num_nodes=n_atoms)]
    on the slice of one molecule. *)
Definition bond_graph (edge_indices : value F) (e_start e_end n_atoms : pyval)
  : res (Dgl.graph F) :=
  '(src, dst) ← edge_index_rows edge_indices e_start e_end;
  n ← pyval_index n_atoms;
  Dgl.make src dst (Some n).

(** Methods read the attributes and update the memo [self.pairwise]. *)
Definition st (A : Type) : Type :=
  gmap pyint pairs → res A * gmap pyint pairs.

#[global] Instance st_ret : MRet st := λ A a m, (Ok a, m).
#[global] Instance st_bind : MBind st := λ A B f c m,
  match c m with
  | (Ok a, m') => f a m'
  | (Raise e, m') => (Raise e, m')
  end.
Definition pure {A} (r : res A) : st A := λ m, (r, m).
Definition get_memo : st (gmap pyint pairs) := λ m, (Ok m, m).

(** [self.get_pairwise(n_atoms)] for the tensor [n_atoms] with object
    id [oid]. *)
Definition call_get_pairwise (n_atoms : pyval) (oid : positive) : st pairs :=
  n ← pure (pyval_index n_atoms);
  get_pairwise (Tensor0 oid n).

Section methods.
Context (self : obj).

(** [__len__]. *)
Definition __len__ : res Z :=
  v ← Py.subscript (meta_dict self) "smiles";
  value_len v.

Definition get_graph (idx : Z) (e_start e_end n_atoms : pyval)
  : res (Dgl.graph F) :=
  if prefetch_graphs self
  then gs ← getattr "mol_graphs" (mol_graphs self); Py.index gs idx
  else bond_graph (edge_indices self) e_start e_end n_atoms.

Definition get_complete_graph (idx : Z) (n_atoms : pyval) (oid : positive)
  : st (Dgl.graph F) :=
  if prefetch_graphs self
  then pure (gs ← getattr "complete_graphs" (complete_graphs self);
             Py.index gs idx)
  else '(src, dst) ← call_get_pairwise n_atoms oid;
       pure (Dgl.make src dst None).

Definition get_mol_complete_graph (idx : Z) (e_start e_end n_atoms : pyval)
    (oid : positive) : st (Dgl.heterograph F) :=
  if prefetch_graphs self
  then pure (gs ← getattr "mol_complete_graphs" (mol_complete_graphs self);
             Py.index gs idx)
  else bond ← pure (edge_index_rows (edge_indices self) e_start e_end);
       complete ← call_get_pairwise n_atoms oid;
       pure (Dgl.make_hetero bond complete).

(** [g.ndata['f'] = f[start: start + n_atoms].to(device)] and the
    same for ['x'] from the coordinates. *)
Definition set_f_x (g : Dgl.graph F) (f : option (tensor F))
    (start n_atoms : pyval) : res (Dgl.graph F) :=
  ft ← atom_rows f start n_atoms;
  ft ← to_device (device self) ft;
  g ← Dgl.set_ndata g "f" ft;
  xt ← atom_rows (Some (coordinates self)) start n_atoms;
  xt ← to_device (device self) xt;
  Dgl.set_ndata g "x" xt.

(** [if e != None: g.edata['w'] = e[e_start: e_end].to(device)]. *)
Definition set_w (g : Dgl.graph F) (e : option (tensor F))
    (e_start e_end : pyval) : res (Dgl.graph F) :=
  match e with
  | Some _ =>
      w ← edge_rows e e_start e_end;
      w ← to_device (device self) w;
      Dgl.set_edata g "w" w
  | None => Ok g
  end.

(** [torch.norm(x[src] - x[dst], p=2, dim=-1).unsqueeze(-1)] for
    [x = g.ndata['x']] and [(src, dst) = g.edges()]. *)
Definition edge_lengths (g : Dgl.graph F) : res (tensor F) :=
  x ← Py.subscript (Dgl.ndata g) "x";
  m ← Tensor.rows x;
  xs ← Tensor.gather m (Dgl.g_src g);
  xd ← Tensor.gather m (Dgl.g_dst g);
  Ok (T2 (Tensor.column (zip_with (dist X) xs xd))).

(** The edge features of the complete graph: a table with one row
    per ordered pair of atoms, the bond rows filled in, read at the
    pairs of the complete graph. *)
Definition complete_edge_features (e : tensor F)
    (e_start e_end n_atoms : pyval) (oid : positive) : st (tensor F) :=
  bond_features ← pure (edge_rows (Some e) e_start e_end);
  bond_features ← pure (to_device (device self) bond_features);
  n ← pure (pyval_index n_atoms);
  bf ← pure (Tensor.rows bond_features);
  let width := match bf with r :: _ => length r | [] => 0%nat end in
  let zeros : list (list (scalar F)) :=
    replicate (Z.to_nat (n * n)) (replicate width (SFlt (f_of_Z X 0))) in
  '(row, col) ← pure (edge_index_rows (edge_indices self) e_start e_end);
  let bond_indices := zip_with (λ r c, r * n + c) row col in
  table ← pure (if decide (length bond_indices ≠ length bf)
                then Raise RuntimeError
                else foldl (λ t ib, t' ← t; Py.set_item t' ib.1 ib.2)
                       (Ok zeros) (zip bond_indices bf));
  '(src, dst) ← call_get_pairwise n_atoms oid;
  w ← pure (Tensor.gather table (zip_with (λ s d, s * n + d) src dst));
  pure (Ok (T2 w)).

Definition complete_graph_view (f e : option (tensor F)) (idx : Z)
    (e_start e_end start n_atoms : pyval) (oid : positive) : st view :=
  g ← get_complete_graph idx n_atoms oid;
  g ← pure (to_device (device self) g);
  g ← pure (set_f_x g f start n_atoms);
  d ← pure (edge_lengths g);
  g ← pure (Dgl.set_edata g "d" d);
  match e with
  | Some e' =>
      w ← complete_edge_features e' e_start e_end n_atoms oid;
      g ← pure (Dgl.set_edata g "w" w);
      mret (Graph g)
  | None => mret (Graph g)
  end.

Definition mol_graph_view (f e : option (tensor F)) (idx : Z)
    (e_start e_end start n_atoms : pyval) : res view :=
  g ← get_graph idx e_start e_end n_atoms;
  g ← to_device (device self) g;
  g ← set_f_x g f start n_atoms;
  g ← set_w g e e_start e_end;
  Ok (Graph g).

Definition mol_complete_graph_view (idx : Z)
    (e_start e_end start n_atoms : pyval) (oid : positive) : st view :=
  h ← get_mol_complete_graph idx e_start e_end n_atoms oid;
  h ← pure (to_device (device self) h);
  ft ← pure (atom_rows (features_tensor self) start n_atoms);
  ft ← pure (to_device (device self) ft);
  h ← pure (Dgl.set_h_ndata h "f" ft);
  xt ← pure (atom_rows (Some (coordinates self)) start n_atoms);
  xt ← pure (to_device (device self) xt);
  h ← pure (Dgl.set_h_ndata h "x" xt);
  match e_features_tensor self with
  | Some _ =>
      w ← pure (edge_rows (e_features_tensor self) e_start e_end);
      w ← pure (to_device (device self) w);
      h ← pure (Dgl.set_h_bond_edata h "w" w);
      mret (Heterograph h)
  | None => mret (Heterograph h)
  end.

Definition san_graph_view (idx : Z) (e_start e_end start n_atoms : pyval)
    (oid : positive) : st view :=
  g ← get_complete_graph idx n_atoms oid;
  g ← pure (to_device (device self) g);
  g ← pure (set_f_x g (features_tensor self) start n_atoms);
  pos_enc ← pure (
    vals ← getattr "eig_vals" (eig_vals self);
    ev ← value_index vals idx;
    ev ← match ev with
         | PTensor (T1 v) => to_device (device self) v
         | PTensor (T0 _) => Raise IndexError
         | _ => Raise RuntimeError
         end;
    let sign_flip := rand_signs X (length ev) in
    vecs ← getattr "eig_vecs" (eig_vecs self);
    vecs ← as_tensor vecs;
    vecs ← atom_rows (Some vecs) start n_atoms;
    vecs ← to_device (device self) vecs;
    vm ← Tensor.rows vecs;
    n ← pyval_index n_atoms;
    if decide (Forall (λ r, length r = length ev) vm
               ∧ Z.of_nat (length vm) = n)
    then Ok (T3 ((λ r, zip_with (λ a b, [a; b]) ev
                         (zip_with (s_mul X) r sign_flip)) <$> vm))
    else Raise RuntimeError);
  g ← pure (Dgl.set_ndata g "pos_enc" pos_enc);
  match e_features_tensor self with
  | Some _ =>
      pure (
        e ← edge_rows (e_features_tensor self) e_start e_end;
        e ← to_device (device self) e;
        em ← Tensor.rows e;
        let width := match em with r :: _ => length r | [] => 0%nat end in
        let n_edges := length (Dgl.g_src g) in
        g ← Dgl.set_edata g "w"
              (T2 (replicate n_edges (replicate width (SFlt (f_of_Z X 0)))));
        g ← Dgl.set_edata g "real" (T1 (replicate n_edges (SInt 0)));
        '(us, vs) ← edge_index_rows (edge_indices self) e_start e_end;
        g ← Dgl.set_edges_data g "w" us vs (T2 em);
        g ← Dgl.set_edges_data g "real" us vs
              (T1 (replicate (length em) (SInt 1)));
        Ok (Graph g))
  | None => mret (Graph g)
  end.

Definition se3Transformer_view (return_type : string) (idx : Z)
    (e_start e_end start n_atoms : pyval) : res view :=
  g ← get_graph idx e_start e_end n_atoms;
  g ← to_device (device self) g;
  x ← atom_rows (Some (coordinates self)) start n_atoms;
  x ← to_device (device self) x;
  x ← match transform self with Some f => f x | None => Ok x end;
  g ← Dgl.set_ndata g "x" x;
  f ← (if decide (return_type = "se3Transformer_graph3d")
       then atom_rows (features3d_tensor self) start n_atoms
       else atom_rows (features_tensor self) start n_atoms);
  f ← to_device (device self) f;
  f ← Tensor.unsqueeze_last f;
  g ← Dgl.set_ndata g "f" f;
  d ← edge_lengths g;
  g ← Dgl.set_edata g "d" d;
  g ← (if decide (is_Some (e_features_tensor self)
                  ∧ return_type = "se3Transformer_graph")
       then set_w g (e_features_tensor self) e_start e_end
       else if decide (is_Some (e_features3d_tensor self)
                       ∧ return_type = "se3Transformer_graph3d")
       then set_w g (e_features3d_tensor self) e_start e_end
       else Ok g);
  Ok (Graph g).

(** [data_by_type(self, idx, return_type, e_start, e_end, start,
    n_atoms)]. *)
Definition data_by_type (idx : Z) (return_type : string)
    (e_start e_end start n_atoms : pyval) (oid : positive) : st view :=
  if decide (return_type = "conformations") then
    pure (t ← atom_rows (conformations self) start n_atoms;
          t ← to_device (device self) t;
          Ok (Item (PTensor t)))
  else if decide (return_type = "mol_graph") then
    pure (mol_graph_view (features_tensor self) (e_features_tensor self)
            idx e_start e_end start n_atoms)
  else if decide (return_type = "mol_graph3d") then
    pure (mol_graph_view (features3d_tensor self) (e_features3d_tensor self)
            idx e_start e_end start n_atoms)
  else if decide (return_type = "complete_graph") then
    complete_graph_view (features_tensor self) (e_features_tensor self)
      idx e_start e_end start n_atoms oid
  else if decide (return_type = "complete_graph3d") then
    complete_graph_view (features3d_tensor self) (e_features3d_tensor self)
      idx e_start e_end start n_atoms oid
  else if decide (return_type = "mol_complete_graph") then
    mol_complete_graph_view idx e_start e_end start n_atoms oid
  else if decide (return_type = "san_graph") then
    san_graph_view idx e_start e_end start n_atoms oid
  else if decide (return_type = "se3Transformer_graph"
                  ∨ return_type = "se3Transformer_graph3d") then
    pure (se3Transformer_view return_type idx e_start e_end start n_atoms)
  else if decide (return_type = "raw_features") then
    pure (t ← atom_rows (features_tensor self) start n_atoms;
          Ok (Item (PTensor t)))
  else if decide (return_type = "coordinates") then
    pure (t ← atom_rows (Some (coordinates self)) start n_atoms;
          Ok (Item (PTensor t)))
  else if decide (return_type = "conformations") then
    pure (t ← atom_rows (conformations self) start n_atoms;
          Ok (Item (PTensor t)))
  else if decide (return_type = "uniqueconfs") then
    pure (v ← Py.subscript (meta_dict self) "uniqueconfs";
          Item <$> value_index v idx)
  else if decide (return_type = "targets") then
    pure (t ← getattr "targets" (targets self);
          p ← Tensor.index t idx;
          Ok (Item (PTensor p)))
  else if decide (return_type = "edge_indices") then
    pure (v ← Py.subscript (meta_dict self) "edge_indices";
          t ← as_tensor v;
          a ← pyval_index e_start;
          b ← pyval_index e_end;
          t ← Tensor.slice_cols t (Some a) (Some b);
          Ok (Item (PTensor t)))
  else if decide (return_type = "smiles") then
    pure (v ← Py.subscript (meta_dict self) "smiles";
          Item <$> value_index v idx)
  else
    pure (Raise (Exception "return type not supported: " return_type)).

(** The object id of a tensor created now: different from the id of
    every tensor that is a key of the memo. *)
Definition fresh_oid (m : gmap pyint pairs) : positive :=
  (foldr Pos.max 1
     (omap (λ k, match k with Tensor0 o _ => Some o | PyInt _ => None end)
        (map_to_list m).*1) + 1)%positive.

(** [__getitem__(self, idx)]. *)
Definition __getitem__ (idx : Z) : st (list view) :=
  e_start ← pure (v ← Py.subscript (meta_dict self) "edge_slices";
                  value_index v idx);
  e_end ← pure (v ← Py.subscript (meta_dict self) "edge_slices";
                value_index v (idx + 1));
  start ← pure (v ← Py.subscript (meta_dict self) "atom_slices";
                value_index v idx);
  n_atoms ← pure (v ← Py.subscript (meta_dict self) "n_atoms";
                  value_index v idx);
  m ← get_memo;
  mapM (λ return_type,
          data_by_type idx return_type e_start e_end start n_atoms
            (fresh_oid m))
       (return_types self).

End methods.

(** *** The constructor *)

(** [for return_type in self.return_types: if not return_type in
    self.return_type_options: raise ...]. *)
Definition validate (rts : list string) : res () :=
  match list_find (λ rt, rt ∉ return_type_options) rts with
  | Some (_, rt) => Raise (Exception "return_type not supported: " rt)
  | None => Ok ()
  end.

(** [None if keys == [] else torch.cat([data_dict[k] for k in keys],
    dim=-1)]. *)
Definition select (data_dict : gmap string (value F)) (keys : list string)
  : res (option (tensor F)) :=
  match keys with
  | [] => Ok None
  | _ =>
      vs ← mapM (Py.subscript data_dict) keys;
      ts ← mapM as_tensor vs;
      Some <$> Tensor.cat_last ts
  end.

(** The two features that are made up in the constructor. *)
Definition add_constant_ones (a : args) (data_dict : gmap string (value F))
  : res (gmap string (value F)) :=
  if Py.contains "constant_ones" (a_features a)
     || Py.contains "constant_ones" (a_features3d a)
  then
    v ← Py.subscript data_dict "atomic_numbers_long";
    t ← as_tensor v;
    ones ← Tensor.unsqueeze_1
             (Tensor.map_scalars (λ _, SFlt (f_of_Z X 1)) t);
    Ok (<["constant_ones" := VTensor ones]> data_dict)
  else Ok data_dict.

Definition add_standard_normal_noise (a : args)
    (data_dict : gmap string (value F)) : res (gmap string (value F)) :=
  if Py.contains "standard_normal_noise" (a_features a)
     || Py.contains "standard_normal_noise" (a_features3d a)
  then
    v ← Py.subscript data_dict "atomic_number_long";
    t ← as_tensor v;
    Ok (<["standard_normal_noise" := VTensor (normal_like X t)]> data_dict)
  else Ok data_dict.

(** [{k: data_dict[k] for k in ('smiles', 'edge_slices', 'atom_slices',
    'n_atoms', 'uniqueconfs')}]. *)
Definition meta_keys : list string :=
  ["smiles"; "edge_slices"; "atom_slices"; "n_atoms"; "uniqueconfs"].

Definition make_meta_dict (data_dict : gmap string (value F))
  : res (gmap string (value F)) :=
  vs ← mapM (λ k, v ← Py.subscript data_dict k; Ok (k, v)) meta_keys;
  Ok (list_to_map vs).

(** [range(len(self.meta_dict['edge_slices']) - 1)]. *)
Definition molecule_range (meta : gmap string (value F)) : res (list Z) :=
  v ← Py.subscript meta "edge_slices";
  n ← value_len v;
  Ok (Py.range (n - 1)).

(** The three prefetch loops. *)
Definition prefetch_mol_graphs (edge_indices : value F)
    (meta : gmap string (value F)) : res (list (Dgl.graph F)) :=
  idxs ← molecule_range meta;
  mapM (λ idx,
          e_start ← (v ← Py.subscript meta "edge_slices"; value_index v idx);
          e_end ← (v ← Py.subscript meta "edge_slices"; value_index v (idx + 1));
          '(src, dst) ← edge_index_rows edge_indices e_start e_end;
          n_atoms ← (v ← Py.subscript meta "n_atoms"; value_index v idx);
          n ← pyval_index n_atoms;
          Dgl.make src dst (Some n))
       idxs.

Definition prefetch_pairwise (meta : gmap string (value F)) (idx : Z)
  : st pairs :=
  n_atoms ← pure (v ← Py.subscript meta "n_atoms"; value_index v idx);
  m ← get_memo;
  call_get_pairwise n_atoms (fresh_oid m).

Definition prefetch_complete_graphs (meta : gmap string (value F))
  : st (list (Dgl.graph F)) :=
  idxs ← pure (molecule_range meta);
  mapM (λ idx,
          '(src, dst) ← prefetch_pairwise meta idx;
          pure (Dgl.make src dst None))
       idxs.

Definition prefetch_mol_complete_graphs (meta : gmap string (value F))
  : st (list (Dgl.heterograph F)) :=
  idxs ← pure (molecule_range meta);
  mapM (λ idx,
          p ← prefetch_pairwise meta idx;
          pure (Dgl.make_hetero p p))
       idxs.

(** An attribute set only under a condition. *)
Definition when {A} (c : bool) (x : st A) : st (option A) :=
  if c then a ← x; mret (Some a) else mret None.

(** [self.targets], [self.targets_mean], [self.targets_std]. *)
Definition make_targets (a : args) (data_dict : gmap string (value F))
  : res (tensor F * tensor F * tensor F) :=
  tasks ← match a_target_tasks a with
          | Some l => Ok l
          | None => Raise TypeError
          end;
  task ← Py.index tasks 0;
  v ← Py.subscript data_dict task;
  t ← as_tensor v;
  let mean := t_mean X t in
  let std := t_std X t in
  let t' := if a_normalize a then t_normalize X t mean std else t in
  mean' ← to_device (a_device a) mean;
  std' ← to_device (a_device a) std;
  Ok (t', mean', std').

(** [self.return_types]: the argument, or the default. *)
Definition effective_return_types (a : args) : list string :=
  match a_return_types a with
  | None => ["mol_graph"; "targets"]
  | Some rts => rts
  end.

(** The constructor from the statement after [torch.load] on. *)
Definition init_from (a : args) (rts : list string)
    (loaded : gmap string (value F)) : st obj :=
  data_dict ← pure (add_constant_ones a loaded);
  data_dict ← pure (add_standard_normal_noise a data_dict);
  features ← pure (select data_dict (a_features a));
  features3d ← pure (select data_dict (a_features3d a));
  e_features ← pure (select data_dict (a_e_features a));
  e_features3d ← pure (select data_dict (a_e_features3d a));
  coords ← pure (v ← Py.subscript data_dict "coordinates";
                 t ← as_tensor v;
                 Tensor.slice_cols t None (Some 3));
  confs ← pure (if Py.contains "conformations" rts
                then v ← Py.subscript data_dict "coordinates";
                     t ← as_tensor v; Ok (Some t)
                else Ok None);
  edge_indices ← pure (Py.subscript data_dict "edge_indices");
  meta ← pure (make_meta_dict data_dict);
  eig ← when (Py.contains "san_graph" rts)
          (vals ← pure (Py.subscript data_dict "eig_vals");
           vecs ← pure (Py.subscript data_dict "eig_vecs");
           mret (vals, vecs));
  let prefetch := a_prefetch_graphs a in
  mol_graphs ←
    when (prefetch
          && existsb (λ rt, Py.contains rt rts)
               ["mol_graph"; "mol_graph3d";
                "se3Transformer_graph"; "se3Transformer_graph3d"])
      (pure (prefetch_mol_graphs edge_indices meta));
  complete_graphs ←
    when (prefetch
          && (Py.contains "complete_graph" rts
              || Py.contains "complete_graph3d" rts
              || Py.contains "san_graph" rts))
      (prefetch_complete_graphs meta);
  mol_complete_graphs ←
    when (prefetch
          && (Py.contains "mol_complete_graph" rts
              || Py.contains "mol_complete_graph3d" rts))
      (prefetch_mol_complete_graphs meta);
  avg ← pure (Py.subscript data_dict "avg_degree");
  tg ← when (Py.contains "targets" rts) (pure (make_targets a data_dict));
  mret {|
    return_types := rts;
    normalize := a_normalize a;
    device := a_device a;
    transform := a_transform a;
    pos_dir := a_pos_dir a;
    num_radial := a_num_radial a;
    features_tensor := features;
    features3d_tensor := features3d;
    e_features_tensor := Tensor.map_scalars (to_float X) <$> e_features;
    e_features3d_tensor := Tensor.map_scalars (to_float X) <$> e_features3d;
    coordinates := coords;
    conformations := confs;
    edge_indices := edge_indices;
    meta_dict := meta;
    eig_vals := fst <$> eig;
    eig_vecs := snd <$> eig;
    prefetch_graphs := prefetch;
    mol_graphs := mol_graphs;
    complete_graphs := complete_graphs;
    mol_complete_graphs := mol_complete_graphs;
    avg_degree := avg;
    targets := (λ x, x.1.1) <$> tg;
    targets_mean := (λ x, x.1.2) <$> tg;
    targets_std := (λ x, x.2) <$> tg;
  |}.

(** [__init__]: the new object with its memo [self.pairwise], which
    starts as the empty dictionary. *)
Definition __init__ (a : args) : io F (obj * gmap pyint pairs) :=
  let rts := effective_return_types a in
  lift (validate rts);;
  f ← get_fs;
  match fs_processed f with
  | None => Process.process X get_mol_atomic_features_float
              get_mol_edge_features
  | Some _ => mret ()
  end;;
  f ← get_fs;
  loaded ← match fs_processed f with
           | Some d => emit EvLoad;; mret d
           | None => lift (Raise FileNotFoundError)
           end;
  lift (match init_from a rts loaded ∅ with
        | (Ok self, memo) => Ok (self, memo)
        | (Raise e, _) => Raise e
        end).

End class.
End GEOMqm9.

(** ** Notions used in the statements *)

(** The return types that pass the validation and have no branch in
    [data_by_type]. *)
Definition unhandled_return_types : list string :=
  ["mol_id"; "pairwise_distances"; "pairwise_distances_squared";
   "pairwise_indices"; "dist_embedding"; "one_hot_bond_types";
   "atomic_number_long"].

(** [result] is [None] for an empty key list and otherwise the tensors
    cached under [keys], in the order of [keys], concatenated along the
    last dimension and cast. *)
Definition concat_of {F} (data_dict : gmap string (value F)) (keys : list string)
    (cast : tensor F → tensor F) (result : option (tensor F)) : Prop :=
  (result = None ↔ keys = [])
  ∧ (keys ≠ [] →
     ∃ ts t, Forall2 (λ k tk, data_dict !! k = Some (VTensor tk)) keys ts
             ∧ Tensor.cat_last ts = Ok t
             ∧ result = Some (cast t)).

(** Two computations agree whatever memos they start from, as long as
    the memos hold results of [pairwise_compute] only, and they keep
    the memos that way. *)
Definition memo_free {A} (c d : GEOMqm9.st A) : Prop :=
  ∀ m1 m2, memo_inv m1 → memo_inv m2 →
    (c m1).1 = (d m2).1 ∧ memo_inv (c m1).2 ∧ memo_inv (d m2).2.

Section statements.
Context (X : externals).

(** The outcome of the statements of the constructor after
    [torch.load]. *)
Definition init_result (a : GEOMqm9.args X) (loaded : gmap string (value (flt X)))
  : res (GEOMqm9.obj X * gmap pyint pairs) :=
  match GEOMqm9.init_from X a (GEOMqm9.effective_return_types X a) loaded ∅ with
  | (Ok self, memo) => Ok (self, memo)
  | (Raise e, _) => Raise e
  end.

Context (self : GEOMqm9.obj X).

(** [data_by_type] as a function of its arguments alone. *)
Definition view_of (idx : Z) (rt : string) (es ee s n : GEOMqm9.pyval X)
  : res (GEOMqm9.view X) :=
  (GEOMqm9.data_by_type X self idx rt es ee s n 1%positive ∅).1.

(** The four values [__getitem__] reads before its loop. *)
Definition offsets (idx : Z)
  : res (GEOMqm9.pyval X * GEOMqm9.pyval X * GEOMqm9.pyval X * GEOMqm9.pyval X) :=
  e_start ← (v ← Py.subscript (GEOMqm9.meta_dict X self) "edge_slices";
             GEOMqm9.value_index X v idx);
  e_end ← (v ← Py.subscript (GEOMqm9.meta_dict X self) "edge_slices";
           GEOMqm9.value_index X v (idx + 1));
  start ← (v ← Py.subscript (GEOMqm9.meta_dict X self) "atom_slices";
           GEOMqm9.value_index X v idx);
  n_atoms ← (v ← Py.subscript (GEOMqm9.meta_dict X self) "n_atoms";
             GEOMqm9.value_index X v idx);
  Ok (e_start, e_end, start, n_atoms).

(** The flat tensor that a return type is sliced from. *)
Definition flat_tensor (rt : string) : option (tensor (flt X)) :=
  if decide (rt = "raw_features") then GEOMqm9.features_tensor X self
  else if decide (rt = "coordinates") then Some (GEOMqm9.coordinates X self)
  else None.

(** The offset tables of an object over molecules with [ns] atoms:
    [n_atoms] holds [ns], [atom_slices] its running totals from 0, and
    [edge_slices] has one entry more than there are molecules. *)
Definition atom_layout (ns : list Z) : Prop :=
  GEOMqm9.meta_dict X self !! "n_atoms" = Some (VTensor (T1 (SInt <$> ns)))
  ∧ GEOMqm9.meta_dict X self !! "atom_slices"
    = Some (VTensor (T1 (SInt <$> 0 :: sums_from 0 ns)))
  ∧ (∃ es : list Z,
       GEOMqm9.meta_dict X self !! "edge_slices"
       = Some (VTensor (T1 (SInt <$> es)))
       ∧ length es = S (length ns))
  ∧ Forall (λ n, 0 ≤ n) ns.

(** What C4, as amended, says of [__getitem__(idx)] started with the
    memo [m]: its outcome is the tuple of the views of [data_by_type]
    in the order of [return_types], or the first exception among
    them; a returned tuple has one element per return type, the
    [k]-th being what [data_by_type] returns for the [k]-th return
    type. *)
Definition tuple_of_views (idx : Z) (m : gmap pyint pairs) : Prop :=
  (GEOMqm9.__getitem__ X self idx m).1
  = ('(e_start, e_end, start, n_atoms) ← offsets idx;
     mapM (λ rt, view_of idx rt e_start e_end start n_atoms)
       (GEOMqm9.return_types X self))
  ∧ memo_inv (GEOMqm9.__getitem__ X self idx m).2
  ∧ ∀ tuple, (GEOMqm9.__getitem__ X self idx m).1 = Ok tuple →
      length tuple = length (GEOMqm9.return_types X self)
      ∧ ∃ e_start e_end start n_atoms,
          offsets idx = Ok (e_start, e_end, start, n_atoms)
          ∧ ∀ (k : nat) rt, GEOMqm9.return_types X self !! k = Some rt →
              ∃ v, tuple !! k = Some v
                   ∧ (∀ oid m0, memo_inv m0 →
                        (GEOMqm9.data_by_type X self idx rt
                           e_start e_end start n_atoms oid m0).1 = Ok v).

(** What C5, as amended, says of [__getitem__(idx)] for an object
    laid out over molecules with [ns] atoms: for a return type whose
    flat tensor exists and has rows for all atoms, the element
    returned is the tensor of the rows [start .. start + n - 1] with
    [start = atom_slices[idx]] and [n = n_atoms[idx]], which end where
    the rows of the next molecule begin; without a features tensor,
    [raw_features] raises [TypeError]. *)
Definition atom_rows_served (ns : list Z) (idx : Z) (m : gmap pyint pairs)
  : Prop :=
  (∀ rt rows,
     flat_tensor rt = Some (T2 rows) →
     foldr Z.add 0 ns ≤ Z.of_nat (length rows) →
     ∃ start n out,
       (0 :: sums_from 0 ns) !! Z.to_nat idx = Some start
       ∧ ns !! Z.to_nat idx = Some n
       ∧ (0 :: sums_from 0 ns) !! S (Z.to_nat idx) = Some (start + n)
       ∧ Z.of_nat (length out) = n
       ∧ (∀ r : nat, (r < length out)%nat →
            out !! r = rows !! (Z.to_nat start + r)%nat)
       ∧ (∀ es ee oid m0, memo_inv m0 →
            (GEOMqm9.data_by_type X self idx rt es ee
               (GEOMqm9.PTensor X (T0 (SInt start)))
               (GEOMqm9.PTensor X (T0 (SInt n))) oid m0).1
            = Ok (GEOMqm9.Item X (GEOMqm9.PTensor X (T2 out))))
       ∧ (∀ (k : nat) tuple,
            GEOMqm9.return_types X self !! k = Some rt →
            (GEOMqm9.__getitem__ X self idx m).1 = Ok tuple →
            tuple !! k = Some (GEOMqm9.Item X (GEOMqm9.PTensor X (T2 out))))
       ∧ (GEOMqm9.return_types X self = [rt] →
          (GEOMqm9.__getitem__ X self idx m).1
          = Ok [GEOMqm9.Item X (GEOMqm9.PTensor X (T2 out))]))
  ∧ (GEOMqm9.features_tensor X self = None →
     (∀ es ee s n oid m0, memo_inv m0 →
        (GEOMqm9.data_by_type X self idx "raw_features" es ee s n oid m0).1
        = Raise TypeError)
     ∧ ("raw_features" ∈ GEOMqm9.return_types X self →
        is_Raise (GEOMqm9.__getitem__ X self idx m).1)).

(** What C9 says of an object and a return type [rt]: the validation
    accepts [rt], [meta_dict] has no key [edge_indices],
    [data_by_type] raises for [rt] whatever its other arguments, and
    so does [__getitem__] for every index. *)
Definition never_served (rt : string) : Prop :=
  rt ∈ GEOMqm9.return_type_options
  ∧ GEOMqm9.meta_dict X self !! "edge_indices" = None
  ∧ (∀ idx es ee s n oid m,
       (GEOMqm9.data_by_type X self idx rt es ee s n oid m).1
       = Raise (if decide (rt = "edge_indices") then KeyError "edge_indices"
                else Exception "return type not supported: " rt))
  ∧ (∀ idx m, is_Raise (GEOMqm9.__getitem__ X self idx m).1).

(** What C7 says of an object constructed from the arguments [a],
    with the cache file as it is after the construction: the four
    feature tensors are [None] or last-dimension concatenations of
    the entries of [data_dict], which is the loaded cache up to the
    two keys the constructor adds itself. *)
Definition feature_tensors (a : GEOMqm9.args X) (cache : fs (flt X)) : Prop :=
  ∃ loaded data_dict,
    fs_processed cache = Some loaded
    ∧ (∀ k, k ≠ "constant_ones" → k ≠ "standard_normal_noise" →
         data_dict !! k = loaded !! k)
    ∧ (GEOMqm9.features_tensor X self = None ↔ GEOMqm9.a_features X a = [])
    ∧ concat_of data_dict (GEOMqm9.a_features X a) id
        (GEOMqm9.features_tensor X self)
    ∧ concat_of data_dict (GEOMqm9.a_features3d X a) id
        (GEOMqm9.features3d_tensor X self)
    ∧ concat_of data_dict (GEOMqm9.a_e_features X a)
        (Tensor.map_scalars (to_float X)) (GEOMqm9.e_features_tensor X self)
    ∧ concat_of data_dict (GEOMqm9.a_e_features3d X a)
        (Tensor.map_scalars (to_float X)) (GEOMqm9.e_features3d_tensor X self).

End statements.

(** What C3, as amended, says of a construction with arguments [a] in
    the world [w]: the events [t] it adds contain [EvProcess] exactly
    when there is no cache file; with a cache file the only event is
    the load, nothing is written, and the object is built from the
    cached dictionary; without one, once [process] completes, the load
    follows it and the object is built from the dictionary [process]
    saved; and a construction after a successful one only loads. *)
Definition cache_discipline (X : externals)
    (atomic_features :
       rd_mol (flt X) → list string → list (string * list (scalar (flt X))))
    (edge_features :
       rd_mol (flt X) → list string → list (string * list (list (scalar (flt X)))))
    (a : GEOMqm9.args X) (w : world (flt X)) : Prop :=
  let init := GEOMqm9.__init__ X atomic_features edge_features in
  ∃ t,
    w_trace (init a w).2 = w_trace w ++ t
    ∧ (EvProcess ∈ t ↔ fs_processed (w_fs w) = None)
    ∧ (∀ d, fs_processed (w_fs w) = Some d →
         t = [EvLoad]
         ∧ w_fs (init a w).2 = w_fs w
         ∧ (init a w).1 = init_result X a d)
    ∧ (fs_processed (w_fs w) = None →
       ∀ w1, Process.process X atomic_features edge_features w = (Ok (), w1) →
         ∃ d t1,
           fs_processed (w_fs w1) = Some d
           ∧ w_trace w1 = w_trace w ++ t1
           ∧ t = t1 ++ [EvLoad]
           ∧ fs_processed (w_fs (init a w).2) = Some d
           ∧ (init a w).1 = init_result X a d)
    ∧ (∀ self memo w' a2,
         init a w = (Ok (self, memo), w') →
         GEOMqm9.validate (GEOMqm9.effective_return_types X a2) = Ok () →
         w_trace (init a2 w').2 = w_trace w' ++ [EvLoad]).

(** ** A small data set to run the model on

    Integers stand in for floating-point numbers, the feature extractor
    returns one entry per atom and one row per bond, and the summary
    lists water (two conformers), ammonia (one conformer), one molecule
    whose pickle is missing and one without a pickle path. *)

Module Demo.

Definition externals : externals := {|
  flt := Z;
  to_float := λ s, match s with SInt z => SFlt z | SFlt x => SFlt x end;
  f_of_Z := id;
  f_add := Z.add;
  f_div := Z.div;
  dist := λ a b, SFlt 0;
  t_mean := id;
  t_std := id;
  t_normalize := λ t _ _, t;
  normal_like := id;
  rand_signs := λ k, replicate k (SFlt 1);
  s_mul := λ a _, a;
  device_available := λ _, true;
|}.

Definition atomic_features (m : rd_mol Z) (keys : list string)
  : list (string * list (scalar Z)) :=
  (λ k, (k, (λ _, SFlt 1) <$> mol_atoms m)) <$> keys.

Definition edge_features (m : rd_mol Z) (keys : list string)
  : list (string * list (list (scalar Z))) :=
  (λ k, (k, (λ _, [SInt 1]) <$> mol_bonds m)) <$> keys.

Definition props : gmap string (scalar Z) :=
  list_to_map
    [("ensembleenergy", SFlt 1); ("ensembleentropy", SFlt 2);
     ("ensemblefreeenergy", SFlt 3); ("lowestenergy", SFlt 4);
     ("poplowestpct", SFlt 5); ("temperature", SFlt 6);
     ("uniqueconfs", SInt 2)].

Definition water (dz : Z) : rd_mol Z := {|
  mol_atoms := [ {| atom_symbol := "O"; atom_pos := (0, 0, dz) |};
                 {| atom_symbol := "H"; atom_pos := (1, 0, dz) |};
                 {| atom_symbol := "H"; atom_pos := (0, 1, dz) |} ];
  mol_bonds := [(0, 1); (0, 2)];
|}.

Definition ammonia : rd_mol Z := {|
  mol_atoms := [ {| atom_symbol := "N"; atom_pos := (0, 0, 0) |};
                 {| atom_symbol := "H"; atom_pos := (1, 0, 0) |};
                 {| atom_symbol := "H"; atom_pos := (0, 1, 0) |};
                 {| atom_symbol := "H"; atom_pos := (0, 0, 1) |} ];
  mol_bonds := [(0, 1); (0, 2); (0, 3)];
|}.

Definition water_dict : mol_dict Z := {|
  md_conformers := [ {| conf_rd_mol := water 0 |}; {| conf_rd_mol := water 7 |} ];
  md_props := props;
|}.

Definition ammonia_dict : mol_dict Z := {|
  md_conformers := [ {| conf_rd_mol := ammonia |} ];
  md_props := props;
|}.

(** The directory before the first use: no cache file. *)
Definition raw_files : fs Z := {|
  fs_summary := Some [("O", Some "qm9/O.pickle");
                      ("C", Some "qm9/C.pickle");
                      ("N", Some "qm9/N.pickle");
                      ("F", None)];
  fs_pickles := list_to_map [("qm9/O.pickle", water_dict);
                             ("qm9/N.pickle", ammonia_dict)];
  fs_processed := None;
|}.

Definition first_use : world Z := {| w_fs := raw_files; w_trace := [] |}.

Definition process : io Z () :=
  Process.process externals atomic_features edge_features.

(** The directory once the cache file has been written. *)
Definition later_use : world Z :=
  {| w_fs := w_fs (process first_use).2; w_trace := [] |}.

Definition __init__ (a : GEOMqm9.args externals)
  : io Z (GEOMqm9.obj externals * gmap pyint pairs) :=
  GEOMqm9.__init__ externals atomic_features edge_features a.

(** [GEOMqm9(return_types=rts, features=fs, e_features=es,
    target_tasks=['ensembleenergy'], device='cpu',
    prefetch_graphs=prefetch)]. *)
Definition args (rts fs es : list string) (prefetch : bool)
  : GEOMqm9.args externals := {|
  GEOMqm9.a_return_types := Some rts;
  GEOMqm9.a_features := fs;
  GEOMqm9.a_features3d := [];
  GEOMqm9.a_e_features := es;
  GEOMqm9.a_e_features3d := [];
  GEOMqm9.a_pos_dir := false;
  GEOMqm9.a_target_tasks := Some ["ensembleenergy"];
  GEOMqm9.a_normalize := true;
  GEOMqm9.a_device := "cpu";
  GEOMqm9.a_dist_embedding := false;
  GEOMqm9.a_num_radial := 6;
  GEOMqm9.a_prefetch_graphs := prefetch;
  GEOMqm9.a_transform := None;
|}.

(** An object without data, standing for "no object". *)
Definition blank : GEOMqm9.obj externals := {|
  GEOMqm9.return_types := [];
  GEOMqm9.normalize := false;
  GEOMqm9.device := "";
  GEOMqm9.transform := None;
  GEOMqm9.pos_dir := false;
  GEOMqm9.num_radial := 0;
  GEOMqm9.features_tensor := None;
  GEOMqm9.features3d_tensor := None;
  GEOMqm9.e_features_tensor := None;
  GEOMqm9.e_features3d_tensor := None;
  GEOMqm9.coordinates := T2 [];
  GEOMqm9.conformations := None;
  GEOMqm9.edge_indices := VStrs [];
  GEOMqm9.meta_dict := ∅;
  GEOMqm9.eig_vals := None;
  GEOMqm9.eig_vecs := None;
  GEOMqm9.prefetch_graphs := false;
  GEOMqm9.mol_graphs := None;
  GEOMqm9.complete_graphs := None;
  GEOMqm9.mol_complete_graphs := None;
  GEOMqm9.avg_degree := VStrs [];
  GEOMqm9.targets := None;
  GEOMqm9.targets_mean := None;
  GEOMqm9.targets_std := None;
|}.

(** The object a construction gives, with its memo; [blank] if the
    construction raises. *)
Definition dataset (a : GEOMqm9.args externals) (w : world Z)
  : GEOMqm9.obj externals * gmap pyint pairs :=
  match (__init__ a w).1 with
  | Ok p => p
  | Raise _ => (blank, ∅)
  end.

(** A directory without the summary file and without a cache. *)
Definition empty_directory : world Z :=
  {| w_fs := {| fs_summary := None; fs_pickles := ∅; fs_processed := None |};
     w_trace := [] |}.

(** The constructions used in the examples. *)
Definition views_args : GEOMqm9.args externals :=
  args ["coordinates"; "raw_features"; "smiles"; "complete_graph"]
    ["atomic-number"; "degree"] ["stereo"] true.
Definition no_features_args : GEOMqm9.args externals :=
  args ["raw_features"] [] [] false.
Definition mol_id_args : GEOMqm9.args externals :=
  args ["smiles"; "mol_id"] [] [] false.
Definition unknown_args : GEOMqm9.args externals :=
  args ["bond_angles"] [] [] false.

End Demo.

(** ** Molecules, and what the cache holds of them *)

Section molecules.
Context {F : Type}.

(** The bonds of the molecule of the first conformer. *)
Definition md_bonds (md : mol_dict F) : list (Z * Z) :=
  match md_conformers md with
  | c :: _ => mol_bonds (conf_rd_mol c)
  | [] => []
  end.

(** The directed edges of a molecule: every bond in both
    directions. *)
Definition bond_edges (bonds : list (Z * Z)) : list (Z * Z) :=
  bonds ≫= λ '(s, e), [(s, e); (e, s)].

(** The key [src * n_atoms + dst] that [process] sorts the edges of a
    molecule by. *)
Definition edge_key (n_atoms : Z) (e : Z * Z) : Z := e.1 * n_atoms + e.2.

(** A list in non-decreasing order. *)
Definition nondecreasing (l : list Z) : Prop :=
  ∀ (i j : nat) x y, (i ≤ j)%nat → l !! i = Some x → l !! j = Some y → x ≤ y.

(** A molecule that the loop of [process] fails on: no conformer, no
    atom, an atom whose symbol is not a key of [self.atom_types], or
    a missing ensemble property. *)
Definition malformed (md : mol_dict F) : Prop :=
  md_conformers md = []
  ∨ md_atoms md = []
  ∨ (∃ a, a ∈ md_atoms md ∧ Process.atom_types !! atom_symbol a = None)
  ∨ (∃ k, k ∈ Process.targets_keys ∧ md_props md !! k = None).

End molecules.

(** *** What [process] caches, per key *)

Section cached.
Context (X : externals).
Local Abbreviation F := (flt X).

(** The seven ensemble properties: each is cached under its own key
    as a column with one row per molecule, holding the molecules'
    values in order, and [data_dict['targets']] is the dictionary of
    exactly these columns. *)
Definition targets_cached (mols : list (mol_dict F))
    (d : gmap string (value F)) : Prop :=
  ∃ td,
    d !! "targets" = Some (VDict td)
    ∧ (∀ k, is_Some (td !! k) ↔ k ∈ Process.targets_keys)
    ∧ ∀ k, k ∈ Process.targets_keys →
        ∃ vs, Forall2 (λ md v, md_props md !! k = Some v) mols vs
              ∧ d !! k = Some (VTensor (T2 (Tensor.column vs)))
              ∧ td !! k = Some (T2 (Tensor.column vs)).

(** The atoms of all molecules in order (those of the first
    conformers). *)
Definition all_atoms (mols : list (mol_dict F)) : list (atom F) :=
  concat (fmap (M:=list) md_atoms mols).

(** The one-hot row of an atom type among the five of
    [self.atom_types], as floats. *)
Definition one_hot_row (t : Z) : list (scalar F) :=
  (λ j, to_float X (SInt (if decide (j = t) then 1 else 0))) <$> seqZ 0 5.

(** The two atom-type encodings: [atomic_numbers_long] holds the
    atomic number of every atom and [atomic-number] its one-hot row,
    one entry per atom in order. *)
Definition atoms_cached (mols : list (mol_dict F))
    (d : gmap string (value F)) : Prop :=
  ∃ (numbers : list Z) (rows : list (list (scalar F))),
    d !! "atomic_numbers_long" = Some (VTensor (T1 (SInt <$> numbers)))
    ∧ d !! "atomic-number" = Some (VTensor (T2 rows))
    ∧ Forall2 (λ at_ z, Process.symbols !! atom_symbol at_ = Some z)
        (all_atoms mols) numbers
    ∧ Forall2 (λ at_ row,
                 ∃ t, Process.atom_types !! atom_symbol at_ = Some t
                      ∧ row = one_hot_row t)
        (all_atoms mols) rows.

(** The edges: [edge_indices] is the two rows of sources and
    destinations, made of one block per molecule; the block of a
    molecule holds each of its bonds in both directions, in
    non-decreasing order of [src * n_atoms + dst], and starts at
    the molecule's entry of [edge_slices]. *)
Definition edges_cached (mols : list (mol_dict F))
    (d : gmap string (value F)) : Prop :=
  ∃ blocks : list (list (Z * Z)),
    d !! "edge_indices"
    = Some (VTensor (T2 [SInt <$> (concat blocks).*1;
                         SInt <$> (concat blocks).*2]))
    ∧ d !! "edge_slices"
      = Some (VTensor
                (T1 (SInt <$> 0 :: sums_from 0
                                     ((λ b, Z.of_nat (length b)) <$> blocks))))
    ∧ Forall2 (λ md block,
                 block ≡ₚ bond_edges (md_bonds md)
                 ∧ nondecreasing (edge_key (md_n_atoms md) <$> block))
        mols blocks.

End cached.

(** ** Further example data *)

Module Cases.

(** Hydrogen chloride: chlorine is not among the five elements of
    [self.atom_types]. *)
Definition hydrogen_chloride : rd_mol Z := {|
  mol_atoms := [ {| atom_symbol := "H"; atom_pos := (0, 0, 0) |};
                 {| atom_symbol := "Cl"; atom_pos := (1, 0, 0) |} ];
  mol_bonds := [(0, 1)];
|}.

Definition hydrogen_chloride_dict : mol_dict Z := {|
  md_conformers := [ {| conf_rd_mol := hydrogen_chloride |} ];
  md_props := Demo.props;
|}.

(** The raw files of [Demo], with hydrogen chloride added. *)
Definition chlorine_files : world Z := {|
  w_fs := {| fs_summary := Some [("O", Some "qm9/O.pickle");
                                 ("Cl", Some "qm9/Cl.pickle")];
             fs_pickles := list_to_map [("qm9/O.pickle", Demo.water_dict);
                                        ("qm9/Cl.pickle", hydrogen_chloride_dict)];
             fs_processed := None |};
  w_trace := [];
|}.

(** A construction serving the plain per-molecule items. *)
Definition item_args : GEOMqm9.args Demo.externals :=
  Demo.args ["smiles"; "uniqueconfs"; "coordinates"; "conformations"] [] [] false.

(** Constructions with made-up features, with the spectral graph, and
    with targets. *)
Definition noise_args : GEOMqm9.args Demo.externals :=
  Demo.args ["smiles"] ["standard_normal_noise"] [] false.
Definition ones_args : GEOMqm9.args Demo.externals :=
  Demo.args ["raw_features"] ["constant_ones"] [] false.
Definition san_args : GEOMqm9.args Demo.externals :=
  Demo.args ["san_graph"] ["degree"] [] false.

End Cases.

(** ** Objects and what they serve *)

(** The return types whose view reads [self.features_tensor], and
    those whose view reads [self.features3d_tensor]. *)
Definition feature_return_types : list string :=
  ["mol_graph"; "complete_graph"; "mol_complete_graph"; "san_graph";
   "se3Transformer_graph"; "raw_features"].
Definition feature3d_return_types : list string :=
  ["mol_graph3d"; "complete_graph3d"; "se3Transformer_graph3d"].

(** The return types whose view calls [get_pairwise] when the graphs
    are not prefetched. *)
Definition pairwise_return_types : list string :=
  ["complete_graph"; "complete_graph3d"; "mol_complete_graph"; "san_graph"].

Section objects.
Context (X : externals).
Context (atomic_features :
           rd_mol (flt X) → list string → list (string * list (scalar (flt X)))).
Context (edge_features :
           rd_mol (flt X) → list string
           → list (string * list (list (scalar (flt X))))).

(** [self] is an object constructed with the arguments [a] in a
    directory whose cache file holds what [process] writes from the
    raw files of [w0]: constructed in [w0] itself when it has no cache
    file yet, or in any world with that cache file. *)
Definition constructed_on (w0 : world (flt X)) (a : GEOMqm9.args X)
    (self : GEOMqm9.obj X) : Prop :=
  ∃ w1 w2 w3 memo,
    Process.process X atomic_features edge_features w0 = (Ok (), w1)
    ∧ (w2 = w0 ∧ fs_processed (w_fs w0) = None
       ∨ fs_processed (w_fs w2) = fs_processed (w_fs w1))
    ∧ GEOMqm9.__init__ X atomic_features edge_features a w2
      = (Ok (self, memo), w3).

(** The world [w] is [w0] itself, without a cache file, whose raw files
    [process] can digest, or a world with the cache file that
    [process] writes from the raw files of [w0]: a construction in
    [w] loads the cache of [w0]. *)
Definition loads_cache_of (w0 w : world (flt X)) : Prop :=
  ∃ w1,
    Process.process X atomic_features edge_features w0 = (Ok (), w1)
    ∧ (w = w0 ∧ fs_processed (w_fs w0) = None
       ∨ fs_processed (w_fs w) = fs_processed (w_fs w1)).

(** The optional attributes of an object constructed with the
    arguments [a] are the ones its return types call for, and its
    return types are the validated ones. *)
Definition attributes_set (a : GEOMqm9.args X) (self : GEOMqm9.obj X) : Prop :=
  let rts := GEOMqm9.effective_return_types X a in
  let prefetch := GEOMqm9.a_prefetch_graphs X a in
  GEOMqm9.return_types X self = rts
  ∧ Forall (λ rt, rt ∈ GEOMqm9.return_type_options) rts
  ∧ ("mol_complete_graph3d" ∉ rts)
  ∧ GEOMqm9.device X self = GEOMqm9.a_device X a
  ∧ GEOMqm9.normalize X self = GEOMqm9.a_normalize X a
  ∧ GEOMqm9.prefetch_graphs X self = prefetch
  ∧ (is_Some (GEOMqm9.mol_graphs X self)
     ↔ prefetch = true
       ∧ ∃ rt, rt ∈ ["mol_graph"; "mol_graph3d"; "se3Transformer_graph";
                     "se3Transformer_graph3d"] ∧ rt ∈ rts)
  ∧ (is_Some (GEOMqm9.complete_graphs X self)
     ↔ prefetch = true
       ∧ ∃ rt, rt ∈ ["complete_graph"; "complete_graph3d"; "san_graph"]
               ∧ rt ∈ rts)
  ∧ (is_Some (GEOMqm9.mol_complete_graphs X self)
     ↔ prefetch = true ∧ "mol_complete_graph" ∈ rts)
  ∧ (is_Some (GEOMqm9.conformations X self) ↔ "conformations" ∈ rts)
  ∧ (is_Some (GEOMqm9.eig_vals X self) ↔ "san_graph" ∈ rts)
  ∧ (is_Some (GEOMqm9.eig_vecs X self) ↔ "san_graph" ∈ rts)
  ∧ (is_Some (GEOMqm9.targets X self) ↔ "targets" ∈ rts)
  ∧ (is_Some (GEOMqm9.targets_mean X self) ↔ "targets" ∈ rts)
  ∧ (is_Some (GEOMqm9.targets_std X self) ↔ "targets" ∈ rts).

(** [__getitem__(idx)], started with the memo [m], serves the view
    [v] for the return type [rt]: a returned tuple holds [v] wherever
    [rt] is configured, and [(v,)] is returned when [rt] is the only
    return type. *)
Definition serves (self : GEOMqm9.obj X) (idx : Z) (m : gmap pyint pairs)
    (rt : string) (v : GEOMqm9.view X) : Prop :=
  (∀ (k : nat) tuple,
     GEOMqm9.return_types X self !! k = Some rt →
     (GEOMqm9.__getitem__ X self idx m).1 = Ok tuple →
     tuple !! k = Some v)
  ∧ (GEOMqm9.return_types X self = [rt] →
     (GEOMqm9.__getitem__ X self idx m).1 = Ok [v]).

(** What a computation that calls [get_pairwise] for the tensor
    [n_atoms] with object id [oid] does to the memo: nothing, or it
    stores the pairs computed for the value of that tensor under that
    tensor, which was not a key before. *)
Definition memo_step (oid : positive) (n_atoms : GEOMqm9.pyval X) {A}
    (c : GEOMqm9.st A) : Prop :=
  ∀ m, (c m).2 = m
       ∨ ∃ z p, GEOMqm9.pyval_index X n_atoms = Ok z
                ∧ m !! Tensor0 oid z = None
                ∧ pairwise_compute z = Ok p
                ∧ (c m).2 = <[Tensor0 oid z := p]> m.

End objects.

(** A computation which, when it returns, leaves the tensor [n_atoms]
    with object id [oid] among the keys of the memo. *)
Definition memo_stores (X : externals) (oid : positive)
    (n_atoms : GEOMqm9.pyval X) {A} (c : GEOMqm9.st A) : Prop :=
  ∀ m a m', c m = (Ok a, m') →
            ∃ z, GEOMqm9.pyval_index X n_atoms = Ok z
                 ∧ is_Some (m' !! Tensor0 oid z).

(** [GEOMqm9(return_types=['smiles', 'complete_graph',
    'mol_complete_graph'], features=['atomic-number', 'degree'],
    e_features=['stereo'], target_tasks=['ensembleenergy'],
    device='cpu', prefetch_graphs=False)]: graphs built on the fly. *)
Definition on_the_fly_args : GEOMqm9.args Demo.externals :=
  Demo.args ["smiles"; "complete_graph"; "mol_complete_graph"]
    ["atomic-number"; "degree"] ["stereo"] false.

(** [GEOMqm9(return_types=['mol_complete_graph'],
    features=['atomic-number'], target_tasks=['ensembleenergy'],
    device='cpu', prefetch_graphs=prefetch)]. *)
Definition mol_complete_args (prefetch : bool) : GEOMqm9.args Demo.externals :=
  Demo.args ["mol_complete_graph"] ["atomic-number"] [] prefetch.

(** The return types whose view is built on [get_graph], the graph of
    the bonds. *)
Definition bond_graph_return_types : list string :=
  ["mol_graph"; "mol_graph3d"; "se3Transformer_graph"; "se3Transformer_graph3d"].

(** [GEOMqm9(return_types=['mol_graph'], features=['atomic-number'],
    e_features=['stereo'], target_tasks=['ensembleenergy'],
    device='cpu', prefetch_graphs=prefetch)]. *)
Definition mol_graph_args (prefetch : bool) : GEOMqm9.args Demo.externals :=
  Demo.args ["mol_graph"] ["atomic-number"] ["stereo"] prefetch.

(** The return types of the complete graph over the atoms. *)
Definition complete_graph_return_types : list string :=
  ["complete_graph"; "complete_graph3d"].

(** * Properties *)

(** ** Generic facts on the result monad and on slices *)

Lemma mapM_res_Ok {A B} (f : A → res B) (g : A → B) (l : list A) :
  (∀ x, x ∈ l → f x = Ok (g x)) → mapM f l = Ok (g <$> l).
Proof.
  induction l as [|x l IH]; intros Hf; [done|].
  cbn. rewrite (Hf x) by left. cbn.
  rewrite IH; [done|]. intros y Hy. apply Hf. by right.
Qed.

Lemma slice_upto {A} (l : list A) (i : Z) :
  0 ≤ i → Py.slice l None (Some i) = take (Z.to_nat i) l.
Proof.
  intros Hi. unfold Py.slice, Py.bound; cbn.
  rewrite decide_False by lia. rewrite drop_0, Nat.sub_0_r.
  destruct (decide (i ≤ Z.of_nat (length l))).
  - by rewrite Z.min_l by lia.
  - rewrite Z.min_r by lia. rewrite Nat2Z.id.
    rewrite !take_ge; [done | lia | lia].
Qed.

Lemma slice_from {A} (l : list A) (i : Z) :
  0 ≤ i → Py.slice l (Some i) None = drop (Z.to_nat i) l.
Proof.
  intros Hi. unfold Py.slice, Py.bound; cbn.
  rewrite decide_False by lia.
  destruct (decide (i ≤ Z.of_nat (length l))).
  - rewrite Z.min_l by lia. apply take_ge. rewrite length_drop. lia.
  - rewrite Z.min_r by lia. rewrite Nat2Z.id, Nat.sub_diag. cbn.
    symmetry. apply drop_ge. lia.
Qed.

Lemma slice_range {A} (l : list A) (a b : Z) :
  0 ≤ a → a ≤ b → b ≤ Z.of_nat (length l) →
  Py.slice l (Some a) (Some b) = take (Z.to_nat (b - a)) (drop (Z.to_nat a) l).
Proof.
  intros Ha Hab Hb. unfold Py.slice, Py.bound; cbn.
  rewrite !decide_False by lia. rewrite !Z.min_l by lia.
  f_equal. lia.
Qed.

(** ** The shape of the complete graph *)

Lemma filter_all {A} (P : A → Prop) `{∀ x, Decision (P x)} (l : list A) :
  Forall P l → filter P l = l.
Proof.
  induction 1 as [|x l Hx _ IH]; [done|].
  by rewrite filter_cons_True, IH.
Qed.

Lemma seqZ_without (n i : Z) :
  0 ≤ i < n →
  take (Z.to_nat i) (seqZ 0 n) ++ drop (Z.to_nat (i + 1)) (seqZ 0 n)
  = filter (λ j, j ≠ i) (seqZ 0 n).
Proof.
  intros Hi.
  replace n with (i + (1 + (n - i - 1))) by lia.
  rewrite (seqZ_app 0 i) by lia. rewrite (seqZ_app (0 + i) 1) by lia.
  rewrite take_app_length' by (rewrite length_seqZ; lia).
  replace (Z.to_nat (i + 1)) with (length (seqZ 0 i ++ seqZ (0 + i) 1))
    by (rewrite length_app, !length_seqZ; lia).
  rewrite app_assoc, drop_app_length, <- app_assoc.
  rewrite !filter_app.
  rewrite (filter_all _ (seqZ 0 i))
    by (apply Forall_seqZ; intros; lia).
  rewrite (filter_all _ (seqZ (0 + i + 1) _))
    by (apply Forall_seqZ; intros; lia).
  replace (seqZ (0 + i) 1) with [i]
    by (rewrite seqZ_cons by lia; cbn; f_equal; lia).
  rewrite filter_cons_False by (intros Hne; by apply Hne). done.
Qed.

Lemma length_seqZ_without (n i : Z) :
  0 ≤ i < n →
  length (filter (λ j, j ≠ i) (seqZ 0 n)) = Z.to_nat (n - 1).
Proof.
  intros Hi. rewrite <- seqZ_without by done.
  rewrite length_app, length_take, length_drop, length_seqZ. lia.
Qed.

Lemma repeat_interleave_Ok (xs : list Z) (r : Z) :
  0 ≤ r → Torch.repeat_interleave xs r = Ok (xs ≫= replicate (Z.to_nat r)).
Proof.
  intros Hr. destruct xs; [done|].
  unfold Torch.repeat_interleave. by rewrite decide_False by lia.
Qed.

Lemma cat_Ok {A} (ts : list (list A)) :
  ts ≠ [] → Torch.cat ts = Ok (concat ts).
Proof. by destruct ts. Qed.

Lemma concat_fmap_bind {A B} (f : A → list B) (l : list A) :
  concat (f <$> l) = l ≫= f.
Proof. induction l; cbn; by f_equal. Qed.

Lemma pairwise_compute_complete (n : Z) :
  1 ≤ n → pairwise_compute n = Ok (complete_src n, complete_dst n).
Proof.
  intros Hn. unfold pairwise_compute, Torch.arange.
  rewrite decide_False by lia. cbn.
  rewrite repeat_interleave_Ok by lia. cbn.
  rewrite (mapM_res_Ok _ (λ i, filter (λ j, j ≠ i) (seqZ 0 n))).
  - cbn. rewrite cat_Ok.
    + cbn. by rewrite concat_fmap_bind.
    + unfold Py.range. rewrite seqZ_cons by lia. done.
  - intros i Hi. apply elem_of_seqZ in Hi. cbn.
    rewrite slice_upto, slice_from by lia. cbn.
    rewrite app_nil_r. f_equal. apply seqZ_without. lia.
Qed.

Lemma length_bind_const {A B} (f : A → list B) (l : list A) (k : nat) :
  (∀ x, x ∈ l → length (f x) = k) → length (l ≫= f) = (length l * k)%nat.
Proof.
  induction l as [|x l IH]; intros Hf; [done|].
  cbn. rewrite length_app, (Hf x) by left.
  rewrite IH; [lia|]. intros y Hy. apply Hf. by right.
Qed.

Lemma zip_bind {A B C} (f : A → list B) (g : A → list C) (l : list A) :
  (∀ x, x ∈ l → length (f x) = length (g x)) →
  zip (l ≫= f) (l ≫= g) = l ≫= λ x, zip (f x) (g x).
Proof.
  induction l as [|x l IH]; intros Hfg; [done|].
  cbn. rewrite zip_with_app by (apply Hfg; left).
  f_equal. apply IH. intros y Hy. apply Hfg. by right.
Qed.

Lemma zip_replicate_l {A B} (x : A) (l : list B) :
  zip (replicate (length l) x) l = (λ y, (x, y)) <$> l.
Proof. induction l; cbn; by f_equal. Qed.

Lemma bind_ext_in {A B} (f g : A → list B) (l : list A) :
  (∀ x, x ∈ l → f x = g x) → l ≫= f = l ≫= g.
Proof.
  induction l as [|x l IH]; intros Hfg; [done|].
  cbn. rewrite (Hfg x) by left. f_equal. apply IH.
  intros y Hy. apply Hfg. by right.
Qed.

Lemma complete_zip (n : Z) :
  zip (complete_src n) (complete_dst n)
  = seqZ 0 n ≫= λ i, (λ j, (i, j)) <$> filter (λ j, j ≠ i) (seqZ 0 n).
Proof.
  unfold complete_src, complete_dst. rewrite zip_bind.
  - apply bind_ext_in. intros i Hi. apply elem_of_seqZ in Hi.
    rewrite <- (length_seqZ_without n i) by lia. apply zip_replicate_l.
  - intros i Hi. apply elem_of_seqZ in Hi.
    rewrite length_replicate, length_seqZ_without; [done|lia].
Qed.

Lemma complete_length_src (n : Z) :
  1 ≤ n → Z.of_nat (length (complete_src n)) = n * (n - 1).
Proof.
  intros Hn. unfold complete_src.
  rewrite (length_bind_const _ _ (Z.to_nat (n - 1))).
  - rewrite length_seqZ. nia.
  - intros. apply length_replicate.
Qed.

Lemma complete_length_dst (n : Z) :
  1 ≤ n → Z.of_nat (length (complete_dst n)) = n * (n - 1).
Proof.
  intros Hn. unfold complete_dst.
  rewrite (length_bind_const _ _ (Z.to_nat (n - 1))).
  - rewrite length_seqZ. nia.
  - intros i Hi. apply elem_of_seqZ in Hi. apply length_seqZ_without. lia.
Qed.

Lemma complete_elem_of (n i j : Z) :
  (i, j) ∈ zip (complete_src n) (complete_dst n)
  ↔ 0 ≤ i < n ∧ 0 ≤ j < n ∧ i ≠ j.
Proof.
  rewrite complete_zip, list_elem_of_bind. split.
  - intros (k & Hjk & Hk). apply list_elem_of_fmap in Hjk as (j' & Heq & Hj').
    inversion Heq; subst. apply list_elem_of_filter in Hj' as [Hne Hj'].
    apply elem_of_seqZ in Hk, Hj'. repeat split; try lia; congruence.
  - intros (Hi & Hj & Hne). exists i. split.
    + apply list_elem_of_fmap. exists j. split; [done|].
      apply list_elem_of_filter. split; [congruence|]. apply elem_of_seqZ. lia.
    + apply elem_of_seqZ. lia.
Qed.

Lemma complete_NoDup (n : Z) :
  NoDup (zip (complete_src n) (complete_dst n)).
Proof.
  rewrite complete_zip. apply NoDup_bind.
  - intros i1 i2 [a b] _ _ H1 H2.
    apply list_elem_of_fmap in H1 as (? & ? & _), H2 as (? & ? & _).
    congruence.
  - intros i _. apply NoDup_fmap_2; [intros ?? ?; congruence|].
    apply NoDup_filter, NoDup_seqZ.
  - apply NoDup_seqZ.
Qed.

(** ** The memo is transparent *)

Lemma memo_inv_empty : memo_inv ∅.
Proof. intros k p Hk. by rewrite lookup_empty in Hk. Qed.

Lemma get_pairwise_inv (n : pyint) (m : gmap pyint pairs) :
  memo_inv m →
  (get_pairwise n m).1 = pairwise_compute (pyint_val n)
  ∧ memo_inv (get_pairwise n m).2.
Proof.
  intros Hm. unfold get_pairwise.
  destruct (m !! n) as [p|] eqn:Hn; cbn.
  - split; [|done]. symmetry. by apply Hm.
  - destruct (pairwise_compute (pyint_val n)) as [p|e] eqn:Hc; cbn;
      (split; [done|]); [|done].
    intros k q. rewrite lookup_insert. case_decide as Hk.
    + intros [= <-]. by subst k.
    + apply Hm.
Qed.

Lemma get_pairwise_calls_inv (ns : list pyint) (m : gmap pyint pairs) :
  memo_inv m →
  (get_pairwise_calls ns m).1 = (λ n, pairwise_compute (pyint_val n)) <$> ns
  ∧ memo_inv (get_pairwise_calls ns m).2.
Proof.
  revert m. induction ns as [|n ns IH]; intros m Hm; [done|].
  cbn. destruct (get_pairwise_inv n m Hm) as [Hr Hm1].
  destruct (get_pairwise n m) as [r m1]. cbn in Hr, Hm1.
  destruct (IH m1 Hm1) as [Hrs Hm2].
  destruct (get_pairwise_calls ns m1) as [rs m2]. cbn in *.
  split; [by f_equal|done].
Qed.

(** C1: for [n_atoms >= 1], [get_pairwise] returns index sequences
    [(src, dst)], each of length [n_atoms * (n_atoms - 1)], whose pairs
    are exactly the ordered pairs [(i, j)] with [0 <= i, j < n_atoms]
    and [i <> j], each once; [src] repeats each [i] [n_atoms - 1] times
    in increasing order of [i] and [dst] lists for each [i] the
    [j <> i] in increasing order. *)
Theorem get_pairwise_complete_graph (n : pyint) (m : gmap pyint pairs) :
  1 ≤ pyint_val n → memo_inv m →
  ∃ src dst,
    (get_pairwise n m).1 = Ok (src, dst)
    ∧ Z.of_nat (length src) = pyint_val n * (pyint_val n - 1)
    ∧ Z.of_nat (length dst) = pyint_val n * (pyint_val n - 1)
    ∧ (∀ i j, (i, j) ∈ zip src dst
              ↔ 0 ≤ i < pyint_val n ∧ 0 ≤ j < pyint_val n ∧ i ≠ j)
    ∧ NoDup (zip src dst)
    ∧ src = (seqZ 0 (pyint_val n)
               ≫= λ i, replicate (Z.to_nat (pyint_val n - 1)) i)
    ∧ dst = (seqZ 0 (pyint_val n)
               ≫= λ i, filter (λ j, j ≠ i) (seqZ 0 (pyint_val n))).
Proof.
  intros Hn Hm. exists (complete_src (pyint_val n)), (complete_dst (pyint_val n)).
  destruct (get_pairwise_inv n m Hm) as [-> _].
  split; [by apply pairwise_compute_complete|].
  split; [by apply complete_length_src|].
  split; [by apply complete_length_dst|].
  split; [intros; apply complete_elem_of|].
  split; [apply complete_NoDup|done].
Qed.

Lemma get_pairwise_complete_graph_witness :
  ∃ src dst,
    (get_pairwise (PyInt 3) ∅).1 = Ok (src, dst)
    ∧ Z.of_nat (length src) = 3 * (3 - 1)
    ∧ Z.of_nat (length dst) = 3 * (3 - 1)
    ∧ (∀ i j, (i, j) ∈ zip src dst ↔ 0 ≤ i < 3 ∧ 0 ≤ j < 3 ∧ i ≠ j)
    ∧ NoDup (zip src dst)
    ∧ src = (seqZ 0 3 ≫= λ i, replicate (Z.to_nat (3 - 1)) i)
    ∧ dst = (seqZ 0 3 ≫= λ i, filter (λ j, j ≠ i) (seqZ 0 3)).
Proof.
  apply (get_pairwise_complete_graph (PyInt 3) ∅); [cbn; lia | apply memo_inv_empty].
Defined.

Example get_pairwise_3 :
  (get_pairwise (PyInt 3) ∅).1 = Ok ([0; 0; 1; 1; 2; 2], [1; 2; 0; 2; 0; 1]).
Proof. reflexivity. Qed.

Example get_pairwise_1 : (get_pairwise (PyInt 1) ∅).1 = Ok ([], []).
Proof. reflexivity. Qed.

Example get_pairwise_0 : (get_pairwise (PyInt 0) ∅).1 = Raise RuntimeError.
Proof. reflexivity. Qed.

(** C6: [get_pairwise] is a pure memoised function.  In any run of
    calls on an object, whose memo starts as the empty dictionary of the
    constructor, every call returns what a fresh computation on its
    argument produces, whether it hits the memo or not, and two calls
    with the same [n_atoms] return equal results. *)
Theorem get_pairwise_memo_transparent (ns : list pyint) :
  let rs := (get_pairwise_calls ns ∅).1 in
  rs = (λ n, pairwise_compute (pyint_val n)) <$> ns
  ∧ memo_inv (get_pairwise_calls ns ∅).2
  ∧ (∀ n, (get_pairwise n (get_pairwise_calls ns ∅).2).1
          = pairwise_compute (pyint_val n))
  ∧ (∀ i j, pyint_val <$> ns !! i = pyint_val <$> ns !! j →
            rs !! i = rs !! j).
Proof.
  cbn zeta. destruct (get_pairwise_calls_inv ns ∅ memo_inv_empty) as [Hr Hm].
  split; [done|]. split; [done|]. split.
  - intros n. by apply get_pairwise_inv.
  - intros i j Hij. rewrite Hr, !list_lookup_fmap.
    destruct (ns !! i), (ns !! j); cbn in *; congruence.
Qed.

(** ** The result monad *)

Lemma res_bind_Ok {A B} (m : res A) (f : A → res B) (b : B) :
  m ≫= f = Ok b → ∃ a, m = Ok a ∧ f a = Ok b.
Proof. destruct m as [a|e]; cbn; [eauto | discriminate]. Qed.

Lemma mapM_res_length {A B} (f : A → res B) (l : list A) (k : list B) :
  mapM f l = Ok k → length k = length l.
Proof.
  revert k. induction l as [|x l IH]; intros k; cbn.
  - by intros [= <-].
  - intros H. apply res_bind_Ok in H as (y & _ & H).
    apply res_bind_Ok in H as (k' & Hk' & [= <-]).
    cbn. f_equal. by apply IH.
Qed.

Lemma io_bind_Ok {F A B} (m : io F A) (f : A → io F B) w b w' :
  (m ≫= f) w = (Ok b, w') → ∃ a w1, m w = (Ok a, w1) ∧ f a w1 = (Ok b, w').
Proof.
  unfold mbind, io_bind. destruct (m w) as [[a|e] w1]; [eauto | discriminate].
Qed.

Lemma io_bind_unfold {F A B} (m : io F A) (f : A → io F B) w :
  (m ≫= f) w
  = match m w with
    | (Ok a, w') => f a w'
    | (Raise e, w') => (Raise e, w')
    end.
Proof. done. Qed.

Ltac io_step :=
  rewrite io_bind_unfold;
  cbn [get_fs put_fs emit lift mret io_ret w_fs w_trace].

(** ** Sorting positions *)

Lemma length_insert_key x l : length (insert_key x l) = S (length l).
Proof.
  induction l as [|y l IH]; [done|]. cbn.
  case_decide; cbn; by rewrite ?IH.
Qed.

Lemma length_argsort keys : length (argsort keys) = length keys.
Proof.
  unfold argsort. rewrite length_fmap.
  assert (∀ l : list (Z * Z), length (foldr insert_key [] l) = length l) as ->.
  { induction l as [|x l IH]; [done|]. cbn. by rewrite length_insert_key, IH. }
  rewrite length_zip_with, length_seqZ. lia.
Qed.

Lemma length_gather {A} (l : list A) idx k :
  Tensor.gather l idx = Ok k → length k = length idx.
Proof. apply mapM_res_length. Qed.

Lemma length_bond_rows (bonds : list (Z * Z)) :
  length (Process.bond_rows bonds).1 = (2 * length bonds)%nat
  ∧ length (Process.bond_rows bonds).2 = (2 * length bonds)%nat.
Proof.
  unfold Process.bond_rows; cbn. split.
  - rewrite (length_bind_const _ _ 2); [lia|]. by intros [].
  - rewrite (length_bind_const _ _ 2); [lia|]. by intros [].
Qed.

(** ** Joining tensors *)

Lemma cat0_Ok {F} (ms : list (list (list (scalar F)))) m :
  Tensor.cat0 ms = Ok m → m = concat ms ∧ ms ≠ [].
Proof.
  unfold Tensor.cat0. destruct ms as [|m0 ms']; [done|].
  destruct (concat (m0 :: ms')) as [|r rs]; [by intros [= <-]|].
  case_match; [|done]. by intros [= <-].
Qed.

Lemma length_foldl_zip_app {A} (m : list (list A)) ms :
  Forall (λ m', length m' = length m) ms →
  length (foldl (zip_with app) m ms) = length m.
Proof.
  revert m. induction ms as [|m' ms IH]; intros m Hl; [done|].
  apply Forall_cons in Hl as [Hm' Hl]. cbn. rewrite IH.
  - rewrite length_zip_with. lia.
  - rewrite length_zip_with. eapply Forall_impl; [done|]. cbn. intros; lia.
Qed.

Lemma lookup_foldl_zip_app {A} (m : list (list A)) ms (r : nat) row :
  Forall (λ m', length m' = length m) ms →
  m !! r = Some row →
  foldl (zip_with app) m ms !! r
  = Some (row ++ concat ((λ m', default [] (m' !! r)) <$> ms)).
Proof.
  revert m row. induction ms as [|m' ms IH]; intros m row Hl Hr.
  { cbn. by rewrite app_nil_r. }
  apply Forall_cons in Hl as [Hm' Hl]. cbn.
  destruct (m' !! r) as [row'|] eqn:Hr'.
  2:{ apply lookup_ge_None in Hr'. apply lookup_lt_Some in Hr. lia. }
  rewrite (IH _ (row ++ row')).
  - cbn. by rewrite <- app_assoc.
  - rewrite length_zip_with. eapply Forall_impl; [done|]. cbn. intros; lia.
  - rewrite lookup_zip_with, Hr. cbn. by rewrite Hr'.
Qed.

Lemma cat1_Ok {F} (ms : list (list (list (scalar F)))) m :
  Tensor.cat1 ms = Ok m →
  ∃ m0 ms', ms = m0 :: ms'
    ∧ Forall (λ m', length m' = length m0) ms'
    ∧ m = foldl (zip_with app) m0 ms'.
Proof.
  unfold Tensor.cat1. destruct ms as [|m0 ms']; [done|].
  destruct (forallb _ ms') eqn:Hall; [|done]. intros [= <-].
  exists m0, ms'. split; [done|]. split; [|done].
  apply Forall_forall. intros m' Hm'.
  rewrite forallb_forall in Hall. apply list_elem_of_In in Hm'.
  specialize (Hall m' Hm'). by apply bool_decide_eq_true in Hall.
Qed.

Lemma cat1_lookup {F} (ms : list (list (list (scalar F)))) m (r : nat) :
  Tensor.cat1 ms = Ok m →
  (r < length m)%nat →
  m !! r = Some (concat ((λ m', default [] (m' !! r)) <$> ms)).
Proof.
  intros (m0 & ms' & -> & Hl & ->)%cat1_Ok Hr.
  rewrite length_foldl_zip_app in Hr by done.
  destruct (lookup_lt_is_Some_2 m0 r Hr) as [row Hrow].
  rewrite (lookup_foldl_zip_app _ _ _ row) by done.
  cbn. by rewrite Hrow.
Qed.

Lemma cat1_length {F} (ms : list (list (list (scalar F)))) m :
  Tensor.cat1 ms = Ok m → Forall (λ m', length m' = length m) ms.
Proof.
  intros (m0 & ms' & -> & Hl & ->)%cat1_Ok.
  rewrite length_foldl_zip_app by done.
  apply Forall_cons. split; [done|]. done.
Qed.

Lemma cat1_Ok_2 {F} (ms : list (list (list (scalar F)))) (n : nat) :
  ms ≠ [] → Forall (λ m', length m' = n) ms → is_Ok (Tensor.cat1 ms).
Proof.
  intros Hne Hl. destruct ms as [|m0 ms']; [done|].
  apply Forall_cons in Hl as [Hm0 Hl]. unfold Tensor.cat1.
  destruct (forallb _ ms') eqn:Hall; [by eexists|].
  exfalso. apply not_true_iff_false in Hall. apply Hall.
  apply forallb_forall. intros m' Hm'. apply list_elem_of_In in Hm'.
  apply bool_decide_eq_true. rewrite Forall_forall in Hl.
  rewrite (Hl m' Hm'). done.
Qed.

(** ** One step of the ETL loop *)

Section process_facts.
Context (X : externals).
Context (atomic_features :
           rd_mol (flt X) → list string → list (string * list (scalar (flt X)))).
Context (edge_features :
           rd_mol (flt X) → list string
           → list (string * list (list (scalar (flt X))))).

Local Abbreviation process_mol := (Process.process_mol X atomic_features edge_features).
Local Abbreviation process_loop := (Process.process_loop X atomic_features edge_features).
Local Abbreviation process := (Process.process X atomic_features edge_features).
Local Abbreviation acc := (Process.acc X).

Lemma pad_conformers_Ok (md : mol_dict (flt X)) confs :
  Process.pad_conformers X (md_conformers md) = Ok confs →
  md_conformers md ≠ [] →
  confs = (λ c, fmap (M:=list) (to_float X) <$> GetPositions (conf_rd_mol c))
            <$> ten_conformers md.
Proof.
  unfold Process.pad_conformers, ten_conformers.
  destruct (md_conformers md) as [|c0 cs] eqn:Hcs; [done|]. intros H _.
  rewrite (slice_upto _ 10) in H by lia.
  replace (Z.to_nat 10) with 10%nat in H by lia.
  set (f := λ c : conformer (flt X),
              fmap (M:=list) (to_float X) <$> GetPositions (conf_rd_mol c)) in *.
  rewrite fmap_app, fmap_replicate.
  rewrite length_fmap in H.
  assert (Py.index (f <$> take 10 (c0 :: cs)) 0 = Ok (f c0)) as Hidx by done.
  case_decide as Hlen.
  - rewrite Hidx in H. by injection H as <-.
  - injection H as <-.
    replace (10 - _)%nat with 0%nat by lia. by rewrite app_nil_r.
Qed.

Lemma ten_conformers_length (md : mol_dict (flt X)) :
  md_conformers md ≠ [] → length (ten_conformers md) = 10%nat.
Proof.
  unfold ten_conformers. destruct (md_conformers md) as [|c0 cs]; [done|].
  intros _. rewrite length_app, length_replicate, length_take. lia.
Qed.

Lemma ten_conformers_head (md : mol_dict (flt X)) c0 cs :
  md_conformers md = c0 :: cs → ∃ rest, ten_conformers md = c0 :: rest.
Proof. unfold ten_conformers. intros ->. cbn. eauto. Qed.

Lemma coordinate_block_Ok (md : mol_dict (flt X)) block :
  md_conformers md ≠ [] →
  Tensor.cat1 ((λ c, fmap (M:=list) (to_float X) <$> GetPositions (conf_rd_mol c))
                 <$> ten_conformers md) = Ok block →
  block = coordinate_block (to_float X) md
  ∧ Forall (λ c, length (mol_atoms (conf_rd_mol c)) = length (md_atoms md))
      (ten_conformers md).
Proof.
  intros Hne Hcat.
  destruct (md_conformers md) as [|c0 cs] eqn:Hcs; [done|].
  destruct (ten_conformers_head md c0 cs Hcs) as [rest Hten].
  pose proof (cat1_length _ _ Hcat) as Hl.
  assert (length block = length (md_atoms md)) as Hlen.
  { rewrite Hten in Hl. cbn in Hl. apply Forall_cons in Hl as [Hl _].
    unfold md_atoms. rewrite Hcs. rewrite <- Hl.
    unfold GetPositions. by rewrite !length_fmap. }
  split.
  - apply list_eq. intros r.
    destruct (decide (r < length block)%nat) as [Hr|Hr].
    + rewrite (cat1_lookup _ _ _ Hcat Hr).
      unfold coordinate_block. rewrite list_lookup_fmap.
      rewrite lookup_seq_lt by lia. cbn. f_equal. rewrite <- list_fmap_compose.
      f_equal. apply list_fmap_ext. intros _ c _. cbn.
      rewrite list_lookup_fmap. by destruct (GetPositions _ !! r).
    + rewrite !lookup_ge_None_2; [done| |lia].
      unfold coordinate_block. rewrite length_fmap, length_seq. lia.
  - apply Forall_fmap in Hl. eapply Forall_impl; [exact Hl|].
    intros c Hc. cbn in Hc. unfold GetPositions in Hc.
    rewrite !length_fmap in Hc. lia.
Qed.

Lemma process_mol_Ok (a a' : acc) smiles (md : mol_dict (flt X)) :
  process_mol a smiles md = Ok a' →
  md_n_atoms md ≠ 0
  ∧ Process.atom_slices X a'
    = Process.atom_slices X a ++ [Process.total_atoms X a + md_n_atoms md]
  ∧ Process.edge_slices X a'
    = Process.edge_slices X a ++ [Process.total_edges X a + 2 * md_n_bonds md]
  ∧ Process.total_atoms X a' = Process.total_atoms X a + md_n_atoms md
  ∧ Process.total_edges X a' = Process.total_edges X a + 2 * md_n_bonds md
  ∧ Process.n_atoms_list X a' = Process.n_atoms_list X a ++ [md_n_atoms md]
  ∧ Process.smiles_list X a' = Process.smiles_list X a ++ [smiles]
  ∧ (∃ r c : list Z,
       Process.edge_indices X a'
       = Process.edge_indices X a ++ [[SInt <$> r; SInt <$> c]]
       ∧ Z.of_nat (length r) = 2 * md_n_bonds md
       ∧ Z.of_nat (length c) = 2 * md_n_bonds md)
  ∧ Process.coordinates X a'
    = Process.coordinates X a ++ [coordinate_block (to_float X) md]
  ∧ md_conformers md ≠ []
  ∧ Forall (λ c, length (mol_atoms (conf_rd_mol c)) = length (md_atoms md))
      (ten_conformers md).
Proof.
  unfold Process.process_mol. intros H.
  apply res_bind_Ok in H as (c0 & Hc0 & H).
  assert (∃ cs, md_conformers md = c0 :: cs) as [cs Hcs].
  { unfold Py.index in Hc0. cbn in Hc0.
    destruct (md_conformers md) as [|c cs]; [done|].
    cbn in Hc0. injection Hc0 as ->. eauto. }
  apply res_bind_Ok in H as (atom_float' & _ & H).
  apply res_bind_Ok in H as (type_idx & _ & H).
  apply res_bind_Ok in H as (numbers & _ & H).
  destruct (Process.bond_rows _) as [row col] eqn:Hrows.
  pose proof (length_bond_rows (mol_bonds (conf_rd_mol c0))) as [Hrow Hcol].
  rewrite Hrows in Hrow, Hcol. cbn in Hrow, Hcol.
  apply res_bind_Ok in H as (avg' & Havg & H).
  apply res_bind_Ok in H as (row' & Hrow' & H).
  apply res_bind_Ok in H as (col' & Hcol' & H).
  apply res_bind_Ok in H as (e_features' & _ & H).
  apply res_bind_Ok in H as (targets' & _ & H).
  apply res_bind_Ok in H as (confs & Hconfs & H).
  apply res_bind_Ok in H as (block & Hblock & H).
  injection H as <-. cbn.
  assert (md_n_atoms md = Z.of_nat (length (mol_atoms (conf_rd_mol c0)))) as Hn.
  { unfold md_n_atoms, md_atoms. by rewrite Hcs. }
  assert (md_n_bonds md = Z.of_nat (length (mol_bonds (conf_rd_mol c0)))) as Hb.
  { unfold md_n_bonds. by rewrite Hcs. }
  rewrite Hn, Hb.
  apply length_gather in Hrow', Hcol'.
  rewrite length_argsort, length_zip_with in Hrow', Hcol'.
  split. { intros Hz. rewrite decide_True in Havg by done. done. }
  repeat (split; [f_equal; f_equal; lia|]).
  split.
  { exists row', col'. split; [done|]. lia. }
  apply pad_conformers_Ok in Hconfs; [|by rewrite Hcs]. subst confs.
  apply coordinate_block_Ok in Hblock as [-> Hsame]; [|by rewrite Hcs].
  split; [done|]. split; [by rewrite Hcs|done].
Qed.

End process_facts.

(** ** Running totals *)

Lemma length_sums_from t l : length (sums_from t l) = length l.
Proof. revert t. induction l as [|x l IH]; intros t; cbn; by rewrite ?IH. Qed.

Lemma sums_from_step t l (i : nat) x n :
  (t :: sums_from t l) !! i = Some x → l !! i = Some n →
  (t :: sums_from t l) !! S i = Some (x + n).
Proof.
  revert t i. induction l as [|y l IH]; intros t i Hx Hn; [done|].
  destruct i as [|i]; cbn in *.
  - by injection Hx as <-; injection Hn as <-.
  - by apply IH.
Qed.

Lemma sums_from_lookup_lt t l (i : nat) :
  (i < S (length l))%nat → is_Some ((t :: sums_from t l) !! i).
Proof.
  intros Hi. apply lookup_lt_is_Some_2. cbn. rewrite length_sums_from. lia.
Qed.

Lemma sums_from_last t l :
  last (t :: sums_from t l) = Some (t + foldr Z.add 0 l).
Proof.
  revert t. induction l as [|x l IH]; intros t; cbn -[last].
  - cbn. f_equal. lia.
  - rewrite last_cons, IH. cbn. f_equal. lia.
Qed.

Lemma sums_from_app t l1 l2 :
  sums_from t (l1 ++ l2)
  = sums_from t l1 ++ sums_from (t + foldr Z.add 0 l1) l2.
Proof.
  revert t. induction l1 as [|x l1 IH]; intros t; cbn.
  - f_equal. lia.
  - f_equal. rewrite IH. f_equal. f_equal. lia.
Qed.

(** ** The loop of [process] *)

Section process_loop_facts.
Context (X : externals).
Context (atomic_features :
           rd_mol (flt X) → list string → list (string * list (scalar (flt X)))).
Context (edge_features :
           rd_mol (flt X) → list string
           → list (string * list (list (scalar (flt X))))).

Local Abbreviation process_mol := (Process.process_mol X atomic_features edge_features).
Local Abbreviation process_loop := (Process.process_loop X atomic_features edge_features).
Local Abbreviation acc := (Process.acc X).

Lemma retained_items_cons (f : fs (flt X)) smiles pp items :
  retained_items f ((smiles, pp) :: items)
  = match pp ≫= λ p, fs_pickles f !! p with
    | Some md =>
        if decide (is_Some (md_props md !! "ensembleenergy"))
        then [(smiles, md)] else []
    | None => []
    end ++ retained_items f items.
Proof. done. Qed.

Lemma process_loop_fold items (a : acc) (f : fs (flt X)) t :
  ∃ t', process_loop items a (Build_world f t)
        = (fold_mols process_mol (retained_items f items) a,
           Build_world f (t ++ t')).
Proof.
  revert a t. induction items as [|[smiles pp] items IH]; intros a t.
  { exists []. by rewrite app_nil_r. }
  rewrite retained_items_cons. cbn [Process.process_loop].
  io_step. io_step.
  destruct pp as [p|]; cbn [mbind option_bind].
  2:{ cbn [app]. apply IH. }
  destruct (fs_pickles f !! p) as [md|] eqn:Hp; cbn [fmap option_fmap option_map].
  2:{ cbn [app]. apply IH. }
  io_step.
  case_decide as He.
  - destruct (process_mol a smiles md) as [a'|e] eqn:Hm;
      cbn [app fold_mols]; rewrite Hm; cbn [mbind res_bind]; unfold lift.
    + destruct (IH a' (t ++ [EvReadPickle p])) as [t' ->].
      exists (EvReadPickle p :: t'). by rewrite <- app_assoc.
    + by exists [EvReadPickle p].
  - cbn [app]. unfold mret, io_ret.
    destruct (IH a (t ++ [EvReadPickle p])) as [t' ->].
    exists (EvReadPickle p :: t'). by rewrite <- app_assoc.
Qed.

(** What the loop has accumulated, in terms of the retained
    molecules. *)
Lemma fold_mols_Ok (ms : list (string * mol_dict (flt X))) (a a' : acc) :
  fold_mols process_mol ms a = Ok a' →
  let mds : list (mol_dict (flt X)) := ms.*2 in
  Forall (λ md, md_n_atoms md ≠ 0) mds
  ∧ Process.atom_slices X a'
    = Process.atom_slices X a
      ++ sums_from (Process.total_atoms X a) (fmap (M:=list) md_n_atoms mds)
  ∧ Process.edge_slices X a'
    = Process.edge_slices X a
      ++ sums_from (Process.total_edges X a)
           (fmap (M:=list) (λ md, 2 * md_n_bonds md) mds)
  ∧ Process.n_atoms_list X a'
    = Process.n_atoms_list X a ++ fmap (M:=list) md_n_atoms mds
  ∧ Process.smiles_list X a' = Process.smiles_list X a ++ ms.*1
  ∧ (∃ eis : list (list Z * list Z),
       Process.edge_indices X a'
       = Process.edge_indices X a
         ++ fmap (M:=list)
              (λ rc : list Z * list Z,
                 [fmap (M:=list) SInt rc.1; fmap (M:=list) SInt rc.2]) eis
       ∧ Forall2 (λ (rc : list Z * list Z) md,
                    Z.of_nat (length rc.1) = 2 * md_n_bonds md
                    ∧ Z.of_nat (length rc.2) = 2 * md_n_bonds md)
           eis mds)
  ∧ Process.coordinates X a'
    = Process.coordinates X a
      ++ fmap (M:=list) (coordinate_block (to_float X)) mds
  ∧ Forall (λ md,
              md_conformers md ≠ []
              ∧ Forall (λ c, length (mol_atoms (conf_rd_mol c))
                             = length (md_atoms md))
                  (ten_conformers md)) mds.
Proof.
  revert a. induction ms as [|[smiles md] ms IH]; intros a; cbn zeta.
  - cbn. intros [= <-]. rewrite !app_nil_r. repeat split; try done.
    exists []. cbn. by rewrite app_nil_r.
  - cbn [fold_mols]. intros H.
    apply res_bind_Ok in H as (a1 & H1 & H).
    apply process_mol_Ok in H1
      as (Hn & Has & Hes & Hta & Hte & Hnl & Hsm & (r & c & Hei & Hr & Hc)
          & Hco & Hne & Hsame).
    apply IH in H as (Hn' & -> & -> & -> & -> & (eis & -> & Heis) & -> & Hall).
    rewrite Has, Hes, Hta, Hte, Hnl, Hsm, Hei, Hco.
    cbn. rewrite <- !app_assoc. cbn.
    split; [by constructor|].
    repeat (split; [done|]).
    split; [|split; [done|by constructor]].
    exists ((r, c) :: eis). split; [done|]. by constructor.
Qed.

End process_loop_facts.

(** ** The saved dictionary *)

Ltac lookup_insert_chain :=
  repeat (rewrite lookup_insert_ne by (intros ?; discriminate));
  try apply lookup_insert_eq.

Section process_result.
Context (X : externals).
Context (atomic_features :
           rd_mol (flt X) → list string → list (string * list (scalar (flt X)))).
Context (edge_features :
           rd_mol (flt X) → list string
           → list (string * list (list (scalar (flt X))))).

Local Abbreviation process_mol := (Process.process_mol X atomic_features edge_features).
Local Abbreviation process_loop := (Process.process_loop X atomic_features edge_features).
Local Abbreviation process := (Process.process X atomic_features edge_features).
Local Abbreviation acc := (Process.acc X).

Lemma build_data_dict_Ok (a : acc) d :
  Process.build_data_dict X a = Ok d →
  d !! "smiles" = Some (VStrs (Process.smiles_list X a))
  ∧ d !! "n_atoms"
    = Some (VTensor (T1 (SInt <$> Process.n_atoms_list X a)))
  ∧ d !! "atom_slices"
    = Some (VTensor (T1 (SInt <$> Process.atom_slices X a)))
  ∧ d !! "edge_slices"
    = Some (VTensor (T1 (SInt <$> Process.edge_slices X a)))
  ∧ (∃ ei, Tensor.cat1 (Process.edge_indices X a) = Ok ei
           ∧ d !! "edge_indices" = Some (VTensor (T2 ei)))
  ∧ (∃ co, Tensor.cat0 (Process.coordinates X a) = Ok co
           ∧ d !! "coordinates"
             = Some (VTensor (T2 (fmap (M:=list) (to_float X) <$> co)))).
Proof.
  unfold Process.build_data_dict. intros H.
  apply res_bind_Ok in H as (d1 & _ & H).
  apply res_bind_Ok in H as (in_ring & _ & H).
  apply res_bind_Ok in H as (in_ring_edges & _ & H).
  apply res_bind_Ok in H as (atomic_number & _ & H).
  apply res_bind_Ok in H as (ei & Hei & H).
  apply res_bind_Ok in H as (co & Hco & H).
  apply res_bind_Ok in H as (avg & _ & H).
  injection H as <-.
  split; [lookup_insert_chain|].
  split; [lookup_insert_chain|].
  split; [lookup_insert_chain|].
  split; [lookup_insert_chain|].
  split; [exists ei; split; [done|lookup_insert_chain]|].
  exists co; split; [done|lookup_insert_chain].
Qed.

Lemma process_Ok (w w' : world (flt X)) u :
  process w = (Ok u, w') →
  ∃ a d t,
    fold_mols process_mol (retained (w_fs w)) (Process.init_acc X) = Ok a
    ∧ Process.build_data_dict X a = Ok d
    ∧ w_fs w' = {| fs_summary := fs_summary (w_fs w);
                   fs_pickles := fs_pickles (w_fs w);
                   fs_processed := Some d |}
    ∧ w_trace w' = w_trace w ++ EvProcess :: t.
Proof.
  destruct w as [f t0]. unfold Process.process.
  io_step. io_step. io_step.
  unfold retained. cbn [w_fs w_trace].
  destruct (fs_summary f) as [summary|]; [|done]. cbn [default].
  io_step. io_step.
  destruct (process_loop_fold X atomic_features edge_features
              summary (Process.init_acc X) f ((t0 ++ [EvProcess]) ++ [EvReadSummary]))
    as [t1 ->].
  destruct (fold_mols _ _ _) as [a|e] eqn:Hfold; [|done].
  io_step. destruct (Process.build_data_dict X a) as [d|e] eqn:Hd; [|done].
  io_step. intros [= <- <-].
  exists a, d, (EvReadSummary :: t1 ++ [EvSave]).
  split; [done|]. split; [done|]. split; [done|].
  cbn. by rewrite <- !app_assoc.
Qed.

Lemma process_trace (w : world (flt X)) :
  ∃ t, w_trace (process w).2 = w_trace w ++ EvProcess :: t.
Proof.
  destruct w as [f t0]. unfold Process.process.
  io_step. io_step. io_step.
  destruct (fs_summary f) as [summary|].
  2:{ exists []. done. }
  io_step. io_step.
  destruct (process_loop_fold X atomic_features edge_features
              summary (Process.init_acc X) f ((t0 ++ [EvProcess]) ++ [EvReadSummary]))
    as [t1 ->].
  destruct (fold_mols _ _ _) as [a|e].
  2:{ exists (EvReadSummary :: t1). cbn. by rewrite <- !app_assoc. }
  io_step. destruct (Process.build_data_dict X a) as [d|e].
  2:{ exists (EvReadSummary :: t1). cbn. by rewrite <- !app_assoc. }
  io_step. exists (EvReadSummary :: t1 ++ [EvSave]).
  cbn. by rewrite <- !app_assoc.
Qed.

End process_result.

(** ** The offset tables *)

Lemma sums_from_mono t l (i : nat) x y :
  Forall (λ n, 0 ≤ n) l →
  (t :: sums_from t l) !! i = Some x → (t :: sums_from t l) !! S i = Some y →
  x ≤ y.
Proof.
  intros Hl Hx Hy.
  assert (i < length l)%nat as Hi.
  { apply lookup_lt_Some in Hy. cbn in Hy. rewrite length_sums_from in Hy. lia. }
  destruct (lookup_lt_is_Some_2 l i Hi) as [n Hn].
  rewrite (sums_from_step t l i x n Hx Hn) in Hy. injection Hy as <-.
  rewrite Forall_forall in Hl.
  assert (0 ≤ n) by (apply Hl; by eapply list_elem_of_lookup_2). lia.
Qed.

Lemma foldl_zip_app_two {F} (eis : list (list Z * list Z)) (r0 c0 : list (scalar F)) :
  foldl (zip_with app) [r0; c0]
    (fmap (M:=list)
       (λ rc : list Z * list Z,
          [fmap (M:=list) SInt rc.1; fmap (M:=list) SInt rc.2]) eis)
  = [r0 ++ (SInt <$> concat eis.*1); c0 ++ (SInt <$> concat eis.*2)].
Proof.
  revert r0 c0. induction eis as [|[r c] eis IH]; intros r0 c0; cbn.
  - by rewrite !app_nil_r.
  - rewrite IH. by rewrite !fmap_app, !app_assoc.
Qed.

Lemma length_concat_bonds {F} (eis : list (list Z * list Z))
    (mds : list (mol_dict F)) :
  Forall2 (λ (rc : list Z * list Z) md,
             Z.of_nat (length rc.1) = 2 * md_n_bonds md
             ∧ Z.of_nat (length rc.2) = 2 * md_n_bonds md) eis mds →
  Z.of_nat (length (concat eis.*1))
  = foldr Z.add 0 (fmap (M:=list) (λ md, 2 * md_n_bonds md) mds)
  ∧ Z.of_nat (length (concat eis.*2))
    = foldr Z.add 0 (fmap (M:=list) (λ md, 2 * md_n_bonds md) mds).
Proof.
  induction 1 as [|[r c] md eis mds [Hr Hc] _ [IH1 IH2]]; [done|].
  cbn in *. rewrite !length_app. lia.
Qed.

(** C2: after [process] completes, the cached [atom_slices] and
    [edge_slices] start at 0, have one more entry than there are
    retained molecules, are non-decreasing, and their consecutive
    differences are the molecule's [n_atoms] entry, which is its number
    of atoms, and twice its number of bonds; the cached [edge_indices]
    has as many columns as the last entry of [edge_slices]. *)
Theorem process_offset_tables (X : externals)
    (atomic_features :
       rd_mol (flt X) → list string → list (string * list (scalar (flt X))))
    (edge_features :
       rd_mol (flt X) → list string → list (string * list (list (scalar (flt X)))))
    (w w' : world (flt X)) :
  Process.process X atomic_features edge_features w = (Ok (), w') →
  ∃ d (a e ns : list Z) (r c : list (scalar (flt X))),
    fs_processed (w_fs w') = Some d
    ∧ d !! "atom_slices" = Some (VTensor (T1 (SInt <$> a)))
    ∧ d !! "edge_slices" = Some (VTensor (T1 (SInt <$> e)))
    ∧ d !! "n_atoms" = Some (VTensor (T1 (SInt <$> ns)))
    ∧ d !! "edge_indices" = Some (VTensor (T2 [r; c]))
    ∧ let mols : list (mol_dict (flt X)) := (retained (w_fs w)).*2 in
      a !! 0%nat = Some 0 ∧ e !! 0%nat = Some 0
      ∧ length a = S (length mols) ∧ length e = S (length mols)
      ∧ length ns = length mols
      ∧ (∀ (i : nat) x y, a !! i = Some x → a !! S i = Some y → x ≤ y)
      ∧ (∀ (i : nat) x y, e !! i = Some x → e !! S i = Some y → x ≤ y)
      ∧ (∀ (i : nat) md, mols !! i = Some md →
           ∃ x y, a !! i = Some x ∧ a !! S i = Some (x + md_n_atoms md)
                  ∧ ns !! i = Some (md_n_atoms md)
                  ∧ e !! i = Some y ∧ e !! S i = Some (y + 2 * md_n_bonds md))
      ∧ length r = length c
      ∧ last e = Some (Z.of_nat (length r)).
Proof.
  intros H. apply process_Ok in H as (a & d & t & Hfold & Hd & Hfs & _).
  apply fold_mols_Ok in Hfold
    as (Hn & Has & Hes & Hnl & _ & (eis & Hei & Heis) & _ & _).
  apply build_data_dict_Ok in Hd
    as (_ & Hd_n & Hd_a & Hd_e & (ei & Hcat & Hd_ei) & _).
  cbn zeta in *. cbn [Process.init_acc Process.atom_slices Process.edge_slices
    Process.n_atoms_list Process.edge_indices Process.total_atoms
    Process.total_edges app] in Has, Hes, Hnl, Hei.
  set (mds := (retained (w_fs w)).*2) in *.
  assert (ei = [SInt <$> concat eis.*1; SInt <$> concat eis.*2]) as ->.
  { rewrite Hei in Hcat. apply cat1_Ok in Hcat as (m0 & ms' & Heq & _ & ->).
    destruct eis as [|[r0 c0] eis']; [done|]. cbn in Heq.
    injection Heq as <- <-. rewrite foldl_zip_app_two. cbn.
    by rewrite !fmap_app. }
  destruct (length_concat_bonds eis mds Heis) as [Hlr Hlc].
  exists d, (Process.atom_slices X a), (Process.edge_slices X a),
    (Process.n_atoms_list X a), (SInt <$> concat eis.*1), (SInt <$> concat eis.*2).
  rewrite Hfs. cbn [fs_processed].
  repeat (split; [done|]).
  rewrite Has, Hes, Hnl.
  split; [done|]. split; [done|].
  split; [cbn; by rewrite length_sums_from, length_fmap|].
  split; [cbn; by rewrite length_sums_from, length_fmap|].
  split; [by rewrite length_fmap|].
  split.
  { intros i x y. apply sums_from_mono. apply Forall_fmap, Forall_forall.
    intros md _. unfold md_n_atoms. cbn. lia. }
  split.
  { intros i x y. apply sums_from_mono. apply Forall_fmap, Forall_forall.
    intros md _. unfold md_n_bonds. cbn. destruct (md_conformers md); lia. }
  split.
  { intros i md Hmd.
    destruct (sums_from_lookup_lt 0 (fmap (M:=list) md_n_atoms mds) i) as [x Hx].
    { rewrite length_fmap. apply lookup_lt_Some in Hmd. lia. }
    destruct (sums_from_lookup_lt 0
                (fmap (M:=list) (λ md, 2 * md_n_bonds md) mds) i) as [y Hy].
    { rewrite length_fmap. apply lookup_lt_Some in Hmd. lia. }
    exists x, y. split; [done|].
    split; [apply sums_from_step; [done|by rewrite list_lookup_fmap, Hmd]|].
    split; [by rewrite list_lookup_fmap, Hmd|].
    split; [done|].
    apply sums_from_step; [done|by rewrite list_lookup_fmap, Hmd]. }
  split; [rewrite !length_fmap; lia|].
  change ([0] ++ ?l) with (0 :: l). rewrite sums_from_last.
  rewrite length_fmap. f_equal. lia.
Qed.

Lemma process_offset_tables_witness :
  ∃ d (a e ns : list Z) (r c : list (scalar Z)),
    fs_processed (w_fs (Demo.process Demo.first_use).2) = Some d
    ∧ d !! "atom_slices" = Some (VTensor (T1 (SInt <$> a)))
    ∧ d !! "edge_slices" = Some (VTensor (T1 (SInt <$> e)))
    ∧ d !! "n_atoms" = Some (VTensor (T1 (SInt <$> ns)))
    ∧ d !! "edge_indices" = Some (VTensor (T2 [r; c]))
    ∧ let mols : list (mol_dict Z) := (retained (w_fs Demo.first_use)).*2 in
      a !! 0%nat = Some 0 ∧ e !! 0%nat = Some 0
      ∧ length a = S (length mols) ∧ length e = S (length mols)
      ∧ length ns = length mols
      ∧ (∀ (i : nat) x y, a !! i = Some x → a !! S i = Some y → x ≤ y)
      ∧ (∀ (i : nat) x y, e !! i = Some x → e !! S i = Some y → x ≤ y)
      ∧ (∀ (i : nat) md, mols !! i = Some md →
           ∃ x y, a !! i = Some x ∧ a !! S i = Some (x + md_n_atoms md)
                  ∧ ns !! i = Some (md_n_atoms md)
                  ∧ e !! i = Some y ∧ e !! S i = Some (y + 2 * md_n_bonds md))
      ∧ length r = length c
      ∧ last e = Some (Z.of_nat (length r)).
Proof.
  apply (process_offset_tables Demo.externals Demo.atomic_features
           Demo.edge_features Demo.first_use (Demo.process Demo.first_use).2).
  vm_compute. reflexivity.
Defined.

(** ** Methods and the memo *)

Lemma st_bind_unfold {A B} (c : GEOMqm9.st A) (f : A → GEOMqm9.st B) m :
  (c ≫= f) m
  = match c m with
    | (Ok a, m') => f a m'
    | (Raise e, m') => (Raise e, m')
    end.
Proof. done. Qed.

Lemma st_bind_Ok {A B} (c : GEOMqm9.st A) (f : A → GEOMqm9.st B) m b m' :
  (c ≫= f) m = (Ok b, m') → ∃ a m1, c m = (Ok a, m1) ∧ f a m1 = (Ok b, m').
Proof.
  rewrite st_bind_unfold. destruct (c m) as [[a|e] m1]; [eauto | discriminate].
Qed.

Lemma pure_Ok {A} (r : res A) m a m' :
  GEOMqm9.pure r m = (Ok a, m') → r = Ok a ∧ m' = m.
Proof. unfold GEOMqm9.pure. by intros [= -> ->]. Qed.

Lemma when_pure_Ok {A} (c : bool) (r : res A) m o m' :
  GEOMqm9.when c (GEOMqm9.pure r) m = (Ok o, m') →
  m' = m ∧ if c then ∃ a, r = Ok a ∧ o = Some a else o = None.
Proof.
  unfold GEOMqm9.when. destruct c.
  - intros (a & m1 & (-> & ->)%pure_Ok & [= <- <-])%st_bind_Ok. eauto.
  - by intros [= <- <-].
Qed.

(** Taking apart a successful run of a chain of statements. *)
Ltac st_inv H :=
  repeat match type of H with
  | (GEOMqm9.pure _ ≫= _) _ = (Ok _, _) =>
      let a := fresh "x" in let m := fresh "m" in
      let E := fresh "E" in
      apply st_bind_Ok in H as (a & m & E & H);
      apply pure_Ok in E as [E ->]
  | (GEOMqm9.when _ (GEOMqm9.pure _) ≫= _) _ = (Ok _, _) =>
      let a := fresh "x" in let m := fresh "m" in
      let E := fresh "E" in
      apply st_bind_Ok in H as (a & m & E & H);
      apply when_pure_Ok in E as [-> E]
  | (_ ≫= _) _ = (Ok _, _) =>
      let a := fresh "x" in let m := fresh "m" in
      let E := fresh "E" in
      apply st_bind_Ok in H as (a & m & E & H)
  end.

Section init_facts.
Context (X : externals).
Context (atomic_features :
           rd_mol (flt X) → list string → list (string * list (scalar (flt X)))).
Context (edge_features :
           rd_mol (flt X) → list string
           → list (string * list (list (scalar (flt X))))).

Local Abbreviation obj := (GEOMqm9.obj X).
Local Abbreviation args := (GEOMqm9.args X).

(** Where the attributes of a constructed object come from. *)
Lemma init_from_Ok (a : args) rts loaded m (self : obj) m' :
  GEOMqm9.init_from X a rts loaded m = (Ok self, m') →
  ∃ d1 data_dict t,
    GEOMqm9.add_constant_ones X a loaded = Ok d1
    ∧ GEOMqm9.add_standard_normal_noise X a d1 = Ok data_dict
    ∧ GEOMqm9.return_types X self = rts
    ∧ GEOMqm9.select X data_dict (GEOMqm9.a_features X a)
      = Ok (GEOMqm9.features_tensor X self)
    ∧ GEOMqm9.select X data_dict (GEOMqm9.a_features3d X a)
      = Ok (GEOMqm9.features3d_tensor X self)
    ∧ (∃ e, GEOMqm9.select X data_dict (GEOMqm9.a_e_features X a) = Ok e
            ∧ GEOMqm9.e_features_tensor X self
              = Tensor.map_scalars (to_float X) <$> e)
    ∧ (∃ e, GEOMqm9.select X data_dict (GEOMqm9.a_e_features3d X a) = Ok e
            ∧ GEOMqm9.e_features3d_tensor X self
              = Tensor.map_scalars (to_float X) <$> e)
    ∧ data_dict !! "coordinates" = Some (VTensor t)
    ∧ Tensor.slice_cols t None (Some 3) = Ok (GEOMqm9.coordinates X self)
    ∧ GEOMqm9.make_meta_dict X data_dict = Ok (GEOMqm9.meta_dict X self)
    ∧ (Py.contains "targets" rts = true →
       ∃ tg, GEOMqm9.make_targets X a data_dict = Ok tg).
Proof.
  unfold GEOMqm9.init_from. intros H.
  st_inv H.
  injection H as <- <-. cbn.
  apply res_bind_Ok in E5 as (v & Hv & E5).
  apply res_bind_Ok in E5 as (t & Ht & E5).
  destruct v; try discriminate. injection Ht as ->.
  unfold Py.subscript in Hv.
  destruct (x0 !! "coordinates") as [v|] eqn:Hc; [|done]. injection Hv as ->.
  exists x, x0, t. repeat (split; [by eauto|]).
  intros Htg. rewrite Htg in E14. destruct E14 as (tg & ? & _). eauto.
Qed.

End init_facts.

(** ** Methods do not depend on what the memo holds *)

Lemma memo_free_pure {A} (r : res A) : memo_free (GEOMqm9.pure r) (GEOMqm9.pure r).
Proof. by intros m1 m2 H1 H2. Qed.

Lemma memo_free_ret {A} (a : A) : memo_free (mret a) (mret a).
Proof. by intros m1 m2 H1 H2. Qed.

Lemma memo_free_bind {A B} (c d : GEOMqm9.st A) (f g : A → GEOMqm9.st B) :
  memo_free c d → (∀ a, memo_free (f a) (g a)) →
  memo_free (c ≫= f) (d ≫= g).
Proof.
  intros Hcd Hfg m1 m2 H1 H2. rewrite !st_bind_unfold.
  destruct (Hcd m1 m2 H1 H2) as (Hr & H1' & H2').
  destruct (c m1) as [r1 m1'], (d m2) as [r2 m2']. cbn in *. subst r2.
  destruct r1 as [a|e]; [by apply Hfg|done].
Qed.

Lemma memo_free_get_memo {A} (f g : gmap pyint pairs → GEOMqm9.st A) :
  (∀ ma mb, memo_free (f ma) (g mb)) →
  memo_free (GEOMqm9.get_memo ≫= f) (GEOMqm9.get_memo ≫= g).
Proof. intros Hfg m1 m2 H1 H2. rewrite !st_bind_unfold. cbn. by apply Hfg. Qed.

Lemma memo_free_get_pairwise (n1 n2 : pyint) :
  pyint_val n1 = pyint_val n2 →
  memo_free (get_pairwise n1) (get_pairwise n2).
Proof.
  intros Hn m1 m2 H1 H2.
  destruct (get_pairwise_inv n1 m1 H1) as [-> ?].
  destruct (get_pairwise_inv n2 m2 H2) as [-> ?].
  by rewrite Hn.
Qed.

Lemma memo_free_call_get_pairwise {X} (n : GEOMqm9.pyval X) oid1 oid2 :
  memo_free (GEOMqm9.call_get_pairwise X n oid1)
            (GEOMqm9.call_get_pairwise X n oid2).
Proof.
  apply memo_free_bind; [apply memo_free_pure|].
  intros z. by apply memo_free_get_pairwise.
Qed.

Lemma memo_free_mapM {A B} (f g : A → GEOMqm9.st B) (l : list A) :
  (∀ x, memo_free (f x) (g x)) → memo_free (mapM f l) (mapM g l).
Proof.
  intros Hfg. induction l as [|x l IH]; [apply memo_free_ret|].
  cbn. apply memo_free_bind; [done|]. intros y.
  apply memo_free_bind; [done|]. intros k. apply memo_free_ret.
Qed.

Lemma memo_free_when {A} (c : bool) (x y : GEOMqm9.st A) :
  memo_free x y → memo_free (GEOMqm9.when c x) (GEOMqm9.when c y).
Proof.
  intros Hxy. destruct c; [|apply memo_free_ret]. cbn.
  apply memo_free_bind; [done|]. intros a. apply memo_free_ret.
Qed.

(** What a computation returns when the memo does not matter. *)
Lemma memo_free_result {A} (c d : GEOMqm9.st A) m :
  memo_free c d → memo_inv m → (c m).1 = (d ∅).1 ∧ memo_inv (c m).2.
Proof.
  intros Hcd Hm. destruct (Hcd m ∅ Hm memo_inv_empty) as (? & ? & _). done.
Qed.

Ltac memo_free_step :=
  lazymatch goal with
  | |- memo_free (GEOMqm9.pure _) (GEOMqm9.pure _) => apply memo_free_pure
  | |- memo_free (mret _) (mret _) => apply memo_free_ret
  | |- memo_free (GEOMqm9.call_get_pairwise _ _ _)
                 (GEOMqm9.call_get_pairwise _ _ _) =>
      apply memo_free_call_get_pairwise
  | |- memo_free (GEOMqm9.get_memo ≫= _) (GEOMqm9.get_memo ≫= _) =>
      apply memo_free_get_memo; intros ? ?
  | |- memo_free (_ ≫= _) (_ ≫= _) => apply memo_free_bind; [|intros ?]
  | |- memo_free (mapM _ _) (mapM _ _) => apply memo_free_mapM; intros ?
  | |- memo_free (GEOMqm9.when _ _) (GEOMqm9.when _ _) => apply memo_free_when
  | |- memo_free (match ?x with _ => _ end) (match ?x with _ => _ end) =>
      destruct x
  end.

Section method_facts.
Context (X : externals).
Context (self : GEOMqm9.obj X).

Local Abbreviation pyval := (GEOMqm9.pyval X).

Lemma get_complete_graph_memo_free idx (n : pyval) oid1 oid2 :
  memo_free (GEOMqm9.get_complete_graph X self idx n oid1)
            (GEOMqm9.get_complete_graph X self idx n oid2).
Proof. unfold GEOMqm9.get_complete_graph. repeat memo_free_step. Qed.

Lemma get_mol_complete_graph_memo_free idx (es ee n : pyval) oid1 oid2 :
  memo_free (GEOMqm9.get_mol_complete_graph X self idx es ee n oid1)
            (GEOMqm9.get_mol_complete_graph X self idx es ee n oid2).
Proof. unfold GEOMqm9.get_mol_complete_graph. repeat memo_free_step. Qed.

Lemma complete_edge_features_memo_free e (es ee n : pyval) oid1 oid2 :
  memo_free (GEOMqm9.complete_edge_features X self e es ee n oid1)
            (GEOMqm9.complete_edge_features X self e es ee n oid2).
Proof. unfold GEOMqm9.complete_edge_features. repeat memo_free_step. Qed.

Lemma complete_graph_view_memo_free f e idx (es ee s n : pyval) oid1 oid2 :
  memo_free (GEOMqm9.complete_graph_view X self f e idx es ee s n oid1)
            (GEOMqm9.complete_graph_view X self f e idx es ee s n oid2).
Proof.
  unfold GEOMqm9.complete_graph_view.
  repeat first [ apply get_complete_graph_memo_free
               | apply complete_edge_features_memo_free
               | memo_free_step ].
Qed.

Lemma mol_complete_graph_view_memo_free idx (es ee s n : pyval) oid1 oid2 :
  memo_free (GEOMqm9.mol_complete_graph_view X self idx es ee s n oid1)
            (GEOMqm9.mol_complete_graph_view X self idx es ee s n oid2).
Proof.
  unfold GEOMqm9.mol_complete_graph_view.
  repeat first [ apply get_mol_complete_graph_memo_free | memo_free_step ].
Qed.

Lemma san_graph_view_memo_free idx (es ee s n : pyval) oid1 oid2 :
  memo_free (GEOMqm9.san_graph_view X self idx es ee s n oid1)
            (GEOMqm9.san_graph_view X self idx es ee s n oid2).
Proof.
  unfold GEOMqm9.san_graph_view.
  repeat first [ apply get_complete_graph_memo_free | memo_free_step ].
Qed.

Lemma data_by_type_memo_free idx rt (es ee s n : pyval) oid1 oid2 :
  memo_free (GEOMqm9.data_by_type X self idx rt es ee s n oid1)
            (GEOMqm9.data_by_type X self idx rt es ee s n oid2).
Proof.
  unfold GEOMqm9.data_by_type.
  repeat case_decide;
    first [ apply memo_free_pure
          | apply complete_graph_view_memo_free
          | apply mol_complete_graph_view_memo_free
          | apply san_graph_view_memo_free ].
Qed.

End method_facts.

(** ** [__getitem__] *)

Lemma mapM_memo_free_result {A B} (f g : A → GEOMqm9.st B) (l : list A) m :
  (∀ x, memo_free (f x) (g x)) → memo_inv m →
  (mapM f l m).1 = mapM (λ x, (g x ∅).1) l ∧ memo_inv (mapM f l m).2.
Proof.
  intros Hfg. revert m. induction l as [|x l IH]; intros m Hm; [done|].
  cbn [mapM]. rewrite st_bind_unfold.
  destruct (memo_free_result _ _ m (Hfg x) Hm) as [Hr Hm1].
  destruct (f x m) as [r m1]. cbn in Hr, Hm1. rewrite <- Hr.
  destruct r as [y|e]; [|done]. cbn [mbind res_bind].
  rewrite st_bind_unfold.
  destruct (IH m1 Hm1) as [Hrs Hm2].
  destruct (mapM f l m1) as [rs m2]. cbn in Hrs, Hm2. rewrite <- Hrs.
  by destruct rs.
Qed.

Lemma mapM_res_Ok_inv {A B} (f : A → res B) (l : list A) (k : list B) :
  mapM f l = Ok k →
  length k = length l
  ∧ ∀ (i : nat) x, l !! i = Some x → ∃ y, k !! i = Some y ∧ f x = Ok y.
Proof.
  revert k. induction l as [|x l IH]; intros k; cbn.
  - intros [= <-]. split; [done|]. intros i x. by rewrite lookup_nil.
  - intros H. apply res_bind_Ok in H as (y & Hy & H).
    apply res_bind_Ok in H as (k' & Hk' & [= <-]).
    destruct (IH k' Hk') as [Hlen Hk]. split; [cbn; by rewrite Hlen|].
    intros [|i] x'; cbn.
    + intros [= <-]. eauto.
    + apply Hk.
Qed.

Lemma mapM_res_Raise {A B} (f : A → res B) (l : list A) (x : A) :
  x ∈ l → is_Raise (f x) → is_Raise (mapM f l).
Proof.
  intros Hx [e He]. induction Hx as [x l|x y l Hx IH]; cbn.
  - rewrite He. by exists e.
  - destruct (f y) as [b|e1]; [|by eexists]. cbn.
    destruct (IH He) as [e2 ->]. by exists e2.
Qed.

Lemma pure_bind {A B} (r : res A) (f : A → GEOMqm9.st B) m :
  (GEOMqm9.pure r ≫= f) m
  = match r with Ok a => f a m | Raise e => (Raise e, m) end.
Proof. by destruct r. Qed.

(** The outcome of [__getitem__]: the views of [data_by_type] in the
    order of [return_types], or the first exception. *)
Lemma getitem_result (X : externals) (self : GEOMqm9.obj X) (idx : Z)
    (m : gmap pyint pairs) :
  memo_inv m →
  (GEOMqm9.__getitem__ X self idx m).1
  = ('(e_start, e_end, start, n_atoms) ← offsets X self idx;
     mapM (λ rt, view_of X self idx rt e_start e_end start n_atoms)
       (GEOMqm9.return_types X self))
  ∧ memo_inv (GEOMqm9.__getitem__ X self idx m).2.
Proof.
  intros Hm. unfold GEOMqm9.__getitem__, offsets.
  do 4 (rewrite pure_bind;
        match goal with
        | |- context [match ?r with Ok _ => _ | Raise _ => _ end] =>
            destruct r as [?|?]; [cbn [mbind res_bind]|done]
        end).
  rewrite st_bind_unfold. cbn [GEOMqm9.get_memo].
  apply mapM_memo_free_result; [|done].
  intros rt. apply data_by_type_memo_free.
Qed.

Lemma view_of_data_by_type (X : externals) (self : GEOMqm9.obj X) idx rt
    es ee s n oid m :
  memo_inv m →
  (GEOMqm9.data_by_type X self idx rt es ee s n oid m).1
  = view_of X self idx rt es ee s n.
Proof.
  intros Hm.
  apply (memo_free_result _ _ m
           (data_by_type_memo_free X self idx rt es ee s n oid 1%positive) Hm).
Qed.

(** C4, as amended: [__getitem__(idx)] either raises the first
    exception met while reading the offset tables or in [data_by_type],
    or returns a tuple with one element per configured return type, the
    [k]-th element being what [data_by_type] produces for the [k]-th
    entry of [return_types], in that order. *)
Theorem getitem_views (X : externals) (self : GEOMqm9.obj X) (idx : Z)
    (m : gmap pyint pairs) :
  memo_inv m → tuple_of_views X self idx m.
Proof.
  intros Hm. unfold tuple_of_views.
  destruct (getitem_result X self idx m Hm) as [Heq Hinv].
  split; [done|]. split; [done|].
  intros tuple Ht. rewrite Heq in Ht.
  apply res_bind_Ok in Ht as ([[[es ee] s] n] & Hoff & Ht).
  apply mapM_res_Ok_inv in Ht as [Hlen Hk]. split; [done|].
  exists es, ee, s, n. split; [done|].
  intros k rt Hrt. destruct (Hk k rt Hrt) as (v & Hv & Hview).
  exists v. split; [done|]. intros oid m0 Hm0. rewrite <- Hview.
  by apply view_of_data_by_type.
Qed.

(** ** The constructor and the cache file *)

Section init_io_facts.
Context (X : externals).
Context (atomic_features :
           rd_mol (flt X) → list string → list (string * list (scalar (flt X)))).
Context (edge_features :
           rd_mol (flt X) → list string
           → list (string * list (list (scalar (flt X))))).

Local Abbreviation __init__ := (GEOMqm9.__init__ X atomic_features edge_features).
Local Abbreviation process := (Process.process X atomic_features edge_features).

(** The constructor when the cache file exists. *)
Lemma init_cached (a : GEOMqm9.args X) (w : world (flt X)) d :
  GEOMqm9.validate (GEOMqm9.effective_return_types X a) = Ok () →
  fs_processed (w_fs w) = Some d →
  __init__ a w
  = (init_result X a d, Build_world (w_fs w) (w_trace w ++ [EvLoad])).
Proof.
  intros Hv Hd. unfold GEOMqm9.__init__. destruct w as [f t].
  cbn [w_fs w_trace] in *.
  io_step. rewrite Hv. io_step. io_step. rewrite Hd. cbn [mret io_ret].
  io_step. rewrite Hd. io_step. io_step. done.
Qed.

(** The constructor when the cache file does not exist. *)
Lemma init_uncached (a : GEOMqm9.args X) (w : world (flt X)) :
  GEOMqm9.validate (GEOMqm9.effective_return_types X a) = Ok () →
  fs_processed (w_fs w) = None →
  __init__ a w
  = match process w with
    | (Ok _, w1) =>
        match fs_processed (w_fs w1) with
        | Some d =>
            (init_result X a d, Build_world (w_fs w1) (w_trace w1 ++ [EvLoad]))
        | None => (Raise FileNotFoundError, w1)
        end
    | (Raise e, w1) => (Raise e, w1)
    end.
Proof.
  intros Hv Hd. unfold GEOMqm9.__init__. destruct w as [f t].
  cbn [w_fs w_trace] in *.
  io_step. rewrite Hv. io_step. io_step. rewrite Hd.
  destruct (process _) as [[u|e] [f1 t1]]; [|done].
  io_step. io_step.
  destruct (fs_processed f1) as [d|]; [|done].
  io_step. done.
Qed.

(** The constructor when a return type is not supported. *)
Lemma init_invalid (a : GEOMqm9.args X) (w : world (flt X)) e :
  GEOMqm9.validate (GEOMqm9.effective_return_types X a) = Raise e →
  __init__ a w = (Raise e, w).
Proof.
  intros Hv. unfold GEOMqm9.__init__. destruct w as [f t].
  io_step. by rewrite Hv.
Qed.

Lemma validate_cases (rts : list string) :
  GEOMqm9.validate rts = Ok () ∨ ∃ e, GEOMqm9.validate rts = Raise e.
Proof. unfold GEOMqm9.validate. destruct (list_find _ _) as [[? ?]|]; eauto. Qed.

(** A constructed object comes from the dictionary in the cache
    file. *)
Lemma init_Ok (a : GEOMqm9.args X) (w w' : world (flt X)) self memo :
  __init__ a w = (Ok (self, memo), w') →
  ∃ loaded,
    fs_processed (w_fs w') = Some loaded
    ∧ GEOMqm9.init_from X a (GEOMqm9.effective_return_types X a) loaded ∅
      = (Ok self, memo)
    ∧ match fs_processed (w_fs w) with
      | Some d => loaded = d
      | None => ∃ w1, process w = (Ok (), w1) ∧ w_fs w' = w_fs w1
      end.
Proof.
  intros H.
  destruct (validate_cases (GEOMqm9.effective_return_types X a)) as [Hv|[e Hv]].
  2:{ by rewrite (init_invalid a w e Hv) in H. }
  assert (∀ d, init_result X a d = Ok (self, memo) →
            GEOMqm9.init_from X a (GEOMqm9.effective_return_types X a) d ∅
            = (Ok self, memo)) as Hres.
  { intros d. unfold init_result.
    destruct (GEOMqm9.init_from _ _ _ _ _) as [[s|?] mm]; [|done].
    by intros [= -> ->]. }
  destruct (fs_processed (w_fs w)) as [d|] eqn:Hd.
  - rewrite (init_cached a w d Hv Hd) in H. injection H as H <-.
    exists d. cbn. split; [done|]. split; [by apply Hres|done].
  - rewrite (init_uncached a w Hv Hd) in H.
    destruct (process w) as [[[]|e] w1] eqn:Hp; [|done].
    destruct (fs_processed (w_fs w1)) as [d|] eqn:Hd1; [|done].
    injection H as H <-. exists d. cbn.
    split; [done|]. split; [by apply Hres|]. by exists w1.
Qed.

End init_io_facts.

Section init_claims.
Context (X : externals).
Context (atomic_features :
           rd_mol (flt X) → list string → list (string * list (scalar (flt X)))).
Context (edge_features :
           rd_mol (flt X) → list string
           → list (string * list (list (scalar (flt X))))).

Local Abbreviation __init__ := (GEOMqm9.__init__ X atomic_features edge_features).
Local Abbreviation process := (Process.process X atomic_features edge_features).

Lemma make_targets_None (a : GEOMqm9.args X) data_dict :
  GEOMqm9.a_target_tasks X a = None →
  GEOMqm9.make_targets X a data_dict = Raise TypeError.
Proof. unfold GEOMqm9.make_targets. by intros ->. Qed.

Lemma init_from_targets_None (a : GEOMqm9.args X) rts loaded m :
  "targets" ∈ rts → GEOMqm9.a_target_tasks X a = None →
  is_Raise (GEOMqm9.init_from X a rts loaded m).1.
Proof.
  intros Hin Hnone.
  destruct (GEOMqm9.init_from X a rts loaded m) as [[self|e] m'] eqn:H;
    [|by eexists].
  apply init_from_Ok in H as (d1 & dd & t & _ & _ & _ & _ & _ & _ & _ & _ & _ & _ & Htg).
  destruct Htg as [tg Htg].
  { unfold Py.contains. by apply bool_decide_eq_true. }
  by rewrite make_targets_None in Htg.
Qed.

Lemma init_targets_None (a : GEOMqm9.args X) (w : world (flt X)) :
  "targets" ∈ GEOMqm9.effective_return_types X a →
  GEOMqm9.a_target_tasks X a = None →
  is_Raise (__init__ a w).1.
Proof.
  intros Hin Hnone.
  assert (∀ d, is_Raise (init_result X a d)) as Hres.
  { intros d. unfold init_result.
    destruct (init_from_targets_None a _ d ∅ Hin Hnone) as [e He].
    destruct (GEOMqm9.init_from _ _ _ _ _) as [[self|e'] m']; [done|].
    by eexists. }
  destruct (validate_cases (GEOMqm9.effective_return_types X a)) as [Hv|[e Hv]].
  2:{ rewrite (init_invalid X _ _ a w e Hv). by eexists. }
  destruct (fs_processed (w_fs w)) as [d|] eqn:Hd.
  - rewrite (init_cached X _ _ a w d Hv Hd). apply Hres.
  - rewrite (init_uncached X _ _ a w Hv Hd).
    destruct (process w) as [[u|e] w1]; [|by eexists].
    destruct (fs_processed (w_fs w1)) as [d|]; [apply Hres|by eexists].
Qed.

End init_claims.

(** C8: constructing [GEOMqm9] with all-default arguments raises: the
    return types become [['mol_graph', 'targets']], [target_tasks] is
    [None], and with ['targets'] among the return types the constructor
    evaluates [target_tasks[0]], which raises for [None]. *)
Theorem init_default_raises (X : externals)
    (atomic_features :
       rd_mol (flt X) → list string → list (string * list (scalar (flt X))))
    (edge_features :
       rd_mol (flt X) → list string → list (string * list (list (scalar (flt X))))) :
  GEOMqm9.effective_return_types X (GEOMqm9.default_args X)
  = ["mol_graph"; "targets"]
  ∧ GEOMqm9.a_target_tasks X (GEOMqm9.default_args X) = None
  ∧ (∀ w, is_Raise (GEOMqm9.__init__ X atomic_features edge_features
                      (GEOMqm9.default_args X) w).1)
  ∧ (∀ a data_dict, GEOMqm9.a_target_tasks X a = None →
       GEOMqm9.make_targets X a data_dict = Raise TypeError)
  ∧ (∀ a w, "targets" ∈ GEOMqm9.effective_return_types X a →
       GEOMqm9.a_target_tasks X a = None →
       is_Raise (GEOMqm9.__init__ X atomic_features edge_features a w).1).
Proof.
  split; [done|]. split; [done|]. split.
  { intros w. apply init_targets_None; [|done]. cbn. set_solver. }
  split; [apply make_targets_None|]. apply init_targets_None.
Qed.

(** With the cache file in place, where every earlier statement of the
    constructor succeeds, the exception is the [TypeError] of
    [target_tasks[0]]. *)
Example init_default_TypeError :
  (Demo.__init__ (GEOMqm9.default_args Demo.externals) Demo.later_use).1
  = Raise TypeError.
Proof. vm_compute. reflexivity. Qed.

(** C3, as amended: when every return type passes the validation,
    [process] is invoked by the constructor if and only if the cache
    file does not exist; when the cache file exists, or [process]
    completes, the constructor then loads the data dictionary from the
    cache file; a construction with the cache present reads neither the
    summary nor any per-molecule record. *)
Theorem init_cache_file (X : externals)
    (atomic_features :
       rd_mol (flt X) → list string → list (string * list (scalar (flt X))))
    (edge_features :
       rd_mol (flt X) → list string → list (string * list (list (scalar (flt X)))))
    (a : GEOMqm9.args X) (w : world (flt X)) :
  GEOMqm9.validate (GEOMqm9.effective_return_types X a) = Ok () →
  cache_discipline X atomic_features edge_features a w.
Proof.
  intros Hv. unfold cache_discipline. cbv zeta.
  assert (∀ self memo w' a2,
            GEOMqm9.__init__ X atomic_features edge_features a w
            = (Ok (self, memo), w') →
            GEOMqm9.validate (GEOMqm9.effective_return_types X a2) = Ok () →
            w_trace (GEOMqm9.__init__ X atomic_features edge_features a2 w').2
            = w_trace w' ++ [EvLoad]) as Hsecond.
  { intros self memo w' a2 H Hv2.
    apply init_Ok in H as (loaded & Hl & _).
    by rewrite (init_cached X _ _ a2 w' loaded Hv2 Hl). }
  destruct (fs_processed (w_fs w)) as [d|] eqn:Hd.
  - pose proof (init_cached X atomic_features edge_features a w d Hv Hd) as Hr.
    exists [EvLoad].
    split; [by rewrite Hr|].
    split. { split; [|done]. intros Hin. by apply list_elem_of_singleton in Hin. }
    split. { intros d' [= <-]. by rewrite Hr. }
    split; [done|]. exact Hsecond.
  - pose proof (init_uncached X atomic_features edge_features a w Hv Hd) as Hr.
    destruct (process_trace X atomic_features edge_features w) as [t1 Ht1].
    destruct (Process.process X atomic_features edge_features w)
      as [[[]|e] w1] eqn:Hp; cbn [snd] in Ht1.
    + pose proof Hp as Hp'.
      apply process_Ok in Hp' as (acc & d & t' & _ & _ & Hfs & _).
      assert (fs_processed (w_fs w1) = Some d) as Hd1 by by rewrite Hfs.
      rewrite Hd1 in Hr.
      exists ((EvProcess :: t1) ++ [EvLoad]).
      split. { rewrite Hr. cbn. by rewrite Ht1, <- app_assoc. }
      split. { split; [done|]. intros _. set_solver. }
      split; [by intros ? [=]|]. split; [|exact Hsecond].
      intros _ w1' [= <-]. exists d, (EvProcess :: t1).
      rewrite Hr. cbn. done.
    + exists (EvProcess :: t1).
      split. { rewrite Hr. cbn. by rewrite Ht1. }
      split. { split; [done|]. intros _. set_solver. }
      split; [by intros ? [=]|]. split; [by intros _ ? [=]|exact Hsecond].
Qed.

(** ** Return types that [data_by_type] does not serve *)

Lemma mapM_st_Raise {A B} (f : A → GEOMqm9.st B) (l : list A) (x : A) :
  x ∈ l → (∀ m, is_Raise (f x m).1) → ∀ m, is_Raise (mapM f l m).1.
Proof.
  intros Hx Hf. induction Hx as [x l|x y l Hx IH]; intros m; cbn [mapM];
    rewrite st_bind_unfold.
  - destruct (Hf m) as [e He]. destruct (f x m) as [r m1]. cbn in He. subst r.
    by exists e.
  - destruct (f y m) as [[b|e1] m1]; [|by eexists].
    rewrite st_bind_unfold. destruct (IH Hf m1) as [e2 He2].
    destruct (mapM f l m1) as [r m2]. cbn in He2. subst r. by exists e2.
Qed.

Lemma getitem_Raise (X : externals) (self : GEOMqm9.obj X) (idx : Z) rt :
  rt ∈ GEOMqm9.return_types X self →
  (∀ es ee s n oid m, is_Raise (GEOMqm9.data_by_type X self idx rt es ee s n oid m).1) →
  ∀ m, is_Raise (GEOMqm9.__getitem__ X self idx m).1.
Proof.
  intros Hin Hrt m. unfold GEOMqm9.__getitem__.
  do 4 (rewrite pure_bind;
        match goal with
        | |- context [match ?r with Ok _ => _ | Raise _ => _ end] =>
            destruct r as [?|?]; [|by eexists]
        end).
  rewrite st_bind_unfold. cbn [GEOMqm9.get_memo].
  by apply (mapM_st_Raise _ _ rt).
Qed.

Lemma make_meta_dict_Ok (X : externals) (data_dict meta : gmap string (value (flt X))) :
  GEOMqm9.make_meta_dict X data_dict = Ok meta →
  meta !! "smiles" = data_dict !! "smiles"
  ∧ meta !! "edge_slices" = data_dict !! "edge_slices"
  ∧ meta !! "atom_slices" = data_dict !! "atom_slices"
  ∧ meta !! "n_atoms" = data_dict !! "n_atoms"
  ∧ meta !! "uniqueconfs" = data_dict !! "uniqueconfs"
  ∧ (∀ k, k ∉ GEOMqm9.meta_keys → meta !! k = None).
Proof.
  unfold GEOMqm9.make_meta_dict, GEOMqm9.meta_keys, Py.subscript. cbn [mapM].
  destruct (data_dict !! "smiles") as [v1|]; [|done].
  destruct (data_dict !! "edge_slices") as [v2|]; [|done].
  destruct (data_dict !! "atom_slices") as [v3|]; [|done].
  destruct (data_dict !! "n_atoms") as [v4|]; [|done].
  destruct (data_dict !! "uniqueconfs") as [v5|]; [|done].
  cbn. intros [= <-].
  repeat (split; [done|]).
  intros k Hk.
  rewrite !lookup_insert_ne by (intros <-; apply Hk; set_solver).
  apply lookup_empty.
Qed.

Lemma data_by_type_unhandled (X : externals) (self : GEOMqm9.obj X) idx rt
    es ee s n oid m :
  rt ∈ unhandled_return_types →
  GEOMqm9.data_by_type X self idx rt es ee s n oid m
  = (Raise (Exception "return type not supported: " rt), m).
Proof.
  intros Hrt. unfold unhandled_return_types in Hrt.
  repeat (apply elem_of_cons in Hrt as [->|Hrt]; [reflexivity|]).
  by apply elem_of_nil in Hrt.
Qed.

Lemma data_by_type_edge_indices (X : externals) (self : GEOMqm9.obj X) idx
    es ee s n oid m :
  GEOMqm9.meta_dict X self !! "edge_indices" = None →
  GEOMqm9.data_by_type X self idx "edge_indices" es ee s n oid m
  = (Raise (KeyError "edge_indices"), m).
Proof.
  intros Hnone. unfold GEOMqm9.data_by_type. cbn.
  unfold GEOMqm9.pure, Py.subscript. by rewrite Hnone.
Qed.

(** C9: the return types [mol_id], [pairwise_distances],
    [pairwise_distances_squared], [pairwise_indices], [dist_embedding],
    [one_hot_bond_types] and [atomic_number_long] pass the validation
    of the constructor but have no branch in [data_by_type], and
    [edge_indices] reads [self.meta_dict['edge_indices']], a key that
    [meta_dict] never holds: with any of them configured,
    [__getitem__] raises for every index. *)
Theorem getitem_unsupported (X : externals)
    (atomic_features :
       rd_mol (flt X) → list string → list (string * list (scalar (flt X))))
    (edge_features :
       rd_mol (flt X) → list string → list (string * list (list (scalar (flt X)))))
    (a : GEOMqm9.args X) (w w' : world (flt X)) (self : GEOMqm9.obj X)
    (memo : gmap pyint pairs) (rt : string) :
  GEOMqm9.__init__ X atomic_features edge_features a w = (Ok (self, memo), w') →
  rt ∈ unhandled_return_types ++ ["edge_indices"] →
  rt ∈ GEOMqm9.return_types X self →
  never_served X self rt.
Proof.
  intros Hinit Hrt Hin. unfold never_served.
  apply init_Ok in Hinit as (loaded & _ & Hinit & _).
  apply init_from_Ok in Hinit
    as (d1 & dd & t & _ & _ & _ & _ & _ & _ & _ & _ & _ & Hmeta & _).
  apply make_meta_dict_Ok in Hmeta as (_ & _ & _ & _ & _ & Hmeta).
  assert (GEOMqm9.meta_dict X self !! "edge_indices" = None) as Hnone.
  { apply Hmeta. unfold GEOMqm9.meta_keys. set_solver. }
  assert (∀ idx es ee s n oid m,
            (GEOMqm9.data_by_type X self idx rt es ee s n oid m).1
            = Raise (if decide (rt = "edge_indices") then KeyError "edge_indices"
                     else Exception "return type not supported: " rt)) as Hdbt.
  { intros idx es ee s n oid m. apply elem_of_app in Hrt as [Hrt|Hrt].
    - rewrite data_by_type_unhandled by done. cbn.
      rewrite decide_False; [done|]. intros ->.
      unfold unhandled_return_types in Hrt. set_solver.
    - apply list_elem_of_singleton in Hrt as ->.
      by rewrite data_by_type_edge_indices. }
  split.
  { unfold unhandled_return_types, GEOMqm9.return_type_options in *.
    set_solver. }
  split; [done|]. split; [done|].
  intros idx m. apply (getitem_Raise X self idx rt Hin).
  intros es ee s n oid m0. rewrite Hdbt. by eexists.
Qed.

(** ** The feature tensors of the constructor *)

Lemma mapM_res_Forall2 {A B} (f : A → res B) (l : list A) (k : list B) :
  mapM f l = Ok k → Forall2 (λ x y, f x = Ok y) l k.
Proof.
  revert k. induction l as [|x l IH]; intros k; cbn.
  - intros [= <-]. constructor.
  - intros H. apply res_bind_Ok in H as (y & Hy & H).
    apply res_bind_Ok in H as (k' & Hk' & [= <-]).
    constructor; [done|by apply IH].
Qed.

Lemma select_Ok (X : externals) (data_dict : gmap string (value (flt X))) keys r :
  GEOMqm9.select X data_dict keys = Ok r → concat_of data_dict keys id r.
Proof.
  unfold GEOMqm9.select, concat_of. destruct keys as [|k keys].
  { intros [= <-]. split; [done|]. by intros []. }
  intros H. apply res_bind_Ok in H as (vs & Hvs & H).
  apply res_bind_Ok in H as (ts & Hts & H).
  destruct (Tensor.cat_last ts) as [t|e] eqn:Hcat; [|done].
  injection H as <-. split; [done|]. intros _. exists ts, t.
  split; [|done].
  apply mapM_res_Forall2 in Hvs, Hts.
  clear Hcat. revert Hvs ts Hts. generalize (k :: keys). clear.
  intros keys Hvs. induction Hvs as [|key v keys vs Hv _ IH]; intros ts Hts.
  - inversion Hts. constructor.
  - inversion Hts as [|? t ? ts' Ht Hts']; subst. constructor; [|by apply IH].
    unfold Py.subscript in Hv. destruct (data_dict !! key) as [v'|]; [|done].
    injection Hv as ->. destruct v; try done. by injection Ht as ->.
Qed.

Lemma concat_of_cast {F} (dd : gmap string (value F)) keys cast r :
  concat_of dd keys id r → concat_of dd keys cast (cast <$> r).
Proof.
  intros [Hnone Hsome]. split.
  - rewrite <- Hnone. by destruct r.
  - intros Hne. destruct (Hsome Hne) as (ts & t & ? & ? & ->). by exists ts, t.
Qed.

Lemma add_constant_ones_Ok (X : externals) a (loaded d : gmap string (value (flt X))) :
  GEOMqm9.add_constant_ones X a loaded = Ok d →
  ∀ k, k ≠ "constant_ones" → d !! k = loaded !! k.
Proof.
  unfold GEOMqm9.add_constant_ones. case_match; [|by intros [= <-]].
  intros Hd k Hk. apply res_bind_Ok in Hd as (v & _ & Hd).
  apply res_bind_Ok in Hd as (t & _ & Hd).
  apply res_bind_Ok in Hd as (ones & _ & [= <-]).
  by rewrite lookup_insert_ne.
Qed.

Lemma add_standard_normal_noise_Ok (X : externals) a
    (loaded d : gmap string (value (flt X))) :
  GEOMqm9.add_standard_normal_noise X a loaded = Ok d →
  ∀ k, k ≠ "standard_normal_noise" → d !! k = loaded !! k.
Proof.
  unfold GEOMqm9.add_standard_normal_noise. case_match; [|by intros [= <-]].
  intros Hd k Hk. apply res_bind_Ok in Hd as (v & _ & Hd).
  apply res_bind_Ok in Hd as (t & _ & [= <-]).
  by rewrite lookup_insert_ne.
Qed.

(** Concatenation along the last dimension, row by row. *)
Lemma cat_last_rows {F} (ms : list (list (list (scalar F)))) (t : tensor F) :
  Tensor.cat_last (T2 <$> ms) = Ok t →
  ∃ m, t = T2 m
       ∧ Forall (λ m', length m' = length m) ms
       ∧ ∀ r : nat, (r < length m)%nat →
           m !! r = Some (concat ((λ m', default [] (m' !! r)) <$> ms)).
Proof.
  unfold Tensor.cat_last. destruct ms as [|m0 ms]; [done|]. cbn [fmap list_fmap].
  assert (mapM Tensor.as_T2 (T2 m0 :: (T2 <$> ms)) = Some (m0 :: ms)) as ->.
  { apply mapM_Some. constructor; [done|].
    apply Forall2_fmap_l, Forall_Forall2_diag, Forall_forall. done. }
  destruct (Tensor.cat1 (m0 :: ms)) as [m|e] eqn:Hcat; [|done].
  intros [= <-]. exists m. split; [done|].
  split; [by apply cat1_length|]. intros r Hr.
  exact (cat1_lookup (m0 :: ms) m r Hcat Hr).
Qed.

(** C7: in the constructor, [features_tensor] is [None] exactly when
    the features list is empty, and otherwise the concatenation along
    the last dimension of the tensors [data_dict[k]] in the order of the
    keys [k] in the list; the same holds for [features3d], and for
    [e_features] and [e_features3d] with the result cast to float.
    [data_dict] is the loaded cache, up to the two keys the constructor
    itself adds. *)
Theorem init_feature_tensors (X : externals)
    (atomic_features :
       rd_mol (flt X) → list string → list (string * list (scalar (flt X))))
    (edge_features :
       rd_mol (flt X) → list string → list (string * list (list (scalar (flt X)))))
    (a : GEOMqm9.args X) (w w' : world (flt X)) (self : GEOMqm9.obj X)
    (memo : gmap pyint pairs) :
  GEOMqm9.__init__ X atomic_features edge_features a w = (Ok (self, memo), w') →
  feature_tensors X self a (w_fs w').
Proof.
  intros Hinit. unfold feature_tensors.
  apply init_Ok in Hinit as (loaded & Hloaded & Hinit & _).
  apply init_from_Ok in Hinit
    as (d1 & dd & t & Hd1 & Hdd & _ & Hf & Hf3 & (e & He & ->) & (e3 & He3 & ->) & _).
  exists loaded, dd. split; [done|]. split.
  { intros k Hk1 Hk2.
    rewrite (add_standard_normal_noise_Ok X a d1 dd Hdd k Hk2).
    by apply (add_constant_ones_Ok X a loaded d1 Hd1 k). }
  apply select_Ok in Hf, Hf3, He, He3.
  split; [apply Hf|]. split; [done|]. split; [done|].
  split; by apply concat_of_cast.
Qed.

(** ** Coordinates: ten conformers side by side *)

Lemma fmap_concat_list {A B} (f : A → B) (ls : list (list A)) :
  fmap (M:=list) f (concat ls) = concat (fmap (M:=list) (fmap (M:=list) f) ls).
Proof. induction ls as [|l ls IH]; [done|]. cbn. by rewrite fmap_app, IH. Qed.

Lemma length_concat_const {A} (ls : list (list A)) (k : nat) :
  Forall (λ l, length l = k) ls → length (concat ls) = (length ls * k)%nat.
Proof.
  induction 1 as [|l ls Hl _ IH]; [done|]. cbn. rewrite length_app, Hl, IH. lia.
Qed.

Lemma fmap_lookup_seq {A} (l : list A) (d : A) :
  l = (λ r : nat, default d (l !! r)) <$> seq 0 (length l).
Proof.
  apply list_eq. intros i. rewrite list_lookup_fmap.
  destruct (decide (i < length l)%nat) as [Hi|Hi].
  - rewrite lookup_seq_lt by done. cbn.
    destruct (lookup_lt_is_Some_2 l i Hi) as [x ->]. done.
  - rewrite lookup_seq_ge by lia. cbn. apply lookup_ge_None_2. lia.
Qed.

Section coordinate_facts.
Context {F : Type}.

Lemma GetPositions_width (m : rd_mol F) :
  Forall (λ row, length row = 3%nat) (GetPositions m).
Proof.
  unfold GetPositions. apply Forall_fmap, Forall_forall. intros a _. cbn.
  by destruct (atom_pos a) as [[x y] z].
Qed.

Lemma length_GetPositions (m : rd_mol F) :
  length (GetPositions m) = length (mol_atoms m).
Proof. unfold GetPositions. by rewrite length_fmap. Qed.

Lemma coordinate_block_compose (f g : scalar F → scalar F) (md : mol_dict F) :
  fmap (M:=list) f <$> coordinate_block g md
  = coordinate_block (λ s, f (g s)) md.
Proof.
  unfold coordinate_block. rewrite <- list_fmap_compose.
  apply list_fmap_ext. intros _ r _. cbn.
  rewrite fmap_concat_list, <- list_fmap_compose. f_equal.
  apply list_fmap_ext. intros _ c _. cbn. by rewrite <- list_fmap_compose.
Qed.

Lemma coordinate_block_length (cast : scalar F → scalar F) (md : mol_dict F) :
  length (coordinate_block cast md) = length (md_atoms md).
Proof. unfold coordinate_block. by rewrite length_fmap, length_seq. Qed.

Lemma ten_conformers_10 (md : mol_dict F) :
  md_conformers md ≠ [] → length (ten_conformers md) = 10%nat.
Proof.
  unfold ten_conformers. destruct (md_conformers md) as [|c0 cs]; [done|].
  intros _. rewrite length_app, length_replicate, length_take. lia.
Qed.

Lemma coordinate_block_width (cast : scalar F → scalar F) (md : mol_dict F) :
  md_conformers md ≠ [] →
  Forall (λ c, length (mol_atoms (conf_rd_mol c)) = length (md_atoms md))
    (ten_conformers md) →
  Forall (λ row, length row = 30%nat) (coordinate_block cast md).
Proof.
  intros Hne Hsame. unfold coordinate_block.
  apply Forall_fmap, Forall_forall. intros r Hr. cbn.
  apply elem_of_seq in Hr as [_ Hr]. cbn in Hr.
  rewrite (length_concat_const _ 3).
  - rewrite length_fmap, ten_conformers_10 by done. done.
  - apply Forall_fmap. eapply Forall_impl; [exact Hsame|].
    intros c Hc. cbn. rewrite length_fmap.
    destruct (GetPositions (conf_rd_mol c) !! r) as [row|] eqn:Hrow.
    + cbn. pose proof (GetPositions_width (conf_rd_mol c)) as Hw.
      rewrite Forall_forall in Hw. apply Hw.
      by eapply list_elem_of_lookup_2.
    + apply lookup_ge_None in Hrow. rewrite length_GetPositions in Hrow.
      cbn in Hc. lia.
Qed.

Lemma coordinate_block_first (cast : scalar F → scalar F) (md : mol_dict F) :
  md_conformers md ≠ [] →
  take 3 <$> coordinate_block cast md = first_conformer_positions cast md.
Proof.
  intros Hne. unfold coordinate_block, first_conformer_positions, ten_conformers,
    md_atoms.
  destruct (md_conformers md) as [|c0 cs]; [done|].
  rewrite <- list_fmap_compose. apply list_eq. intros r.
  rewrite !list_lookup_fmap.
  destruct (mol_atoms (conf_rd_mol c0) !! r) as [a|] eqn:Ha.
  - rewrite lookup_seq_lt by (by eapply lookup_lt_Some). cbn. f_equal.
    unfold GetPositions at 1. rewrite list_lookup_fmap, Ha. cbn.
    destruct (atom_pos a) as [[x y] z]. done.
  - rewrite lookup_seq_ge; [done|]. by apply lookup_ge_None.
Qed.

End coordinate_facts.

Section process_cache.
Context (X : externals).
Context (atomic_features :
           rd_mol (flt X) → list string → list (string * list (scalar (flt X)))).
Context (edge_features :
           rd_mol (flt X) → list string
           → list (string * list (list (scalar (flt X))))).

(** The cache file that [process] writes, in terms of the retained
    molecules. *)
Lemma process_cache (w w' : world (flt X)) :
  Process.process X atomic_features edge_features w = (Ok (), w') →
  ∃ d,
    let mols : list (mol_dict (flt X)) := (retained (w_fs w)).*2 in
    fs_processed (w_fs w') = Some d
    ∧ d !! "n_atoms"
      = Some (VTensor (T1 (SInt <$> fmap (M:=list) md_n_atoms mols)))
    ∧ d !! "atom_slices"
      = Some (VTensor
                (T1 (SInt <$> 0 :: sums_from 0 (fmap (M:=list) md_n_atoms mols))))
    ∧ d !! "edge_slices"
      = Some (VTensor
                (T1 (SInt <$> 0 :: sums_from 0
                                     (fmap (M:=list) (λ md, 2 * md_n_bonds md) mols))))
    ∧ d !! "coordinates"
      = Some (VTensor
                (T2 (concat (fmap (M:=list)
                               (coordinate_block (λ s, to_float X (to_float X s)))
                               mols))))
    ∧ Forall (λ md,
                md_conformers md ≠ []
                ∧ Forall (λ c, length (mol_atoms (conf_rd_mol c))
                               = length (md_atoms md))
                    (ten_conformers md)) mols.
Proof.
  intros H. apply process_Ok in H as (a & d & t & Hfold & Hd & Hfs & _).
  apply fold_mols_Ok in Hfold as (_ & Has & Hes & Hnl & _ & _ & Hco & Hall).
  apply build_data_dict_Ok in Hd
    as (_ & Hd_n & Hd_a & Hd_e & _ & (co & Hcat & Hd_co)).
  cbn zeta in *. cbn [Process.init_acc Process.atom_slices Process.edge_slices
    Process.n_atoms_list Process.coordinates Process.total_atoms
    Process.total_edges app] in Has, Hes, Hnl, Hco.
  exists d. rewrite Hfs. cbn [fs_processed].
  rewrite Has in Hd_a. rewrite Hes in Hd_e. rewrite Hnl in Hd_n.
  repeat (split; [done|]). split; [|done].
  apply cat0_Ok in Hcat as [-> _]. rewrite Hd_co, Hco. do 3 f_equal.
  rewrite fmap_concat_list, <- list_fmap_compose. f_equal.
  apply list_fmap_ext. intros _ md _. apply coordinate_block_compose.
Qed.

End process_cache.

(** C10: [process] pads every retained molecule to exactly ten
    conformers: the coordinate block of a molecule joins, along the
    columns, the three-column position matrices of its first at most
    ten conformers and then of the first conformer repeated, so that
    every row of the cached [coordinates] has 30 columns; the
    constructor keeps the first three columns in [self.coordinates],
    the positions in the first conformer. *)
Theorem process_coordinates (X : externals)
    (atomic_features :
       rd_mol (flt X) → list string → list (string * list (scalar (flt X))))
    (edge_features :
       rd_mol (flt X) → list string → list (string * list (list (scalar (flt X)))))
    (w w' : world (flt X)) :
  Process.process X atomic_features edge_features w = (Ok (), w') →
  ∃ d rows,
    let mols : list (mol_dict (flt X)) := (retained (w_fs w)).*2 in
    let cast := λ s, to_float X (to_float X s) in
    fs_processed (w_fs w') = Some d
    ∧ d !! "coordinates" = Some (VTensor (T2 rows))
    ∧ Forall (λ md, length (ten_conformers md) = 10%nat) mols
    ∧ rows = concat (fmap (M:=list) (coordinate_block cast) mols)
    ∧ Forall (λ row, length row = 30%nat) rows
    ∧ ∀ a w2 w3 self memo,
        fs_processed (w_fs w2) = Some d →
        GEOMqm9.__init__ X atomic_features edge_features a w2
        = (Ok (self, memo), w3) →
        GEOMqm9.coordinates X self = T2 (take 3 <$> rows)
        ∧ GEOMqm9.coordinates X self
          = T2 (concat (fmap (M:=list) (first_conformer_positions cast) mols)).
Proof.
  intros H. apply process_cache in H as (d & Hd & _ & _ & _ & Hco & Hall).
  cbn zeta in *. set (mols := (retained (w_fs w)).*2) in *.
  set (cast := λ s, to_float X (to_float X s)) in *.
  exists d, (concat (fmap (M:=list) (coordinate_block cast) mols)).
  split; [done|]. split; [done|].
  split.
  { eapply Forall_impl; [exact Hall|]. intros md [Hne _]. by apply ten_conformers_10. }
  split; [done|].
  split.
  { apply Forall_concat, Forall_fmap. eapply Forall_impl; [exact Hall|].
    intros md [Hne Hsame]. by apply coordinate_block_width. }
  intros a w2 w3 self memo Hw2 Hinit.
  apply init_Ok in Hinit as (loaded & _ & Hinit & Hl). rewrite Hw2 in Hl. subst loaded.
  apply init_from_Ok in Hinit
    as (d1 & dd & t & Hd1 & Hdd & _ & _ & _ & _ & _ & Ht & Hslice & _).
  rewrite (add_standard_normal_noise_Ok X a d1 dd Hdd) in Ht by done.
  rewrite (add_constant_ones_Ok X a d d1 Hd1) in Ht by done.
  rewrite Hco in Ht. injection Ht as <-. cbn in Hslice. injection Hslice as <-.
  assert ((λ r : list (scalar (flt X)), Py.slice r None (Some 3))
            <$> concat (fmap (M:=list) (coordinate_block cast) mols)
          = take 3 <$> concat (fmap (M:=list) (coordinate_block cast) mols)) as ->.
  { apply list_fmap_ext. intros _ r _. by rewrite slice_upto by lia. }
  split; [done|]. f_equal.
  rewrite fmap_concat_list, <- list_fmap_compose. f_equal.
  apply Forall_fmap_ext. eapply Forall_impl; [exact Hall|].
  intros md [Hne _]. cbn. by apply coordinate_block_first.
Qed.

Lemma process_coordinates_witness :
  ∃ d rows,
    let mols : list (mol_dict Z) := (retained (w_fs Demo.first_use)).*2 in
    let cast := λ s, to_float Demo.externals (to_float Demo.externals s) in
    fs_processed (w_fs (Demo.process Demo.first_use).2) = Some d
    ∧ d !! "coordinates" = Some (VTensor (T2 rows))
    ∧ Forall (λ md, length (ten_conformers md) = 10%nat) mols
    ∧ rows = concat (fmap (M:=list) (coordinate_block cast) mols)
    ∧ Forall (λ row, length row = 30%nat) rows
    ∧ ∀ a w2 w3 self memo,
        fs_processed (w_fs w2) = Some d →
        Demo.__init__ a w2 = (Ok (self, memo), w3) →
        GEOMqm9.coordinates Demo.externals self = T2 (take 3 <$> rows)
        ∧ GEOMqm9.coordinates Demo.externals self
          = T2 (concat (fmap (M:=list) (first_conformer_positions cast) mols)).
Proof.
  apply (process_coordinates Demo.externals Demo.atomic_features
           Demo.edge_features Demo.first_use (Demo.process Demo.first_use).2).
  vm_compute. reflexivity.
Defined.

(** ** Slices of the flat tensors *)

Lemma sums_from_bounds t l (i : nat) x :
  Forall (λ n, 0 ≤ n) l →
  (t :: sums_from t l) !! i = Some x → t ≤ x ≤ t + foldr Z.add 0 l.
Proof.
  intros Hl. revert t i. induction Hl as [|n l Hn Hl IH]; intros t i.
  - destruct i as [|i]; cbn; [|done]. intros [= <-]. lia.
  - assert (0 ≤ foldr Z.add 0 l) as Hsum.
    { clear IH. induction Hl; cbn; lia. }
    destruct i as [|i]; cbn.
    + intros [= <-]. lia.
    + intros Hx. apply (IH (t + n) i) in Hx. lia.
Qed.

Lemma py_index_fmap {A B} (f : A → B) (l : list A) (i : Z) x :
  0 ≤ i → l !! Z.to_nat i = Some x → Py.index (f <$> l) i = Ok (f x).
Proof.
  intros Hi Hx. unfold Py.index. cbv zeta.
  rewrite (decide_False (P:=i < 0)) by lia.
  rewrite (decide_False (P:=i < 0)) by lia.
  by rewrite list_lookup_fmap, Hx.
Qed.

Section atom_rows_facts.
Context (X : externals) (self : GEOMqm9.obj X).

Local Abbreviation int_tensor z := (GEOMqm9.PTensor X (T0 (SInt z))).

Lemma meta_index (key : string) (l : list Z) (idx x : Z) :
  GEOMqm9.meta_dict X self !! key = Some (VTensor (T1 (SInt <$> l))) →
  0 ≤ idx → l !! Z.to_nat idx = Some x →
  (v ← Py.subscript (GEOMqm9.meta_dict X self) key; GEOMqm9.value_index X v idx)
  = Ok (int_tensor x).
Proof.
  intros Hkey Hidx Hx. unfold Py.subscript. rewrite Hkey.
  cbn [mbind res_bind GEOMqm9.value_index Tensor.index].
  by rewrite (py_index_fmap SInt l idx x).
Qed.

Lemma offsets_layout (ns : list Z) (idx : Z) :
  atom_layout X self ns → 0 ≤ idx < Z.of_nat (length ns) →
  ∃ es ee start n,
    offsets X self idx
    = Ok (int_tensor es, int_tensor ee, int_tensor start, int_tensor n)
    ∧ (0 :: sums_from 0 ns) !! Z.to_nat idx = Some start
    ∧ ns !! Z.to_nat idx = Some n.
Proof.
  intros (Hn & Ha & (es & He & Hlen) & _) Hidx.
  destruct (lookup_lt_is_Some_2 es (Z.to_nat idx)) as [e1 He1]; [lia|].
  destruct (lookup_lt_is_Some_2 es (Z.to_nat (idx + 1))) as [e2 He2]; [lia|].
  destruct (lookup_lt_is_Some_2 ns (Z.to_nat idx)) as [n Hn']; [lia|].
  destruct (lookup_lt_is_Some_2 (0 :: sums_from 0 ns) (Z.to_nat idx))
    as [start Hs].
  { cbn. rewrite length_sums_from. lia. }
  exists e1, e2, start, n. split; [|done].
  unfold offsets.
  rewrite (meta_index "edge_slices" es idx e1) by (done || lia).
  rewrite (meta_index "edge_slices" es (idx + 1) e2) by (done || lia).
  rewrite (meta_index "atom_slices" (0 :: sums_from 0 ns) idx start)
    by (done || lia).
  rewrite (meta_index "n_atoms" ns idx n) by (done || lia). done.
Qed.

Lemma data_by_type_raw_features idx es ee s n oid m :
  GEOMqm9.data_by_type X self idx "raw_features" es ee s n oid m
  = (r ← GEOMqm9.atom_rows X (GEOMqm9.features_tensor X self) s n;
     Ok (GEOMqm9.Item X (GEOMqm9.PTensor X r)), m).
Proof. reflexivity. Qed.

Lemma data_by_type_coordinates idx es ee s n oid m :
  GEOMqm9.data_by_type X self idx "coordinates" es ee s n oid m
  = (r ← GEOMqm9.atom_rows X (Some (GEOMqm9.coordinates X self)) s n;
     Ok (GEOMqm9.Item X (GEOMqm9.PTensor X r)), m).
Proof. reflexivity. Qed.

Lemma view_of_flat (rt : string) (t : tensor (flt X)) idx es ee s n :
  flat_tensor X self rt = Some t →
  view_of X self idx rt es ee s n
  = (r ← GEOMqm9.atom_rows X (Some t) s n;
     Ok (GEOMqm9.Item X (GEOMqm9.PTensor X r))).
Proof.
  unfold flat_tensor, view_of.
  case_decide as H1; [|case_decide as H2; [|done]]; subst rt.
  - intros Ht. by rewrite data_by_type_raw_features, Ht.
  - intros [= <-]. by rewrite data_by_type_coordinates.
Qed.

Lemma atom_rows_None s n : GEOMqm9.atom_rows X None s n = Raise TypeError.
Proof.
  assert (∀ p, (∃ z, GEOMqm9.pyval_index X p = Ok z)
               ∨ GEOMqm9.pyval_index X p = Raise TypeError) as Hp.
  { intros [t|?]; [|by right]. cbn. unfold Tensor.as_index.
    repeat case_match; eauto. }
  unfold GEOMqm9.atom_rows.
  destruct (Hp s) as [[z ->]| ->]; [|done]. cbn.
  destruct (Hp n) as [[z' ->]| ->]; done.
Qed.

Lemma view_of_raw_features_None idx es ee s n :
  GEOMqm9.features_tensor X self = None →
  view_of X self idx "raw_features" es ee s n = Raise TypeError.
Proof.
  intros Hnone. unfold view_of.
  by rewrite data_by_type_raw_features, Hnone, atom_rows_None.
Qed.

End atom_rows_facts.

(** C5, as amended: for every valid index and for the return types
    [raw_features] and [coordinates], provided the flat tensor exists
    ([self.features_tensor] is [None] when the features list is empty,
    and [raw_features] then raises [TypeError]), [__getitem__] returns
    exactly the rows [atom_slices[idx]] to
    [atom_slices[idx] + n_atoms[idx] - 1] of that tensor: [n_atoms[idx]]
    rows, all within the range of molecule [idx]. *)
Theorem getitem_atom_rows (X : externals) (self : GEOMqm9.obj X)
    (ns : list Z) (idx : Z) (m : gmap pyint pairs) :
  atom_layout X self ns → 0 ≤ idx < Z.of_nat (length ns) → memo_inv m →
  atom_rows_served X self ns idx m.
Proof.
  intros Hlayout Hidx Hm. unfold atom_rows_served.
  destruct (getitem_result X self idx m Hm) as [Hres _].
  split.
  - intros rt rows Hflat Hrows.
    destruct (offsets_layout X self ns idx Hlayout Hidx)
      as (es & ee & start & n & Hoff & Hstart & Hn).
    pose proof Hlayout as (_ & _ & _ & Hpos).
    pose proof (sums_from_step 0 ns _ _ _ Hstart Hn) as Hnext.
    pose proof (sums_from_bounds 0 ns _ _ Hpos Hstart) as Hb1.
    pose proof (sums_from_bounds 0 ns _ _ Hpos Hnext) as Hb2.
    assert (0 ≤ n) as Hn0.
    { rewrite Forall_forall in Hpos. apply Hpos. by eapply list_elem_of_lookup_2. }
    set (out := take (Z.to_nat n) (drop (Z.to_nat start) rows)).
    assert (∀ es' ee',
              view_of X self idx rt es' ee'
                (GEOMqm9.PTensor X (T0 (SInt start)))
                (GEOMqm9.PTensor X (T0 (SInt n)))
              = Ok (GEOMqm9.Item X (GEOMqm9.PTensor X (T2 out)))) as Hview.
    { intros es' ee'. rewrite (view_of_flat X self rt (T2 rows)) by done.
      cbn. rewrite slice_range by lia. unfold out. do 5 f_equal. lia. }
    exists start, n, out.
    split; [done|]. split; [done|]. split; [done|].
    split. { unfold out. rewrite length_take, length_drop. lia. }
    split.
    { intros r Hr. unfold out in *. rewrite length_take in Hr.
      rewrite lookup_take_lt by lia. by rewrite lookup_drop. }
    split.
    { intros es' ee' oid m0 Hm0. by rewrite view_of_data_by_type. }
    split.
    + intros k tuple Hk Ht. rewrite Hres, Hoff in Ht. cbn in Ht.
      apply mapM_res_Ok_inv in Ht as [_ Ht].
      destruct (Ht k rt Hk) as (v & -> & Hv). rewrite Hview in Hv. congruence.
    + intros Hrts. rewrite Hres, Hoff, Hrts. cbn. by rewrite Hview.
  - intros Hnone. split.
    + intros es ee s n oid m0 Hm0. rewrite view_of_data_by_type by done.
      by apply view_of_raw_features_None.
    + intros Hin. rewrite Hres.
      destruct (offsets X self idx) as [[[[es ee] s] n]|e]; [|by eexists].
      cbn. apply (mapM_res_Raise _ _ "raw_features" Hin).
      rewrite view_of_raw_features_None by done. by eexists.
Qed.

(** ** Objects built on a cache that [process] wrote *)

Section init_layout.
Context (X : externals).
Context (atomic_features :
           rd_mol (flt X) → list string → list (string * list (scalar (flt X)))).
Context (edge_features :
           rd_mol (flt X) → list string
           → list (string * list (list (scalar (flt X))))).

(** The offset tables and the coordinates of an object constructed on
    a cache written by [process]: the layout over the retained
    molecules, with a coordinate row for every atom. *)
Lemma init_layout (w0 w1 w2 w3 : world (flt X)) a self memo :
  Process.process X atomic_features edge_features w0 = (Ok (), w1) →
  fs_processed (w_fs w2) = fs_processed (w_fs w1) →
  GEOMqm9.__init__ X atomic_features edge_features a w2
  = (Ok (self, memo), w3) →
  let ns := fmap (M:=list) md_n_atoms (retained (w_fs w0)).*2 in
  atom_layout X self ns
  ∧ ∃ rows, flat_tensor X self "coordinates" = Some (T2 rows)
            ∧ Z.of_nat (length rows) = foldr Z.add 0 ns.
Proof.
  intros Hp Hw2 Hinit.
  apply process_cache in Hp as (d & Hd & Hn & Ha & He & Hco & Hall).
  cbn zeta in *. set (mols := (retained (w_fs w0)).*2) in *.
  rewrite Hd in Hw2.
  apply init_Ok in Hinit as (loaded & _ & Hinit & Hl). rewrite Hw2 in Hl.
  subst loaded.
  apply init_from_Ok in Hinit
    as (d1 & dd & t & Hd1 & Hdd & _ & _ & _ & _ & _ & Ht & Hslice & Hmeta & _).
  assert (∀ k, k ≠ "constant_ones" → k ≠ "standard_normal_noise" →
            dd !! k = d !! k) as Hdd'.
  { intros k Hk1 Hk2.
    rewrite (add_standard_normal_noise_Ok X a d1 dd Hdd k Hk2).
    by apply (add_constant_ones_Ok X a d d1 Hd1 k). }
  apply make_meta_dict_Ok in Hmeta as (_ & Hm_e & Hm_a & Hm_n & _ & _).
  rewrite Hdd' in Ht, Hm_e, Hm_a, Hm_n by done.
  split.
  - split; [by rewrite Hm_n|]. split; [by rewrite Hm_a|]. split.
    + eexists. split; [by rewrite Hm_e|].
      cbn. by rewrite length_sums_from, !length_fmap.
    + apply Forall_fmap, Forall_forall. intros md _. unfold md_n_atoms. cbn. lia.
  - rewrite Hco in Ht. injection Ht as <-. cbn in Hslice. injection Hslice as Hc.
    change (flat_tensor X self "coordinates")
      with (Some (GEOMqm9.coordinates X self)).
    rewrite <- Hc. eexists. split; [done|]. rewrite length_fmap.
    clear -Hall. induction mols as [|md mols IH]; [done|].
    cbn. rewrite length_app, coordinate_block_length.
    apply Forall_cons in Hall as [_ Hall]. unfold md_n_atoms at 1.
    specialize (IH Hall). lia.
Qed.

End init_layout.

(** ** The statements on the example data set *)

Lemma get_pairwise_memo_hit :
  let m := (get_pairwise (PyInt 3) ∅).2 in
  m !! PyInt 3 = Some ([0; 0; 1; 1; 2; 2], [1; 2; 0; 2; 0; 1])
  ∧ get_pairwise (PyInt 3) m = (pairwise_compute 3, m).
Proof. vm_compute. done. Qed.

Lemma init_cache_file_witness :
  cache_discipline Demo.externals Demo.atomic_features Demo.edge_features
    Demo.views_args Demo.first_use.
Proof.
  apply (init_cache_file Demo.externals Demo.atomic_features Demo.edge_features
           Demo.views_args Demo.first_use).
  vm_compute. reflexivity.
Defined.

(** The claim C3 as stated fails where the validation rejects a return
    type (no cache, yet [process] is not invoked and nothing is loaded)
    and where [process] raises (nothing is loaded). *)
Lemma init_cache_file_counterexample :
  ¬ (let t := w_trace (Demo.__init__ Demo.unknown_args Demo.first_use).2 in
     (EvProcess ∈ t ↔ fs_processed (w_fs Demo.first_use) = None) ∧ EvLoad ∈ t)
  ∧ ¬ (let t := w_trace (Demo.__init__ Demo.views_args Demo.empty_directory).2 in
       (EvProcess ∈ t ↔ fs_processed (w_fs Demo.empty_directory) = None)
       ∧ EvLoad ∈ t).
Proof.
  split; cbv zeta.
  - assert (w_trace (Demo.__init__ Demo.unknown_args Demo.first_use).2 = [])
      as -> by (vm_compute; reflexivity).
    intros [_ H]. by apply elem_of_nil in H.
  - assert (w_trace (Demo.__init__ Demo.views_args Demo.empty_directory).2
            = [EvProcess]) as -> by (vm_compute; reflexivity).
    intros [_ H]. apply list_elem_of_singleton in H. discriminate.
Qed.

Example init_unknown_return_type :
  Demo.__init__ Demo.unknown_args Demo.first_use
  = (Raise (Exception "return_type not supported: " "bond_angles"),
     Demo.first_use).
Proof. vm_compute. reflexivity. Qed.

Example init_first_use_trace :
  w_trace (Demo.__init__ Demo.views_args Demo.first_use).2
  = [EvProcess; EvReadSummary; EvReadPickle "qm9/O.pickle";
     EvReadPickle "qm9/N.pickle"; EvSave; EvLoad].
Proof. vm_compute. reflexivity. Qed.

Example init_later_use_trace :
  w_trace (Demo.__init__ Demo.views_args Demo.later_use).2 = [EvLoad].
Proof. vm_compute. reflexivity. Qed.

Lemma getitem_views_witness :
  tuple_of_views Demo.externals
    (Demo.dataset Demo.views_args Demo.first_use).1 1 ∅.
Proof.
  apply (getitem_views Demo.externals
           (Demo.dataset Demo.views_args Demo.first_use).1 1 ∅).
  apply memo_inv_empty.
Defined.

(** The claim C4 as stated fails where [data_by_type] raises: index 0
    is valid, and [__getitem__] returns no tuple. *)
Lemma getitem_views_counterexample :
  let self := (Demo.dataset Demo.mol_id_args Demo.first_use).1 in
  GEOMqm9.return_types Demo.externals self = ["smiles"; "mol_id"]
  ∧ GEOMqm9.__len__ Demo.externals self = Ok 2
  ∧ (GEOMqm9.__getitem__ Demo.externals self 0 ∅).1
    = Raise (Exception "return type not supported: " "mol_id")
  ∧ ¬ is_Ok (GEOMqm9.__getitem__ Demo.externals self 0 ∅).1.
Proof.
  cbv zeta.
  assert ((GEOMqm9.__getitem__ Demo.externals
             (Demo.dataset Demo.mol_id_args Demo.first_use).1 0 ∅).1
          = Raise (Exception "return type not supported: " "mol_id")) as H
    by (vm_compute; reflexivity).
  split; [vm_compute; reflexivity|]. split; [vm_compute; reflexivity|].
  split; [done|]. rewrite H. by intros [? ?].
Qed.

Example getitem_views_length :
  length <$> (GEOMqm9.__getitem__ Demo.externals
                (Demo.dataset Demo.views_args Demo.first_use).1 1 ∅).1
  = Ok 4%nat.
Proof. vm_compute. reflexivity. Qed.

Lemma getitem_atom_rows_witness :
  atom_rows_served Demo.externals
    (Demo.dataset Demo.views_args Demo.first_use).1 [3; 4] 1 ∅.
Proof.
  apply (getitem_atom_rows Demo.externals
           (Demo.dataset Demo.views_args Demo.first_use).1 [3; 4] 1 ∅).
  - split; [vm_compute; reflexivity|]. split; [vm_compute; reflexivity|].
    split; [exists [0; 4; 10]; split; vm_compute; reflexivity|].
    repeat constructor; lia.
  - cbn. lia.
  - apply memo_inv_empty.
Defined.

(** The claim C5 as stated fails for [raw_features] when the features
    list is empty: index 0 is valid, and [__getitem__] raises. *)
Lemma getitem_atom_rows_counterexample :
  let self := (Demo.dataset Demo.no_features_args Demo.first_use).1 in
  GEOMqm9.return_types Demo.externals self = ["raw_features"]
  ∧ GEOMqm9.__len__ Demo.externals self = Ok 2
  ∧ GEOMqm9.features_tensor Demo.externals self = None
  ∧ (GEOMqm9.__getitem__ Demo.externals self 0 ∅).1 = Raise TypeError
  ∧ ¬ is_Ok (GEOMqm9.__getitem__ Demo.externals self 0 ∅).1.
Proof.
  cbv zeta.
  assert ((GEOMqm9.__getitem__ Demo.externals
             (Demo.dataset Demo.no_features_args Demo.first_use).1 0 ∅).1
          = Raise TypeError) as H by (vm_compute; reflexivity).
  split; [vm_compute; reflexivity|]. split; [vm_compute; reflexivity|].
  split; [vm_compute; reflexivity|]. split; [done|].
  rewrite H. by intros [? ?].
Qed.

Example getitem_coordinates :
  (GEOMqm9.__getitem__ Demo.externals
     (Demo.dataset (Demo.args ["coordinates"] [] [] false) Demo.first_use).1 1 ∅).1
  = Ok [GEOMqm9.Item Demo.externals
          (GEOMqm9.PTensor Demo.externals
             (T2 [[SFlt 0; SFlt 0; SFlt 0]; [SFlt 1; SFlt 0; SFlt 0];
                  [SFlt 0; SFlt 1; SFlt 0]; [SFlt 0; SFlt 0; SFlt 1]]))].
Proof. vm_compute. reflexivity. Qed.

Lemma init_feature_tensors_witness :
  feature_tensors Demo.externals
    (Demo.dataset Demo.views_args Demo.first_use).1 Demo.views_args
    (w_fs (Demo.__init__ Demo.views_args Demo.first_use).2).
Proof.
  apply (init_feature_tensors Demo.externals Demo.atomic_features
           Demo.edge_features Demo.views_args Demo.first_use
           (Demo.__init__ Demo.views_args Demo.first_use).2
           (Demo.dataset Demo.views_args Demo.first_use).1
           (Demo.dataset Demo.views_args Demo.first_use).2).
  vm_compute. reflexivity.
Defined.

Lemma getitem_unsupported_witness :
  never_served Demo.externals
    (Demo.dataset Demo.mol_id_args Demo.first_use).1 "mol_id".
Proof.
  apply (getitem_unsupported Demo.externals Demo.atomic_features
           Demo.edge_features Demo.mol_id_args Demo.first_use
           (Demo.__init__ Demo.mol_id_args Demo.first_use).2
           (Demo.dataset Demo.mol_id_args Demo.first_use).1
           (Demo.dataset Demo.mol_id_args Demo.first_use).2 "mol_id").
  - vm_compute. reflexivity.
  - unfold unhandled_return_types. set_solver.
  - vm_compute. set_solver.
Defined.

Example getitem_edge_indices :
  (GEOMqm9.__getitem__ Demo.externals
     (Demo.dataset (Demo.args ["edge_indices"] [] [] false) Demo.first_use).1 0 ∅).1
  = Raise (KeyError "edge_indices").
Proof. vm_compute. reflexivity. Qed.

(** * Further properties *)

(** ** Accumulating dictionaries *)

Lemma dict_append_Ok {A} (d d' : gmap string (list A)) key x :
  Process.dict_append d key x = Ok d' →
  ∃ l v, d !! key = Some l ∧ x = Ok v ∧ d' = <[key := l ++ [v]]> d.
Proof.
  unfold Process.dict_append, Py.subscript. intros H.
  destruct (d !! key) as [l|]; [|done]. cbn in H.
  destruct x as [v|]; [|done]. cbn in H. injection H as <-. eauto.
Qed.

Lemma foldl_res_Raise {A B} (g : A → B → res A) (l : list B) e :
  foldl (λ t k, t' ← t; g t' k) (Raise e) l = Raise e.
Proof. induction l as [|k l IH]; [done|]. cbn. apply IH. Qed.

Lemma foldl_dict_append_Ok {A} (f : string → res A) (ks : list string)
    (t t' : gmap string (list A)) :
  NoDup ks →
  foldl (λ t key, t' ← t; Process.dict_append t' key (f key)) (Ok t) ks = Ok t' →
  (∀ k, k ∈ ks → ∃ l v, t !! k = Some l ∧ f k = Ok v ∧ t' !! k = Some (l ++ [v]))
  ∧ (∀ k, k ∉ ks → t' !! k = t !! k).
Proof.
  revert t. induction ks as [|k0 ks IH]; intros t Hnd H.
  { cbn in H. injection H as <-. split; [|done]. intros k Hk. by apply elem_of_nil in Hk. }
  apply NoDup_cons in Hnd as [Hk0 Hnd]. cbn [foldl] in H.
  cbn [mbind res_bind] in H.
  destruct (Process.dict_append t k0 (f k0)) as [t1|e] eqn:Happ.
  2:{ by rewrite (foldl_res_Raise (λ t' key, Process.dict_append t' key (f key))) in H. }
  apply dict_append_Ok in Happ as (l0 & v0 & Hl0 & Hv0 & ->).
  apply IH in H as [Hin Hout]; [|done]. split.
  - intros k [->|Hk]%elem_of_cons.
    + exists l0, v0. split; [done|]. split; [done|].
      rewrite Hout by done. apply lookup_insert_eq.
    + destruct (Hin k Hk) as (l & v & Hl & Hv & Hk').
      assert (k ≠ k0) by (intros ->; done).
      rewrite lookup_insert_ne in Hl by done. eauto.
  - intros k Hk. apply not_elem_of_cons in Hk as [Hne Hk].
    rewrite Hout by done. by rewrite lookup_insert_ne.
Qed.

(** ** Index lists *)

Lemma py_index_Ok {A} (l : list A) (j : Z) x :
  0 ≤ j → Py.index l j = Ok x ↔ l !! Z.to_nat j = Some x.
Proof.
  intros Hj. unfold Py.index. cbv zeta.
  rewrite (decide_False (P := j < 0)) by lia.
  rewrite (decide_False (P := j < 0)) by lia.
  destruct (l !! Z.to_nat j); split; intros; simplify_eq; done.
Qed.



Lemma py_index_neg {A} (l : list A) (j : Z) x :
  - Z.of_nat (length l) ≤ j < 0 →
  Py.index l j = Ok x ↔ l !! Z.to_nat (j + Z.of_nat (length l)) = Some x.
Proof.
  intros Hj. unfold Py.index. cbv zeta.
  rewrite (decide_True (P := j < 0)) by lia.
  rewrite (decide_False (P := j + Z.of_nat (length l) < 0)) by lia.
  destruct (l !! _); split; intros; simplify_eq; done.
Qed.

(** The block of a concatenation between two running totals of the
    block lengths. *)
Lemma concat_block_from {A} (t : Z) (ls : list (list A)) (i : nat) (l : list A) (s : Z) :
  ls !! i = Some l →
  (t :: sums_from t ((λ l', Z.of_nat (length l')) <$> ls)) !! i = Some s →
  t ≤ s
  ∧ take (length l) (drop (Z.to_nat (s - t)) (concat ls)) = l
  ∧ (Z.to_nat (s - t) + length l ≤ length (concat ls))%nat.
Proof.
  revert t i. induction ls as [|l0 ls IH]; intros t i Hl Hs; [done|].
  destruct i as [|i].
  - cbn in Hl, Hs. simplify_eq. rewrite Z.sub_diag.
    change (Z.to_nat 0) with 0%nat. rewrite drop_0.
    change (concat (l :: ls)) with (l ++ concat ls).
    rewrite take_app_length, length_app. split; [lia|]. split; [done|lia].
  - change ((l0 :: ls) !! S i) with (ls !! i) in Hl.
    change (((t + Z.of_nat (length l0))
             :: sums_from (t + Z.of_nat (length l0))
                  ((λ l', Z.of_nat (length l')) <$> ls)) !! i = Some s) in Hs.
    destruct (IH _ _ Hl Hs) as (Hle & Htake & Hlen).
    change (concat (l0 :: ls)) with (l0 ++ concat ls).
    split; [lia|].
    replace (Z.to_nat (s - t))
      with (length l0 + Z.to_nat (s - (t + Z.of_nat (length l0))))%nat by lia.
    rewrite drop_app_add, length_app. split; [done|lia].
Qed.

Lemma slice_concat_block {A} (ls : list (list A)) (i : nat) (l : list A) (s : Z) :
  ls !! i = Some l →
  (0 :: sums_from 0 ((λ l', Z.of_nat (length l')) <$> ls)) !! i = Some s →
  Py.slice (concat ls) (Some s) (Some (s + Z.of_nat (length l))) = l.
Proof.
  intros Hl Hs. destruct (concat_block_from _ _ _ _ _ Hl Hs) as (Hle & Htake & Hlen).
  rewrite Z.sub_0_r in Htake, Hlen.
  unfold Py.slice, Py.bound. cbn [from_option].
  rewrite !decide_False by lia.
  replace (Z.to_nat (Z.min (s + Z.of_nat (length l)) (Z.of_nat (length (concat ls))))
           - Z.to_nat (Z.min s (Z.of_nat (length (concat ls)))))%nat
    with (length l) by lia.
  replace (Z.to_nat (Z.min s (Z.of_nat (length (concat ls))))) with (Z.to_nat s) by lia.
  done.
Qed.

(** ** Sorting the edges *)

Lemma insert_key_Permutation x l : insert_key x l ≡ₚ x :: l.
Proof.
  induction l as [|y l IH]; [done|]. cbn. case_decide; [done|].
  rewrite IH. apply Permutation_swap.
Qed.

Lemma insert_key_HdRel a x l :
  HdRel (λ p q : Z * Z, p.1 ≤ q.1) a l → a.1 ≤ x.1 →
  HdRel (λ p q : Z * Z, p.1 ≤ q.1) a (insert_key x l).
Proof.
  intros Hl Hx. destruct l as [|y l]; cbn.
  - by constructor.
  - case_decide; constructor; [done|]. by inversion Hl.
Qed.

Lemma insert_key_Sorted x l :
  Sorted (λ p q : Z * Z, p.1 ≤ q.1) l →
  Sorted (λ p q : Z * Z, p.1 ≤ q.1) (insert_key x l).
Proof.
  induction 1 as [|y l Hs IH Hhd]; cbn.
  - by repeat constructor.
  - case_decide.
    + constructor; [by constructor|]. by constructor.
    + constructor; [done|]. apply insert_key_HdRel; [done|lia].
Qed.

Lemma sort_keys_Permutation (l : list (Z * Z)) : foldr insert_key [] l ≡ₚ l.
Proof.
  induction l as [|x l IH]; [done|]. cbn. by rewrite insert_key_Permutation, IH.
Qed.

Lemma sort_keys_Sorted (l : list (Z * Z)) :
  Sorted (λ p q : Z * Z, p.1 ≤ q.1) (foldr insert_key [] l).
Proof.
  induction l as [|x l IH]; [constructor|]. cbn. by apply insert_key_Sorted.
Qed.

Lemma Sorted_nondecreasing (l : list Z) : Sorted Z.le l → nondecreasing l.
Proof.
  intros Hs. apply Sorted_StronglySorted in Hs; [|intros ???; lia].
  induction Hs as [|x l Hs IH Hall]; intros i j a b Hij Ha Hb; [done|].
  destruct i as [|i], j as [|j]; cbn in Ha, Hb; simplify_eq.
  - lia.
  - rewrite Forall_forall in Hall. apply Hall. by eapply list_elem_of_lookup_2.
  - lia.
  - eapply (IH i j); [lia|done..].
Qed.

(** [argsort keys] lists every position once. *)
Lemma argsort_Permutation keys :
  argsort keys ≡ₚ seqZ 0 (Z.of_nat (length keys)).
Proof.
  unfold argsort. rewrite sort_keys_Permutation.
  rewrite snd_zip; [done|]. rewrite length_seqZ. lia.
Qed.

Lemma argsort_keys keys :
  Forall (λ kj : Z * Z, 0 ≤ kj.2 ∧ keys !! Z.to_nat kj.2 = Some kj.1)
    (foldr insert_key [] (zip keys (seqZ 0 (Z.of_nat (length keys))))).
Proof.
  rewrite sort_keys_Permutation. apply Forall_forall. intros [k j] Hin.
  apply list_elem_of_lookup in Hin as [i Hi].
  apply lookup_zip_with_Some in Hi as (k' & j' & [= <- <-] & Hk & Hj).
  apply lookup_seqZ in Hj as [-> _]. cbn. rewrite Z.add_0_l, Nat2Z.id. split; [lia|done].
Qed.

(** ** Picking rows *)

Lemma gather_Forall2 {A} (l : list A) idx k :
  Tensor.gather l idx = Ok k → Forall2 (λ j y, Py.index l j = Ok y) idx k.
Proof. apply mapM_res_Forall2. Qed.

Lemma gather_zip {A B} (l1 : list A) (l2 : list B) idx k1 k2 :
  Forall (λ j, 0 ≤ j) idx →
  Tensor.gather l1 idx = Ok k1 → Tensor.gather l2 idx = Ok k2 →
  Forall2 (λ j y, zip l1 l2 !! Z.to_nat j = Some y) idx (zip k1 k2).
Proof.
  intros Hpos H1%gather_Forall2 H2%gather_Forall2.
  revert k2 H2 Hpos. induction H1 as [|j y idx k1 Hj H1 IH]; intros k2 H2 Hpos.
  { inversion H2. constructor. }
  inversion H2 as [|? z ? k2' Hj2 H2']; subst.
  apply Forall_cons in Hpos as [Hj0 Hpos]. cbn. constructor; [|by apply IH].
  apply py_index_Ok in Hj, Hj2; [|done..].
  apply lookup_zip_with_Some. eauto.
Qed.

Lemma omap_lookup_seqZ {A} (pre l : list A) :
  omap (λ j, (pre ++ l) !! Z.to_nat j)
    (seqZ (Z.of_nat (length pre)) (Z.of_nat (length l))) = l.
Proof.
  revert pre. induction l as [|x l IH]; intros pre; [done|].
  cbn [length]. rewrite seqZ_cons by lia. cbn [omap list_omap].
  rewrite Nat2Z.id, list_lookup_middle by done. f_equal.
  replace (Z.pred (Z.of_nat (S (length l)))) with (Z.of_nat (length l)) by lia.
  replace (Z.succ (Z.of_nat (length pre)))
    with (Z.of_nat (length (pre ++ [x]))) by (rewrite length_app; cbn; lia).
  rewrite (cons_middle x pre l), app_assoc. apply IH.
Qed.

Lemma Forall2_lookup_Permutation {A} (l : list A) (idx : list Z) (ys : list A) :
  idx ≡ₚ seqZ 0 (Z.of_nat (length l)) →
  Forall2 (λ j y, l !! Z.to_nat j = Some y) idx ys →
  ys ≡ₚ l.
Proof.
  intros Hperm Hall.
  assert (ys = omap (λ j, l !! Z.to_nat j) idx) as ->.
  { clear Hperm. induction Hall as [|j y idx ys Hj Hall IH]; [done|].
    cbn. rewrite Hj. by f_equal. }
  rewrite Hperm. pose proof (omap_lookup_seqZ [] l) as H.
  change (Z.of_nat (length [])) with 0 in H. change ([] ++ l) with l in H.
  by rewrite H.
Qed.

Lemma bond_rows_zip (bonds : list (Z * Z)) :
  zip (Process.bond_rows bonds).1 (Process.bond_rows bonds).2 = bond_edges bonds.
Proof.
  unfold Process.bond_rows, bond_edges. cbn.
  induction bonds as [|[s e] bonds IH]; [done|]. cbn. by rewrite IH.
Qed.

Lemma length_bond_edges (bonds : list (Z * Z)) :
  length (bond_edges bonds) = (2 * length bonds)%nat.
Proof.
  unfold bond_edges. induction bonds as [|[s e] bonds IH]; [done|]. cbn in *. lia.
Qed.

(** The edges of a molecule after the reordering by [argsort]: the
    same edges, in non-decreasing order of their keys. *)
Lemma sorted_edges (n : Z) (row col row' col' : list Z) :
  let perm := argsort (zip_with (λ r c, r * n + c) row col) in
  Tensor.gather row perm = Ok row' → Tensor.gather col perm = Ok col' →
  zip row' col' ≡ₚ zip row col
  ∧ nondecreasing (edge_key n <$> zip row' col').
Proof.
  intros perm Hrow Hcol.
  set (keys := zip_with (λ r c, r * n + c) row col) in *.
  assert (keys = edge_key n <$> zip row col) as Hkeys.
  { unfold keys. clear. revert col. induction row as [|r row IH]; intros [|c col]; try done.
    cbn. by rewrite IH. }
  assert (length keys = length (zip row col)) as Hlen by (by rewrite Hkeys, length_fmap).
  pose proof (argsort_Permutation keys) as Hperm. fold perm in Hperm.
  assert (Forall (λ j, 0 ≤ j) perm) as Hpos.
  { apply Forall_forall. intros j Hj. rewrite Hperm in Hj.
    apply list_elem_of_lookup in Hj as [i Hi]. apply lookup_seqZ in Hi. lia. }
  pose proof (gather_zip _ _ _ _ _ Hpos Hrow Hcol) as Hall.
  split.
  { eapply Forall2_lookup_Permutation; [|done]. by rewrite <- Hlen. }
  apply Sorted_nondecreasing.
  pose proof (argsort_keys keys) as Hk. pose proof (sort_keys_Sorted
    (zip keys (seqZ 0 (Z.of_nat (length keys))))) as Hs.
  unfold perm, argsort in Hall.
  set (s := foldr insert_key [] (zip keys (seqZ 0 (Z.of_nat (length keys))))) in *.
  assert (edge_key n <$> zip row' col' = s.*1) as ->.
  { clear Hs Hperm Hpos. revert Hk. generalize (zip row' col') Hall. clear Hall.
    induction s as [|[k j] s IH]; intros ys Hall Hk.
    { by inversion Hall. }
    inversion Hall as [|? y ? ys' Hy Hall']; subst.
    apply Forall_cons in Hk as [[_ Hkj] Hk]. cbn in *.
    rewrite Hkeys, list_lookup_fmap, Hy in Hkj. cbn in Hkj. injection Hkj as ->.
    f_equal. by apply IH. }
  eapply (Sorted_fmap fst); [|done]. done.
Qed.

(** ** What the loop of [process] accumulates *)

Section process_more.
Context (X : externals).
Context (atomic_features :
           rd_mol (flt X) → list string → list (string * list (scalar (flt X)))).
Context (edge_features :
           rd_mol (flt X) → list string
           → list (string * list (list (scalar (flt X))))).

Local Abbreviation process_mol := (Process.process_mol X atomic_features edge_features).
Local Abbreviation process := (Process.process X atomic_features edge_features).
Local Abbreviation acc := (Process.acc X).

Lemma targets_keys_NoDup : NoDup Process.targets_keys.
Proof. apply (bool_decide_unpack _). by vm_compute. Qed.

Lemma size_atom_types : Z.of_nat (size Process.atom_types) = 5.
Proof. by vm_compute. Qed.

Lemma process_mol_more (a a' : acc) smiles (md : mol_dict (flt X)) :
  process_mol a smiles md = Ok a' →
  ∃ (type_idx numbers r c : list Z),
    Forall2 (λ at_ t, Process.atom_types !! atom_symbol at_ = Some t)
      (md_atoms md) type_idx
    ∧ Forall2 (λ at_ z, Process.symbols !! atom_symbol at_ = Some z)
        (md_atoms md) numbers
    ∧ Process.atomic_numbers_long X a'
      = Process.atomic_numbers_long X a ++ numbers
    ∧ Process.atom_one_hot X a'
      = Process.atom_one_hot X a ++ [Process.one_hot X type_idx 5]
    ∧ (∀ k, k ∈ Process.targets_keys →
         ∃ l v, Process.targets X a !! k = Some l
                ∧ md_props md !! k = Some v
                ∧ Process.targets X a' !! k = Some (l ++ [v]))
    ∧ (∀ k, k ∉ Process.targets_keys →
         Process.targets X a' !! k = Process.targets X a !! k)
    ∧ Process.edge_indices X a'
      = Process.edge_indices X a ++ [[SInt <$> r; SInt <$> c]]
    ∧ length r = length c
    ∧ zip r c ≡ₚ bond_edges (md_bonds md)
    ∧ nondecreasing (edge_key (md_n_atoms md) <$> zip r c).
Proof.
  unfold Process.process_mol. intros H.
  apply res_bind_Ok in H as (c0 & Hc0 & H).
  assert (∃ cs, md_conformers md = c0 :: cs) as [cs Hcs].
  { unfold Py.index in Hc0. cbn in Hc0.
    destruct (md_conformers md) as [|c cs]; [done|].
    cbn in Hc0. injection Hc0 as ->. eauto. }
  apply res_bind_Ok in H as (atom_float' & _ & H).
  apply res_bind_Ok in H as (type_idx & Htype & H).
  apply res_bind_Ok in H as (numbers & Hnum & H).
  pose proof (bond_rows_zip (mol_bonds (conf_rd_mol c0))) as Hzip.
  destruct (Process.bond_rows _) as [row col] eqn:Hrows. cbn [fst snd] in Hzip.
  apply res_bind_Ok in H as (avg' & Havg & H).
  apply res_bind_Ok in H as (row' & Hrow' & H).
  apply res_bind_Ok in H as (col' & Hcol' & H).
  apply res_bind_Ok in H as (e_features' & _ & H).
  apply res_bind_Ok in H as (targets' & Htg & H).
  apply res_bind_Ok in H as (confs & Hconfs & H).
  apply res_bind_Ok in H as (block & Hblock & H).
  injection H as <-. cbn -[Process.atom_types Process.symbols].
  assert (md_atoms md = mol_atoms (conf_rd_mol c0)) as Hat.
  { unfold md_atoms. by rewrite Hcs. }
  assert (md_bonds md = mol_bonds (conf_rd_mol c0)) as Hb.
  { unfold md_bonds. by rewrite Hcs. }
  assert (md_n_atoms md = Z.of_nat (length (mol_atoms (conf_rd_mol c0)))) as Hn.
  { unfold md_n_atoms. by rewrite Hat. }
  apply mapM_res_Forall2 in Htype, Hnum.
  apply (foldl_dict_append_Ok (λ key, Py.subscript (md_props md) key))
    in Htg as [Hin Hout]; [|apply targets_keys_NoDup].
  destruct (sorted_edges _ _ _ _ _ Hrow' Hcol') as [Hperm Hsorted].
  exists type_idx, numbers, row', col'.
  rewrite Hat, Hb, Hn, size_atom_types.
  split.
  { eapply Forall2_impl; [done|]. intros at_ t Ht. cbn in Ht.
    unfold Py.subscript in Ht. by destruct (_ !! _); simplify_eq. }
  split.
  { eapply Forall2_impl; [done|]. intros at_ t Ht. cbn in Ht.
    unfold Py.subscript in Ht. by destruct (_ !! _); simplify_eq. }
  split; [done|]. split; [done|].
  split.
  { intros k Hk. destruct (Hin k Hk) as (l & v & Hl & Hv & Hk').
    exists l, v. split; [done|]. split; [|done].
    cbn beta in Hv. unfold Py.subscript in Hv.
    by destruct (md_props md !! k); simplify_eq. }
  split; [done|]. split; [done|].
  split. { apply length_gather in Hrow', Hcol'. congruence. }
  rewrite <- Hzip. done.
Qed.

Lemma fold_mols_more (ms : list (string * mol_dict (flt X))) (a a' : acc) :
  fold_mols process_mol ms a = Ok a' →
  let mds : list (mol_dict (flt X)) := ms.*2 in
  ∃ (tidxs : list (list Z)) (numbers : list Z) (eis : list (list Z * list Z)),
    Forall2 (λ md tidx,
               Forall2 (λ at_ t, Process.atom_types !! atom_symbol at_ = Some t)
                 (md_atoms md) tidx) mds tidxs
    ∧ Process.atom_one_hot X a'
      = Process.atom_one_hot X a
        ++ fmap (M:=list) (λ t, Process.one_hot X t 5) tidxs
    ∧ Forall2 (λ at_ z, Process.symbols !! atom_symbol at_ = Some z)
        (concat (fmap (M:=list) md_atoms mds)) numbers
    ∧ Process.atomic_numbers_long X a'
      = Process.atomic_numbers_long X a ++ numbers
    ∧ (∀ k l, k ∈ Process.targets_keys → Process.targets X a !! k = Some l →
         ∃ vs, Forall2 (λ md v, md_props md !! k = Some v) mds vs
               ∧ Process.targets X a' !! k = Some (l ++ vs))
    ∧ (∀ k, k ∉ Process.targets_keys →
         Process.targets X a' !! k = Process.targets X a !! k)
    ∧ Process.edge_indices X a'
      = Process.edge_indices X a
        ++ fmap (M:=list)
             (λ rc : list Z * list Z,
                [fmap (M:=list) SInt rc.1; fmap (M:=list) SInt rc.2]) eis
    ∧ Forall2 (λ md (rc : list Z * list Z),
                 length rc.1 = length rc.2
                 ∧ zip rc.1 rc.2 ≡ₚ bond_edges (md_bonds md)
                 ∧ nondecreasing (edge_key (md_n_atoms md) <$> zip rc.1 rc.2))
        mds eis.
Proof.
  revert a. induction ms as [|[smiles md] ms IH]; intros a; cbn zeta.
  - cbn. intros [= <-]. exists [], [], []. cbn. rewrite !app_nil_r.
    repeat split; try done; try constructor.
    intros k l _ Hl. exists []. rewrite app_nil_r. split; [constructor|done].
  - cbn [fold_mols]. intros H.
    apply res_bind_Ok in H as (a1 & H1 & H).
    apply process_mol_more in H1
      as (tidx & nums & r & c & Htidx & Hnums & Hanl & Hoh & Htin & Htout
          & Hei & Hlen & Hperm & Hsorted).
    apply IH in H
      as (tidxs & numbers & eis & Htidxs & -> & Hnumbers & -> & Htin' & Htout'
          & -> & Heis).
    exists (tidx :: tidxs), (nums ++ numbers), ((r, c) :: eis).
    rewrite Hoh, Hanl, Hei. cbn. rewrite <- !app_assoc. cbn.
    split; [by constructor|]. split; [done|].
    split; [by apply Forall2_app|]. split; [done|].
    split.
    { intros k l Hk Hl. destruct (Htin k Hk) as (l0 & v & Hl0 & Hv & Hk1).
      rewrite Hl in Hl0. injection Hl0 as <-.
      destruct (Htin' k _ Hk Hk1) as (vs & Hvs & Hk').
      exists (v :: vs). split; [by constructor|]. by rewrite Hk', <- app_assoc. }
    split. { intros k Hk. by rewrite Htout', Htout. }
    split; [done|]. by constructor.
Qed.

Lemma cat_lists_Ok (merged : gmap string (list (list (list (scalar (flt X))))))
    (keys : list string) (d0 d1 : gmap string (value (flt X))) :
  foldl (λ d key,
           d' ← d;
           l ← Py.subscript merged key;
           m ← Tensor.cat0 l;
           Ok (<[key := VTensor (T2 m)]> d'))
        (Ok d0) keys = Ok d1 →
  (∀ k, k ∈ keys →
     ∃ l m, merged !! k = Some l ∧ Tensor.cat0 l = Ok m
            ∧ d1 !! k = Some (VTensor (T2 m)))
  ∧ (∀ k, k ∉ keys → d1 !! k = d0 !! k).
Proof.
  revert d0. induction keys as [|k0 keys IH]; intros d0 H.
  { cbn in H. injection H as <-. split; [|done]. intros k Hk.
    by apply elem_of_nil in Hk. }
  cbn [foldl] in H. cbn [mbind res_bind] in H.
  destruct (Py.subscript merged k0) as [l0|e] eqn:Hl0; cbn [mbind res_bind] in H.
  2:{ by rewrite (foldl_res_Raise
                     (λ d' key, l ← Py.subscript merged key;
                                m ← Tensor.cat0 l;
                                Ok (<[key := VTensor (T2 m)]> d'))) in H. }
  destruct (Tensor.cat0 l0) as [m0|e] eqn:Hm0; cbn [mbind res_bind] in H.
  2:{ by rewrite (foldl_res_Raise
                     (λ d' key, l ← Py.subscript merged key;
                                m ← Tensor.cat0 l;
                                Ok (<[key := VTensor (T2 m)]> d'))) in H. }
  apply IH in H as [Hin Hout].
  unfold Py.subscript in Hl0. destruct (merged !! k0) as [l0'|] eqn:Hk0; [|done].
  injection Hl0 as ->.
  split.
  - intros k Hk. destruct (decide (k ∈ keys)) as [Hk'|Hk']; [by apply Hin|].
    apply elem_of_cons in Hk as [->|Hk]; [|done].
    exists l0, m0. split; [done|]. split; [done|].
    rewrite Hout by done. apply lookup_insert_eq.
  - intros k Hk. apply not_elem_of_cons in Hk as [Hne Hk].
    rewrite Hout by done. by rewrite lookup_insert_ne.
Qed.

(** The keys that the literal dictionary of [process] adds last. *)
Local Abbreviation literal_keys :=
  ["smiles"; "n_atoms"; "atom_slices"; "edge_slices"; "in-ring-edges";
   "atomic-number"; "atomic_numbers_long"; "edge_indices"; "coordinates";
   "targets"; "avg_degree"].

Lemma build_data_dict_more (a : acc) d :
  Process.build_data_dict X a = Ok d →
  d !! "targets"
  = Some (VDict ((λ v, T2 (Tensor.column v)) <$> Process.targets X a))
  ∧ d !! "atomic_numbers_long"
    = Some (VTensor (T1 (SInt <$> Process.atomic_numbers_long X a)))
  ∧ d !! "atomic-number"
    = Some (VTensor
              (T2 (fmap (M:=list) (to_float X)
                     <$> concat (Process.atom_one_hot X a))))
  ∧ (∀ k, k ∉ literal_keys → k ∉ Process.cat_keys →
       d !! k
       = (λ v, VTensor (T2 (Tensor.column v))) <$> Process.targets X a !! k)
  ∧ (∀ k, k ∉ literal_keys → k ∈ Process.cat_keys →
       Process.targets X a !! k = None →
       ∃ l m, (Process.atom_float X a ∪ Process.e_features X a) !! k = Some l
              ∧ Tensor.cat0 l = Ok m ∧ d !! k = Some (VTensor (T2 m))).
Proof.
  unfold Process.build_data_dict. intros H.
  apply res_bind_Ok in H as (d1 & Hd1 & H).
  apply res_bind_Ok in H as (in_ring & _ & H).
  apply res_bind_Ok in H as (in_ring_edges & _ & H).
  apply res_bind_Ok in H as (atomic_number & Han & H).
  apply res_bind_Ok in H as (ei & Hei & H).
  apply res_bind_Ok in H as (co & Hco & H).
  apply res_bind_Ok in H as (avg & _ & H).
  injection H as <-.
  apply cat_lists_Ok in Hd1 as [Hin Hout].
  apply cat0_Ok in Han as [-> _].
  split; [lookup_insert_chain|].
  split; [lookup_insert_chain|].
  split; [lookup_insert_chain|].
  assert (∀ k, k ∉ literal_keys →
            ∀ d2 : gmap string (value (flt X)),
              (<["smiles" := VStrs (Process.smiles_list X a)]>
               (<["n_atoms" := VTensor (T1 (SInt <$> Process.n_atoms_list X a))]>
               (<["atom_slices" := VTensor (T1 (SInt <$> Process.atom_slices X a))]>
               (<["edge_slices" := VTensor (T1 (SInt <$> Process.edge_slices X a))]>
               (<["in-ring-edges" := VTensor (T2 in_ring_edges)]>
               (<["atomic-number" :=
                    VTensor (T2 (fmap (M:=list) (to_float X)
                                   <$> concat (Process.atom_one_hot X a)))]>
               (<["atomic_numbers_long" :=
                    VTensor (T1 (SInt <$> Process.atomic_numbers_long X a))]>
               (<["edge_indices" := VTensor (T2 ei)]>
               (<["coordinates" :=
                    VTensor (T2 (fmap (M:=list) (to_float X) <$> co))]>
               (<["targets" :=
                    VDict ((λ v, T2 (Tensor.column v)) <$> Process.targets X a)]>
               (<["avg_degree" := VFloat avg]> d2))))))))))) !! k = d2 !! k) as Hlit.
  { intros k Hk d2.
    repeat (apply not_elem_of_cons in Hk as [? Hk]).
    by rewrite !lookup_insert_ne by done. }
  split.
  - intros k Hk Hcat. rewrite Hlit by done.
    rewrite lookup_union, !lookup_fmap, (Hout k Hcat), lookup_empty.
    by destruct (Process.targets X a !! k).
  - intros k Hk Hcat Hnone. rewrite Hlit by done.
    destruct (Hin k Hcat) as (l & m & Hl & Hm & Hk1).
    exists l, m. split; [done|]. split; [done|].
    rewrite lookup_union, !lookup_fmap, Hnone, Hk1. done.
Qed.

End process_more.

(** ** The cache file that [process] writes *)

Lemma init_acc_targets (X : externals) (k : string) :
  Process.targets X (Process.init_acc X) !! k
  = if decide (k ∈ Process.targets_keys) then Some [] else None.
Proof.
  case_decide as Hk.
  - unfold Process.targets_keys in Hk.
    repeat (apply elem_of_cons in Hk as [->|Hk]; [by vm_compute|]).
    by apply elem_of_nil in Hk.
  - apply not_elem_of_list_to_map_1. by rewrite <- list_fmap_compose, list_fmap_id.
Qed.

Lemma targets_keys_fresh (k : string) :
  k ∈ Process.targets_keys →
  (k ∉ ["smiles"; "n_atoms"; "atom_slices"; "edge_slices"; "in-ring-edges";
        "atomic-number"; "atomic_numbers_long"; "edge_indices"; "coordinates";
        "targets"; "avg_degree"])
  ∧ (k ∉ Process.cat_keys).
Proof.
  unfold Process.targets_keys. intros Hk.
  repeat (apply elem_of_cons in Hk as [->|Hk];
          [split; apply (bool_decide_unpack _); by vm_compute|]).
  by apply elem_of_nil in Hk.
Qed.

Lemma md_n_bonds_length {F} (md : mol_dict F) :
  md_n_bonds md = Z.of_nat (length (md_bonds md)).
Proof. unfold md_n_bonds, md_bonds. by destruct (md_conformers md). Qed.

Lemma concat_zip_blocks (eis : list (list Z * list Z)) :
  Forall (λ rc : list Z * list Z, length rc.1 = length rc.2) eis →
  (concat ((λ rc : list Z * list Z, zip rc.1 rc.2) <$> eis)).*1 = concat eis.*1
  ∧ (concat ((λ rc : list Z * list Z, zip rc.1 rc.2) <$> eis)).*2 = concat eis.*2.
Proof.
  induction 1 as [|[r c] eis Hlen _ [IH1 IH2]]; [done|]. cbn in *.
  rewrite !fmap_app, IH1, IH2, fst_zip, snd_zip by lia. done.
Qed.

Section process_cache_more.
Context (X : externals).
Context (atomic_features :
           rd_mol (flt X) → list string → list (string * list (scalar (flt X)))).
Context (edge_features :
           rd_mol (flt X) → list string
           → list (string * list (list (scalar (flt X))))).

Lemma process_cache_more (w w' : world (flt X)) :
  Process.process X atomic_features edge_features w = (Ok (), w') →
  ∃ d,
    let mols : list (mol_dict (flt X)) := (retained (w_fs w)).*2 in
    fs_processed (w_fs w') = Some d
    ∧ d !! "smiles" = Some (VStrs (retained (w_fs w)).*1)
    ∧ targets_cached X mols d
    ∧ atoms_cached X mols d
    ∧ edges_cached X mols d
    ∧ d !! "atomic_number_long" = None
    ∧ d !! "eig_vals" = None.
Proof.
  intros H. pose proof H as Hp.
  apply process_cache in Hp as (d' & Hd' & _ & _ & Hes & _).
  apply process_Ok in H as (a & d & t & Hfold & Hd & Hfs & _).
  rewrite Hfs in Hd'. cbn in Hd'. injection Hd' as <-.
  pose proof Hfold as Hfold'.
  apply fold_mols_Ok in Hfold' as (_ & _ & _ & _ & Hsm & _).
  apply fold_mols_more in Hfold
    as (tidxs & numbers & eis & Htidx & Hoh & Hnum & Hanl & Htin & Htout
        & Hei & Heis).
  pose proof Hd as Hd0.
  apply build_data_dict_Ok in Hd0 as (Hsmiles & _ & _ & _ & (ei & Hcat & Hd_ei) & _).
  apply build_data_dict_more in Hd as (Htg & Hdnum & Hdoh & Hk & _).
  cbn [Process.init_acc Process.atomic_numbers_long Process.atom_one_hot
       Process.edge_indices Process.smiles_list app] in Hoh, Hanl, Hei, Hsm.
  exists d. cbn zeta. set (mols := (retained (w_fs w)).*2) in *.
  split; [by rewrite Hfs|].
  split; [by rewrite Hsmiles, Hsm|].
  split.
  { exists ((λ v, T2 (Tensor.column v)) <$> Process.targets X a).
    split; [done|]. split.
    - intros k. rewrite lookup_fmap, fmap_is_Some. split.
      + intros Hs. destruct (decide (k ∈ Process.targets_keys)) as [|Hn]; [done|].
        rewrite (Htout k Hn), init_acc_targets, decide_False in Hs by done.
        by destruct Hs.
      + intros Hin. destruct (Htin k [] Hin) as (vs & _ & ->); [|done].
        by rewrite init_acc_targets, decide_True.
    - intros k Hin. destruct (Htin k [] Hin) as (vs & Hvs & Hk').
      { by rewrite init_acc_targets, decide_True. }
      exists vs. split; [done|]. destruct (targets_keys_fresh k Hin) as [H1 H2].
      rewrite (Hk k H1 H2), lookup_fmap, Hk'. done. }
  split.
  { exists numbers,
      (fmap (M:=list) (to_float X)
         <$> concat (fmap (M:=list) (λ t, Process.one_hot X t 5) tidxs)).
    rewrite Hdnum, Hdoh, Hanl, Hoh. split; [done|]. split; [done|].
    split; [done|]. unfold all_atoms. clear -Htidx.
    induction Htidx as [|md tidx mds tidxs Hmd _ IH]; [constructor|].
    cbn. rewrite fmap_app. apply Forall2_app; [|done].
    clear IH. induction Hmd as [|at_ t ats ts Ht _ IH]; [constructor|].
    cbn. constructor; [|done]. exists t. split; [done|].
    unfold one_hot_row. by rewrite <- list_fmap_compose. }
  split.
  { assert (ei = [SInt <$> concat eis.*1; SInt <$> concat eis.*2]) as ->.
    { rewrite Hei in Hcat. apply cat1_Ok in Hcat as (m0 & ms' & Heq & _ & ->).
      destruct eis as [|[r0 c0] eis']; [done|]. cbn in Heq.
      injection Heq as <- <-. rewrite foldl_zip_app_two. cbn.
      by rewrite !fmap_app. }
    destruct (concat_zip_blocks eis) as [H1 H2].
    { eapply Forall2_Forall_r; [done|]. apply Forall_forall. by intros md _ rc [? _]. }
    exists ((λ rc : list Z * list Z, zip rc.1 rc.2) <$> eis).
    rewrite H1, H2. split; [done|]. split.
    - rewrite Hes.
      assert (fmap (M:=list) (λ md, 2 * md_n_bonds md) mols
              = (λ b, Z.of_nat (length b))
                  <$> ((λ rc : list Z * list Z, zip rc.1 rc.2) <$> eis)) as ->; [|done].
      clear -Heis.
      induction Heis as [|md rc mds eis (Hl & Hp & _) _ IH]; [done|].
      cbn. rewrite IH. f_equal. rewrite Hp, length_bond_edges, md_n_bonds_length. lia.
    - apply Forall2_fmap_r. eapply Forall2_impl; [done|]. by intros md rc (_ & ? & ?). }
  split.
  - rewrite Hk; [|apply (bool_decide_unpack _); by vm_compute..].
    rewrite Htout by (apply (bool_decide_unpack _); by vm_compute).
    by rewrite init_acc_targets.
  - rewrite Hk; [|apply (bool_decide_unpack _); by vm_compute..].
    rewrite Htout by (apply (bool_decide_unpack _); by vm_compute).
    by rewrite init_acc_targets.
Qed.

End process_cache_more.

(** ** [process]: what is cached, and when nothing is *)



(** X2: after [process] completes, [atomic_numbers_long] holds the
    atomic number of every atom of the retained molecules, in order,
    and [atomic-number] its one-hot row over the five element types
    H, C, N, O, F, as floats. *)
Theorem process_atom_types (X : externals)
    (atomic_features :
       rd_mol (flt X) → list string → list (string * list (scalar (flt X))))
    (edge_features :
       rd_mol (flt X) → list string → list (string * list (list (scalar (flt X)))))
    (w w' : world (flt X)) :
  Process.process X atomic_features edge_features w = (Ok (), w') →
  ∃ d, fs_processed (w_fs w') = Some d
       ∧ atoms_cached X (retained (w_fs w)).*2 d.
Proof.
  intros H. apply process_cache_more in H as (d & Hd & _ & _ & Ha & _). eauto.
Qed.

Lemma process_atom_types_witness :
  ∃ d, fs_processed (w_fs (Demo.process Demo.first_use).2) = Some d
       ∧ atoms_cached Demo.externals (retained (w_fs Demo.first_use)).*2 d.
Proof.
  apply (process_atom_types Demo.externals Demo.atomic_features
           Demo.edge_features Demo.first_use (Demo.process Demo.first_use).2).
  vm_compute. reflexivity.
Defined.

(** X3: after [process] completes, the cached [edge_indices] is made
    of one block of columns per retained molecule, starting at the
    molecule's entry of [edge_slices]; the block holds every bond of the
    molecule in both directions, ordered by [src * n_atoms + dst]. *)
Theorem process_edges (X : externals)
    (atomic_features :
       rd_mol (flt X) → list string → list (string * list (scalar (flt X))))
    (edge_features :
       rd_mol (flt X) → list string → list (string * list (list (scalar (flt X)))))
    (w w' : world (flt X)) :
  Process.process X atomic_features edge_features w = (Ok (), w') →
  ∃ d, fs_processed (w_fs w') = Some d
       ∧ edges_cached X (retained (w_fs w)).*2 d.
Proof.
  intros H. apply process_cache_more in H as (d & Hd & _ & _ & _ & He & _). eauto.
Qed.

Lemma process_edges_witness :
  ∃ d, fs_processed (w_fs (Demo.process Demo.first_use).2) = Some d
       ∧ edges_cached Demo.externals (retained (w_fs Demo.first_use)).*2 d.
Proof.
  apply (process_edges Demo.externals Demo.atomic_features
           Demo.edge_features Demo.first_use (Demo.process Demo.first_use).2).
  vm_compute. reflexivity.
Defined.

Example process_edges_water :
  fs_processed (w_fs (Demo.process Demo.first_use).2) ≫= (.!! "edge_indices")
  = Some (VTensor (T2 [SInt <$> [0; 0; 1; 2; 0; 0; 0; 1; 2; 3];
                       SInt <$> [1; 2; 0; 0; 1; 2; 3; 0; 0; 0]])).
Proof. vm_compute. reflexivity. Qed.

Section process_failures.
Context (X : externals).
Context (atomic_features :
           rd_mol (flt X) → list string → list (string * list (scalar (flt X)))).
Context (edge_features :
           rd_mol (flt X) → list string
           → list (string * list (list (scalar (flt X))))).

Local Abbreviation process := (Process.process X atomic_features edge_features).

(** A [process] that raises has written nothing. *)
Lemma process_Raise_fs (w w' : world (flt X)) e :
  process w = (Raise e, w') → w_fs w' = w_fs w.
Proof.
  destruct w as [f t0]. unfold Process.process.
  io_step. io_step. io_step.
  destruct (fs_summary f) as [summary|]; [|by intros [= _ <-]].
  io_step. io_step.
  destruct (process_loop_fold X atomic_features edge_features
              summary (Process.init_acc X) f ((t0 ++ [EvProcess]) ++ [EvReadSummary]))
    as [t1 ->].
  destruct (fold_mols _ _ _) as [a|e']; [|by intros [= _ <-]].
  io_step. destruct (Process.build_data_dict X a) as [d|e']; [|by intros [= _ <-]].
  io_step. done.
Qed.

Lemma process_no_molecule (w : world (flt X)) :
  retained (w_fs w) = [] →
  (process w).1
  = Raise (match fs_summary (w_fs w) with
           | None => FileNotFoundError
           | Some _ => RuntimeError
           end).
Proof.
  destruct w as [f t0]. unfold Process.process, retained. cbn [w_fs].
  io_step. io_step. io_step.
  destruct (fs_summary f) as [summary|]; [|done]. intros Hr.
  change (retained_items f summary = []) in Hr.
  io_step. io_step.
  destruct (process_loop_fold X atomic_features edge_features
              summary (Process.init_acc X) f ((t0 ++ [EvProcess]) ++ [EvReadSummary]))
    as [t1 ->].
  rewrite Hr. cbn [fold_mols]. io_step.
  assert (Process.build_data_dict X (Process.init_acc X) = Raise RuntimeError) as ->
    by (by vm_compute).
  done.
Qed.

Lemma fold_mols_well_formed (ms : list (string * mol_dict (flt X))) a a' md :
  fold_mols (Process.process_mol X atomic_features edge_features) ms a = Ok a' →
  (∀ k, k ∈ Process.targets_keys → is_Some (Process.targets X a !! k)) →
  md ∈ ms.*2 → ¬ malformed md.
Proof.
  intros Hfold Hkeys Hmd.
  pose proof Hfold as Hfold'.
  apply fold_mols_Ok in Hfold' as (Hn & _ & _ & _ & _ & _ & _ & Hconf).
  apply fold_mols_more in Hfold as (tidxs & _ & _ & Htidx & _ & _ & _ & Htin & _).
  rewrite Forall_forall in Hn, Hconf.
  intros [Hc|[Ha|[(at_ & Hat & Hnone)|(k & Hk & Hnone)]]].
  - by destruct (Hconf md Hmd).
  - apply (Hn md Hmd). unfold md_n_atoms. by rewrite Ha.
  - apply list_elem_of_lookup in Hmd as [i Hi].
    destruct (Forall2_lookup_l _ _ _ _ _ Htidx Hi) as (tidx & _ & Hall).
    apply list_elem_of_lookup in Hat as [j Hj].
    destruct (Forall2_lookup_l _ _ _ _ _ Hall Hj) as (t & _ & Ht). congruence.
  - destruct (Hkeys k Hk) as [l Hl].
    destruct (Htin k l Hk Hl) as (vs & Hvs & _).
    apply list_elem_of_lookup in Hmd as [i Hi].
    destruct (Forall2_lookup_l _ _ _ _ _ Hvs Hi) as (v & _ & Hv). congruence.
Qed.

Lemma process_malformed (w : world (flt X)) md :
  md ∈ (retained (w_fs w)).*2 → malformed md → is_Raise (process w).1.
Proof.
  intros Hmd Hbad. destruct (process w) as [[u|e] w'] eqn:Hp; [|by eexists].
  apply process_Ok in Hp as (a & _ & _ & Hfold & _).
  exfalso. eapply fold_mols_well_formed; [done| |done..].
  intros k Hk. rewrite init_acc_targets, decide_True by done. by eexists.
Qed.

End process_failures.

(** X4: [process] raises when no molecule is retained:
    [FileNotFoundError] without the summary file, and otherwise
    [RuntimeError] from [torch.cat] of an empty list; no cache file is
    written. *)
Theorem process_without_molecules (X : externals)
    (atomic_features :
       rd_mol (flt X) → list string → list (string * list (scalar (flt X))))
    (edge_features :
       rd_mol (flt X) → list string → list (string * list (list (scalar (flt X)))))
    (w : world (flt X)) :
  retained (w_fs w) = [] →
  (Process.process X atomic_features edge_features w).1
  = Raise (match fs_summary (w_fs w) with
           | None => FileNotFoundError
           | Some _ => RuntimeError
           end)
  ∧ w_fs (Process.process X atomic_features edge_features w).2 = w_fs w.
Proof.
  intros Hr. pose proof (process_no_molecule X atomic_features edge_features w Hr) as H.
  split; [done|].
  destruct (Process.process X atomic_features edge_features w) as [r w'] eqn:Hp.
  cbn in *. subst r. by eapply process_Raise_fs.
Qed.

Lemma process_without_molecules_witness :
  (Demo.process Demo.empty_directory).1 = Raise FileNotFoundError
  ∧ w_fs (Demo.process Demo.empty_directory).2 = w_fs Demo.empty_directory.
Proof.
  apply (process_without_molecules Demo.externals Demo.atomic_features
           Demo.edge_features Demo.empty_directory).
  reflexivity.
Defined.

(** X5: [process] raises, and writes no cache file, as soon as one
    retained molecule has no conformer, has no atom, contains an atom
    whose symbol is not one of H, C, N, O, F, or lacks one of the seven
    ensemble properties. *)
Theorem process_rejects_molecule (X : externals)
    (atomic_features :
       rd_mol (flt X) → list string → list (string * list (scalar (flt X))))
    (edge_features :
       rd_mol (flt X) → list string → list (string * list (list (scalar (flt X)))))
    (w : world (flt X)) (md : mol_dict (flt X)) :
  md ∈ (retained (w_fs w)).*2 → malformed md →
  is_Raise (Process.process X atomic_features edge_features w).1
  ∧ w_fs (Process.process X atomic_features edge_features w).2 = w_fs w.
Proof.
  intros Hmd Hbad.
  destruct (process_malformed X atomic_features edge_features w md Hmd Hbad) as [e He].
  split; [by exists e|].
  destruct (Process.process X atomic_features edge_features w) as [r w'] eqn:Hp.
  cbn in *. subst r. by eapply process_Raise_fs.
Qed.

Lemma process_rejects_molecule_witness :
  is_Raise (Demo.process Cases.chlorine_files).1
  ∧ w_fs (Demo.process Cases.chlorine_files).2 = w_fs Cases.chlorine_files.
Proof.
  apply (process_rejects_molecule Demo.externals Demo.atomic_features
           Demo.edge_features Cases.chlorine_files Cases.hydrogen_chloride_dict).
  - change (Cases.hydrogen_chloride_dict
            ∈ [Demo.water_dict; Cases.hydrogen_chloride_dict]).
    apply elem_of_cons. right. apply elem_of_cons. by left.
  - right. right. left.
    exists {| atom_symbol := "Cl"; atom_pos := (1, 0, 0) |}.
    split; [|by vm_compute]. apply elem_of_cons. right. apply elem_of_cons. by left.
Defined.

Example process_chlorine :
  (Demo.process Cases.chlorine_files).1 = Raise (KeyError "Cl").
Proof. vm_compute. reflexivity. Qed.

(** ** The attributes of a constructed object *)

Lemma when_Ok {A} (c : bool) (x : GEOMqm9.st A) m o m' :
  GEOMqm9.when c x m = (Ok o, m') →
  if c then ∃ a, x m = (Ok a, m') ∧ o = Some a else o = None ∧ m' = m.
Proof.
  unfold GEOMqm9.when. destruct c.
  - rewrite st_bind_unfold. destruct (x m) as [[a|e] m1]; [|done].
    intros [= <- <-]. eauto.
  - by intros [= <- <-].
Qed.

Lemma subscript_Ok {A} (d : gmap string A) key x :
  Py.subscript d key = Ok x ↔ d !! key = Some x.
Proof. unfold Py.subscript. destruct (d !! key); split; intros; simplify_eq; done. Qed.

Lemma subscript_None {A} (d : gmap string A) key :
  d !! key = None → Py.subscript d key = Raise (KeyError key).
Proof. unfold Py.subscript. by intros ->. Qed.

Section init_fields.
Context (X : externals).

Local Abbreviation obj := (GEOMqm9.obj X).
Local Abbreviation args := (GEOMqm9.args X).

(** Every attribute of a constructed object, from the arguments and
    the loaded dictionary. *)
Lemma init_from_fields (a : args) rts loaded m (self : obj) m' :
  GEOMqm9.init_from X a rts loaded m = (Ok self, m') →
  ∃ d1 data_dict m1,
    GEOMqm9.add_constant_ones X a loaded = Ok d1
    ∧ GEOMqm9.add_standard_normal_noise X a d1 = Ok data_dict
    ∧ GEOMqm9.return_types X self = rts
    ∧ GEOMqm9.normalize X self = GEOMqm9.a_normalize X a
    ∧ GEOMqm9.device X self = GEOMqm9.a_device X a
    ∧ GEOMqm9.transform X self = GEOMqm9.a_transform X a
    ∧ GEOMqm9.prefetch_graphs X self = GEOMqm9.a_prefetch_graphs X a
    ∧ (if Py.contains "conformations" rts
       then ∃ t, data_dict !! "coordinates" = Some (VTensor t)
                 ∧ GEOMqm9.conformations X self = Some t
       else GEOMqm9.conformations X self = None)
    ∧ data_dict !! "edge_indices" = Some (GEOMqm9.edge_indices X self)
    ∧ GEOMqm9.make_meta_dict X data_dict = Ok (GEOMqm9.meta_dict X self)
    ∧ (if Py.contains "san_graph" rts
       then ∃ vals vecs,
              data_dict !! "eig_vals" = Some vals
              ∧ data_dict !! "eig_vecs" = Some vecs
              ∧ GEOMqm9.eig_vals X self = Some vals
              ∧ GEOMqm9.eig_vecs X self = Some vecs
       else GEOMqm9.eig_vals X self = None ∧ GEOMqm9.eig_vecs X self = None)
    ∧ (if GEOMqm9.a_prefetch_graphs X a
          && existsb (λ rt, Py.contains rt rts)
               ["mol_graph"; "mol_graph3d";
                "se3Transformer_graph"; "se3Transformer_graph3d"]
       then ∃ gs, GEOMqm9.prefetch_mol_graphs X
                    (GEOMqm9.edge_indices X self) (GEOMqm9.meta_dict X self)
                  = Ok gs
                  ∧ GEOMqm9.mol_graphs X self = Some gs
       else GEOMqm9.mol_graphs X self = None)
    ∧ (if GEOMqm9.a_prefetch_graphs X a
          && (Py.contains "complete_graph" rts
              || Py.contains "complete_graph3d" rts
              || Py.contains "san_graph" rts)
       then ∃ gs, GEOMqm9.prefetch_complete_graphs X (GEOMqm9.meta_dict X self) m
                  = (Ok gs, m1)
                  ∧ GEOMqm9.complete_graphs X self = Some gs
       else GEOMqm9.complete_graphs X self = None ∧ m1 = m)
    ∧ (if GEOMqm9.a_prefetch_graphs X a
          && (Py.contains "mol_complete_graph" rts
              || Py.contains "mol_complete_graph3d" rts)
       then ∃ hs, GEOMqm9.prefetch_mol_complete_graphs X
                    (GEOMqm9.meta_dict X self) m1
                  = (Ok hs, m')
                  ∧ GEOMqm9.mol_complete_graphs X self = Some hs
       else GEOMqm9.mol_complete_graphs X self = None ∧ m' = m1)
    ∧ data_dict !! "avg_degree" = Some (GEOMqm9.avg_degree X self)
    ∧ (if Py.contains "targets" rts
       then ∃ tg, GEOMqm9.make_targets X a data_dict = Ok tg
                  ∧ GEOMqm9.targets X self = Some tg.1.1
                  ∧ GEOMqm9.targets_mean X self = Some tg.1.2
                  ∧ GEOMqm9.targets_std X self = Some tg.2
       else GEOMqm9.targets X self = None
            ∧ GEOMqm9.targets_mean X self = None
            ∧ GEOMqm9.targets_std X self = None).
Proof.
  unfold GEOMqm9.init_from. intros H.
  st_inv H.
  injection H as <- <-.
  cbn [GEOMqm9.return_types GEOMqm9.normalize GEOMqm9.device GEOMqm9.transform
       GEOMqm9.prefetch_graphs GEOMqm9.conformations GEOMqm9.edge_indices
       GEOMqm9.meta_dict GEOMqm9.eig_vals GEOMqm9.eig_vecs GEOMqm9.mol_graphs
       GEOMqm9.complete_graphs GEOMqm9.mol_complete_graphs GEOMqm9.avg_degree
       GEOMqm9.targets GEOMqm9.targets_mean GEOMqm9.targets_std].
  apply subscript_Ok in E7, E13.
  apply when_Ok in E9, E11, E12.
  exists x, x0, m1.
  repeat (split; [done|]).
  split.
  { destruct (Py.contains "conformations" rts); [|by injection E6 as <-].
    apply res_bind_Ok in E6 as (v & Hv%subscript_Ok & E6).
    apply res_bind_Ok in E6 as (t & Ht & E6).
    destruct v; try discriminate. injection Ht as ->. injection E6 as <-. eauto. }
  repeat (split; [done|]).
  split.
  { destruct (Py.contains "san_graph" rts).
    - destruct E9 as ([vals vecs] & E9 & ->).
      rewrite pure_bind in E9.
      destruct (Py.subscript x0 "eig_vals") as [v1|] eqn:H1; [|done].
      rewrite pure_bind in E9.
      destruct (Py.subscript x0 "eig_vecs") as [v2|] eqn:H2; [|done].
      injection E9 as <- <- <-. apply subscript_Ok in H1, H2.
      exists v1, v2. done.
    - by destruct E9 as [-> _]. }
  split.
  { match goal with |- if ?c then _ else _ => destruct c end; [|by subst].
    destruct E10 as (gs & ? & ->). eauto. }
  assert (m0 = m) as ->.
  { destruct (Py.contains "san_graph" rts); [|by destruct E9].
    destruct E9 as (? & E9 & _).
    rewrite pure_bind in E9.
    destruct (Py.subscript x0 "eig_vals"); [|done].
    rewrite pure_bind in E9.
    destruct (Py.subscript x0 "eig_vecs"); [|done].
    by injection E9. }
  split.
  { match goal with |- if ?c then _ else _ => destruct c end.
    - destruct E11 as (gs & ? & ->). eauto.
    - by destruct E11 as [-> ->]. }
  split.
  { match goal with |- if ?c then _ else _ => destruct c end.
    - destruct E12 as (gs & ? & ->). eauto.
    - by destruct E12 as [-> ->]. }
  split; [done|].
  destruct (Py.contains "targets" rts); [|by subst].
  destruct E14 as (tg & ? & ->). eauto.
Qed.

End init_fields.

(** ** Objects constructed on a cache that [process] wrote *)

Lemma serves_intro (X : externals) (self : GEOMqm9.obj X) idx m rt es ee s n v :
  memo_inv m →
  offsets X self idx = Ok (es, ee, s, n) →
  view_of X self idx rt es ee s n = Ok v →
  serves X self idx m rt v.
Proof.
  intros Hm Hoff Hv. destruct (getitem_result X self idx m Hm) as [Hres _].
  rewrite Hoff in Hres. cbn [mbind res_bind] in Hres. split.
  - intros k tuple Hk Ht. rewrite Hres in Ht.
    apply mapM_res_Ok_inv in Ht as [_ Ht].
    destruct (Ht k rt Hk) as (y & Hy & Hy'). congruence.
  - intros Hrts. rewrite Hres, Hrts. cbn. by rewrite Hv.
Qed.

Section constructed_facts.
Context (X : externals).
Context (atomic_features :
           rd_mol (flt X) → list string → list (string * list (scalar (flt X)))).
Context (edge_features :
           rd_mol (flt X) → list string
           → list (string * list (list (scalar (flt X))))).

Local Abbreviation constructed_on := (constructed_on X atomic_features edge_features).
Local Abbreviation process := (Process.process X atomic_features edge_features).

Lemma constructed_on_inv w0 a self :
  constructed_on w0 a self →
  ∃ w1 d memo,
    process w0 = (Ok (), w1)
    ∧ fs_processed (w_fs w1) = Some d
    ∧ GEOMqm9.init_from X a (GEOMqm9.effective_return_types X a) d ∅
      = (Ok self, memo).
Proof.
  intros (w1 & w2 & w3 & memo & Hp & Hw2 & Hinit).
  pose proof Hp as Hp'. apply process_Ok in Hp' as (_ & d & _ & _ & _ & Hfs & _).
  assert (fs_processed (w_fs w1) = Some d) as Hd by (by rewrite Hfs).
  apply init_Ok in Hinit as (loaded & Hl3 & Hinit & Hl).
  exists w1, d, memo. split; [done|]. split; [done|].
  destruct Hw2 as [[-> Hnone]|Heq].
  - rewrite Hnone in Hl. destruct Hl as (w1' & Hp1 & Hfs1).
    rewrite Hp in Hp1. injection Hp1 as <-.
    rewrite Hfs1, Hd in Hl3. by injection Hl3 as <-.
  - rewrite Heq, Hd in Hl. by subst.
Qed.

(** The dictionary the constructor works on agrees with the loaded
    one outside the two keys it adds. *)
Lemma data_dict_loaded (a : GEOMqm9.args X) (d d1 dd : gmap string (value (flt X))) k :
  GEOMqm9.add_constant_ones X a d = Ok d1 →
  GEOMqm9.add_standard_normal_noise X a d1 = Ok dd →
  k ≠ "constant_ones" → k ≠ "standard_normal_noise" →
  dd !! k = d !! k.
Proof.
  intros Hd1 Hdd Hk1 Hk2.
  rewrite (add_standard_normal_noise_Ok X a d1 dd Hdd k Hk2).
  by apply (add_constant_ones_Ok X a d d1 Hd1 k).
Qed.

Lemma constructed_on_meta w0 a self :
  constructed_on w0 a self →
  let mols : list (mol_dict (flt X)) := (retained (w_fs w0)).*2 in
  let cast := λ s, to_float X (to_float X s) in
  atom_layout X self (fmap (M:=list) md_n_atoms mols)
  ∧ GEOMqm9.meta_dict X self !! "smiles" = Some (VStrs (retained (w_fs w0)).*1)
  ∧ (∃ vs, Forall2 (λ md v, md_props md !! "uniqueconfs" = Some v) mols vs
           ∧ GEOMqm9.meta_dict X self !! "uniqueconfs"
             = Some (VTensor (T2 (Tensor.column vs))))
  ∧ GEOMqm9.coordinates X self
    = T2 (concat (fmap (M:=list) (first_conformer_positions cast) mols))
  ∧ (if Py.contains "conformations" (GEOMqm9.return_types X self)
     then GEOMqm9.conformations X self
          = Some (T2 (concat (fmap (M:=list) (coordinate_block cast) mols)))
     else GEOMqm9.conformations X self = None).
Proof.
  intros (w1 & d & memo & Hp & Hd & Hinit)%constructed_on_inv.
  pose proof Hp as Hp'.
  apply process_cache in Hp' as (d' & Hd' & Hn & Ha & He & Hco & Hall).
  rewrite Hd in Hd'. injection Hd' as <-.
  apply process_cache_more in Hp as (d' & Hd' & Hsm & Htg & _).
  rewrite Hd in Hd'. injection Hd' as <-.
  cbn zeta in *. set (mols := (retained (w_fs w0)).*2) in *.
  set (cast := λ s, to_float X (to_float X s)) in *.
  pose proof Hinit as Hinit'.
  apply init_from_Ok in Hinit'
    as (d1 & dd & t & Hd1 & Hdd & _ & _ & _ & _ & _ & Ht & Hslice & Hmeta & _).
  apply init_from_fields in Hinit
    as (d1' & dd' & m1 & Hd1' & Hdd' & Hrts & _ & _ & _ & _ & Hconf & _).
  rewrite Hd1 in Hd1'. injection Hd1' as <-.
  rewrite Hdd in Hdd'. injection Hdd' as <-.
  pose proof (data_dict_loaded a d d1 dd) as Hdd'.
  apply make_meta_dict_Ok in Hmeta as (Hm_s & Hm_e & Hm_a & Hm_n & Hm_u & _).
  rewrite (Hdd' _ Hd1 Hdd) in Ht by done.
  rewrite (Hdd' _ Hd1 Hdd) in Hm_s by done.
  rewrite (Hdd' _ Hd1 Hdd) in Hm_e by done.
  rewrite (Hdd' _ Hd1 Hdd) in Hm_a by done.
  rewrite (Hdd' _ Hd1 Hdd) in Hm_n by done.
  rewrite (Hdd' _ Hd1 Hdd) in Hm_u by done.
  split.
  { split; [by rewrite Hm_n|]. split; [by rewrite Hm_a|]. split.
    + eexists. split; [by rewrite Hm_e|].
      cbn. by rewrite length_sums_from, !length_fmap.
    + apply Forall_fmap, Forall_forall. intros md _. unfold md_n_atoms. cbn. lia. }
  split; [by rewrite Hm_s|].
  split.
  { destruct Htg as (td & _ & _ & Hk).
    destruct (Hk "uniqueconfs") as (vs & Hvs & Hdk & _).
    { apply (bool_decide_unpack _). by vm_compute. }
    exists vs. split; [done|]. by rewrite Hm_u. }
  assert (fmap (M:=list) (take 3)
            (concat (fmap (M:=list) (coordinate_block cast) mols))
          = concat (fmap (M:=list) (first_conformer_positions cast) mols)) as Hfirst.
  { rewrite fmap_concat_list, <- list_fmap_compose. f_equal.
    apply Forall_fmap_ext. eapply Forall_impl; [exact Hall|].
    intros md [Hne _]. cbn. by apply coordinate_block_first. }
  split.
  { rewrite Hco in Ht. injection Ht as <-. cbn in Hslice. injection Hslice as <-.
    rewrite <- Hfirst. f_equal.
    apply list_fmap_ext. intros _ r _. by rewrite slice_upto by lia. }
  rewrite Hrts. destruct (Py.contains "conformations" _); [|done].
  destruct Hconf as (t' & Ht' & ->).
  rewrite (Hdd' _ Hd1 Hdd) in Ht' by done. rewrite Hco in Ht'. by injection Ht' as <-.
Qed.

End constructed_facts.

(** ** What [__getitem__] serves for a retained molecule *)

Section views.
Context (X : externals) (self : GEOMqm9.obj X).

Local Abbreviation int_tensor z := (GEOMqm9.PTensor X (T0 (SInt z))).

Lemma view_of_smiles idx es ee s n :
  view_of X self idx "smiles" es ee s n
  = (v ← Py.subscript (GEOMqm9.meta_dict X self) "smiles";
     GEOMqm9.Item X <$> GEOMqm9.value_index X v idx).
Proof. reflexivity. Qed.


Lemma view_of_conformations idx es ee s n :
  view_of X self idx "conformations" es ee s n
  = (t ← GEOMqm9.atom_rows X (GEOMqm9.conformations X self) s n;
     t ← GEOMqm9.to_device X (GEOMqm9.device X self) t;
     Ok (GEOMqm9.Item X (GEOMqm9.PTensor X t))).
Proof. reflexivity. Qed.


(** The rows of one block of a flat tensor made of blocks. *)
Lemma atom_rows_block (blocks : list (list (list (scalar (flt X)))))
    (ns : list Z) (i : nat) block start :
  ns = (λ b, Z.of_nat (length b)) <$> blocks →
  blocks !! i = Some block →
  (0 :: sums_from 0 ns) !! i = Some start →
  GEOMqm9.atom_rows X (Some (T2 (concat blocks)))
    (int_tensor start) (int_tensor (Z.of_nat (length block)))
  = Ok (T2 block).
Proof.
  intros -> Hb Hs. unfold GEOMqm9.atom_rows. cbn.
  by rewrite (slice_concat_block blocks i block start).
Qed.

End views.

Section served.
Context (X : externals).
Context (atomic_features :
           rd_mol (flt X) → list string → list (string * list (scalar (flt X)))).
Context (edge_features :
           rd_mol (flt X) → list string
           → list (string * list (list (scalar (flt X))))).

Local Abbreviation constructed_on := (constructed_on X atomic_features edge_features).

(** The offsets that [__getitem__] reads for the [i]-th retained
    molecule. *)
Lemma constructed_on_offsets w0 a self (i : nat) smiles md :
  constructed_on w0 a self →
  retained (w_fs w0) !! i = Some (smiles, md) →
  ∃ es ee start,
    offsets X self (Z.of_nat i)
    = Ok (GEOMqm9.PTensor X (T0 (SInt es)), GEOMqm9.PTensor X (T0 (SInt ee)),
          GEOMqm9.PTensor X (T0 (SInt start)),
          GEOMqm9.PTensor X (T0 (SInt (md_n_atoms md))))
    ∧ (0 :: sums_from 0 (fmap (M:=list) md_n_atoms (retained (w_fs w0)).*2)) !! i
      = Some start.
Proof.
  intros Hc Hi. destruct (constructed_on_meta _ _ _ _ _ _ Hc) as (Hlay & _).
  assert ((retained (w_fs w0)).*2 !! i = Some md) as Hmd
    by (by rewrite list_lookup_fmap, Hi).
  destruct (offsets_layout X self _ (Z.of_nat i) Hlay)
    as (es & ee & start & n & Hoff & Hs & Hn).
  { rewrite length_fmap. apply lookup_lt_Some in Hmd. lia. }
  rewrite Nat2Z.id in Hs, Hn. rewrite list_lookup_fmap, Hmd in Hn.
  injection Hn as <-. eauto.
Qed.

End served.

(** X6: [len(dataset)] is the number of retained molecules: those of
    the summary whose pickle file exists and holds the key
    [ensembleenergy]. *)
Theorem len_retained (X : externals)
    (atomic_features :
       rd_mol (flt X) → list string → list (string * list (scalar (flt X))))
    (edge_features :
       rd_mol (flt X) → list string → list (string * list (list (scalar (flt X)))))
    (w0 : world (flt X)) (a : GEOMqm9.args X) (self : GEOMqm9.obj X) :
  constructed_on X atomic_features edge_features w0 a self →
  GEOMqm9.__len__ X self = Ok (Z.of_nat (length (retained (w_fs w0)))).
Proof.
  intros Hc. destruct (constructed_on_meta _ _ _ _ _ _ Hc) as (_ & Hsm & _).
  unfold GEOMqm9.__len__, Py.subscript. rewrite Hsm. cbn. by rewrite length_fmap.
Qed.


(** X8: for the [i]-th retained molecule, [__getitem__(i)] serves the
    positions of its atoms in the first conformer, one row of three
    coordinates per atom, for ['coordinates']; with ['conformations']
    among the return types and a usable device, it serves the
    molecule's block of ten conformers, 30 columns per atom, for
    ['conformations']. *)
Theorem getitem_geometry (X : externals)
    (atomic_features :
       rd_mol (flt X) → list string → list (string * list (scalar (flt X))))
    (edge_features :
       rd_mol (flt X) → list string → list (string * list (list (scalar (flt X)))))
    (w0 : world (flt X)) (a : GEOMqm9.args X) (self : GEOMqm9.obj X)
    (i : nat) (smiles : string) (md : mol_dict (flt X)) (m : gmap pyint pairs) :
  constructed_on X atomic_features edge_features w0 a self →
  retained (w_fs w0) !! i = Some (smiles, md) →
  memo_inv m →
  let cast := λ s, to_float X (to_float X s) in
  serves X self (Z.of_nat i) m "coordinates"
    (GEOMqm9.Item X (GEOMqm9.PTensor X (T2 (first_conformer_positions cast md))))
  ∧ ("conformations" ∈ GEOMqm9.return_types X self →
     device_available X (GEOMqm9.device X self) = true →
     serves X self (Z.of_nat i) m "conformations"
       (GEOMqm9.Item X (GEOMqm9.PTensor X (T2 (coordinate_block cast md))))).
Proof.
  intros Hc Hi Hm cast.
  destruct (constructed_on_offsets _ _ _ _ _ _ _ _ _ Hc Hi) as (es & ee & start & Hoff & Hs).
  destruct (constructed_on_meta _ _ _ _ _ _ Hc) as (_ & _ & _ & Hco & Hconf).
  fold cast in Hco, Hconf.
  assert ((retained (w_fs w0)).*2 !! i = Some md) as Hmd
    by (by rewrite list_lookup_fmap, Hi).
  split.
  - eapply serves_intro; [done..|].
    rewrite (view_of_flat X self "coordinates" (GEOMqm9.coordinates X self)) by done.
    rewrite Hco.
    assert (md_n_atoms md = Z.of_nat (length (first_conformer_positions cast md))) as ->.
    { unfold first_conformer_positions, md_n_atoms. by rewrite length_fmap. }
    rewrite (atom_rows_block X
               (fmap (M:=list) (first_conformer_positions cast) ((retained (w_fs w0)).*2))
               (fmap (M:=list) md_n_atoms ((retained (w_fs w0)).*2)) i
               (first_conformer_positions cast md) start); [done| | |done].
    + rewrite <- (list_fmap_compose (first_conformer_positions cast)).
      apply list_fmap_ext. intros _ md' _. cbn.
      unfold first_conformer_positions, md_n_atoms. by rewrite length_fmap.
    + by rewrite list_lookup_fmap, Hmd.
  - intros Hin Hdev. rewrite (bool_decide_eq_true_2 _ Hin : Py.contains _ _ = true) in Hconf.
    eapply serves_intro; [done..|].
    rewrite view_of_conformations, Hconf.
    assert (md_n_atoms md = Z.of_nat (length (coordinate_block cast md))) as ->.
    { unfold md_n_atoms. by rewrite coordinate_block_length. }
    rewrite (atom_rows_block X
               (fmap (M:=list) (coordinate_block cast) ((retained (w_fs w0)).*2))
               (fmap (M:=list) md_n_atoms ((retained (w_fs w0)).*2)) i
               (coordinate_block cast md) start); [| | |done].
    + cbn. unfold GEOMqm9.to_device. by rewrite Hdev.
    + rewrite <- (list_fmap_compose (coordinate_block cast)).
      apply list_fmap_ext. intros _ md' _. cbn.
      unfold md_n_atoms. by rewrite coordinate_block_length.
    + by rewrite list_lookup_fmap, Hmd.
Qed.

(** The objects of the examples are constructed on the cache that
    [process] writes from the raw files of [Demo]. *)
Lemma demo_process_Ok : (Demo.process Demo.first_use).1 = Ok ().
Proof. by vm_compute. Qed.

Lemma demo_loads_cache :
  loads_cache_of Demo.externals Demo.atomic_features Demo.edge_features
    Demo.first_use Demo.first_use.
Proof.
  exists (Demo.process Demo.first_use).2. split; [|by left].
  pose proof demo_process_Ok as H. unfold Demo.process in *.
  by destruct (Process.process _ _ _ _) as [r w]; cbn in *; subst.
Qed.

Lemma demo_constructed_on (a : GEOMqm9.args Demo.externals) :
  (if (Demo.__init__ a Demo.first_use).1 is Ok _ then true else false) = true →
  constructed_on Demo.externals Demo.atomic_features Demo.edge_features
    Demo.first_use a (Demo.dataset a Demo.first_use).1.
Proof.
  intros Hok.
  exists (Demo.process Demo.first_use).2, Demo.first_use,
    (Demo.__init__ a Demo.first_use).2, (Demo.dataset a Demo.first_use).2.
  split.
  { pose proof demo_process_Ok as H. unfold Demo.process in *.
    by destruct (Process.process _ _ _ _) as [r w]; cbn in *; subst. }
  split; [by left|].
  unfold Demo.dataset, Demo.__init__ in *.
  destruct (GEOMqm9.__init__ _ _ _ _ _) as [[[self memo]|e] w]; [done|discriminate].
Qed.

Lemma len_retained_witness :
  GEOMqm9.__len__ Demo.externals (Demo.dataset Cases.item_args Demo.first_use).1
  = Ok (Z.of_nat (length (retained (w_fs Demo.first_use)))).
Proof.
  apply (len_retained Demo.externals Demo.atomic_features Demo.edge_features
           Demo.first_use Cases.item_args).
  apply demo_constructed_on. by vm_compute.
Defined.


Lemma getitem_geometry_witness :
  let cast := λ s, to_float Demo.externals (to_float Demo.externals s) in
  let self := (Demo.dataset Cases.item_args Demo.first_use).1 in
  serves Demo.externals self 1 ∅ "coordinates"
    (GEOMqm9.Item Demo.externals
       (GEOMqm9.PTensor Demo.externals
          (T2 (first_conformer_positions cast Demo.ammonia_dict))))
  ∧ ("conformations" ∈ GEOMqm9.return_types Demo.externals self →
     device_available Demo.externals (GEOMqm9.device Demo.externals self) = true →
     serves Demo.externals self 1 ∅ "conformations"
       (GEOMqm9.Item Demo.externals
          (GEOMqm9.PTensor Demo.externals
             (T2 (coordinate_block cast Demo.ammonia_dict))))).
Proof.
  apply (getitem_geometry Demo.externals Demo.atomic_features Demo.edge_features
           Demo.first_use Cases.item_args
           (Demo.dataset Cases.item_args Demo.first_use).1 1%nat "N"
           Demo.ammonia_dict ∅).
  - apply demo_constructed_on. by vm_compute.
  - by vm_compute.
  - apply memo_inv_empty.
Defined.

(** ** The constructor: validation and attributes *)

Lemma contains_true (x : string) (l : list string) :
  Py.contains x l = true ↔ x ∈ l.
Proof. unfold Py.contains. apply bool_decide_eq_true. Qed.

Lemma validate_first_invalid (pre post : list string) (rt : string) :
  Forall (λ r, r ∈ GEOMqm9.return_type_options) pre →
  rt ∉ GEOMqm9.return_type_options →
  GEOMqm9.validate (pre ++ rt :: post)
  = Raise (Exception "return_type not supported: " rt).
Proof.
  intros Hpre Hrt. unfold GEOMqm9.validate.
  rewrite list_find_app_r.
  2:{ apply list_find_None. eapply Forall_impl; [done|]. by intros r Hr Hn. }
  cbn [list_find]. rewrite decide_True by done. done.
Qed.

Lemma validate_Ok (rts : list string) :
  GEOMqm9.validate rts = Ok () →
  Forall (λ rt, rt ∈ GEOMqm9.return_type_options) rts.
Proof.
  unfold GEOMqm9.validate.
  destruct (list_find _ rts) as [[i rt]|] eqn:Hf; [done|]. intros _.
  apply list_find_None in Hf. eapply Forall_impl; [done|].
  intros rt Hrt. cbn in Hrt. by destruct (decide (rt ∈ GEOMqm9.return_type_options)).
Qed.

(** X9: when some requested return type is not one of
    [return_type_options], the constructor raises
    [Exception('return_type not supported: ...')] for the first such
    return type, before it looks at any file: nothing is processed,
    loaded or written. *)
Theorem init_rejects_return_type (X : externals)
    (atomic_features :
       rd_mol (flt X) → list string → list (string * list (scalar (flt X))))
    (edge_features :
       rd_mol (flt X) → list string → list (string * list (list (scalar (flt X)))))
    (a : GEOMqm9.args X) (w : world (flt X)) (pre post : list string) (rt : string) :
  GEOMqm9.effective_return_types X a = pre ++ rt :: post →
  Forall (λ r, r ∈ GEOMqm9.return_type_options) pre →
  rt ∉ GEOMqm9.return_type_options →
  GEOMqm9.__init__ X atomic_features edge_features a w
  = (Raise (Exception "return_type not supported: " rt), w).
Proof.
  intros Hrts Hpre Hrt. apply init_invalid. rewrite Hrts.
  by apply validate_first_invalid.
Qed.

Lemma init_rejects_return_type_witness :
  Demo.__init__ (Demo.args ["smiles"; "bond_angles"; "mol_id"; "angles"] [] [] false)
    Demo.first_use
  = (Raise (Exception "return_type not supported: " "bond_angles"), Demo.first_use).
Proof.
  apply (init_rejects_return_type Demo.externals Demo.atomic_features
           Demo.edge_features _ Demo.first_use ["smiles"] ["mol_id"; "angles"]
           "bond_angles").
  - reflexivity.
  - apply Forall_cons. split; [|by apply Forall_nil].
    apply (bool_decide_unpack _). by vm_compute.
  - apply (bool_decide_unpack _). by vm_compute.
Defined.

(** X10: a constructed object has the validated return types of its
    arguments, none of which is ['mol_complete_graph3d'], and exactly
    the optional attributes that these return types call for:
    [mol_graphs], [complete_graphs] and [mol_complete_graphs] when
    prefetching and a return type that uses them is configured,
    [conformations], [eig_vals], [eig_vecs] and [targets] with their
    return types. *)
Theorem init_attributes (X : externals)
    (atomic_features :
       rd_mol (flt X) → list string → list (string * list (scalar (flt X))))
    (edge_features :
       rd_mol (flt X) → list string → list (string * list (list (scalar (flt X)))))
    (a : GEOMqm9.args X) (w w' : world (flt X)) (self : GEOMqm9.obj X)
    (memo : gmap pyint pairs) :
  GEOMqm9.__init__ X atomic_features edge_features a w = (Ok (self, memo), w') →
  attributes_set X a self.
Proof.
  intros Hinit.
  assert (GEOMqm9.validate (GEOMqm9.effective_return_types X a) = Ok ()) as Hv.
  { destruct (validate_cases (GEOMqm9.effective_return_types X a)) as [|[e He]]; [done|].
    by rewrite (init_invalid X atomic_features edge_features a w e He) in Hinit. }
  apply validate_Ok in Hv.
  apply init_Ok in Hinit as (loaded & _ & Hinit & _).
  apply init_from_fields in Hinit
    as (d1 & dd & m1 & _ & _ & Hrts & Hnorm & Hdev & _ & Hpre & Hconf & _ & _
        & Heig & Hmg & Hcg & Hmcg & _ & Htg).
  unfold attributes_set. cbn zeta.
  set (rts := GEOMqm9.effective_return_types X a) in *.
  assert ("mol_complete_graph3d" ∉ rts) as Hno.
  { intros Hin. rewrite Forall_forall in Hv. specialize (Hv _ Hin).
    revert Hv. apply (bool_decide_unpack _). by vm_compute. }
  split; [done|]. split; [done|]. split; [done|].
  split; [done|]. split; [done|]. split; [done|].
  split.
  { destruct (GEOMqm9.a_prefetch_graphs X a); cbn [andb] in Hmg.
    2:{ rewrite Hmg. split; [by intros [? ?]|by intros [? _]]. }
    destruct (existsb _ _) eqn:Hex.
    - destruct Hmg as (gs & _ & ->). split; [intros _|by eauto].
      split; [done|]. apply existsb_exists in Hex as (rt & Hrt & Hc).
      exists rt. split; [by apply list_elem_of_In|by apply contains_true].
    - rewrite Hmg. split; [by intros [? ?]|]. intros (_ & rt & Hrt & Hin).
      assert (existsb (λ rt, Py.contains rt rts)
                ["mol_graph"; "mol_graph3d"; "se3Transformer_graph";
                 "se3Transformer_graph3d"] = true) as Hex'.
      { apply existsb_exists. exists rt. split; [by apply list_elem_of_In|].
        by apply contains_true. }
      congruence. }
  split.
  { destruct (GEOMqm9.a_prefetch_graphs X a); cbn [andb] in Hcg.
    2:{ destruct Hcg as [-> _]. split; [by intros [? ?]|by intros [? _]]. }
    destruct (Py.contains "complete_graph" rts
              || Py.contains "complete_graph3d" rts
              || Py.contains "san_graph" rts) eqn:Hor.
    - destruct Hcg as (gs & _ & ->). split; [intros _|by eauto].
      split; [done|]. apply orb_true_iff in Hor as [Hor|H3].
      + apply orb_true_iff in Hor as [H1|H2].
        * exists "complete_graph". split; [set_solver|by apply contains_true].
        * exists "complete_graph3d". split; [set_solver|by apply contains_true].
      + exists "san_graph". split; [set_solver|by apply contains_true].
    - destruct Hcg as [-> _]. split; [by intros [? ?]|]. intros (_ & rt & Hrt & Hin).
      apply orb_false_iff in Hor as [Hor H3]. apply orb_false_iff in Hor as [H1 H2].
      apply contains_true in Hin.
      repeat (apply elem_of_cons in Hrt as [->|Hrt]; [congruence|]).
      by apply elem_of_nil in Hrt. }
  split.
  { destruct (GEOMqm9.a_prefetch_graphs X a); cbn [andb] in Hmcg.
    2:{ destruct Hmcg as [-> _]. split; [by intros [? ?]|by intros [? _]]. }
    destruct (Py.contains "mol_complete_graph" rts
              || Py.contains "mol_complete_graph3d" rts) eqn:Hor.
    - destruct Hmcg as (gs & _ & ->). split; [intros _|by eauto].
      split; [done|]. apply orb_true_iff in Hor as [H1|H2].
      + by apply contains_true.
      + by apply contains_true in H2.
    - destruct Hmcg as [-> _]. split; [by intros [? ?]|]. intros (_ & Hin).
      apply orb_false_iff in Hor as [H1 _]. apply contains_true in Hin. congruence. }
  split.
  { destruct (Py.contains "conformations" rts) eqn:Hc.
    - destruct Hconf as (t & _ & ->). split; [intros _; by apply contains_true|by eauto].
    - rewrite Hconf. split; [by intros [? ?]|]. intros Hin%contains_true. congruence. }
  destruct (Py.contains "san_graph" rts) eqn:Hc.
  - destruct Heig as (vals & vecs & _ & _ & -> & ->).
    split; [split; [intros _; by apply contains_true|by eauto]|].
    split; [split; [intros _; by apply contains_true|by eauto]|].
    destruct (Py.contains "targets" rts) eqn:Ht.
    + destruct Htg as (tg & _ & -> & -> & ->).
      repeat split; try (intros _; by apply contains_true); by eauto.
    + destruct Htg as (-> & -> & ->).
      repeat split; try (by intros [? ?]); intros Hin%contains_true; congruence.
  - destruct Heig as [-> ->].
    split; [split; [by intros [? ?]|intros Hin%contains_true; congruence]|].
    split; [split; [by intros [? ?]|intros Hin%contains_true; congruence]|].
    destruct (Py.contains "targets" rts) eqn:Ht.
    + destruct Htg as (tg & _ & -> & -> & ->).
      repeat split; try (intros _; by apply contains_true); by eauto.
    + destruct Htg as (-> & -> & ->).
      repeat split; try (by intros [? ?]); intros Hin%contains_true; congruence.
Qed.

Lemma init_attributes_witness :
  attributes_set Demo.externals Demo.views_args
    (Demo.dataset Demo.views_args Demo.first_use).1.
Proof.
  apply (init_attributes Demo.externals Demo.atomic_features
           Demo.edge_features Demo.views_args Demo.first_use
           (Demo.__init__ Demo.views_args Demo.first_use).2
           (Demo.dataset Demo.views_args Demo.first_use).1
           (Demo.dataset Demo.views_args Demo.first_use).2).
  vm_compute. reflexivity.
Defined.

(** ** Constructions that a cache written by [process] cannot serve *)

Section cache_keys.
Context (X : externals).
Context (atomic_features :
           rd_mol (flt X) → list string → list (string * list (scalar (flt X)))).
Context (edge_features :
           rd_mol (flt X) → list string
           → list (string * list (list (scalar (flt X))))).

Local Abbreviation __init__ := (GEOMqm9.__init__ X atomic_features edge_features).
Local Abbreviation process := (Process.process X atomic_features edge_features).
Local Abbreviation loads_cache_of :=
  (loads_cache_of X atomic_features edge_features).

(** A construction that loads the cache of [w0] works on the
    dictionary that [process] writes from [w0]. *)
Lemma loads_cache_of_init w0 w (a : GEOMqm9.args X) :
  loads_cache_of w0 w →
  GEOMqm9.validate (GEOMqm9.effective_return_types X a) = Ok () →
  ∃ w1 d, process w0 = (Ok (), w1)
          ∧ fs_processed (w_fs w1) = Some d
          ∧ (__init__ a w).1 = init_result X a d.
Proof.
  intros (w1 & Hp & Hw) Hv.
  pose proof Hp as Hp'. apply process_Ok in Hp' as (_ & d & _ & _ & _ & Hfs & _).
  assert (fs_processed (w_fs w1) = Some d) as Hd by (by rewrite Hfs).
  exists w1, d. split; [done|]. split; [done|].
  destruct Hw as [[-> Hnone]|Heq].
  - rewrite (init_uncached X atomic_features edge_features a w0 Hv Hnone).
    by rewrite Hp, Hd.
  - rewrite Hd in Heq.
    by rewrite (init_cached X atomic_features edge_features a w d Hv Heq).
Qed.

Lemma add_constant_ones_cached (a : GEOMqm9.args X) mols d :
  atoms_cached X mols d → is_Ok (GEOMqm9.add_constant_ones X a d).
Proof.
  intros (numbers & rows & Hn & _). unfold GEOMqm9.add_constant_ones.
  destruct (_ || _); [|by eexists].
  unfold Py.subscript. rewrite Hn. cbn. by eexists.
Qed.

Lemma init_result_noise (a : GEOMqm9.args X) mols d :
  atoms_cached X mols d →
  d !! "atomic_number_long" = None →
  "standard_normal_noise" ∈ GEOMqm9.a_features X a
  ∨ "standard_normal_noise" ∈ GEOMqm9.a_features3d X a →
  init_result X a d = Raise (KeyError "atomic_number_long").
Proof.
  intros Hat Hnone Hin. unfold init_result, GEOMqm9.init_from.
  destruct (add_constant_ones_cached a mols d Hat) as [d1 Hd1].
  rewrite pure_bind, Hd1, pure_bind.
  assert (GEOMqm9.add_standard_normal_noise X a d1
          = Raise (KeyError "atomic_number_long")) as ->; [|done].
  unfold GEOMqm9.add_standard_normal_noise.
  assert (Py.contains "standard_normal_noise" (GEOMqm9.a_features X a)
          || Py.contains "standard_normal_noise" (GEOMqm9.a_features3d X a)
          = true) as ->.
  { apply orb_true_iff. destruct Hin as [H|H]; [left|right]; by apply contains_true. }
  rewrite subscript_None; [done|].
  by rewrite (add_constant_ones_Ok X a d d1 Hd1).
Qed.

End cache_keys.

(** X11: on a cache written by [process], a construction with
    ['standard_normal_noise'] among [features] or [features3d] raises
    [KeyError('atomic_number_long')]: the constructor reads that key,
    and [process] caches the atomic numbers under
    ['atomic_numbers_long']. *)
Theorem init_standard_normal_noise (X : externals)
    (atomic_features :
       rd_mol (flt X) → list string → list (string * list (scalar (flt X))))
    (edge_features :
       rd_mol (flt X) → list string → list (string * list (list (scalar (flt X)))))
    (w0 w : world (flt X)) (a : GEOMqm9.args X) :
  loads_cache_of X atomic_features edge_features w0 w →
  GEOMqm9.validate (GEOMqm9.effective_return_types X a) = Ok () →
  "standard_normal_noise" ∈ GEOMqm9.a_features X a
  ∨ "standard_normal_noise" ∈ GEOMqm9.a_features3d X a →
  (GEOMqm9.__init__ X atomic_features edge_features a w).1
  = Raise (KeyError "atomic_number_long").
Proof.
  intros Hw Hv Hin.
  destruct (loads_cache_of_init X atomic_features edge_features w0 w a Hw Hv)
    as (w1 & d & Hp & Hd & ->).
  apply process_cache_more in Hp as (d' & Hd' & _ & _ & Hat & _ & Hnone & _).
  rewrite Hd in Hd'. injection Hd' as <-.
  by eapply init_result_noise.
Qed.

Lemma init_standard_normal_noise_witness :
  (Demo.__init__ Cases.noise_args Demo.first_use).1
  = Raise (KeyError "atomic_number_long").
Proof.
  apply (init_standard_normal_noise Demo.externals Demo.atomic_features
           Demo.edge_features Demo.first_use Demo.first_use Cases.noise_args).
  - apply demo_loads_cache.
  - reflexivity.
  - left. apply list_elem_of_singleton. reflexivity.
Defined.

(** X12: on a cache written by [process], no construction with
    ['san_graph'] among the return types succeeds: the constructor
    reads [data_dict['eig_vals']], a key that [process] does not
    cache. *)
Theorem init_san_graph (X : externals)
    (atomic_features :
       rd_mol (flt X) → list string → list (string * list (scalar (flt X))))
    (edge_features :
       rd_mol (flt X) → list string → list (string * list (list (scalar (flt X)))))
    (w0 w : world (flt X)) (a : GEOMqm9.args X) :
  loads_cache_of X atomic_features edge_features w0 w →
  "san_graph" ∈ GEOMqm9.effective_return_types X a →
  is_Raise (GEOMqm9.__init__ X atomic_features edge_features a w).1.
Proof.
  intros Hw Hin.
  destruct (validate_cases (GEOMqm9.effective_return_types X a)) as [Hv|[e Hv]].
  2:{ rewrite (init_invalid X atomic_features edge_features a w e Hv). by exists e. }
  destruct (loads_cache_of_init X atomic_features edge_features w0 w a Hw Hv)
    as (w1 & d & Hp & Hd & ->).
  apply process_cache_more in Hp as (d' & Hd' & _ & _ & _ & _ & _ & Hnone).
  rewrite Hd in Hd'. injection Hd' as <-.
  unfold init_result.
  destruct (GEOMqm9.init_from X a _ d ∅) as [[self|e] memo] eqn:Hinit; [|by exists e].
  apply init_from_fields in Hinit
    as (d1 & dd & m1 & Hd1 & Hdd & _ & _ & _ & _ & _ & _ & _ & _ & Heig & _).
  rewrite (proj2 (contains_true _ _) Hin) in Heig.
  destruct Heig as (vals & vecs & Hvals & _).
  rewrite (data_dict_loaded X a d d1 dd) in Hvals by done. congruence.
Qed.

Lemma init_san_graph_witness :
  is_Raise (Demo.__init__ Cases.san_args Demo.first_use).1.
Proof.
  apply (init_san_graph Demo.externals Demo.atomic_features
           Demo.edge_features Demo.first_use Demo.first_use Cases.san_args).
  - apply demo_loads_cache.
  - apply list_elem_of_singleton. reflexivity.
Defined.

Example init_san_graph_KeyError :
  (Demo.__init__ Cases.san_args Demo.first_use).1 = Raise (KeyError "eig_vals").
Proof. by vm_compute. Qed.

(** ** The targets *)

Lemma to_device_Ok (X : externals) {A} dev (x y : A) :
  GEOMqm9.to_device X dev x = Ok y → y = x.
Proof. unfold GEOMqm9.to_device. destruct (device_available X dev); by intros [=]. Qed.



(** ** The made-up feature [constant_ones] *)

Lemma column_const {F} (c : scalar F) {A} (l : list A) :
  Tensor.column ((λ _, c) <$> l) = replicate (length l) [c].
Proof. unfold Tensor.column. induction l as [|x l IH]; [done|]. cbn. by f_equal. Qed.

(** X14: a construction with [features=['constant_ones']] has as its
    features tensor one row [[1.0]] per atom of the retained
    molecules. *)
Theorem init_constant_ones (X : externals)
    (atomic_features :
       rd_mol (flt X) → list string → list (string * list (scalar (flt X))))
    (edge_features :
       rd_mol (flt X) → list string → list (string * list (list (scalar (flt X)))))
    (w0 : world (flt X)) (a : GEOMqm9.args X) (self : GEOMqm9.obj X) :
  constructed_on X atomic_features edge_features w0 a self →
  GEOMqm9.a_features X a = ["constant_ones"] →
  GEOMqm9.features_tensor X self
  = Some (T2 (replicate (length (all_atoms X (retained (w_fs w0)).*2))
                [SFlt (f_of_Z X 1)])).
Proof.
  intros (w1 & d & memo & Hp & Hd & Hinit)%constructed_on_inv Hf.
  apply process_cache_more in Hp as (d' & Hd' & _ & _ & Hat & _).
  rewrite Hd in Hd'. injection Hd' as <-.
  destruct Hat as (numbers & rows & Hn & _ & Hnum & _).
  apply init_from_Ok in Hinit
    as (d1 & dd & t & Hd1 & Hdd & _ & Hsel & _).
  assert (dd !! "constant_ones"
          = Some (VTensor (T2 (replicate (length numbers) [SFlt (f_of_Z X 1)]))))
    as Hones.
  { rewrite (add_standard_normal_noise_Ok X a d1 dd Hdd) by done.
    unfold GEOMqm9.add_constant_ones in Hd1. rewrite Hf in Hd1.
    change (Py.contains "constant_ones" ["constant_ones"]) with true in Hd1.
    cbn [orb] in Hd1. unfold Py.subscript in Hd1. rewrite Hn in Hd1.
    cbn in Hd1. injection Hd1 as <-. rewrite lookup_insert_eq.
    by rewrite column_const, length_fmap. }
  rewrite Hf in Hsel. unfold GEOMqm9.select in Hsel. cbn in Hsel.
  unfold Py.subscript in Hsel. rewrite Hones in Hsel. cbn in Hsel.
  injection Hsel as <-. do 3 f_equal. symmetry. by eapply Forall2_length.
Qed.

Lemma init_constant_ones_witness :
  GEOMqm9.features_tensor Demo.externals
    (Demo.dataset Cases.ones_args Demo.first_use).1
  = Some (T2 (replicate (length (all_atoms Demo.externals (retained (w_fs Demo.first_use)).*2))
                [SFlt (f_of_Z Demo.externals 1)])).
Proof.
  apply (init_constant_ones Demo.externals Demo.atomic_features Demo.edge_features
           Demo.first_use Cases.ones_args).
  - apply demo_constructed_on. by vm_compute.
  - reflexivity.
Defined.

(** ** Indices outside [0 .. len - 1] *)


Lemma py_index_fmap_res {A B} (f : A → B) (l : list A) (j : Z) :
  Py.index (f <$> l) j = f <$> Py.index l j.
Proof.
  unfold Py.index. cbv zeta. rewrite length_fmap, list_lookup_fmap.
  repeat case_decide; try done; by destruct (l !! _).
Qed.

Section index_bounds.
Context (X : externals) (self : GEOMqm9.obj X).

Local Abbreviation int_tensor z := (GEOMqm9.PTensor X (T0 (SInt z))).

(** Reading an entry of one of the offset tables. *)
Lemma meta_index_res (key : string) (l : list Z) (idx : Z) :
  GEOMqm9.meta_dict X self !! key = Some (VTensor (T1 (SInt <$> l))) →
  (v ← Py.subscript (GEOMqm9.meta_dict X self) key; GEOMqm9.value_index X v idx)
  = (λ z, int_tensor z) <$> Py.index l idx.
Proof.
  intros Hk. unfold Py.subscript. rewrite Hk. cbn.
  rewrite py_index_fmap_res. by destruct (Py.index l idx).
Qed.


End index_bounds.



Lemma py_index_in_range {A} (l : list A) (j : Z) :
  - Z.of_nat (length l) ≤ j < Z.of_nat (length l) → is_Ok (Py.index l j).
Proof.
  intros Hj. destruct (decide (j < 0)) as [Hneg|Hpos].
  - destruct (lookup_lt_is_Some_2 l (Z.to_nat (j + Z.of_nat (length l)))) as [x Hx]; [lia|].
    exists x. apply py_index_neg; [lia|done].
  - destruct (lookup_lt_is_Some_2 l (Z.to_nat j)) as [x Hx]; [lia|].
    exists x. apply py_index_Ok; [lia|done].
Qed.

Lemma sums_from_lookup_take t l (k : nat) :
  (k ≤ length l)%nat →
  (t :: sums_from t l) !! k = Some (t + foldr Z.add 0 (take k l)).
Proof.
  revert t k. induction l as [|x l IH]; intros t k Hk.
  - assert (k = 0%nat) as -> by (cbn in Hk; lia). cbn. f_equal. lia.
  - destruct k as [|k]; [cbn; f_equal; lia|].
    change ((t :: sums_from t (x :: l)) !! S k)
      with (((t + x) :: sums_from (t + x) l) !! k).
    rewrite IH by (cbn in Hk; lia). cbn. f_equal. lia.
Qed.

Lemma length_concat_take {A} (ls : list (list A)) (k : nat) :
  Z.of_nat (length (concat (take k ls)))
  = foldr Z.add 0 (take k ((λ l, Z.of_nat (length l)) <$> ls)).
Proof.
  revert k. induction ls as [|l ls IH]; intros [|k]; cbn; try done.
  rewrite length_app, <- IH. lia.
Qed.

Lemma slice_app_from {A} (l1 l2 : list A) (n : Z) :
  0 ≤ n →
  Py.slice (l1 ++ l2) (Some (Z.of_nat (length l1)))
    (Some (Z.of_nat (length l1) + n))
  = take (Z.to_nat n) l2.
Proof.
  intros Hn. unfold Py.slice, Py.bound. cbn [from_option].
  rewrite !decide_False by lia. rewrite length_app.
  replace (Z.to_nat (Z.min (Z.of_nat (length l1)) (Z.of_nat (length l1 + length l2))))
    with (length l1) by lia.
  rewrite drop_app_length.
  destruct (decide (Z.to_nat n ≤ length l2)%nat).
  - f_equal. lia.
  - rewrite !take_ge by lia. done.
Qed.

(** X16: a negative index [idx] in [-len .. -1] is accepted, and the
    items served for it are not aligned.  ['smiles'] serves the
    molecule [len + idx], as Python's negative indexing does; but
    [atom_slices] has one entry more than there are molecules, so
    [atom_slices[idx]] is where that molecule ends, and
    ['coordinates'] serves rows of the molecules after it: no row for
    [idx = -1]. *)
Theorem getitem_negative_index (X : externals)
    (atomic_features :
       rd_mol (flt X) → list string → list (string * list (scalar (flt X))))
    (edge_features :
       rd_mol (flt X) → list string → list (string * list (list (scalar (flt X)))))
    (w0 : world (flt X)) (a : GEOMqm9.args X) (self : GEOMqm9.obj X)
    (j : nat) (smiles : string) (md : mol_dict (flt X)) (m : gmap pyint pairs) :
  constructed_on X atomic_features edge_features w0 a self →
  retained (w_fs w0) !! j = Some (smiles, md) →
  memo_inv m →
  let mols : list (mol_dict (flt X)) := (retained (w_fs w0)).*2 in
  let idx := Z.of_nat j - Z.of_nat (length mols) in
  let cast := λ s, to_float X (to_float X s) in
  serves X self idx m "smiles" (GEOMqm9.Item X (GEOMqm9.PStr X smiles))
  ∧ serves X self idx m "coordinates"
      (GEOMqm9.Item X
         (GEOMqm9.PTensor X
            (T2 (take (length (md_atoms md))
                   (concat (fmap (M:=list) (first_conformer_positions cast)
                              (drop (S j) mols))))))).
Proof.
  intros Hc Hj Hm mols idx cast.
  destruct (constructed_on_meta _ _ _ _ _ _ Hc)
    as ((Hn & Ha & (es & He & Hlen) & _) & Hsm & _ & Hco & _).
  fold mols cast in Hn, Ha, Hlen, Hco.
  assert (mols !! j = Some md) as Hmd by (unfold mols; by rewrite list_lookup_fmap, Hj).
  pose proof (lookup_lt_Some _ _ _ Hmd) as Hlt.
  rewrite length_fmap in Hlen.
  set (ns := fmap (M:=list) md_n_atoms mols) in *.
  assert (length ns = length mols) as Hns by (unfold ns; by rewrite length_fmap).
  destruct (py_index_in_range es idx) as [z1 H1]; [unfold idx; lia|].
  destruct (py_index_in_range es (idx + 1)) as [z2 H2]; [unfold idx; lia|].
  set (s := foldr Z.add 0 (take (S j) ns)).
  assert (Py.index (0 :: sums_from 0 ns) idx = Ok s) as H3.
  { apply py_index_neg.
    - cbn [length]. rewrite length_sums_from, Hns. unfold idx. lia.
    - cbn [length]. rewrite length_sums_from, Hns.
      replace (Z.to_nat (idx + Z.of_nat (S (length mols)))) with (S j)
        by (unfold idx; lia).
      rewrite sums_from_lookup_take by lia. done. }
  assert (Py.index ns idx = Ok (md_n_atoms md)) as H4.
  { apply py_index_neg; [rewrite Hns; unfold idx; lia|].
    rewrite Hns. replace (Z.to_nat (idx + Z.of_nat (length mols))) with j
      by (unfold idx; lia).
    unfold ns. by rewrite list_lookup_fmap, Hmd. }
  assert (offsets X self idx
          = Ok (GEOMqm9.PTensor X (T0 (SInt z1)), GEOMqm9.PTensor X (T0 (SInt z2)),
                GEOMqm9.PTensor X (T0 (SInt s)),
                GEOMqm9.PTensor X (T0 (SInt (md_n_atoms md))))) as Hoff.
  { unfold offsets.
    rewrite !(meta_index_res X self "edge_slices" es) by done.
    rewrite (meta_index_res X self "atom_slices" (0 :: sums_from 0 ns)) by done.
    rewrite (meta_index_res X self "n_atoms" ns) by done.
    by rewrite H1, H2, H3, H4. }
  split.
  - eapply serves_intro; [done..|].
    rewrite view_of_smiles. unfold Py.subscript. rewrite Hsm. cbn.
    assert (Py.index (retained (w_fs w0)).*1 idx = Ok smiles) as ->; [|done].
    apply py_index_neg.
    + rewrite length_fmap. unfold mols in *. rewrite length_fmap in Hlt.
      unfold idx. rewrite length_fmap. lia.
    + rewrite length_fmap. unfold idx, mols. rewrite length_fmap.
      replace (Z.to_nat _) with j by lia.
      by rewrite list_lookup_fmap, Hj.
  - eapply serves_intro; [done..|].
    rewrite (view_of_flat X self "coordinates" (GEOMqm9.coordinates X self)) by done.
    rewrite Hco. unfold GEOMqm9.atom_rows. cbn. do 3 f_equal.
    rewrite <- (take_drop (S j) mols) at 1. rewrite fmap_app, concat_app.
    assert (s = Z.of_nat (length (concat (fmap (M:=list)
                                            (first_conformer_positions cast)
                                            (take (S j) mols))))) as ->.
    { unfold s, ns.
      rewrite (fmap_take (first_conformer_positions cast)), length_concat_take.
      do 2 f_equal. rewrite <- (list_fmap_compose (first_conformer_positions cast)).
      apply list_fmap_ext. intros _ md' _. cbn.
      unfold first_conformer_positions, md_n_atoms. by rewrite length_fmap. }
    rewrite slice_app_from by (unfold md_n_atoms; lia).
    unfold md_n_atoms. by rewrite Nat2Z.id.
Qed.

Lemma getitem_negative_index_witness :
  let mols : list (mol_dict Z) := (retained (w_fs Demo.first_use)).*2 in
  let idx := Z.of_nat 1 - Z.of_nat (length mols) in
  let cast := λ s, to_float Demo.externals (to_float Demo.externals s) in
  let self := (Demo.dataset Cases.item_args Demo.first_use).1 in
  serves Demo.externals self idx ∅ "smiles"
    (GEOMqm9.Item Demo.externals (GEOMqm9.PStr Demo.externals "N"))
  ∧ serves Demo.externals self idx ∅ "coordinates"
      (GEOMqm9.Item Demo.externals
         (GEOMqm9.PTensor Demo.externals
            (T2 (take (length (md_atoms Demo.ammonia_dict))
                   (concat (fmap (M:=list) (first_conformer_positions cast)
                              (drop 2 mols))))))).
Proof.
  apply (getitem_negative_index Demo.externals Demo.atomic_features
           Demo.edge_features Demo.first_use Cases.item_args
           (Demo.dataset Cases.item_args Demo.first_use).1 1%nat "N"
           Demo.ammonia_dict ∅).
  - apply demo_constructed_on. by vm_compute.
  - by vm_compute.
  - apply memo_inv_empty.
Defined.

Example getitem_last_by_negative_index :
  (GEOMqm9.__getitem__ Demo.externals
     (Demo.dataset (Demo.args ["smiles"; "coordinates"] [] [] false)
        Demo.first_use).1 (-1) ∅).1
  = Ok [GEOMqm9.Item Demo.externals (GEOMqm9.PStr Demo.externals "N");
        GEOMqm9.Item Demo.externals (GEOMqm9.PTensor Demo.externals (T2 []))].
Proof. by vm_compute. Qed.

(** ** Views that need a features tensor *)

Section no_features.
Context (X : externals) (self : GEOMqm9.obj X).

Lemma set_f_x_None g s n :
  is_Raise (GEOMqm9.set_f_x X self g None s n).
Proof. unfold GEOMqm9.set_f_x. rewrite atom_rows_None. by eexists. Qed.

Lemma mol_graph_view_None e idx es ee s n :
  is_Raise (GEOMqm9.mol_graph_view X self None e idx es ee s n).
Proof.
  unfold GEOMqm9.mol_graph_view.
  destruct (GEOMqm9.get_graph X self idx es ee n) as [g|?];
    cbn [mbind res_bind]; [|by eexists].
  destruct (GEOMqm9.to_device X _ g) as [g'|?]; cbn [mbind res_bind]; [|by eexists].
  destruct (set_f_x_None g' s n) as [e' ->]. by eexists.
Qed.

Lemma complete_graph_view_None e idx es ee s n oid m :
  is_Raise (GEOMqm9.complete_graph_view X self None e idx es ee s n oid m).1.
Proof.
  unfold GEOMqm9.complete_graph_view.
  rewrite st_bind_unfold.
  destruct (GEOMqm9.get_complete_graph X self idx n oid m) as [[g|?] m1]; [|by eexists].
  rewrite pure_bind. destruct (GEOMqm9.to_device X _ g) as [g'|?]; [|by eexists].
  rewrite pure_bind. destruct (set_f_x_None g' s n) as [e' ->]. by eexists.
Qed.

Lemma se3Transformer_view_None rt idx es ee s n :
  (if decide (rt = "se3Transformer_graph3d")
   then GEOMqm9.features3d_tensor X self else GEOMqm9.features_tensor X self)
  = None →
  is_Raise (GEOMqm9.se3Transformer_view X self rt idx es ee s n).
Proof.
  intros Hnone. unfold GEOMqm9.se3Transformer_view.
  destruct (GEOMqm9.get_graph X self idx es ee n) as [g|?];
    cbn [mbind res_bind]; [|by eexists].
  destruct (GEOMqm9.to_device X _ g) as [g'|?]; cbn [mbind res_bind]; [|by eexists].
  destruct (GEOMqm9.atom_rows X (Some (GEOMqm9.coordinates X self)) s n) as [x|?];
    cbn [mbind res_bind]; [|by eexists].
  destruct (GEOMqm9.to_device X _ x) as [x'|?]; cbn [mbind res_bind]; [|by eexists].
  destruct (match GEOMqm9.transform X self with Some f => f x' | None => Ok x' end)
    as [x''|?]; cbn [mbind res_bind]; [|by eexists].
  destruct (Dgl.set_ndata g' "x" x'') as [g''|?]; cbn [mbind res_bind]; [|by eexists].
  case_decide; rewrite Hnone, atom_rows_None; by eexists.
Qed.

Lemma data_by_type_no_features rt idx es ee s n oid m :
  GEOMqm9.features_tensor X self = None →
  rt ∈ feature_return_types →
  is_Raise (GEOMqm9.data_by_type X self idx rt es ee s n oid m).1.
Proof.
  intros Hnone Hrt. unfold feature_return_types in Hrt.
  repeat (apply elem_of_cons in Hrt as [->|Hrt]); [..|by apply elem_of_nil in Hrt].
  - change (GEOMqm9.data_by_type X self idx "mol_graph" es ee s n oid m).1
      with (GEOMqm9.mol_graph_view X self (GEOMqm9.features_tensor X self)
              (GEOMqm9.e_features_tensor X self) idx es ee s n).
    rewrite Hnone. apply mol_graph_view_None.
  - change (GEOMqm9.data_by_type X self idx "complete_graph" es ee s n oid m)
      with (GEOMqm9.complete_graph_view X self (GEOMqm9.features_tensor X self)
              (GEOMqm9.e_features_tensor X self) idx es ee s n oid m).
    rewrite Hnone. apply complete_graph_view_None.
  - change (GEOMqm9.data_by_type X self idx "mol_complete_graph" es ee s n oid m)
      with (GEOMqm9.mol_complete_graph_view X self idx es ee s n oid m).
    unfold GEOMqm9.mol_complete_graph_view.
    rewrite st_bind_unfold.
    destruct (GEOMqm9.get_mol_complete_graph X self idx es ee n oid m)
      as [[h|?] m1]; [|by eexists].
    rewrite pure_bind. destruct (GEOMqm9.to_device X _ h) as [h'|?]; [|by eexists].
    rewrite pure_bind, Hnone, atom_rows_None. by eexists.
  - change (GEOMqm9.data_by_type X self idx "san_graph" es ee s n oid m)
      with (GEOMqm9.san_graph_view X self idx es ee s n oid m).
    unfold GEOMqm9.san_graph_view.
    rewrite st_bind_unfold.
    destruct (GEOMqm9.get_complete_graph X self idx n oid m) as [[g|?] m1]; [|by eexists].
    rewrite pure_bind. destruct (GEOMqm9.to_device X _ g) as [g'|?]; [|by eexists].
    rewrite pure_bind, Hnone. destruct (set_f_x_None g' s n) as [e' ->]. by eexists.
  - change (GEOMqm9.data_by_type X self idx "se3Transformer_graph" es ee s n oid m).1
      with (GEOMqm9.se3Transformer_view X self "se3Transformer_graph" idx es ee s n).
    apply se3Transformer_view_None. by rewrite decide_False.
  - rewrite data_by_type_raw_features, Hnone, atom_rows_None. by eexists.
Qed.

Lemma data_by_type_no_features3d rt idx es ee s n oid m :
  GEOMqm9.features3d_tensor X self = None →
  rt ∈ feature3d_return_types →
  is_Raise (GEOMqm9.data_by_type X self idx rt es ee s n oid m).1.
Proof.
  intros Hnone Hrt. unfold feature3d_return_types in Hrt.
  repeat (apply elem_of_cons in Hrt as [->|Hrt]); [..|by apply elem_of_nil in Hrt].
  - change (GEOMqm9.data_by_type X self idx "mol_graph3d" es ee s n oid m).1
      with (GEOMqm9.mol_graph_view X self (GEOMqm9.features3d_tensor X self)
              (GEOMqm9.e_features3d_tensor X self) idx es ee s n).
    rewrite Hnone. apply mol_graph_view_None.
  - change (GEOMqm9.data_by_type X self idx "complete_graph3d" es ee s n oid m)
      with (GEOMqm9.complete_graph_view X self (GEOMqm9.features3d_tensor X self)
              (GEOMqm9.e_features3d_tensor X self) idx es ee s n oid m).
    rewrite Hnone. apply complete_graph_view_None.
  - change (GEOMqm9.data_by_type X self idx "se3Transformer_graph3d" es ee s n oid m).1
      with (GEOMqm9.se3Transformer_view X self "se3Transformer_graph3d" idx es ee s n).
    apply se3Transformer_view_None. by rewrite decide_True.
Qed.

End no_features.

(** X17: a return type whose view reads the features tensor cannot be
    served by an object constructed with the default empty [features]
    list, and likewise for [features3d]: [self.features_tensor] is
    [None] then, and [__getitem__] raises for every index. *)
Theorem getitem_without_features (X : externals)
    (atomic_features :
       rd_mol (flt X) → list string → list (string * list (scalar (flt X))))
    (edge_features :
       rd_mol (flt X) → list string → list (string * list (list (scalar (flt X)))))
    (a : GEOMqm9.args X) (w w' : world (flt X)) (self : GEOMqm9.obj X)
    (memo : gmap pyint pairs) (rt : string) :
  GEOMqm9.__init__ X atomic_features edge_features a w = (Ok (self, memo), w') →
  rt ∈ GEOMqm9.return_types X self →
  GEOMqm9.a_features X a = [] ∧ rt ∈ feature_return_types
  ∨ GEOMqm9.a_features3d X a = [] ∧ rt ∈ feature3d_return_types →
  ∀ idx m, is_Raise (GEOMqm9.__getitem__ X self idx m).1.
Proof.
  intros Hinit Hin Hcase idx.
  apply init_Ok in Hinit as (loaded & _ & Hinit & _).
  apply init_from_Ok in Hinit as (d1 & dd & t & _ & _ & _ & Hf & Hf3 & _).
  apply (getitem_Raise X self idx rt Hin). intros es ee s n oid m.
  destruct Hcase as [[Hnil Hrt]|[Hnil Hrt]].
  - rewrite Hnil in Hf. injection Hf as Hf. by apply data_by_type_no_features.
  - rewrite Hnil in Hf3. injection Hf3 as Hf3. by apply data_by_type_no_features3d.
Qed.

Lemma getitem_without_features_witness :
  is_Raise (GEOMqm9.__getitem__ Demo.externals
              (Demo.dataset (Demo.args ["mol_graph"] [] [] true) Demo.first_use).1
              0 ∅).1.
Proof.
  refine (getitem_without_features Demo.externals Demo.atomic_features
           Demo.edge_features (Demo.args ["mol_graph"] [] [] true) Demo.first_use
           (Demo.__init__ (Demo.args ["mol_graph"] [] [] true) Demo.first_use).2
           (Demo.dataset (Demo.args ["mol_graph"] [] [] true) Demo.first_use).1
           (Demo.dataset (Demo.args ["mol_graph"] [] [] true) Demo.first_use).2
           "mol_graph" _ _ _ 0 ∅).
  - vm_compute. reflexivity.
  - apply (bool_decide_unpack _). by vm_compute.
  - left. split; [reflexivity|]. apply (bool_decide_unpack _). by vm_compute.
Defined.

(** ** The memo and the identity of its keys *)

Lemma foldr_max_ge (l : list positive) (x : positive) :
  x ∈ l → (x ≤ foldr Pos.max 1 l)%positive.
Proof.
  induction l as [|y l IH]; [by intros ?%elem_of_nil|].
  intros [->|Hx]%elem_of_cons; cbn; [lia|]. specialize (IH Hx). lia.
Qed.

(** A tensor created now is not a key of the memo. *)
Lemma fresh_oid_fresh (m : gmap pyint pairs) (z : Z) :
  m !! Tensor0 (GEOMqm9.fresh_oid m) z = None.
Proof.
  destruct (m !! Tensor0 (GEOMqm9.fresh_oid m) z) as [p|] eqn:Hk; [|done].
  exfalso. apply elem_of_map_to_list in Hk.
  assert (GEOMqm9.fresh_oid m
          ∈ omap (λ k, match k with Tensor0 o _ => Some o | PyInt _ => None end)
              (map_to_list m).*1) as Hin.
  { apply list_elem_of_omap. exists (Tensor0 (GEOMqm9.fresh_oid m) z).
    split; [|done]. apply list_elem_of_fmap. by exists (Tensor0 (GEOMqm9.fresh_oid m) z, p). }
  apply foldr_max_ge in Hin. unfold GEOMqm9.fresh_oid in Hin at 1. lia.
Qed.

Lemma get_pairwise_fresh (z : Z) (m : gmap pyint pairs) p m' :
  get_pairwise (Tensor0 (GEOMqm9.fresh_oid m) z) m = (Ok p, m') →
  pairwise_compute z = Ok p
  ∧ m' = <[Tensor0 (GEOMqm9.fresh_oid m) z := p]> m
  ∧ size m' = S (size m).
Proof.
  unfold get_pairwise. rewrite fresh_oid_fresh. cbn [pyint_val].
  destruct (pairwise_compute z) as [p'|e]; [|done]. intros [= <- <-].
  split; [done|]. split; [done|].
  by rewrite map_size_insert_None by apply fresh_oid_fresh.
Qed.

Lemma mapM_st_size {A B} (f : A → GEOMqm9.st B) (l : list A) (k : nat) m ys m' :
  (∀ x m y m', f x m = (Ok y, m') → size m' = (size m + k)%nat) →
  mapM f l m = (Ok ys, m') →
  size m' = (size m + k * length l)%nat ∧ length ys = length l.
Proof.
  intros Hf. revert m ys m'. induction l as [|x l IH]; intros m ys m' H.
  { cbn in H. injection H as <- <-. cbn. split; [lia|done]. }
  cbn [mapM] in H.
  apply st_bind_Ok in H as (y & m1 & Hy & H).
  apply st_bind_Ok in H as (ys' & m2 & Hys & H).
  injection H as <- <-.
  apply Hf in Hy. apply IH in Hys as [Hys Hlen]. cbn [length]. split; lia.
Qed.

Section prefetch_memo.
Context (X : externals).

Lemma prefetch_pairwise_Ok meta idx m p m' :
  GEOMqm9.prefetch_pairwise X meta idx m = (Ok p, m') →
  size m' = S (size m).
Proof.
  unfold GEOMqm9.prefetch_pairwise. intros H.
  rewrite pure_bind in H.
  destruct (_ ≫= _) as [n_atoms|?]; [|done].
  rewrite st_bind_unfold in H. cbn [GEOMqm9.get_memo] in H.
  unfold GEOMqm9.call_get_pairwise in H. rewrite pure_bind in H.
  destruct (GEOMqm9.pyval_index X n_atoms) as [z|?]; [|done].
  by apply get_pairwise_fresh in H as (_ & _ & ?).
Qed.

Lemma molecule_range_length (meta : gmap string (value (flt X))) idxs es :
  meta !! "edge_slices" = Some (VTensor (T1 es)) →
  GEOMqm9.molecule_range X meta = Ok idxs →
  length idxs = (length es - 1)%nat.
Proof.
  intros He. unfold GEOMqm9.molecule_range, Py.subscript. rewrite He. cbn.
  intros [= <-]. unfold Py.range. rewrite length_seqZ. lia.
Qed.

Lemma prefetch_complete_graphs_size meta es m gs m' :
  meta !! "edge_slices" = Some (VTensor (T1 es)) →
  GEOMqm9.prefetch_complete_graphs X meta m = (Ok gs, m') →
  size m' = (size m + (length es - 1))%nat ∧ length gs = (length es - 1)%nat.
Proof.
  intros He. unfold GEOMqm9.prefetch_complete_graphs. intros H.
  rewrite pure_bind in H.
  destruct (GEOMqm9.molecule_range X meta) as [idxs|?] eqn:Hr; [|done].
  apply (molecule_range_length meta idxs es He) in Hr.
  apply (mapM_st_size _ _ 1) in H as [H1 H2]; [split; lia|].
  clear. intros idx m g m' H.
  apply st_bind_Ok in H as ([src dst] & m1 & Hp & H).
  apply prefetch_pairwise_Ok in Hp.
  unfold GEOMqm9.pure in H. injection H as _ <-. lia.
Qed.

Lemma prefetch_mol_complete_graphs_size meta es m hs m' :
  meta !! "edge_slices" = Some (VTensor (T1 es)) →
  GEOMqm9.prefetch_mol_complete_graphs X meta m = (Ok hs, m') →
  size m' = (size m + (length es - 1))%nat ∧ length hs = (length es - 1)%nat.
Proof.
  intros He. unfold GEOMqm9.prefetch_mol_complete_graphs. intros H.
  rewrite pure_bind in H.
  destruct (GEOMqm9.molecule_range X meta) as [idxs|?] eqn:Hr; [|done].
  apply (molecule_range_length meta idxs es He) in Hr.
  apply (mapM_st_size _ _ 1) in H as [H1 H2]; [split; lia|].
  clear. intros idx m g m' H.
  apply st_bind_Ok in H as (p & m1 & Hp & H).
  apply prefetch_pairwise_Ok in Hp.
  unfold GEOMqm9.pure in H. injection H as _ <-. lia.
Qed.

End prefetch_memo.

(** X18: after a construction that prefetches complete graphs, the memo
    [self.pairwise] holds one entry per molecule, and one more per
    molecule when the graphs of ['mol_complete_graph'] are prefetched
    too: [n_atoms] is passed as a zero-dimensional tensor, a
    dictionary key by identity, so molecules with equal numbers of
    atoms do not share an entry.  Without such a prefetch the memo is
    empty. *)
Theorem init_memo_entries (X : externals)
    (atomic_features :
       rd_mol (flt X) → list string → list (string * list (scalar (flt X))))
    (edge_features :
       rd_mol (flt X) → list string → list (string * list (list (scalar (flt X)))))
    (w0 w w' : world (flt X)) (a : GEOMqm9.args X) (self : GEOMqm9.obj X)
    (memo : gmap pyint pairs) :
  loads_cache_of X atomic_features edge_features w0 w →
  GEOMqm9.__init__ X atomic_features edge_features a w = (Ok (self, memo), w') →
  let rts := GEOMqm9.return_types X self in
  let n := length (retained (w_fs w0)) in
  size memo
  = ((if GEOMqm9.prefetch_graphs X self
         && (Py.contains "complete_graph" rts
             || Py.contains "complete_graph3d" rts
             || Py.contains "san_graph" rts)
      then n else 0)
     + (if GEOMqm9.prefetch_graphs X self
           && (Py.contains "mol_complete_graph" rts
               || Py.contains "mol_complete_graph3d" rts)
        then n else 0))%nat.
Proof.
  intros (w1 & Hp & Hw) Hinit rts n.
  assert (constructed_on X atomic_features edge_features w0 a self) as Hc
    by (by exists w1, w, w', memo).
  destruct (constructed_on_meta _ _ _ _ _ _ Hc) as ((_ & _ & (es & He & Hlen) & _) & _).
  rewrite !length_fmap in Hlen. fold n in Hlen.
  apply init_Ok in Hinit as (loaded & _ & Hinit & _).
  apply init_from_fields in Hinit
    as (d1 & dd & m1 & _ & _ & Hrts & _ & _ & _ & Hpre & _ & _ & _ & _ & _
        & Hcg & Hmcg & _).
  unfold rts. rewrite Hrts, Hpre.
  assert (size m1
          = if GEOMqm9.a_prefetch_graphs X a
               && (Py.contains "complete_graph" (GEOMqm9.effective_return_types X a)
                   || Py.contains "complete_graph3d" (GEOMqm9.effective_return_types X a)
                   || Py.contains "san_graph" (GEOMqm9.effective_return_types X a))
            then n else 0%nat) as H1.
  { match goal with |- _ = if ?c then _ else _ => destruct c end.
    - destruct Hcg as (gs & Hgs & _).
      apply (prefetch_complete_graphs_size X _ _ _ _ _ He) in Hgs as [Hs _].
      rewrite Hs, map_size_empty, length_fmap. lia.
    - destruct Hcg as [_ ->]. apply map_size_empty. }
  rewrite <- H1.
  match goal with |- _ = (_ + if ?c then _ else _)%nat => destruct c end.
  - destruct Hmcg as (hs & Hhs & _).
    apply (prefetch_mol_complete_graphs_size X _ _ _ _ _ He) in Hhs as [Hs _].
    rewrite Hs, length_fmap. lia.
  - destruct Hmcg as [_ ->]. lia.
Qed.

Lemma init_memo_entries_witness :
  let self := (Demo.dataset Demo.views_args Demo.first_use).1 in
  let rts := GEOMqm9.return_types Demo.externals self in
  let n := length (retained (w_fs Demo.first_use)) in
  size (Demo.dataset Demo.views_args Demo.first_use).2
  = ((if GEOMqm9.prefetch_graphs Demo.externals self
         && (Py.contains "complete_graph" rts
             || Py.contains "complete_graph3d" rts
             || Py.contains "san_graph" rts)
      then n else 0)
     + (if GEOMqm9.prefetch_graphs Demo.externals self
           && (Py.contains "mol_complete_graph" rts
               || Py.contains "mol_complete_graph3d" rts)
        then n else 0))%nat.
Proof.
  apply (init_memo_entries Demo.externals Demo.atomic_features Demo.edge_features
           Demo.first_use Demo.first_use
           (Demo.__init__ Demo.views_args Demo.first_use).2 Demo.views_args).
  - apply demo_loads_cache.
  - vm_compute. reflexivity.
Defined.

(** *** One call of [__getitem__] and the memo *)

Section memo_step.
Context (X : externals).

Local Abbreviation pyval := (GEOMqm9.pyval X).

Local Abbreviation memo_step := (memo_step X).

Lemma memo_step_pure oid n {A} (r : res A) : memo_step oid n (GEOMqm9.pure r).
Proof. intros m. by left. Qed.

Lemma memo_step_ret oid n {A} (a : A) : memo_step oid n (mret a : GEOMqm9.st A).
Proof. intros m. by left. Qed.

Lemma memo_step_bind oid n {A B} (c : GEOMqm9.st A) (f : A → GEOMqm9.st B) :
  memo_step oid n c → (∀ a, memo_step oid n (f a)) → memo_step oid n (c ≫= f).
Proof.
  intros Hc Hf m. rewrite st_bind_unfold. specialize (Hc m).
  destruct (c m) as [[a|e] m1]; cbn [snd] in *; [|done].
  destruct Hc as [->|(z & p & Hz & Hnone & Hp & ->)]; [apply Hf|].
  destruct (Hf a (<[Tensor0 oid z := p]> m)) as [->|(z' & p' & Hz' & Hnone' & _)].
  - right. by exists z, p.
  - rewrite Hz in Hz'. injection Hz' as <-. by rewrite lookup_insert_eq in Hnone'.
Qed.

Lemma memo_step_call oid n :
  memo_step oid n (GEOMqm9.call_get_pairwise X n oid).
Proof.
  intros m. unfold GEOMqm9.call_get_pairwise. rewrite pure_bind.
  destruct (GEOMqm9.pyval_index X n) as [z|e] eqn:Hz; [|by left].
  unfold get_pairwise.
  destruct (m !! Tensor0 oid z) as [p|] eqn:Hk; [by left|].
  cbn [pyint_val]. destruct (pairwise_compute z) as [p|e] eqn:Hp; [|by left].
  right. by exists z, p.
Qed.

Lemma memo_step_mapM oid n {A B} (f : A → GEOMqm9.st B) (l : list A) :
  (∀ x, memo_step oid n (f x)) → memo_step oid n (mapM f l).
Proof.
  intros Hf. induction l as [|x l IH]; [apply memo_step_ret|].
  cbn [mapM]. apply memo_step_bind; [done|]. intros y.
  apply memo_step_bind; [done|]. intros ys. apply memo_step_ret.
Qed.

(** A key of the memo stays one. *)
Lemma memo_step_keeps oid n {A} (c : GEOMqm9.st A) m k :
  memo_step oid n c → is_Some (m !! k) → is_Some ((c m).2 !! k).
Proof.
  intros Hc Hk. destruct (Hc m) as [->|(z & p & _ & Hnone & _ & ->)]; [done|].
  rewrite lookup_insert_ne; [done|]. intros <-. rewrite Hnone in Hk. by destruct Hk.
Qed.

Lemma call_get_pairwise_stores oid n m p m' :
  GEOMqm9.call_get_pairwise X n oid m = (Ok p, m') →
  ∃ z, GEOMqm9.pyval_index X n = Ok z ∧ is_Some (m' !! Tensor0 oid z).
Proof.
  unfold GEOMqm9.call_get_pairwise. rewrite pure_bind.
  destruct (GEOMqm9.pyval_index X n) as [z|e] eqn:Hz; [|done].
  unfold get_pairwise. intros H. exists z. split; [done|].
  destruct (m !! Tensor0 oid z) as [p0|] eqn:Hk.
  - injection H as _ <-. by rewrite Hk.
  - destruct (pairwise_compute _) as [p0|e]; [|done].
    injection H as _ <-. rewrite lookup_insert_eq. by eexists.
Qed.

End memo_step.

Ltac memo_step_tac :=
  repeat lazymatch goal with
  | |- memo_step _ _ _ (GEOMqm9.pure _) => apply memo_step_pure
  | |- memo_step _ _ _ (mret _) => apply memo_step_ret
  | |- memo_step _ _ _ (GEOMqm9.call_get_pairwise _ _ _) => apply memo_step_call
  | |- memo_step _ _ _ (_ ≫= _) => apply memo_step_bind; [|intros ?]
  | |- memo_step _ _ _ (match ?x with _ => _ end) => destruct x
  | |- memo_step _ _ _ (if ?x then _ else _) => destruct x
  end.

Section memo_step_views.
Context (X : externals) (self : GEOMqm9.obj X).

Lemma data_by_type_memo_step idx rt es ee s n oid :
  memo_step X oid n (GEOMqm9.data_by_type X self idx rt es ee s n oid).
Proof.
  unfold GEOMqm9.data_by_type.
  repeat case_decide; try apply memo_step_pure.
  - unfold GEOMqm9.complete_graph_view, GEOMqm9.get_complete_graph,
      GEOMqm9.complete_edge_features. memo_step_tac.
  - unfold GEOMqm9.complete_graph_view, GEOMqm9.get_complete_graph,
      GEOMqm9.complete_edge_features. memo_step_tac.
  - unfold GEOMqm9.mol_complete_graph_view, GEOMqm9.get_mol_complete_graph.
    memo_step_tac.
  - unfold GEOMqm9.san_graph_view, GEOMqm9.get_complete_graph. memo_step_tac.
Qed.

End memo_step_views.

Section memo_growth.
Context (X : externals) (self : GEOMqm9.obj X).

Local Abbreviation stores := (memo_stores X).

Lemma stores_call oid n : stores oid n (GEOMqm9.call_get_pairwise X n oid).
Proof. intros m a m'. apply call_get_pairwise_stores. Qed.

Lemma stores_bind_l oid n {A B} (c : GEOMqm9.st A) (f : A → GEOMqm9.st B) :
  stores oid n c → (∀ a, memo_step X oid n (f a)) → stores oid n (c ≫= f).
Proof.
  intros Hc Hf m b m' (a & m1 & Hca & Hfa)%st_bind_Ok.
  apply Hc in Hca as (z & Hz & Hk). exists z. split; [done|].
  replace m' with ((f a m1).2) by by rewrite Hfa.
  by apply (memo_step_keeps X oid n).
Qed.

Lemma stores_bind_r oid n {A B} (c : GEOMqm9.st A) (f : A → GEOMqm9.st B) :
  (∀ a, stores oid n (f a)) → stores oid n (c ≫= f).
Proof.
  intros Hf m b m' (a & m1 & Hca & Hfa)%st_bind_Ok. by eapply Hf.
Qed.

(** With the graphs not prefetched, a view of one of the pairwise
    return types that is returned has called [get_pairwise]: the
    tensor is a key of the memo afterwards. *)
Lemma data_by_type_stores idx rt es ee s n oid :
  GEOMqm9.prefetch_graphs X self = false →
  rt ∈ pairwise_return_types →
  stores oid n (GEOMqm9.data_by_type X self idx rt es ee s n oid).
Proof.
  intros Hpre Hrt. unfold pairwise_return_types in Hrt.
  unfold GEOMqm9.data_by_type.
  repeat (apply elem_of_cons in Hrt as [->|Hrt]); [..|by apply elem_of_nil in Hrt];
    repeat (rewrite decide_False by done); rewrite decide_True by done.
  - unfold GEOMqm9.complete_graph_view, GEOMqm9.get_complete_graph. rewrite Hpre.
    apply stores_bind_l; [apply stores_bind_l; [apply stores_call|]|];
      intros; unfold GEOMqm9.complete_edge_features; memo_step_tac.
  - unfold GEOMqm9.complete_graph_view, GEOMqm9.get_complete_graph. rewrite Hpre.
    apply stores_bind_l; [apply stores_bind_l; [apply stores_call|]|];
      intros; unfold GEOMqm9.complete_edge_features; memo_step_tac.
  - unfold GEOMqm9.mol_complete_graph_view, GEOMqm9.get_mol_complete_graph.
    rewrite Hpre.
    apply stores_bind_l;
      [apply stores_bind_r; intros; apply stores_bind_l; [apply stores_call|]|];
      intros; memo_step_tac.
  - unfold GEOMqm9.san_graph_view, GEOMqm9.get_complete_graph. rewrite Hpre.
    apply stores_bind_l; [apply stores_bind_l; [apply stores_call|]|];
      intros; memo_step_tac.
Qed.

Lemma mapM_stores oid n {A B} (f : A → GEOMqm9.st B) (l : list A) (x : A) :
  x ∈ l → (∀ y, memo_step X oid n (f y)) → stores oid n (f x) →
  stores oid n (mapM f l).
Proof.
  intros Hx Hstep Hf. induction l as [|y l IH]; [by apply elem_of_nil in Hx|].
  cbn [mapM]. apply elem_of_cons in Hx as [<-|Hx].
  - apply stores_bind_l; [done|]. intros b.
    apply memo_step_bind; [by apply memo_step_mapM|]. intros. apply memo_step_ret.
  - apply stores_bind_r. intros b. apply stores_bind_l; [by apply IH|].
    intros. apply memo_step_ret.
Qed.

End memo_growth.

(** *** The memo grows with every item *)

(** X19: with the graphs built on the fly ([prefetch_graphs=False]) and a
    return type among ['complete_graph'], ['complete_graph3d'],
    ['mol_complete_graph'] and ['san_graph'], every [__getitem__] that
    returns adds exactly one entry to [self.pairwise]: the key is the
    tensor [self.meta_dict['n_atoms'][idx]] of this call, which is a new
    object and so never a key already, and the value is the pair of index
    tensors computed for its value.  Entries of earlier calls are never
    found again, and the memo is one entry larger after the call. *)
Theorem getitem_memo_growth (X : externals) (self : GEOMqm9.obj X) (idx : Z)
    (rt : string) (m m' : gmap pyint pairs) (vs : list (GEOMqm9.view X)) :
  GEOMqm9.prefetch_graphs X self = false →
  rt ∈ pairwise_return_types →
  rt ∈ GEOMqm9.return_types X self →
  GEOMqm9.__getitem__ X self idx m = (Ok vs, m') →
  ∃ z p,
    (v ← Py.subscript (GEOMqm9.meta_dict X self) "n_atoms";
     t ← GEOMqm9.value_index X v idx;
     GEOMqm9.pyval_index X t) = Ok z
    ∧ pairwise_compute z = Ok p
    ∧ m !! Tensor0 (GEOMqm9.fresh_oid m) z = None
    ∧ m' = <[Tensor0 (GEOMqm9.fresh_oid m) z := p]> m
    ∧ size m' = S (size m).
Proof.
  intros Hpre Hrt Hin H. unfold GEOMqm9.__getitem__ in H.
  apply st_bind_Ok in H as (es & m1 & [= Hes <-] & H).
  apply st_bind_Ok in H as (ee & m1 & [= Hee <-] & H).
  apply st_bind_Ok in H as (s & m1 & [= Hs <-] & H).
  apply st_bind_Ok in H as (n & m1 & [= Hn <-] & H).
  apply st_bind_Ok in H as (m0 & m1 & [= <- <-] & H).
  pose proof (memo_step_mapM X (GEOMqm9.fresh_oid m) n
                (λ return_type,
                   GEOMqm9.data_by_type X self idx return_type es ee s n
                     (GEOMqm9.fresh_oid m))
                (GEOMqm9.return_types X self)
                (λ x, data_by_type_memo_step X self idx x es ee s n _) m) as Hstep.
  pose proof (mapM_stores X (GEOMqm9.fresh_oid m) n _ _ rt Hin
                (λ x, data_by_type_memo_step X self idx x es ee s n _)
                (data_by_type_stores X self idx rt es ee s n _ Hpre Hrt)
                _ _ _ H) as (z & Hz & Hk).
  rewrite H in Hstep. cbn [snd] in Hstep.
  destruct Hstep as [->|(z' & p & Hz' & Hnone & Hp & ->)].
  { rewrite fresh_oid_fresh in Hk. by destruct Hk. }
  exists z', p. split.
  { destruct (Py.subscript _ "n_atoms") as [v|e]; [|done]. cbn in Hn |- *.
    by rewrite Hn. }
  split; [done|]. split; [done|]. split; [done|].
  by rewrite map_size_insert_None.
Qed.

Lemma getitem_memo_growth_witness :
  let self := (Demo.dataset on_the_fly_args Demo.first_use).1 in
  let m := (Demo.dataset on_the_fly_args Demo.first_use).2 in
  ∃ z p,
    (v ← Py.subscript (GEOMqm9.meta_dict Demo.externals self) "n_atoms";
     t ← GEOMqm9.value_index Demo.externals v 0;
     GEOMqm9.pyval_index Demo.externals t) = Ok z
    ∧ pairwise_compute z = Ok p
    ∧ m !! Tensor0 (GEOMqm9.fresh_oid m) z = None
    ∧ (GEOMqm9.__getitem__ Demo.externals self 0 m).2
      = <[Tensor0 (GEOMqm9.fresh_oid m) z := p]> m
    ∧ size (GEOMqm9.__getitem__ Demo.externals self 0 m).2 = S (size m).
Proof.
  apply (getitem_memo_growth Demo.externals
           (Demo.dataset on_the_fly_args Demo.first_use).1 0 "complete_graph"
           (Demo.dataset on_the_fly_args Demo.first_use).2 _
           (match (GEOMqm9.__getitem__ Demo.externals
                     (Demo.dataset on_the_fly_args Demo.first_use).1 0
                     (Demo.dataset on_the_fly_args Demo.first_use).2).1 with
            | Ok vs => vs | Raise _ => [] end)).
  - reflexivity.
  - apply (bool_decide_unpack _). by vm_compute.
  - apply (bool_decide_unpack _). by vm_compute.
  - by vm_compute.
Defined.

(** The same item fetched twice leaves two entries for it: the second
    call does not find the first one's. *)
Example getitem_twice :
  let self := (Demo.dataset on_the_fly_args Demo.first_use).1 in
  let m1 := (GEOMqm9.__getitem__ Demo.externals self 0 ∅).2 in
  let m2 := (GEOMqm9.__getitem__ Demo.externals self 0 m1).2 in
  size m1 = 1%nat ∧ size m2 = 2%nat.
Proof. by vm_compute. Qed.

(** *** [get_pairwise] on an empty molecule *)

Lemma pairwise_compute_nonpositive z :
  z ≤ 0 → pairwise_compute z = Raise RuntimeError.
Proof.
  intros Hz. unfold pairwise_compute, Torch.arange.
  destruct (decide (z < 0)) as [|Hn]; [done|].
  assert (z = 0) as -> by lia. reflexivity.
Qed.

(** X20: [get_pairwise] has no result for [n_atoms <= 0]: it raises the
    [RuntimeError] of torch ([arange] of a negative bound, or, for
    [n_atoms = 0], [torch.cat] of an empty list of tensors) and stores
    nothing, whatever a run of earlier calls has left in the memo. *)
Theorem get_pairwise_nonpositive (n : pyint) (m : gmap pyint pairs) :
  pyint_val n ≤ 0 → memo_inv m → get_pairwise n m = (Raise RuntimeError, m).
Proof.
  intros Hn Hm. unfold get_pairwise.
  destruct (m !! n) as [p|] eqn:E.
  - apply Hm in E. rewrite pairwise_compute_nonpositive in E by done. discriminate.
  - by rewrite pairwise_compute_nonpositive.
Qed.

Lemma get_pairwise_nonpositive_witness :
  get_pairwise (PyInt 0) (get_pairwise_calls [PyInt 3; PyInt 2] ∅).2
  = (Raise RuntimeError, (get_pairwise_calls [PyInt 3; PyInt 2] ∅).2).
Proof.
  apply (get_pairwise_nonpositive (PyInt 0)
           (get_pairwise_calls [PyInt 3; PyInt 2] ∅).2).
  - cbn. lia.
  - apply (get_pairwise_calls_inv [PyInt 3; PyInt 2] ∅ memo_inv_empty).
Defined.

(** *** The prefetched graphs *)

Lemma mapM_st_Forall2 {A B} (f : A → GEOMqm9.st B) (l : list A) m ys m' :
  mapM f l m = (Ok ys, m') →
  Forall2 (λ x y, ∃ m1 m2, f x m1 = (Ok y, m2)) l ys.
Proof.
  revert m ys m'. induction l as [|x l IH]; intros m ys m' H.
  { cbn in H. injection H as <- <-. constructor. }
  cbn [mapM] in H.
  apply st_bind_Ok in H as (y & m1 & Hy & H).
  apply st_bind_Ok in H as (ys' & m2 & Hys & H).
  injection H as <- <-. constructor; [by eauto|by eapply IH].
Qed.

Section prefetched.
Context (X : externals).
Context (atomic_features :
           rd_mol (flt X) → list string → list (string * list (scalar (flt X)))).
Context (edge_features :
           rd_mol (flt X) → list string
           → list (string * list (list (scalar (flt X))))).

Local Abbreviation constructed_on :=
  (constructed_on X atomic_features edge_features).

(** [self.get_pairwise(self.meta_dict['n_atoms'][idx])] in a prefetch
    loop computes the pairs for the number of atoms of the molecule. *)
Lemma prefetch_pairwise_value (self : GEOMqm9.obj X) ns (i : nat) n m p m' :
  GEOMqm9.meta_dict X self !! "n_atoms" = Some (VTensor (T1 (SInt <$> ns))) →
  ns !! i = Some n →
  GEOMqm9.prefetch_pairwise X (GEOMqm9.meta_dict X self) (Z.of_nat i) m
  = (Ok p, m') →
  pairwise_compute n = Ok p.
Proof.
  intros Hn Hi. unfold GEOMqm9.prefetch_pairwise.
  rewrite (meta_index X self "n_atoms" ns (Z.of_nat i) n)
    by (done || lia || by rewrite Nat2Z.id).
  rewrite pure_bind, st_bind_unfold. cbn [GEOMqm9.get_memo].
  unfold GEOMqm9.call_get_pairwise. rewrite pure_bind.
  cbn [GEOMqm9.pyval_index Tensor.as_index].
  by intros (? & _)%get_pairwise_fresh.
Qed.

(** The results of a prefetch loop over the molecules, one per
    molecule and each computed from its number of atoms. *)
Lemma prefetch_loop {B} (self : GEOMqm9.obj X) (f : Z → GEOMqm9.st B)
    (P : Z → B → Prop) ns m ys m' :
  atom_layout X self ns →
  (∀ (i : nat) n m1 y m2, ns !! i = Some n →
                          f (Z.of_nat i) m1 = (Ok y, m2) → P n y) →
  (idxs ← GEOMqm9.pure (GEOMqm9.molecule_range X (GEOMqm9.meta_dict X self));
   mapM f idxs) m = (Ok ys, m') →
  Forall2 P ns ys.
Proof.
  intros (_ & _ & (es & He & Hlen) & _) Hf H.
  rewrite pure_bind in H.
  unfold GEOMqm9.molecule_range, Py.subscript in H. rewrite He in H.
  cbn [mbind res_bind GEOMqm9.value_len Tensor.len] in H.
  rewrite length_fmap, Hlen in H.
  replace (Z.of_nat (S (length ns)) - 1) with (Z.of_nat (length ns)) in H by lia.
  apply mapM_st_Forall2 in H.
  apply Forall2_same_length_lookup. split.
  { apply Forall2_length in H. unfold Py.range in H.
    rewrite length_seqZ in H. lia. }
  intros i n y Hn Hy.
  destruct (Forall2_lookup_r _ _ _ i y H Hy) as (idx & Hidx & m1 & m2 & Hfy).
  unfold Py.range in Hidx. apply lookup_seqZ in Hidx as [-> _].
  rewrite Z.add_0_l in Hfy. by eapply Hf.
Qed.

End prefetched.

(** X21: with [prefetch_graphs=True] and one of ['complete_graph'],
    ['complete_graph3d'] and ['san_graph'] among the return types, the
    constructor leaves in [self.complete_graphs] one graph per retained
    molecule, in their order: the graph that [dgl.graph((src, dst))]
    gives for the pairs that [get_pairwise] computes from the number of
    atoms of the molecule, which is what [get_complete_graph] builds on
    the fly. *)
Theorem init_complete_graphs (X : externals)
    (atomic_features :
       rd_mol (flt X) → list string → list (string * list (scalar (flt X))))
    (edge_features :
       rd_mol (flt X) → list string → list (string * list (list (scalar (flt X)))))
    (w0 : world (flt X)) (a : GEOMqm9.args X) (self : GEOMqm9.obj X)
    (rt : string) :
  constructed_on X atomic_features edge_features w0 a self →
  GEOMqm9.prefetch_graphs X self = true →
  rt ∈ ["complete_graph"; "complete_graph3d"; "san_graph"] →
  rt ∈ GEOMqm9.return_types X self →
  ∃ gs,
    GEOMqm9.complete_graphs X self = Some gs
    ∧ Forall2 (λ md g, ∃ src dst,
                 pairwise_compute (md_n_atoms md) = Ok (src, dst)
                 ∧ Dgl.make src dst None = Ok g)
        (retained (w_fs w0)).*2 gs.
Proof.
  intros Hc Hpre Hrt Hin.
  destruct (constructed_on_meta _ _ _ _ _ _ Hc) as (Hlay & _).
  apply constructed_on_inv in Hc as (w1 & d & memo & _ & _ & Hinit).
  apply init_from_fields in Hinit
    as (d1 & dd & m1 & _ & _ & Hrts & _ & _ & _ & Hpre' & _ & _ & _ & _ & _
        & Hcg & _).
  rewrite Hpre in Hpre'. rewrite <- Hpre', <- Hrts in Hcg.
  assert (Py.contains "complete_graph" (GEOMqm9.return_types X self)
          || Py.contains "complete_graph3d" (GEOMqm9.return_types X self)
          || Py.contains "san_graph" (GEOMqm9.return_types X self) = true) as Hany.
  { repeat (apply elem_of_cons in Hrt as [->|Hrt]); [..|by apply elem_of_nil in Hrt];
      rewrite (proj2 (contains_true _ _) Hin); by rewrite ?orb_true_r. }
  rewrite Hany in Hcg. cbn [andb] in Hcg. destruct Hcg as (gs & Hgs & Hattr).
  exists gs. split; [done|].
  unfold GEOMqm9.prefetch_complete_graphs in Hgs.
  apply (prefetch_loop X self _
           (λ n g, ∃ src dst, pairwise_compute n = Ok (src, dst)
                              ∧ Dgl.make src dst None = Ok g)
           (md_n_atoms <$> (retained (w_fs w0)).*2)) in Hgs; [|done|].
  - by apply Forall2_fmap_l in Hgs.
  - intros i n ma g mb Hn H.
    apply st_bind_Ok in H as ([src dst] & mc & Hp & H).
    apply (prefetch_pairwise_value X self (md_n_atoms <$> (retained (w_fs w0)).*2) i n)
      in Hp; [|apply Hlay|done].
    unfold GEOMqm9.pure in H. injection H as H _. by exists src, dst.
Qed.

Lemma init_complete_graphs_witness :
  ∃ gs,
    GEOMqm9.complete_graphs Demo.externals
      (Demo.dataset Demo.views_args Demo.first_use).1 = Some gs
    ∧ Forall2 (λ md g, ∃ src dst,
                 pairwise_compute (md_n_atoms md) = Ok (src, dst)
                 ∧ Dgl.make src dst None = Ok g)
        (retained (w_fs Demo.first_use)).*2 gs.
Proof.
  apply (init_complete_graphs Demo.externals Demo.atomic_features
           Demo.edge_features Demo.first_use Demo.views_args
           (Demo.dataset Demo.views_args Demo.first_use).1 "complete_graph").
  - apply demo_constructed_on. by vm_compute.
  - reflexivity.
  - apply (bool_decide_unpack _). by vm_compute.
  - apply (bool_decide_unpack _). by vm_compute.
Defined.

(** X22: with [prefetch_graphs=True] and ['mol_complete_graph'] among the
    return types, the constructor leaves in [self.mol_complete_graphs]
    one heterograph per retained molecule whose edges of type [bond] are
    the edges of type [complete]: both are the pairs that [get_pairwise]
    computes from the number of atoms.  The bonds of the molecule are not
    used, unlike in [get_mol_complete_graph] without prefetching. *)
Theorem init_mol_complete_graphs (X : externals)
    (atomic_features :
       rd_mol (flt X) → list string → list (string * list (scalar (flt X))))
    (edge_features :
       rd_mol (flt X) → list string → list (string * list (list (scalar (flt X)))))
    (w0 : world (flt X)) (a : GEOMqm9.args X) (self : GEOMqm9.obj X) :
  constructed_on X atomic_features edge_features w0 a self →
  GEOMqm9.prefetch_graphs X self = true →
  "mol_complete_graph" ∈ GEOMqm9.return_types X self →
  ∃ hs,
    GEOMqm9.mol_complete_graphs X self = Some hs
    ∧ Forall2 (λ md h, ∃ p,
                 pairwise_compute (md_n_atoms md) = Ok p
                 ∧ Dgl.h_bond h = p ∧ Dgl.h_complete h = p)
        (retained (w_fs w0)).*2 hs.
Proof.
  intros Hc Hpre Hin.
  destruct (constructed_on_meta _ _ _ _ _ _ Hc) as (Hlay & _).
  apply constructed_on_inv in Hc as (w1 & d & memo & _ & _ & Hinit).
  apply init_from_fields in Hinit
    as (d1 & dd & m1 & _ & _ & Hrts & _ & _ & _ & Hpre' & _ & _ & _ & _ & _
        & _ & Hmcg & _).
  rewrite Hpre in Hpre'. rewrite <- Hpre', <- Hrts in Hmcg.
  rewrite (proj2 (contains_true _ _) Hin) in Hmcg. cbn [andb orb] in Hmcg.
  destruct Hmcg as (hs & Hhs & Hattr).
  exists hs. split; [done|].
  unfold GEOMqm9.prefetch_mol_complete_graphs in Hhs.
  apply (prefetch_loop X self _
           (λ n h, ∃ p, pairwise_compute n = Ok p
                        ∧ Dgl.h_bond h = p ∧ Dgl.h_complete h = p)
           (md_n_atoms <$> (retained (w_fs w0)).*2)) in Hhs; [|done|].
  - by apply Forall2_fmap_l in Hhs.
  - intros i n ma h mb Hn H.
    apply st_bind_Ok in H as (p & mc & Hp & H).
    apply (prefetch_pairwise_value X self (md_n_atoms <$> (retained (w_fs w0)).*2) i n)
      in Hp; [|apply Hlay|done].
    unfold GEOMqm9.pure in H. injection H as H _. exists p. split; [done|].
    unfold Dgl.make_hetero in H. repeat case_decide; simplify_eq. done.
Qed.

Lemma init_mol_complete_graphs_witness :
  ∃ hs,
    GEOMqm9.mol_complete_graphs Demo.externals
      (Demo.dataset (mol_complete_args true) Demo.first_use).1 = Some hs
    ∧ Forall2 (λ md h, ∃ p,
                 pairwise_compute (md_n_atoms md) = Ok p
                 ∧ Dgl.h_bond h = p ∧ Dgl.h_complete h = p)
        (retained (w_fs Demo.first_use)).*2 hs.
Proof.
  apply (init_mol_complete_graphs Demo.externals Demo.atomic_features
           Demo.edge_features Demo.first_use (mol_complete_args true)
           (Demo.dataset (mol_complete_args true) Demo.first_use).1).
  - apply demo_constructed_on. by vm_compute.
  - reflexivity.
  - apply (bool_decide_unpack _). by vm_compute.
Defined.

(** The heterograph of water, whose two bonds give four directed
    edges: prefetched, its [bond] edges are the six pairs of three
    atoms; built on the fly, they are the four bond edges. *)
Example mol_complete_graph_water :
  let bond_of (prefetch : bool) :=
    match (GEOMqm9.__getitem__ Demo.externals
             (Demo.dataset (mol_complete_args prefetch) Demo.first_use).1 0 ∅).1
    with
    | Ok [GEOMqm9.Heterograph _ h] => Some (Dgl.h_bond h)
    | _ => None
    end in
  bond_of true = Some ([0; 0; 1; 1; 2; 2], [1; 2; 0; 2; 0; 1])
  ∧ bond_of false = Some ([0; 0; 1; 2], [1; 2; 0; 0]).
Proof. by vm_compute. Qed.

(** ** The graph of the bonds *)

Lemma slice_fmap {A B} (f : A → B) (l : list A) a b :
  Py.slice (f <$> l) a b = f <$> Py.slice l a b.
Proof. unfold Py.slice. by rewrite length_fmap, fmap_take, fmap_drop. Qed.

Lemma as_ints_SInt {F} (l : list Z) :
  Tensor.as_ints (F:=F) (T1 (SInt <$> l)) = Ok l.
Proof.
  cbn [Tensor.as_ints]. induction l as [|z l IH]; [done|].
  cbn [fmap list_fmap mapM]. cbn [Tensor.as_int mbind res_bind].
  change (list_fmap Z (scalar F) SInt l) with (SInt (F:=F) <$> l).
  by rewrite IH.
Qed.

Section graph_edges.
Context (X : externals).

Local Abbreviation graph := (Dgl.graph (flt X)).
Local Abbreviation int_tensor z := (GEOMqm9.PTensor X (T0 (SInt z))).

(** Two graphs with the same edges and nodes. *)
Local Abbreviation same_edges g g' :=
  (Dgl.g_src g' = Dgl.g_src g ∧ Dgl.g_dst g' = Dgl.g_dst g
   ∧ Dgl.g_num_nodes g' = Dgl.g_num_nodes g).

Lemma set_ndata_edges (g g' : graph) key t :
  Dgl.set_ndata g key t = Ok g' → same_edges g g'.
Proof.
  unfold Dgl.set_ndata. destruct (Tensor.len t); [|done]. cbn.
  case_decide; [|done]. by intros [= <-].
Qed.

Lemma set_edata_edges (g g' : graph) key t :
  Dgl.set_edata g key t = Ok g' → same_edges g g'.
Proof.
  unfold Dgl.set_edata. destruct (Tensor.len t); [|done]. cbn.
  case_decide; [|done]. by intros [= <-].
Qed.

Context (self : GEOMqm9.obj X).

Lemma set_f_x_edges (g g' : graph) f s n :
  GEOMqm9.set_f_x X self g f s n = Ok g' → same_edges g g'.
Proof.
  unfold GEOMqm9.set_f_x. intros Hv.
  apply res_bind_Ok in Hv as (ft & _ & Hv).
  apply res_bind_Ok in Hv as (ft' & _ & Hv).
  apply res_bind_Ok in Hv as (g1 & (? & ? & ?)%set_ndata_edges & Hv).
  apply res_bind_Ok in Hv as (xt & _ & Hv).
  apply res_bind_Ok in Hv as (xt' & _ & Hv).
  apply set_ndata_edges in Hv as (? & ? & ?). split_and!; congruence.
Qed.

Lemma set_w_edges (g g' : graph) e es ee :
  GEOMqm9.set_w X self g e es ee = Ok g' → same_edges g g'.
Proof.
  unfold GEOMqm9.set_w. destruct e; [|by intros [= <-]]. intros Hv.
  apply res_bind_Ok in Hv as (w & _ & Hv).
  apply res_bind_Ok in Hv as (w' & _ & Hv).
  by apply set_edata_edges in Hv.
Qed.

(** The views built on [get_graph] keep its edges and nodes. *)
Lemma mol_graph_view_edges f e idx es ee s n v :
  GEOMqm9.mol_graph_view X self f e idx es ee s n = Ok v →
  ∃ g0 g, GEOMqm9.get_graph X self idx es ee n = Ok g0
          ∧ v = GEOMqm9.Graph X g ∧ same_edges g0 g.
Proof.
  unfold GEOMqm9.mol_graph_view. intros Hv.
  apply res_bind_Ok in Hv as (g0 & Hg0 & Hv).
  apply res_bind_Ok in Hv as (g1 & ->%to_device_Ok & Hv).
  apply res_bind_Ok in Hv as (g2 & (? & ? & ?)%set_f_x_edges & Hv).
  apply res_bind_Ok in Hv as (g3 & (? & ? & ?)%set_w_edges & [= <-]).
  exists g0, g3. split; [done|]. split; [done|]. split_and!; congruence.
Qed.

Lemma se3Transformer_view_edges rt idx es ee s n v :
  GEOMqm9.se3Transformer_view X self rt idx es ee s n = Ok v →
  ∃ g0 g, GEOMqm9.get_graph X self idx es ee n = Ok g0
          ∧ v = GEOMqm9.Graph X g ∧ same_edges g0 g.
Proof.
  unfold GEOMqm9.se3Transformer_view. intros Hv.
  apply res_bind_Ok in Hv as (g0 & Hg0 & Hv).
  apply res_bind_Ok in Hv as (g1 & ->%to_device_Ok & Hv).
  apply res_bind_Ok in Hv as (x & _ & Hv).
  apply res_bind_Ok in Hv as (x' & _ & Hv).
  apply res_bind_Ok in Hv as (x'' & _ & Hv).
  apply res_bind_Ok in Hv as (g2 & (? & ? & ?)%set_ndata_edges & Hv).
  apply res_bind_Ok in Hv as (f & _ & Hv).
  apply res_bind_Ok in Hv as (f' & _ & Hv).
  apply res_bind_Ok in Hv as (f'' & _ & Hv).
  apply res_bind_Ok in Hv as (g3 & (? & ? & ?)%set_ndata_edges & Hv).
  apply res_bind_Ok in Hv as (d & _ & Hv).
  apply res_bind_Ok in Hv as (g4 & (? & ? & ?)%set_edata_edges & Hv).
  apply res_bind_Ok in Hv as (g5 & Hg5 & [= <-]).
  exists g0, g5. split; [done|]. split; [done|].
  assert (same_edges g4 g5) as (? & ? & ?).
  { repeat case_decide; first [by eapply set_w_edges | by injection Hg5 as <-]. }
  split_and!; congruence.
Qed.

Lemma view_of_bond_graph rt idx es ee s n v :
  rt ∈ bond_graph_return_types →
  view_of X self idx rt es ee s n = Ok v →
  ∃ g0 g, GEOMqm9.get_graph X self idx es ee n = Ok g0
          ∧ v = GEOMqm9.Graph X g ∧ same_edges g0 g.
Proof.
  unfold bond_graph_return_types, view_of, GEOMqm9.data_by_type. intros Hrt.
  repeat (apply elem_of_cons in Hrt as [->|Hrt]); [..|by apply elem_of_nil in Hrt];
    repeat (rewrite decide_False by (try done; by intros [|]));
    rewrite decide_True by (try done; by (left + right)).
  - apply mol_graph_view_edges.
  - apply mol_graph_view_edges.
  - apply se3Transformer_view_edges.
  - apply se3Transformer_view_edges.
Qed.

(** The columns of [edge_indices] between two entries of
    [edge_slices] are a block. *)
Lemma edge_block_rows (blocks : list (list (Z * Z))) (i : nat) block start :
  GEOMqm9.edge_indices X self
  = VTensor (T2 [SInt <$> (concat blocks).*1; SInt <$> (concat blocks).*2]) →
  blocks !! i = Some block →
  (0 :: sums_from 0 ((λ b, Z.of_nat (length b)) <$> blocks)) !! i = Some start →
  GEOMqm9.edge_index_rows X (GEOMqm9.edge_indices X self)
    (int_tensor start) (int_tensor (start + Z.of_nat (length block)))
  = Ok (block.*1, block.*2).
Proof.
  intros -> Hb Hs. unfold GEOMqm9.edge_index_rows.
  cbn [GEOMqm9.as_tensor GEOMqm9.pyval_index Tensor.as_index mbind res_bind
       Tensor.slice_cols fmap list_fmap].
  rewrite !slice_fmap, !(slice_concat_block blocks i block start) by done.
  cbn [Tensor.index].
  change (Py.index [?r0; ?r1] 0) with (Ok (A:=list (scalar (flt X))) r0).
  change (Py.index [?r0; ?r1] 1) with (Ok (A:=list (scalar (flt X))) r1).
  cbn [fmap res_fmap mbind res_bind].
  by rewrite !as_ints_SInt.
Qed.

End graph_edges.

Section bond_graphs.
Context (X : externals).
Context (atomic_features :
           rd_mol (flt X) → list string → list (string * list (scalar (flt X)))).
Context (edge_features :
           rd_mol (flt X) → list string
           → list (string * list (list (scalar (flt X))))).

Local Abbreviation constructed_on :=
  (constructed_on X atomic_features edge_features).
Local Abbreviation int_tensor z := (GEOMqm9.PTensor X (T0 (SInt z))).

(** The edges of an object constructed on a cache that [process]
    wrote: the blocks of the molecules, and where they start. *)
Lemma constructed_on_edges w0 a self :
  constructed_on w0 a self →
  ∃ blocks : list (list (Z * Z)),
    GEOMqm9.edge_indices X self
    = VTensor (T2 [SInt <$> (concat blocks).*1; SInt <$> (concat blocks).*2])
    ∧ GEOMqm9.meta_dict X self !! "edge_slices"
      = Some (VTensor
                (T1 (SInt <$> 0 :: sums_from 0
                                     ((λ b, Z.of_nat (length b)) <$> blocks))))
    ∧ Forall2 (λ md block,
                 block ≡ₚ bond_edges (md_bonds md)
                 ∧ nondecreasing (edge_key (md_n_atoms md) <$> block))
        (retained (w_fs w0)).*2 blocks.
Proof.
  intros (w1 & d & memo & Hp & Hd & Hinit)%constructed_on_inv.
  apply process_cache_more in Hp as (d' & Hd' & _ & _ & _ & He & _).
  rewrite Hd in Hd'. injection Hd' as <-.
  destruct He as (blocks & Hei & Hes & Hblocks).
  apply init_from_fields in Hinit
    as (d1 & dd & m1 & Hd1 & Hdd & _ & _ & _ & _ & _ & _ & Hedge & Hmeta & _).
  pose proof (data_dict_loaded X a d d1 dd) as Hload.
  apply make_meta_dict_Ok in Hmeta as (_ & Hm_e & _).
  rewrite (Hload _ Hd1 Hdd) in Hedge by done.
  rewrite (Hload _ Hd1 Hdd) in Hm_e by done.
  exists blocks. split; [|split; [by rewrite Hm_e|done]].
  rewrite Hei in Hedge. by injection Hedge as <-.
Qed.

(** [get_graph] for the [i]-th retained molecule, prefetched or not,
    is the graph of its block of edges over its atoms. *)
Lemma get_graph_constructed w0 a self (i : nat) smiles md rt :
  constructed_on w0 a self →
  retained (w_fs w0) !! i = Some (smiles, md) →
  rt ∈ bond_graph_return_types →
  rt ∈ GEOMqm9.return_types X self →
  ∃ es ee s block,
    offsets X self (Z.of_nat i)
    = Ok (int_tensor es, int_tensor ee, int_tensor s,
          int_tensor (md_n_atoms md))
    ∧ block ≡ₚ bond_edges (md_bonds md)
    ∧ nondecreasing (edge_key (md_n_atoms md) <$> block)
    ∧ ∀ g, GEOMqm9.get_graph X self (Z.of_nat i)
             (int_tensor es) (int_tensor ee) (int_tensor (md_n_atoms md)) = Ok g →
           Dgl.make block.*1 block.*2 (Some (md_n_atoms md)) = Ok g.
Proof.
  intros Hc Hi Hrt Hin.
  destruct (constructed_on_meta _ _ _ _ _ _ Hc) as (Hlay & _).
  destruct (constructed_on_edges _ _ _ Hc) as (blocks & Hei & Hes & Hblocks).
  assert ((retained (w_fs w0)).*2 !! i = Some md) as Hmd
    by (by rewrite list_lookup_fmap, Hi).
  destruct (Forall2_lookup_l _ _ _ i md Hblocks Hmd) as (block & Hb & Hperm & Hsorted).
  set (lens := (λ b : list (Z * Z), Z.of_nat (length b)) <$> blocks) in *.
  destruct (sums_from_lookup_lt 0 lens i) as [es Hs].
  { unfold lens. rewrite length_fmap. apply lookup_lt_Some in Hb. lia. }
  assert (lens !! i = Some (Z.of_nat (length block))) as Hlen
    by (unfold lens; by rewrite list_lookup_fmap, Hb).
  pose proof (sums_from_step 0 lens i es (Z.of_nat (length block)) Hs Hlen) as Hs'.
  destruct Hlay as (Hn & Ha & _ & _).
  destruct (lookup_lt_is_Some_2 (0 :: sums_from 0 (md_n_atoms <$> (retained (w_fs w0)).*2)) i)
    as [s Hstart].
  { cbn. rewrite length_sums_from, length_fmap. apply lookup_lt_Some in Hmd. lia. }
  assert ((v ← Py.subscript (GEOMqm9.meta_dict X self) "edge_slices";
           GEOMqm9.value_index X v (Z.of_nat i)) = Ok (int_tensor es)) as He1.
  { apply (meta_index X self "edge_slices" (0 :: sums_from 0 lens));
      [done|lia|by rewrite Nat2Z.id]. }
  assert ((v ← Py.subscript (GEOMqm9.meta_dict X self) "edge_slices";
           GEOMqm9.value_index X v (Z.of_nat i + 1))
          = Ok (int_tensor (es + Z.of_nat (length block)))) as He2.
  { apply (meta_index X self "edge_slices" (0 :: sums_from 0 lens));
      [done|lia|]. by replace (Z.to_nat (Z.of_nat i + 1)) with (S i) by lia. }
  assert ((v ← Py.subscript (GEOMqm9.meta_dict X self) "atom_slices";
           GEOMqm9.value_index X v (Z.of_nat i)) = Ok (int_tensor s)) as Ha1.
  { apply (meta_index X self "atom_slices" _ _ _ Ha); [lia|by rewrite Nat2Z.id]. }
  assert ((v ← Py.subscript (GEOMqm9.meta_dict X self) "n_atoms";
           GEOMqm9.value_index X v (Z.of_nat i)) = Ok (int_tensor (md_n_atoms md)))
    as Hn1.
  { apply (meta_index X self "n_atoms" _ _ _ Hn); [lia|].
    by rewrite Nat2Z.id, list_lookup_fmap, Hmd. }
  pose proof (edge_block_rows X self blocks i block es Hei Hb Hs) as Hrows.
  exists es, (es + Z.of_nat (length block)), s, block.
  split; [unfold offsets; by rewrite He1, He2, Ha1, Hn1|].
  split; [done|]. split; [done|].
  intros g. unfold GEOMqm9.get_graph.
  destruct (GEOMqm9.prefetch_graphs X self) eqn:Hpre.
  - apply constructed_on_inv in Hc as (w1 & d & memo & _ & _ & Hinit).
    apply init_from_fields in Hinit
      as (d1 & dd & m1 & _ & _ & Hrts & _ & _ & _ & Hpre' & _ & _ & _ & _ & Hmg & _).
    rewrite Hpre in Hpre'. rewrite <- Hpre', <- Hrts in Hmg.
    assert (existsb (λ r, Py.contains r (GEOMqm9.return_types X self))
              ["mol_graph"; "mol_graph3d"; "se3Transformer_graph";
               "se3Transformer_graph3d"] = true) as Hany.
    { apply existsb_exists. exists rt. split; [by apply list_elem_of_In|].
      by apply contains_true. }
    rewrite Hany in Hmg. cbn [andb] in Hmg. destruct Hmg as (gs & Hgs & ->).
    cbn [GEOMqm9.getattr mbind res_bind]. intros Hg.
    apply py_index_Ok in Hg; [|lia]. rewrite Nat2Z.id in Hg.
    unfold GEOMqm9.prefetch_mol_graphs in Hgs.
    apply res_bind_Ok in Hgs as (idxs & Hidxs & Hgs).
    unfold GEOMqm9.molecule_range, Py.subscript in Hidxs. rewrite Hes in Hidxs.
    cbn [mbind res_bind GEOMqm9.value_len Tensor.len] in Hidxs.
    injection Hidxs as <-.
    apply mapM_res_Ok_inv in Hgs as [_ Hgs].
    destruct (Hgs i (Z.of_nat i)) as (g' & Hg' & Hmake).
    { unfold Py.range. apply lookup_seqZ. split; [lia|].
      rewrite length_fmap. cbn [length]. rewrite length_sums_from.
      unfold lens. rewrite length_fmap. apply lookup_lt_Some in Hb. lia. }
    rewrite Hg in Hg'. injection Hg' as <-.
    rewrite He1, He2 in Hmake. cbn [mbind res_bind] in Hmake.
    rewrite Hrows, Hn1 in Hmake. exact Hmake.
  - unfold GEOMqm9.bond_graph. rewrite Hrows. done.
Qed.

End bond_graphs.

(** X23: for an object constructed on a cache that [process] wrote and the
    [i]-th retained molecule, the graph that [__getitem__(i)] returns
    for ['mol_graph'], ['mol_graph3d'], ['se3Transformer_graph'] or
    ['se3Transformer_graph3d'], prefetched or built on the fly, has one
    node per atom of the molecule and as edges every bond of the
    molecule in both directions, in the order of [src * n_atoms + dst]. *)
Theorem getitem_bond_graph (X : externals)
    (atomic_features :
       rd_mol (flt X) → list string → list (string * list (scalar (flt X))))
    (edge_features :
       rd_mol (flt X) → list string → list (string * list (list (scalar (flt X)))))
    (w0 : world (flt X)) (a : GEOMqm9.args X) (self : GEOMqm9.obj X)
    (i k : nat) (smiles : string) (md : mol_dict (flt X)) (rt : string)
    (m : gmap pyint pairs) (tuple : list (GEOMqm9.view X)) :
  constructed_on X atomic_features edge_features w0 a self →
  retained (w_fs w0) !! i = Some (smiles, md) →
  memo_inv m →
  rt ∈ bond_graph_return_types →
  GEOMqm9.return_types X self !! k = Some rt →
  (GEOMqm9.__getitem__ X self (Z.of_nat i) m).1 = Ok tuple →
  ∃ g block,
    tuple !! k = Some (GEOMqm9.Graph X g)
    ∧ block ≡ₚ bond_edges (md_bonds md)
    ∧ nondecreasing (edge_key (md_n_atoms md) <$> block)
    ∧ Dgl.g_src g = block.*1
    ∧ Dgl.g_dst g = block.*2
    ∧ Dgl.g_num_nodes g = md_n_atoms md.
Proof.
  intros Hc Hi Hm Hrt Hk Ht.
  destruct (get_graph_constructed X _ _ w0 a self i smiles md rt Hc Hi Hrt)
    as (es & ee & s & block & Hoff & Hperm & Hsorted & Hgraph).
  { by eapply list_elem_of_lookup_2. }
  destruct (getitem_result X self (Z.of_nat i) m Hm) as [Hres _].
  rewrite Hoff in Hres. cbn [mbind res_bind] in Hres. rewrite Hres in Ht.
  apply mapM_res_Ok_inv in Ht as [_ Ht].
  destruct (Ht k rt Hk) as (v & Hv & Hview).
  apply (view_of_bond_graph X self rt) in Hview
    as (g0 & g & Hg0 & -> & Hsrc & Hdst & Hnodes); [|done].
  apply Hgraph in Hg0. exists g, block. split; [done|].
  split; [done|]. split; [done|].
  unfold Dgl.make in Hg0. repeat case_decide; try done.
  injection Hg0 as <-. cbn in *. by rewrite Hsrc, Hdst, Hnodes.
Qed.

Lemma getitem_bond_graph_witness :
  let tuple :=
    match (GEOMqm9.__getitem__ Demo.externals
             (Demo.dataset (mol_graph_args true) Demo.first_use).1 0 ∅).1 with
    | Ok t => t
    | Raise _ => []
    end in
  ∃ g block,
    tuple !! 0%nat = Some (GEOMqm9.Graph Demo.externals g)
    ∧ block ≡ₚ bond_edges (md_bonds Demo.water_dict)
    ∧ nondecreasing (edge_key (md_n_atoms Demo.water_dict) <$> block)
    ∧ Dgl.g_src g = block.*1
    ∧ Dgl.g_dst g = block.*2
    ∧ Dgl.g_num_nodes g = md_n_atoms Demo.water_dict.
Proof.
  apply (getitem_bond_graph Demo.externals Demo.atomic_features
           Demo.edge_features Demo.first_use (mol_graph_args true)
           (Demo.dataset (mol_graph_args true) Demo.first_use).1
           0%nat 0%nat "O" Demo.water_dict "mol_graph" ∅).
  - apply demo_constructed_on. by vm_compute.
  - by vm_compute.
  - apply memo_inv_empty.
  - apply (bool_decide_unpack _). by vm_compute.
  - reflexivity.
  - by vm_compute.
Defined.

(** The graph served for water, prefetched and built on the fly. *)
Example mol_graph_water :
  let edges_of (prefetch : bool) :=
    match (GEOMqm9.__getitem__ Demo.externals
             (Demo.dataset (mol_graph_args prefetch) Demo.first_use).1 0 ∅).1
    with
    | Ok [GEOMqm9.Graph _ g] => Some (Dgl.g_src g, Dgl.g_dst g, Dgl.g_num_nodes g)
    | _ => None
    end in
  edges_of true = Some ([0; 0; 1; 2], [1; 2; 0; 0], 3)
  ∧ edges_of false = Some ([0; 0; 1; 2], [1; 2; 0; 0], 3).
Proof. by vm_compute. Qed.

(** ** The complete graph over the atoms *)

Lemma max_id_le (l : list Z) (b : Z) :
  -1 ≤ b → Forall (λ x, x ≤ b) l → Dgl.max_id l ≤ b.
Proof.
  intros Hb Hl. unfold Dgl.max_id. induction Hl as [|x l Hx Hl IH]; cbn; lia.
Qed.

Lemma max_id_ge (l : list Z) (x : Z) : x ∈ l → x ≤ Dgl.max_id l.
Proof.
  unfold Dgl.max_id. induction l as [|y l IH]; [by intros ?%elem_of_nil|].
  intros [->|Hx]%elem_of_cons; cbn; [lia|]. specialize (IH Hx). lia.
Qed.

(** The complete graph on at least two atoms has the ids
    [0 .. n - 1]. *)
Lemma max_id_complete (n : Z) :
  2 ≤ n → Dgl.max_id (complete_src n ++ complete_dst n) + 1 = n.
Proof.
  intros Hn.
  assert (Dgl.max_id (complete_src n ++ complete_dst n) ≤ n - 1) as Hle.
  { apply max_id_le; [lia|]. apply Forall_app. unfold complete_src, complete_dst.
    split; apply Forall_forall; intros x (i & Hx & Hi)%list_elem_of_bind;
      apply elem_of_seqZ in Hi.
    - apply elem_of_replicate in Hx as [-> _]. lia.
    - apply list_elem_of_filter in Hx as [_ Hx]. apply elem_of_seqZ in Hx. lia. }
  assert (n - 1 ≤ Dgl.max_id (complete_src n ++ complete_dst n)) as Hge.
  { apply max_id_ge, elem_of_app. left. unfold complete_src.
    apply list_elem_of_bind. exists (n - 1). split.
    - apply elem_of_replicate. split; [done|lia].
    - apply elem_of_seqZ. lia. }
  lia.
Qed.

Section complete_graphs.
Context (X : externals).
Context (atomic_features :
           rd_mol (flt X) → list string → list (string * list (scalar (flt X)))).
Context (edge_features :
           rd_mol (flt X) → list string
           → list (string * list (list (scalar (flt X))))).

Local Abbreviation constructed_on :=
  (constructed_on X atomic_features edge_features).
Local Abbreviation int_tensor z := (GEOMqm9.PTensor X (T0 (SInt z))).
Local Abbreviation same_edges g g' :=
  (Dgl.g_src g' = Dgl.g_src g ∧ Dgl.g_dst g' = Dgl.g_dst g
   ∧ Dgl.g_num_nodes g' = Dgl.g_num_nodes g).

(** The view keeps the edges and nodes of [get_complete_graph]. *)
Lemma complete_graph_view_edges (self : GEOMqm9.obj X) f e idx es ee s n oid m v m' :
  GEOMqm9.complete_graph_view X self f e idx es ee s n oid m = (Ok v, m') →
  ∃ g0 g m1, GEOMqm9.get_complete_graph X self idx n oid m = (Ok g0, m1)
             ∧ v = GEOMqm9.Graph X g ∧ same_edges g0 g.
Proof.
  unfold GEOMqm9.complete_graph_view. intros Hv.
  apply st_bind_Ok in Hv as (g0 & m1 & Hg0 & Hv).
  apply st_bind_Ok in Hv as (g1 & m2 & (->%to_device_Ok & ->)%pure_Ok & Hv).
  apply st_bind_Ok in Hv
    as (g2 & m2 & ((? & ? & ?)%set_f_x_edges & ->)%pure_Ok & Hv).
  apply st_bind_Ok in Hv as (d & m2 & _ & Hv).
  apply st_bind_Ok in Hv
    as (g3 & m3 & ((? & ? & ?)%set_edata_edges & _)%pure_Ok & Hv).
  assert (∃ g, v = GEOMqm9.Graph X g ∧ same_edges g3 g) as (g & -> & ? & ? & ?).
  { destruct e as [e'|].
    - apply st_bind_Ok in Hv as (w & m4 & _ & Hv).
      apply st_bind_Ok in Hv as (g4 & m5 & (Hg4%set_edata_edges & _)%pure_Ok & Hv).
      injection Hv as <- _. by exists g4.
    - injection Hv as <- _. by exists g3. }
  exists g0, g, m1. split; [done|]. split; [done|]. split_and!; congruence.
Qed.

(** [get_complete_graph] for the [i]-th retained molecule, prefetched
    or not, is the graph of the pairs computed for its atoms. *)
Lemma get_complete_graph_constructed w0 a self (i : nat) smiles md rt g0 m1 :
  constructed_on w0 a self →
  retained (w_fs w0) !! i = Some (smiles, md) →
  rt ∈ complete_graph_return_types →
  rt ∈ GEOMqm9.return_types X self →
  GEOMqm9.get_complete_graph X self (Z.of_nat i)
    (int_tensor (md_n_atoms md)) 1%positive ∅ = (Ok g0, m1) →
  ∃ src dst, pairwise_compute (md_n_atoms md) = Ok (src, dst)
             ∧ Dgl.make src dst None = Ok g0.
Proof.
  intros Hc Hi Hrt Hin. unfold GEOMqm9.get_complete_graph.
  destruct (GEOMqm9.prefetch_graphs X self) eqn:Hpre.
  - intros [Hg _]%pure_Ok.
    destruct (constructed_on_meta _ _ _ _ _ _ Hc) as (Hlay & _).
    apply constructed_on_inv in Hc as (w1 & d & memo & _ & _ & Hinit).
    apply init_from_fields in Hinit
      as (d1 & dd & m2 & _ & _ & Hrts & _ & _ & _ & Hpre' & _ & _ & _ & _ & _
          & Hcg & _).
    rewrite Hpre in Hpre'. rewrite <- Hpre', <- Hrts in Hcg.
    assert (Py.contains "complete_graph" (GEOMqm9.return_types X self)
            || Py.contains "complete_graph3d" (GEOMqm9.return_types X self)
            || Py.contains "san_graph" (GEOMqm9.return_types X self) = true) as Hany.
    { unfold complete_graph_return_types in Hrt.
      repeat (apply elem_of_cons in Hrt as [->|Hrt]); [..|by apply elem_of_nil in Hrt];
        rewrite (proj2 (contains_true _ _) Hin); by rewrite ?orb_true_r. }
    rewrite Hany in Hcg. cbn [andb] in Hcg. destruct Hcg as (gs & Hgs & Hattr).
    rewrite Hattr in Hg. cbn [GEOMqm9.getattr mbind res_bind] in Hg.
    apply py_index_Ok in Hg; [|lia]. rewrite Nat2Z.id in Hg.
    unfold GEOMqm9.prefetch_complete_graphs in Hgs.
    apply (prefetch_loop X self _
             (λ n g, ∃ src dst, pairwise_compute n = Ok (src, dst)
                                ∧ Dgl.make src dst None = Ok g)
             (md_n_atoms <$> (retained (w_fs w0)).*2)) in Hgs; [|done|].
    + eapply (Forall2_lookup_lr _ _ _ i) in Hgs; [exact Hgs| |exact Hg].
      by rewrite !list_lookup_fmap, Hi.
    + intros j n ma g mb Hn H.
      apply st_bind_Ok in H as ([src dst] & mc & Hp & H).
      apply (prefetch_pairwise_value X self
               (md_n_atoms <$> (retained (w_fs w0)).*2) j n) in Hp;
        [|apply Hlay|done].
      unfold GEOMqm9.pure in H. injection H as H _. by exists src, dst.
  - intros H. apply st_bind_Ok in H as ([src dst] & m2 & Hp & [Hg _]%pure_Ok).
    exists src, dst. split; [|done].
    unfold GEOMqm9.call_get_pairwise in Hp. rewrite pure_bind in Hp.
    cbn [GEOMqm9.pyval_index Tensor.as_index] in Hp.
    unfold get_pairwise in Hp. rewrite lookup_empty in Hp. cbn [pyint_val] in Hp.
    destruct (pairwise_compute (md_n_atoms md)) as [p|]; [|done].
    by injection Hp as -> _.
Qed.

End complete_graphs.

(** X24: for an object constructed on a cache that [process] wrote and the
    [i]-th retained molecule, the graph that [__getitem__(i)] returns
    for ['complete_graph'] or ['complete_graph3d'], prefetched or built
    on the fly, has as edges the ordered pairs of distinct atoms of the
    molecule, in the order of [get_pairwise]; with at least two atoms
    it has one node per atom. *)
Theorem getitem_complete_graph (X : externals)
    (atomic_features :
       rd_mol (flt X) → list string → list (string * list (scalar (flt X))))
    (edge_features :
       rd_mol (flt X) → list string → list (string * list (list (scalar (flt X)))))
    (w0 : world (flt X)) (a : GEOMqm9.args X) (self : GEOMqm9.obj X)
    (i k : nat) (smiles : string) (md : mol_dict (flt X)) (rt : string)
    (m : gmap pyint pairs) (tuple : list (GEOMqm9.view X)) :
  constructed_on X atomic_features edge_features w0 a self →
  retained (w_fs w0) !! i = Some (smiles, md) →
  memo_inv m →
  rt ∈ complete_graph_return_types →
  GEOMqm9.return_types X self !! k = Some rt →
  (GEOMqm9.__getitem__ X self (Z.of_nat i) m).1 = Ok tuple →
  ∃ g,
    tuple !! k = Some (GEOMqm9.Graph X g)
    ∧ Dgl.g_src g = complete_src (md_n_atoms md)
    ∧ Dgl.g_dst g = complete_dst (md_n_atoms md)
    ∧ (∀ u v, (u, v) ∈ zip (Dgl.g_src g) (Dgl.g_dst g)
              ↔ 0 ≤ u < md_n_atoms md ∧ 0 ≤ v < md_n_atoms md ∧ u ≠ v)
    ∧ (2 ≤ md_n_atoms md → Dgl.g_num_nodes g = md_n_atoms md).
Proof.
  intros Hc Hi Hm Hrt Hk Ht.
  destruct (constructed_on_offsets X _ _ w0 a self i smiles md Hc Hi)
    as (es & ee & s & Hoff & _).
  destruct (getitem_result X self (Z.of_nat i) m Hm) as [Hres _].
  rewrite Hoff in Hres. cbn [mbind res_bind] in Hres. rewrite Hres in Ht.
  apply mapM_res_Ok_inv in Ht as [_ Ht].
  destruct (Ht k rt Hk) as (v & Hv & Hview).
  assert (∃ f e m',
            GEOMqm9.complete_graph_view X self f e (Z.of_nat i)
              (GEOMqm9.PTensor X (T0 (SInt es))) (GEOMqm9.PTensor X (T0 (SInt ee)))
              (GEOMqm9.PTensor X (T0 (SInt s)))
              (GEOMqm9.PTensor X (T0 (SInt (md_n_atoms md)))) 1%positive ∅
            = (Ok v, m')) as (f & e & m' & Hcv).
  { unfold view_of, GEOMqm9.data_by_type in Hview.
    unfold complete_graph_return_types in Hrt.
    repeat (apply elem_of_cons in Hrt as [->|Hrt]); [..|by apply elem_of_nil in Hrt];
      repeat (rewrite decide_False in Hview by done);
      rewrite decide_True in Hview by done;
      match type of Hview with
      | (GEOMqm9.complete_graph_view _ _ ?f ?e _ _ _ _ _ _ ?m0).1 = _ =>
          exists f, e,
            (GEOMqm9.complete_graph_view X self f e (Z.of_nat i)
               (GEOMqm9.PTensor X (T0 (SInt es))) (GEOMqm9.PTensor X (T0 (SInt ee)))
               (GEOMqm9.PTensor X (T0 (SInt s)))
               (GEOMqm9.PTensor X (T0 (SInt (md_n_atoms md)))) 1%positive m0).2
      end;
      rewrite <- Hview; by destruct (GEOMqm9.complete_graph_view _ _ _ _ _ _ _ _ _ _ _). }
  apply complete_graph_view_edges in Hcv
    as (g0 & g & m1 & Hg0 & -> & Hsrc & Hdst & Hnodes).
  apply (get_complete_graph_constructed X atomic_features edge_features w0 a self
           i smiles md rt) in Hg0
    as (src & dst & Hp & Hmake); [|done..|by eapply list_elem_of_lookup_2].
  assert (1 ≤ md_n_atoms md) as Hn.
  { destruct (decide (1 ≤ md_n_atoms md)); [done|].
    rewrite pairwise_compute_nonpositive in Hp by lia. done. }
  rewrite pairwise_compute_complete in Hp by done. injection Hp as <- <-.
  unfold Dgl.make in Hmake. repeat case_decide; try done.
  injection Hmake as <-. cbn in Hsrc, Hdst, Hnodes.
  exists g. split; [done|]. split; [done|]. split; [done|]. split.
  - intros u v'. rewrite Hsrc, Hdst. apply complete_elem_of.
  - intros Hn2. rewrite Hnodes. by apply max_id_complete.
Qed.

Lemma getitem_complete_graph_witness :
  let tuple :=
    match (GEOMqm9.__getitem__ Demo.externals
             (Demo.dataset on_the_fly_args Demo.first_use).1 1 ∅).1 with
    | Ok t => t
    | Raise _ => []
    end in
  let n := md_n_atoms Demo.ammonia_dict in
  ∃ g,
    tuple !! 1%nat = Some (GEOMqm9.Graph Demo.externals g)
    ∧ Dgl.g_src g = complete_src n
    ∧ Dgl.g_dst g = complete_dst n
    ∧ (∀ u v, (u, v) ∈ zip (Dgl.g_src g) (Dgl.g_dst g)
              ↔ 0 ≤ u < n ∧ 0 ≤ v < n ∧ u ≠ v)
    ∧ (2 ≤ n → Dgl.g_num_nodes g = n).
Proof.
  apply (getitem_complete_graph Demo.externals Demo.atomic_features
           Demo.edge_features Demo.first_use on_the_fly_args
           (Demo.dataset on_the_fly_args Demo.first_use).1
           1%nat 1%nat "N" Demo.ammonia_dict "complete_graph" ∅).
  - apply demo_constructed_on. by vm_compute.
  - by vm_compute.
  - apply memo_inv_empty.
  - apply (bool_decide_unpack _). by vm_compute.
  - reflexivity.
  - by vm_compute.
Defined.

